(** * DesignWare hs-otg (dwc2) USB controller model: hw/usb/hcd-dwc2.c

    A shallow embedding of the controller emulation.  Registers are 32-bit
    words held in [Z]; the register banks of [DWC2State] are maps from word
    index to word; the handlers are state-passing functions, and the ones
    that contain a C [assert] return [option] ([None] is the abort).

    C's bitwise operators are [Z.land], [Z.lor] and [Z.lnot] on two's
    complement integers of unbounded width: every bit of the result depends
    on the same bit of the operands only, so the 32 bits that a store keeps
    ([u32]) are the bits the C computation keeps, whatever the width of the
    intermediate [uint64_t] or [int] values. *)

From Stdlib Require Import ZArith Lia List Bool String.
From coqutil Require Import Z.bitblast.
Import ListNotations.
Local Open Scope Z_scope.

(** ** Machine words *)

Definition u32 (x : Z) : Z := x mod 2 ^ 32.
Definition u16 (x : Z) : Z := x mod 2 ^ 16.

(** [if (x)] and [if (!x)] on an integer. *)
Definition nz (x : Z) : bool := negb (x =? 0).

Notation "x .& y" := (Z.land x y) (at level 40, left associativity) : Z_scope.
Notation "x .| y" := (Z.lor x y) (at level 50, left associativity) : Z_scope.
Notation ".~ x" := (Z.lnot x) (at level 35, right associativity) : Z_scope.
Notation "x << y" := (Z.shiftl x y) (at level 38, left associativity) : Z_scope.
Notation "x >> y" := (Z.shiftr x y) (at level 38, left associativity) : Z_scope.

(** A register bank: word index to 32-bit word. *)
Definition bank := Z -> Z.

Definition bank_set (b : bank) (i v : Z) : bank :=
  fun j => if j =? i then v else b j.

Definition zero_bank : bank := fun _ => 0.

(** ** Constants of the absent headers

    hw/usb/dwc2-regs.h, hw/usb/hcd-dwc2.h and QEMU's include/hw/usb.h are not
    part of the sources.  The bit masks, shifts and sizes they declare are the
    fields of this class; the model and its theorems are stated for any
    values of them, under the hypotheses each theorem names. *)
Class Dwc2Regs : Type := {
  (* sizes *)
  DWC2_NB_CHAN : Z;
  DWC2_NB_EP : Z;
  DWC2_MAX_XFER_SIZE : Z;
  (* GOTGCTL *)
  GOTGCTL_MULT_VALID_BC_MASK : Z;
  GOTGCTL_BSESVLD : Z;
  GOTGCTL_ASESVLD : Z;
  GOTGCTL_DBNC_SHORT : Z;
  GOTGCTL_CONID_B : Z;
  GOTGCTL_HSTNEGSCS : Z;
  GOTGCTL_SESREQSCS : Z;
  (* GAHBCFG *)
  GAHBCFG_GLBL_INTR_EN : Z;
  (* GUSBCFG *)
  GUSBCFG_USBTRDTIM_SHIFT : Z;
  (* GRSTCTL *)
  GRSTCTL_AHBIDLE : Z;
  GRSTCTL_DMAREQ : Z;
  GRSTCTL_TXFFLSH : Z;
  GRSTCTL_RXFFLSH : Z;
  GRSTCTL_IN_TKNQ_FLSH : Z;
  GRSTCTL_FRMCNTRRST : Z;
  GRSTCTL_HSFTRST : Z;
  GRSTCTL_CSFTRST : Z;
  (* GINTSTS / GINTMSK *)
  GINTSTS_DISCONNINT : Z;
  GINTSTS_CONIDSTSCHNG : Z;
  GINTSTS_PTXFEMP : Z;
  GINTSTS_HCHINT : Z;
  GINTSTS_PRTINT : Z;
  GINTSTS_OEPINT : Z;
  GINTSTS_IEPINT : Z;
  GINTSTS_ENUMDONE : Z;
  GINTSTS_USBRST : Z;
  GINTSTS_GOUTNAKEFF : Z;
  GINTSTS_GINNAKEFF : Z;
  GINTSTS_NPTXFEMP : Z;
  GINTSTS_RXFLVL : Z;
  GINTSTS_SOF : Z;
  GINTSTS_OTGINT : Z;
  GINTSTS_CURMODE_HOST : Z;
  (* reset values of the remaining global registers *)
  FIFOSIZE_DEPTH_SHIFT : Z;
  GI2CCTL_I2CDATSE0 : Z;
  GI2CCTL_ACK : Z;
  GHWCFG2_DEV_TOKEN_Q_DEPTH_SHIFT : Z;
  GHWCFG2_HOST_PERIO_TX_Q_DEPTH_SHIFT : Z;
  GHWCFG2_NONPERIO_TX_Q_DEPTH_SHIFT : Z;
  GHWCFG2_DYNAMIC_FIFO : Z;
  GHWCFG2_PERIO_EP_SUPPORTED : Z;
  GHWCFG2_NUM_HOST_CHAN_SHIFT : Z;
  GHWCFG2_INT_DMA_ARCH : Z;
  GHWCFG2_ARCHITECTURE_SHIFT : Z;
  GHWCFG2_OP_MODE_NO_SRP_CAPABLE_HOST : Z;
  GHWCFG2_OP_MODE_SHIFT : Z;
  GHWCFG3_DFIFO_DEPTH_SHIFT : Z;
  GHWCFG3_PACKET_SIZE_CNTR_WIDTH_SHIFT : Z;
  GHWCFG3_XFER_SIZE_CNTR_WIDTH_SHIFT : Z;
  GPWRDN_PWRDNRSTN : Z;
  (* host global registers *)
  HCFG_RESVALID_SHIFT : Z;
  TXSTS_QSPCAVAIL_SHIFT : Z;
  HFNUM_FRREM_SHIFT : Z;
  HFNUM_FRNUM_SHIFT : Z;
  HFNUM_MAX_FRNUM : Z;
  HPRT0_SPD_MASK : Z;
  HPRT0_SPD_SHIFT : Z;
  HPRT0_SPD_HIGH_SPEED : Z;
  HPRT0_SPD_FULL_SPEED : Z;
  HPRT0_SPD_LOW_SPEED : Z;
  HPRT0_PWR : Z;
  HPRT0_LNSTS_MASK : Z;
  HPRT0_RST : Z;
  HPRT0_SUSP : Z;
  HPRT0_RES : Z;
  HPRT0_OVRCURRCHG : Z;
  HPRT0_OVRCURRACT : Z;
  HPRT0_ENACHG : Z;
  HPRT0_ENA : Z;
  HPRT0_CONNDET : Z;
  HPRT0_CONNSTS : Z;
  (* host channel registers *)
  HCCHAR_CHENA : Z;
  HCCHAR_CHDIS : Z;
  HCCHAR_DEVADDR_MASK : Z;
  HCCHAR_DEVADDR_SHIFT : Z;
  HCCHAR_EPTYPE_MASK : Z;
  HCCHAR_EPTYPE_SHIFT : Z;
  HCCHAR_EPDIR : Z;
  HCCHAR_EPNUM_MASK : Z;
  HCCHAR_EPNUM_SHIFT : Z;
  HCCHAR_MPS_MASK : Z;
  HCCHAR_MPS_SHIFT : Z;
  HCINTMSK_RESERVED14_31 : Z;
  HCINTMSK_BBLERR : Z;
  HCINTMSK_XACTERR : Z;
  HCINTMSK_NAK : Z;
  HCINTMSK_STALL : Z;
  HCINTMSK_CHHLTD : Z;
  HCINTMSK_XFERCOMPL : Z;
  TSIZ_SC_MC_PID_MASK : Z;
  TSIZ_SC_MC_PID_SHIFT : Z;
  TSIZ_SC_MC_PID_SETUP : Z;
  TSIZ_PKTCNT_MASK : Z;
  TSIZ_PKTCNT_SHIFT : Z;
  TSIZ_XFERSIZE_MASK : Z;
  TSIZ_XFERSIZE_SHIFT : Z;
  (* device global registers *)
  DCFG_DESCDMA_EN : Z;
  DCFG_DEVADDR_MASK : Z;
  DCFG_DEVADDR_SHIFT : Z;
  DCTL_CGOUTNAK : Z;
  DCTL_SGOUTNAK : Z;
  DCTL_CGNPINNAK : Z;
  DCTL_SGNPINNAK : Z;
  DCTL_GOUTNAKSTS : Z;
  DCTL_GNPINNAKSTS : Z;
  DCTL_SFTDISCON : Z;
  DSTS_ENUMSPD_MASK : Z;
  DSTS_ENUMSPD_SHIFT : Z;
  DSTS_ENUMSPD_HS : Z;
  (* device endpoint registers *)
  D0EPCTL_MPS_MASK : Z;
  D0EPCTL_MPS_64 : Z;
  D0EPCTL_MPS_32 : Z;
  D0EPCTL_MPS_16 : Z;
  D0EPCTL_MPS_8 : Z;
  DXEPCTL_EPENA : Z;
  DXEPCTL_EPDIS : Z;
  DXEPCTL_SNAK : Z;
  DXEPCTL_CNAK : Z;
  DXEPCTL_STALL : Z;
  DXEPCTL_EPTYPE_MASK : Z;
  DXEPCTL_EPTYPE_SHIFT : Z;
  DXEPCTL_NAKSTS : Z;
  DXEPCTL_USBACTEP : Z;
  DXEPCTL_TXFNUM_GET : Z -> Z;
  DXEPCTL_MPS_GET : Z -> Z;
  DXEPINT_SETUP_RCVD : Z;
  DXEPINT_INEPNAKEFF : Z;
  DXEPINT_INTKNTXFEMP : Z;
  DXEPINT_OUTTKNEPDIS : Z;
  DXEPINT_SETUP : Z;
  DXEPINT_EPDISBLD : Z;
  DXEPINT_XFERCOMPL : Z;
  DIEPTSIZ0_PKTCNT_MASK : Z;
  DIEPTSIZ0_PKTCNT : Z -> Z;
  DIEPTSIZ0_PKTCNT_GET : Z -> Z;
  DIEPTSIZ0_XFERSIZE_MASK : Z;
  DIEPTSIZ0_XFERSIZE : Z -> Z;
  DIEPTSIZ0_XFERSIZE_GET : Z -> Z;
  DOEPTSIZ0_SUPCNT : Z -> Z;
  DOEPTSIZ0_PKTCNT_MASK : Z;
  DOEPTSIZ0_PKTCNT : Z -> Z;
  DOEPTSIZ0_PKTCNT_GET : Z -> Z;
  DOEPTSIZ0_XFERSIZE_MASK : Z;
  DOEPTSIZ0_XFERSIZE : Z -> Z;
  DOEPTSIZ0_XFERSIZE_GET : Z -> Z;
  DXEPTSIZ_PKTCNT_MASK : Z;
  DXEPTSIZ_PKTCNT : Z -> Z;
  DXEPTSIZ_PKTCNT_GET : Z -> Z;
  DXEPTSIZ_XFERSIZE_MASK : Z;
  DXEPTSIZ_XFERSIZE : Z -> Z;
  DXEPTSIZ_XFERSIZE_GET : Z -> Z;
  (* DMA descriptors *)
  DEV_DMA_BUFF_STS_MASK : Z;
  DEV_DMA_BUFF_STS_SHIFT : Z;
  DEV_DMA_BUFF_STS_GET : Z -> Z;
  DEV_DMA_BUFF_STS_DMADONE : Z;
  DEV_DMA_L : Z;
  DEV_DMA_SHORT : Z;
  DEV_DMA_IOC : Z;
  DEV_DMA_SR : Z;
  DEV_DMA_NBYTES_MASK : Z;
  (* include/hw/usb.h *)
  USB_TOKEN_SETUP : Z;
  USB_TOKEN_IN : Z;
  USB_TOKEN_OUT : Z;
  USB_REQ_SET_ADDRESS : Z;
  USB_SPEED_LOW : Z;
  USB_SPEED_FULL : Z;
  USB_SPEED_HIGH : Z
}.

(** ** Register offsets

    The offsets are fixed by the source itself: every bank handler is called
    with [index = (addr - base) >> 2] and prints [name[index]], so the order of
    the name tables ([glbregnm], [hreg0nm], [hreg1nm], [dregnm], [diepregnm],
    [doepregnm], [pcgregnm]) gives each register its offset. *)
Definition HSOTG_REG (x : Z) : Z := x.

Definition GOTGCTL : Z := HSOTG_REG 0x000.
Definition GOTGINT : Z := HSOTG_REG 0x004.
Definition GAHBCFG : Z := HSOTG_REG 0x008.
Definition GUSBCFG : Z := HSOTG_REG 0x00c.
Definition GRSTCTL : Z := HSOTG_REG 0x010.
Definition GINTSTS : Z := HSOTG_REG 0x014.
Definition GINTMSK : Z := HSOTG_REG 0x018.
Definition GRXSTSR : Z := HSOTG_REG 0x01c.
Definition GRXSTSP : Z := HSOTG_REG 0x020.
Definition GRXFSIZ : Z := HSOTG_REG 0x024.
Definition GNPTXFSIZ : Z := HSOTG_REG 0x028.
Definition GNPTXSTS : Z := HSOTG_REG 0x02c.
Definition GI2CCTL : Z := HSOTG_REG 0x030.
Definition GPVNDCTL : Z := HSOTG_REG 0x034.
Definition GGPIO : Z := HSOTG_REG 0x038.
Definition GUID : Z := HSOTG_REG 0x03c.
Definition GSNPSID : Z := HSOTG_REG 0x040.
Definition GHWCFG1 : Z := HSOTG_REG 0x044.
Definition GHWCFG2 : Z := HSOTG_REG 0x048.
Definition GHWCFG3 : Z := HSOTG_REG 0x04c.
Definition GHWCFG4 : Z := HSOTG_REG 0x050.
Definition GLPMCFG : Z := HSOTG_REG 0x054.
Definition GPWRDN : Z := HSOTG_REG 0x058.
Definition GDFIFOCFG : Z := HSOTG_REG 0x05c.
Definition GADPCTL : Z := HSOTG_REG 0x060.
Definition GREFCLK : Z := HSOTG_REG 0x064.
Definition GINTMSK2 : Z := HSOTG_REG 0x068.
Definition GINTSTS2 : Z := HSOTG_REG 0x06c.

Definition HPTXFSIZ : Z := HSOTG_REG 0x100.
Definition DPTXFSIZN (a : Z) : Z := HSOTG_REG (0x104 + (a - 1) * 4).

Definition HCFG : Z := HSOTG_REG 0x400.
Definition HFIR : Z := HSOTG_REG 0x404.
Definition HFNUM : Z := HSOTG_REG 0x408.
Definition HPTXSTS : Z := HSOTG_REG 0x410.
Definition HAINT : Z := HSOTG_REG 0x414.
Definition HAINTMSK : Z := HSOTG_REG 0x418.
Definition HFLBADDR : Z := HSOTG_REG 0x41c.
Definition HPRT0 : Z := HSOTG_REG 0x440.

Definition HCCHAR (ch : Z) : Z := HSOTG_REG (0x500 + 0x20 * ch).
Definition HCSPLT (ch : Z) : Z := HSOTG_REG (0x504 + 0x20 * ch).
Definition HCINT (ch : Z) : Z := HSOTG_REG (0x508 + 0x20 * ch).
Definition HCINTMSK (ch : Z) : Z := HSOTG_REG (0x50c + 0x20 * ch).
Definition HCTSIZ (ch : Z) : Z := HSOTG_REG (0x510 + 0x20 * ch).
Definition HCDMA (ch : Z) : Z := HSOTG_REG (0x514 + 0x20 * ch).
Definition HCDMAB (ch : Z) : Z := HSOTG_REG (0x51c + 0x20 * ch).

Definition DCFG : Z := HSOTG_REG 0x800.
Definition DCTL : Z := HSOTG_REG 0x804.
Definition DSTS : Z := HSOTG_REG 0x808.
Definition DIEPMSK : Z := HSOTG_REG 0x810.
Definition DOEPMSK : Z := HSOTG_REG 0x814.
Definition DAINT : Z := HSOTG_REG 0x818.
Definition DAINTMSK : Z := HSOTG_REG 0x81c.
Definition DTKNQR1 : Z := HSOTG_REG 0x820.
Definition DTKNQR2 : Z := HSOTG_REG 0x824.
Definition DVBUSDIS : Z := HSOTG_REG 0x828.
Definition DVBUSPULSE : Z := HSOTG_REG 0x82c.
Definition DTKNQR3 : Z := HSOTG_REG 0x830.
Definition DTKNQR4 : Z := HSOTG_REG 0x834.

Definition DIEPCTL0 : Z := HSOTG_REG 0x900.
Definition DIEPCTL (a : Z) : Z := HSOTG_REG (0x900 + 0x20 * a).
Definition DIEPINT (a : Z) : Z := HSOTG_REG (0x908 + 0x20 * a).
Definition DIEPTSIZ (a : Z) : Z := HSOTG_REG (0x910 + 0x20 * a).
Definition DIEPDMA (a : Z) : Z := HSOTG_REG (0x914 + 0x20 * a).
Definition DTXFSTS (a : Z) : Z := HSOTG_REG (0x918 + 0x20 * a).

Definition DOEPCTL0 : Z := HSOTG_REG 0xb00.
Definition DOEPCTL (a : Z) : Z := HSOTG_REG (0xb00 + 0x20 * a).
Definition DOEPINT (a : Z) : Z := HSOTG_REG (0xb08 + 0x20 * a).
Definition DOEPTSIZ (a : Z) : Z := HSOTG_REG (0xb10 + 0x20 * a).
Definition DOEPDMA (a : Z) : Z := HSOTG_REG (0xb14 + 0x20 * a).

Definition PCGCTL : Z := HSOTG_REG 0xe00.
Definition PCGCCTL1 : Z := HSOTG_REG 0xe04.

(** ** Packet status, endpoint type and packet state

    [pstatus] is indexed by [-p->packet.status] and [types] by the endpoint
    type field, which fixes these numbers. *)
Definition USB_RET_SUCCESS : Z := 0.
Definition USB_RET_NODEV : Z := -1.
Definition USB_RET_NAK : Z := -2.
Definition USB_RET_STALL : Z := -3.
Definition USB_RET_BABBLE : Z := -4.
Definition USB_RET_IOERROR : Z := -5.
Definition USB_RET_ASYNC : Z := -6.
Definition USB_RET_ADD_TO_QUEUE : Z := -7.
Definition USB_RET_REMOVE_FROM_QUEUE : Z := -8.

Definition USB_ENDPOINT_XFER_CONTROL : Z := 0.
Definition USB_ENDPOINT_XFER_ISOC : Z := 1.
Definition USB_ENDPOINT_XFER_BULK : Z := 2.
Definition USB_ENDPOINT_XFER_INT : Z := 3.

Definition USB_HZ_FS : Z := 12000000.
Definition USB_HZ_HS : Z := 96000000.
Definition USB_FRMINTVL : Z := 12000.
Definition NANOSECONDS_PER_SECOND : Z := 1000000000.

Inductive USBPacketState : Type :=
| USB_PACKET_UNDEFINED
| USB_PACKET_SETUP
| USB_PACKET_QUEUED
| USB_PACKET_ASYNC
| USB_PACKET_COMPLETE
| USB_PACKET_CANCELED.

Inductive DWC2Async : Type :=
| DWC2_ASYNC_NONE
| DWC2_ASYNC_INFLIGHT
| DWC2_ASYNC_FINISHED.

(** ** Data *)

(** A [USBPacket]: token, endpoint number, the bytes of its buffer
    ([p->iov], of size [length]), the count of bytes moved so far, status and
    queue state. *)
Record USBPacket : Type := mkUSBPacket {
  pk_pid : Z;
  pk_ep : Z;
  pk_iov : list Z;
  pk_actual_length : Z;
  pk_status : Z;
  pk_state : USBPacketState
}.

Definition set_pk_status (p : USBPacket) (v : Z) : USBPacket :=
  mkUSBPacket (pk_pid p) (pk_ep p) (pk_iov p) (pk_actual_length p) v
    (pk_state p).

Definition set_pk_data (p : USBPacket) (iov : list Z) (n : Z) : USBPacket :=
  mkUSBPacket (pk_pid p) (pk_ep p) iov n (pk_status p) (pk_state p).

(** The per-channel [DWC2Packet]. *)
Record DWC2Packet : Type := mkDWC2Packet {
  p_packet : USBPacket;
  p_devadr : Z;
  p_epnum : Z;
  p_epdir : Z;
  p_mps : Z;
  p_pid : Z;
  p_index : Z;
  p_pcnt : Z;
  p_len : Z;
  p_async : DWC2Async;
  p_small : bool;
  p_needs_service : bool
}.

(** What the code reads of a [USBDevice]. *)
Record USBDevice : Type := mkUSBDevice {
  dev_attached : bool;
  dev_speed : Z;
  dev_addr : Z
}.

Inductive log_event : Type :=
| LOG_GUEST_ERROR (fn msg : string)
| LOG_UNIMP (fn msg : string).

(** A scatter/gather list: [(base, len)] entries in the order they were
    added; [sglist.size] is the sum of the lengths. *)
Definition QEMUSGList : Type := list (Z * Z).

Definition sg_size (sg : QEMUSGList) : Z :=
  fold_right (fun e acc => snd e + acc) 0 sg.

Definition qemu_sglist_add (sg : QEMUSGList) (base len : Z) : QEMUSGList :=
  sg ++ [(base, len)].

(** ** Guest memory

    The DMA address space is a collaborator of the controller.  A read
    gives the bytes and whether the access succeeded ([MEMTX_OK]); a write
    gives the new memory and whether it succeeded.  [dma_buf_read] copies a
    buffer out to the memory a scatter/gather list names and [dma_buf_write]
    fills a buffer from it; both report the residual byte count. *)
Class GuestMemory : Type := {
  Mem : Type;
  dma_memory_read : Mem -> Z -> Z -> bool * list Z;
  dma_memory_write : Mem -> Z -> list Z -> bool * Mem;
  dma_buf_read : Mem -> list Z -> QEMUSGList -> Mem * Z;
  dma_buf_write : Mem -> Z -> QEMUSGList -> list Z * Z
}.

(** The result of a handler of the device side: it returns, it stops at an
    assertion (or divides by a zero packet size), or the fuel given to the
    descriptor loop has run out before the loop ended. *)
Inductive run (A : Type) : Type :=
| Done (a : A)
| Abort
| NoFuel.
Arguments Done {A} a.
Arguments Abort {A}.
Arguments NoFuel {A}.

(** ** Controller state and operations *)

Section Model.

Context {R : Dwc2Regs} {M : GuestMemory}.

(** [DWC2State].  The named members of the C structure ([s->gintsts],
    [s->haint], [s->hprt0], [s->dctl], ...) are the words of the banks at the
    offsets above (the banks are the only register storage that is saved
    and restored), and the accessor macros [s->diepctl(ep)] ... are the words
    of the endpoint banks. *)
Record DWC2State : Type := mkDWC2State {
  glbreg : bank;  (* 0x000..0x06c: GOTGCTL .. GINTSTS2 *)
  fszreg : bank;  (* 0x100: HPTXFSIZ *)
  dfszreg : bank;  (* 0x104..: DPTXFSIZn *)
  dptxfsiz : bank;  (* the array [s->dptxfsiz] of the reset code *)
  hreg0 : bank;  (* 0x400..0x440: HCFG .. HPRT0 *)
  hreg1 : bank;  (* 0x500..: eight words per host channel *)
  dreg : bank;  (* 0x800..0x834: DCFG .. DTKNQR4 *)
  diepreg : bank;  (* 0x900..: eight words per IN endpoint *)
  doepreg : bank;  (* 0xb00..: eight words per OUT endpoint *)
  pcgreg : bank;  (* 0xe00: PCGCTL, PCGCCTL1 *)
  packet : Z -> DWC2Packet;  (* per-channel packet context *)
  usb_buf : Z -> list Z;  (* per-channel data buffer *)
  sof_time : Z;
  usb_frame_time : Z;
  usb_bit_time : Z;
  usb_version : Z;
  frame_number : Z;
  fi : Z;
  next_chan : Z;
  working : bool;
  eof_timer : option Z;  (* expiry time when armed *)
  frame_timer : option Z;  (* expiry time when armed *)
  async_bh : bool;  (* host bottom half scheduled *)
  device_async_bh : bool;  (* device bottom half scheduled *)
  uport_dev : option USBDevice;  (* [s->uport.dev]: the device on the root port *)
  device : USBDevice;  (* [USB_DEVICE(s->device)]: the controller as a device *)
  dma_as : Mem;  (* guest memory reached by DMA *)
  irq : Z;  (* level last driven on the interrupt line *)
  oldlevel : Z;  (* the [static int oldlevel] of dwc2_update_irq *)
  qemu_log : list log_event  (* qemu_log_mask records, newest first *)
}.

(** Field updates ([s->f = v]). *)
Definition set_glbreg (s : DWC2State) (v : bank) : DWC2State :=
  mkDWC2State v (fszreg s) (dfszreg s) (dptxfsiz s) (hreg0 s) (hreg1 s)
    (dreg s) (diepreg s) (doepreg s) (pcgreg s) (packet s) (usb_buf s)
    (sof_time s) (usb_frame_time s) (usb_bit_time s) (usb_version s)
    (frame_number s) (fi s) (next_chan s) (working s) (eof_timer s)
    (frame_timer s) (async_bh s) (device_async_bh s) (uport_dev s) (device
    s) (dma_as s) (irq s) (oldlevel s) (qemu_log s).
Definition set_fszreg (s : DWC2State) (v : bank) : DWC2State :=
  mkDWC2State (glbreg s) v (dfszreg s) (dptxfsiz s) (hreg0 s) (hreg1 s)
    (dreg s) (diepreg s) (doepreg s) (pcgreg s) (packet s) (usb_buf s)
    (sof_time s) (usb_frame_time s) (usb_bit_time s) (usb_version s)
    (frame_number s) (fi s) (next_chan s) (working s) (eof_timer s)
    (frame_timer s) (async_bh s) (device_async_bh s) (uport_dev s) (device
    s) (dma_as s) (irq s) (oldlevel s) (qemu_log s).
Definition set_dfszreg (s : DWC2State) (v : bank) : DWC2State :=
  mkDWC2State (glbreg s) (fszreg s) v (dptxfsiz s) (hreg0 s) (hreg1 s) (dreg
    s) (diepreg s) (doepreg s) (pcgreg s) (packet s) (usb_buf s) (sof_time
    s) (usb_frame_time s) (usb_bit_time s) (usb_version s) (frame_number s)
    (fi s) (next_chan s) (working s) (eof_timer s) (frame_timer s) (async_bh
    s) (device_async_bh s) (uport_dev s) (device s) (dma_as s) (irq s)
    (oldlevel s) (qemu_log s).
Definition set_dptxfsiz (s : DWC2State) (v : bank) : DWC2State :=
  mkDWC2State (glbreg s) (fszreg s) (dfszreg s) v (hreg0 s) (hreg1 s) (dreg
    s) (diepreg s) (doepreg s) (pcgreg s) (packet s) (usb_buf s) (sof_time
    s) (usb_frame_time s) (usb_bit_time s) (usb_version s) (frame_number s)
    (fi s) (next_chan s) (working s) (eof_timer s) (frame_timer s) (async_bh
    s) (device_async_bh s) (uport_dev s) (device s) (dma_as s) (irq s)
    (oldlevel s) (qemu_log s).
Definition set_hreg0 (s : DWC2State) (v : bank) : DWC2State :=
  mkDWC2State (glbreg s) (fszreg s) (dfszreg s) (dptxfsiz s) v (hreg1 s)
    (dreg s) (diepreg s) (doepreg s) (pcgreg s) (packet s) (usb_buf s)
    (sof_time s) (usb_frame_time s) (usb_bit_time s) (usb_version s)
    (frame_number s) (fi s) (next_chan s) (working s) (eof_timer s)
    (frame_timer s) (async_bh s) (device_async_bh s) (uport_dev s) (device
    s) (dma_as s) (irq s) (oldlevel s) (qemu_log s).
Definition set_hreg1 (s : DWC2State) (v : bank) : DWC2State :=
  mkDWC2State (glbreg s) (fszreg s) (dfszreg s) (dptxfsiz s) (hreg0 s) v
    (dreg s) (diepreg s) (doepreg s) (pcgreg s) (packet s) (usb_buf s)
    (sof_time s) (usb_frame_time s) (usb_bit_time s) (usb_version s)
    (frame_number s) (fi s) (next_chan s) (working s) (eof_timer s)
    (frame_timer s) (async_bh s) (device_async_bh s) (uport_dev s) (device
    s) (dma_as s) (irq s) (oldlevel s) (qemu_log s).
Definition set_dreg (s : DWC2State) (v : bank) : DWC2State :=
  mkDWC2State (glbreg s) (fszreg s) (dfszreg s) (dptxfsiz s) (hreg0 s)
    (hreg1 s) v (diepreg s) (doepreg s) (pcgreg s) (packet s) (usb_buf s)
    (sof_time s) (usb_frame_time s) (usb_bit_time s) (usb_version s)
    (frame_number s) (fi s) (next_chan s) (working s) (eof_timer s)
    (frame_timer s) (async_bh s) (device_async_bh s) (uport_dev s) (device
    s) (dma_as s) (irq s) (oldlevel s) (qemu_log s).
Definition set_diepreg (s : DWC2State) (v : bank) : DWC2State :=
  mkDWC2State (glbreg s) (fszreg s) (dfszreg s) (dptxfsiz s) (hreg0 s)
    (hreg1 s) (dreg s) v (doepreg s) (pcgreg s) (packet s) (usb_buf s)
    (sof_time s) (usb_frame_time s) (usb_bit_time s) (usb_version s)
    (frame_number s) (fi s) (next_chan s) (working s) (eof_timer s)
    (frame_timer s) (async_bh s) (device_async_bh s) (uport_dev s) (device
    s) (dma_as s) (irq s) (oldlevel s) (qemu_log s).
Definition set_doepreg (s : DWC2State) (v : bank) : DWC2State :=
  mkDWC2State (glbreg s) (fszreg s) (dfszreg s) (dptxfsiz s) (hreg0 s)
    (hreg1 s) (dreg s) (diepreg s) v (pcgreg s) (packet s) (usb_buf s)
    (sof_time s) (usb_frame_time s) (usb_bit_time s) (usb_version s)
    (frame_number s) (fi s) (next_chan s) (working s) (eof_timer s)
    (frame_timer s) (async_bh s) (device_async_bh s) (uport_dev s) (device
    s) (dma_as s) (irq s) (oldlevel s) (qemu_log s).
Definition set_pcgreg (s : DWC2State) (v : bank) : DWC2State :=
  mkDWC2State (glbreg s) (fszreg s) (dfszreg s) (dptxfsiz s) (hreg0 s)
    (hreg1 s) (dreg s) (diepreg s) (doepreg s) v (packet s) (usb_buf s)
    (sof_time s) (usb_frame_time s) (usb_bit_time s) (usb_version s)
    (frame_number s) (fi s) (next_chan s) (working s) (eof_timer s)
    (frame_timer s) (async_bh s) (device_async_bh s) (uport_dev s) (device
    s) (dma_as s) (irq s) (oldlevel s) (qemu_log s).
Definition set_packet (s : DWC2State) (v : Z -> DWC2Packet) : DWC2State :=
  mkDWC2State (glbreg s) (fszreg s) (dfszreg s) (dptxfsiz s) (hreg0 s)
    (hreg1 s) (dreg s) (diepreg s) (doepreg s) (pcgreg s) v (usb_buf s)
    (sof_time s) (usb_frame_time s) (usb_bit_time s) (usb_version s)
    (frame_number s) (fi s) (next_chan s) (working s) (eof_timer s)
    (frame_timer s) (async_bh s) (device_async_bh s) (uport_dev s) (device
    s) (dma_as s) (irq s) (oldlevel s) (qemu_log s).
Definition set_usb_buf (s : DWC2State) (v : Z -> list Z) : DWC2State :=
  mkDWC2State (glbreg s) (fszreg s) (dfszreg s) (dptxfsiz s) (hreg0 s)
    (hreg1 s) (dreg s) (diepreg s) (doepreg s) (pcgreg s) (packet s) v
    (sof_time s) (usb_frame_time s) (usb_bit_time s) (usb_version s)
    (frame_number s) (fi s) (next_chan s) (working s) (eof_timer s)
    (frame_timer s) (async_bh s) (device_async_bh s) (uport_dev s) (device
    s) (dma_as s) (irq s) (oldlevel s) (qemu_log s).
Definition set_sof_time (s : DWC2State) (v : Z) : DWC2State :=
  mkDWC2State (glbreg s) (fszreg s) (dfszreg s) (dptxfsiz s) (hreg0 s)
    (hreg1 s) (dreg s) (diepreg s) (doepreg s) (pcgreg s) (packet s)
    (usb_buf s) v (usb_frame_time s) (usb_bit_time s) (usb_version s)
    (frame_number s) (fi s) (next_chan s) (working s) (eof_timer s)
    (frame_timer s) (async_bh s) (device_async_bh s) (uport_dev s) (device
    s) (dma_as s) (irq s) (oldlevel s) (qemu_log s).
Definition set_usb_frame_time (s : DWC2State) (v : Z) : DWC2State :=
  mkDWC2State (glbreg s) (fszreg s) (dfszreg s) (dptxfsiz s) (hreg0 s)
    (hreg1 s) (dreg s) (diepreg s) (doepreg s) (pcgreg s) (packet s)
    (usb_buf s) (sof_time s) v (usb_bit_time s) (usb_version s)
    (frame_number s) (fi s) (next_chan s) (working s) (eof_timer s)
    (frame_timer s) (async_bh s) (device_async_bh s) (uport_dev s) (device
    s) (dma_as s) (irq s) (oldlevel s) (qemu_log s).
Definition set_usb_bit_time (s : DWC2State) (v : Z) : DWC2State :=
  mkDWC2State (glbreg s) (fszreg s) (dfszreg s) (dptxfsiz s) (hreg0 s)
    (hreg1 s) (dreg s) (diepreg s) (doepreg s) (pcgreg s) (packet s)
    (usb_buf s) (sof_time s) (usb_frame_time s) v (usb_version s)
    (frame_number s) (fi s) (next_chan s) (working s) (eof_timer s)
    (frame_timer s) (async_bh s) (device_async_bh s) (uport_dev s) (device
    s) (dma_as s) (irq s) (oldlevel s) (qemu_log s).
Definition set_usb_version (s : DWC2State) (v : Z) : DWC2State :=
  mkDWC2State (glbreg s) (fszreg s) (dfszreg s) (dptxfsiz s) (hreg0 s)
    (hreg1 s) (dreg s) (diepreg s) (doepreg s) (pcgreg s) (packet s)
    (usb_buf s) (sof_time s) (usb_frame_time s) (usb_bit_time s) v
    (frame_number s) (fi s) (next_chan s) (working s) (eof_timer s)
    (frame_timer s) (async_bh s) (device_async_bh s) (uport_dev s) (device
    s) (dma_as s) (irq s) (oldlevel s) (qemu_log s).
Definition set_frame_number (s : DWC2State) (v : Z) : DWC2State :=
  mkDWC2State (glbreg s) (fszreg s) (dfszreg s) (dptxfsiz s) (hreg0 s)
    (hreg1 s) (dreg s) (diepreg s) (doepreg s) (pcgreg s) (packet s)
    (usb_buf s) (sof_time s) (usb_frame_time s) (usb_bit_time s)
    (usb_version s) v (fi s) (next_chan s) (working s) (eof_timer s)
    (frame_timer s) (async_bh s) (device_async_bh s) (uport_dev s) (device
    s) (dma_as s) (irq s) (oldlevel s) (qemu_log s).
Definition set_fi (s : DWC2State) (v : Z) : DWC2State :=
  mkDWC2State (glbreg s) (fszreg s) (dfszreg s) (dptxfsiz s) (hreg0 s)
    (hreg1 s) (dreg s) (diepreg s) (doepreg s) (pcgreg s) (packet s)
    (usb_buf s) (sof_time s) (usb_frame_time s) (usb_bit_time s)
    (usb_version s) (frame_number s) v (next_chan s) (working s) (eof_timer
    s) (frame_timer s) (async_bh s) (device_async_bh s) (uport_dev s)
    (device s) (dma_as s) (irq s) (oldlevel s) (qemu_log s).
Definition set_next_chan (s : DWC2State) (v : Z) : DWC2State :=
  mkDWC2State (glbreg s) (fszreg s) (dfszreg s) (dptxfsiz s) (hreg0 s)
    (hreg1 s) (dreg s) (diepreg s) (doepreg s) (pcgreg s) (packet s)
    (usb_buf s) (sof_time s) (usb_frame_time s) (usb_bit_time s)
    (usb_version s) (frame_number s) (fi s) v (working s) (eof_timer s)
    (frame_timer s) (async_bh s) (device_async_bh s) (uport_dev s) (device
    s) (dma_as s) (irq s) (oldlevel s) (qemu_log s).
Definition set_working (s : DWC2State) (v : bool) : DWC2State :=
  mkDWC2State (glbreg s) (fszreg s) (dfszreg s) (dptxfsiz s) (hreg0 s)
    (hreg1 s) (dreg s) (diepreg s) (doepreg s) (pcgreg s) (packet s)
    (usb_buf s) (sof_time s) (usb_frame_time s) (usb_bit_time s)
    (usb_version s) (frame_number s) (fi s) (next_chan s) v (eof_timer s)
    (frame_timer s) (async_bh s) (device_async_bh s) (uport_dev s) (device
    s) (dma_as s) (irq s) (oldlevel s) (qemu_log s).
Definition set_eof_timer (s : DWC2State) (v : option Z) : DWC2State :=
  mkDWC2State (glbreg s) (fszreg s) (dfszreg s) (dptxfsiz s) (hreg0 s)
    (hreg1 s) (dreg s) (diepreg s) (doepreg s) (pcgreg s) (packet s)
    (usb_buf s) (sof_time s) (usb_frame_time s) (usb_bit_time s)
    (usb_version s) (frame_number s) (fi s) (next_chan s) (working s) v
    (frame_timer s) (async_bh s) (device_async_bh s) (uport_dev s) (device
    s) (dma_as s) (irq s) (oldlevel s) (qemu_log s).
Definition set_frame_timer (s : DWC2State) (v : option Z) : DWC2State :=
  mkDWC2State (glbreg s) (fszreg s) (dfszreg s) (dptxfsiz s) (hreg0 s)
    (hreg1 s) (dreg s) (diepreg s) (doepreg s) (pcgreg s) (packet s)
    (usb_buf s) (sof_time s) (usb_frame_time s) (usb_bit_time s)
    (usb_version s) (frame_number s) (fi s) (next_chan s) (working s)
    (eof_timer s) v (async_bh s) (device_async_bh s) (uport_dev s) (device
    s) (dma_as s) (irq s) (oldlevel s) (qemu_log s).
Definition set_async_bh (s : DWC2State) (v : bool) : DWC2State :=
  mkDWC2State (glbreg s) (fszreg s) (dfszreg s) (dptxfsiz s) (hreg0 s)
    (hreg1 s) (dreg s) (diepreg s) (doepreg s) (pcgreg s) (packet s)
    (usb_buf s) (sof_time s) (usb_frame_time s) (usb_bit_time s)
    (usb_version s) (frame_number s) (fi s) (next_chan s) (working s)
    (eof_timer s) (frame_timer s) v (device_async_bh s) (uport_dev s)
    (device s) (dma_as s) (irq s) (oldlevel s) (qemu_log s).
Definition set_device_async_bh (s : DWC2State) (v : bool) : DWC2State :=
  mkDWC2State (glbreg s) (fszreg s) (dfszreg s) (dptxfsiz s) (hreg0 s)
    (hreg1 s) (dreg s) (diepreg s) (doepreg s) (pcgreg s) (packet s)
    (usb_buf s) (sof_time s) (usb_frame_time s) (usb_bit_time s)
    (usb_version s) (frame_number s) (fi s) (next_chan s) (working s)
    (eof_timer s) (frame_timer s) (async_bh s) v (uport_dev s) (device s)
    (dma_as s) (irq s) (oldlevel s) (qemu_log s).
Definition set_uport_dev (s : DWC2State) (v : option USBDevice) : DWC2State :=
  mkDWC2State (glbreg s) (fszreg s) (dfszreg s) (dptxfsiz s) (hreg0 s)
    (hreg1 s) (dreg s) (diepreg s) (doepreg s) (pcgreg s) (packet s)
    (usb_buf s) (sof_time s) (usb_frame_time s) (usb_bit_time s)
    (usb_version s) (frame_number s) (fi s) (next_chan s) (working s)
    (eof_timer s) (frame_timer s) (async_bh s) (device_async_bh s) v (device
    s) (dma_as s) (irq s) (oldlevel s) (qemu_log s).
Definition set_device (s : DWC2State) (v : USBDevice) : DWC2State :=
  mkDWC2State (glbreg s) (fszreg s) (dfszreg s) (dptxfsiz s) (hreg0 s)
    (hreg1 s) (dreg s) (diepreg s) (doepreg s) (pcgreg s) (packet s)
    (usb_buf s) (sof_time s) (usb_frame_time s) (usb_bit_time s)
    (usb_version s) (frame_number s) (fi s) (next_chan s) (working s)
    (eof_timer s) (frame_timer s) (async_bh s) (device_async_bh s)
    (uport_dev s) v (dma_as s) (irq s) (oldlevel s) (qemu_log s).
Definition set_dma_as (s : DWC2State) (v : Mem) : DWC2State :=
  mkDWC2State (glbreg s) (fszreg s) (dfszreg s) (dptxfsiz s) (hreg0 s)
    (hreg1 s) (dreg s) (diepreg s) (doepreg s) (pcgreg s) (packet s)
    (usb_buf s) (sof_time s) (usb_frame_time s) (usb_bit_time s)
    (usb_version s) (frame_number s) (fi s) (next_chan s) (working s)
    (eof_timer s) (frame_timer s) (async_bh s) (device_async_bh s)
    (uport_dev s) (device s) v (irq s) (oldlevel s) (qemu_log s).
Definition set_irq (s : DWC2State) (v : Z) : DWC2State :=
  mkDWC2State (glbreg s) (fszreg s) (dfszreg s) (dptxfsiz s) (hreg0 s)
    (hreg1 s) (dreg s) (diepreg s) (doepreg s) (pcgreg s) (packet s)
    (usb_buf s) (sof_time s) (usb_frame_time s) (usb_bit_time s)
    (usb_version s) (frame_number s) (fi s) (next_chan s) (working s)
    (eof_timer s) (frame_timer s) (async_bh s) (device_async_bh s)
    (uport_dev s) (device s) (dma_as s) v (oldlevel s) (qemu_log s).
Definition set_oldlevel (s : DWC2State) (v : Z) : DWC2State :=
  mkDWC2State (glbreg s) (fszreg s) (dfszreg s) (dptxfsiz s) (hreg0 s)
    (hreg1 s) (dreg s) (diepreg s) (doepreg s) (pcgreg s) (packet s)
    (usb_buf s) (sof_time s) (usb_frame_time s) (usb_bit_time s)
    (usb_version s) (frame_number s) (fi s) (next_chan s) (working s)
    (eof_timer s) (frame_timer s) (async_bh s) (device_async_bh s)
    (uport_dev s) (device s) (dma_as s) (irq s) v (qemu_log s).
Definition set_qemu_log (s : DWC2State) (v : list log_event) : DWC2State :=
  mkDWC2State (glbreg s) (fszreg s) (dfszreg s) (dptxfsiz s) (hreg0 s)
    (hreg1 s) (dreg s) (diepreg s) (doepreg s) (pcgreg s) (packet s)
    (usb_buf s) (sof_time s) (usb_frame_time s) (usb_bit_time s)
    (usb_version s) (frame_number s) (fi s) (next_chan s) (working s)
    (eof_timer s) (frame_timer s) (async_bh s) (device_async_bh s)
    (uport_dev s) (device s) (dma_as s) (irq s) (oldlevel s) v.

(** Named registers of the global, host and device banks. *)
Definition glb_get (s : DWC2State) (a : Z) : Z := glbreg s ((a - HSOTG_REG 0x000) >> 2).
Definition glb_put (s : DWC2State) (a v : Z) : DWC2State :=
  set_glbreg s (bank_set (glbreg s) ((a - HSOTG_REG 0x000) >> 2) v).
Definition h0_get (s : DWC2State) (a : Z) : Z := hreg0 s ((a - HSOTG_REG 0x400) >> 2).
Definition h0_put (s : DWC2State) (a v : Z) : DWC2State :=
  set_hreg0 s (bank_set (hreg0 s) ((a - HSOTG_REG 0x400) >> 2) v).
Definition h1_put (s : DWC2State) (i v : Z) : DWC2State :=
  set_hreg1 s (bank_set (hreg1 s) i v).
Definition d_get (s : DWC2State) (a : Z) : Z := dreg s ((a - HSOTG_REG 0x800) >> 2).
Definition d_put (s : DWC2State) (a v : Z) : DWC2State :=
  set_dreg s (bank_set (dreg s) ((a - HSOTG_REG 0x800) >> 2) v).
Definition diep_get (s : DWC2State) (a : Z) : Z := diepreg s ((a - HSOTG_REG 0x900) >> 2).
Definition diep_put (s : DWC2State) (a v : Z) : DWC2State :=
  set_diepreg s (bank_set (diepreg s) ((a - HSOTG_REG 0x900) >> 2) v).
Definition doep_get (s : DWC2State) (a : Z) : Z := doepreg s ((a - HSOTG_REG 0xb00) >> 2).
Definition doep_put (s : DWC2State) (a v : Z) : DWC2State :=
  set_doepreg s (bank_set (doepreg s) ((a - HSOTG_REG 0xb00) >> 2) v).

Definition gotgctl (s : DWC2State) : Z := glb_get s GOTGCTL.
Definition gahbcfg (s : DWC2State) : Z := glb_get s GAHBCFG.
Definition grstctl (s : DWC2State) : Z := glb_get s GRSTCTL.
Definition gintsts (s : DWC2State) : Z := glb_get s GINTSTS.
Definition gintmsk (s : DWC2State) : Z := glb_get s GINTMSK.
Definition gnptxfsiz (s : DWC2State) : Z := glb_get s GNPTXFSIZ.
Definition hfnum (s : DWC2State) : Z := h0_get s HFNUM.
Definition haint (s : DWC2State) : Z := h0_get s HAINT.
Definition haintmsk (s : DWC2State) : Z := h0_get s HAINTMSK.
Definition hprt0 (s : DWC2State) : Z := h0_get s HPRT0.
Definition dcfg (s : DWC2State) : Z := d_get s DCFG.
Definition dctl (s : DWC2State) : Z := d_get s DCTL.
Definition dsts (s : DWC2State) : Z := d_get s DSTS.
Definition diepmsk (s : DWC2State) : Z := d_get s DIEPMSK.
Definition doepmsk (s : DWC2State) : Z := d_get s DOEPMSK.
Definition daint (s : DWC2State) : Z := d_get s DAINT.
Definition daintmsk (s : DWC2State) : Z := d_get s DAINTMSK.
Definition diepctl (s : DWC2State) (ep : Z) : Z := diep_get s (DIEPCTL ep).
Definition diepint (s : DWC2State) (ep : Z) : Z := diep_get s (DIEPINT ep).
Definition dieptsiz (s : DWC2State) (ep : Z) : Z := diep_get s (DIEPTSIZ ep).
Definition diepdma (s : DWC2State) (ep : Z) : Z := diep_get s (DIEPDMA ep).
Definition doepctl (s : DWC2State) (ep : Z) : Z := doep_get s (DOEPCTL ep).
Definition doepint (s : DWC2State) (ep : Z) : Z := doep_get s (DOEPINT ep).
Definition doeptsiz (s : DWC2State) (ep : Z) : Z := doep_get s (DOEPTSIZ ep).
Definition doepdma (s : DWC2State) (ep : Z) : Z := doep_get s (DOEPDMA ep).

Definition qemu_log_mask (s : DWC2State) (e : log_event) : DWC2State :=
  set_qemu_log s (e :: qemu_log s).

Definition qemu_bh_schedule_async (s : DWC2State) : DWC2State :=
  set_async_bh s true.
Definition qemu_bh_schedule_device (s : DWC2State) : DWC2State :=
  set_device_async_bh s true.

(** *** Interrupt aggregation *)

(** The level [dwc2_update_irq] computes:
    [(s->gintsts & s->gintmsk) && (s->gahbcfg & GAHBCFG_GLBL_INTR_EN)]. *)
Definition irq_level (s : DWC2State) : Z :=
  if nz (gintsts s .& gintmsk s) && nz (gahbcfg s .& GAHBCFG_GLBL_INTR_EN)
  then 1 else 0.

(** update irq line: [qemu_set_irq] is called only when the level differs
    from the one remembered in [oldlevel]. *)
Definition dwc2_update_irq (s : DWC2State) : DWC2State :=
  let level := irq_level s in
  if negb (level =? oldlevel s)
  then set_irq (set_oldlevel s level) level
  else s.

(** flag interrupt condition *)
Definition dwc2_raise_global_irq (s : DWC2State) (intr : Z) : DWC2State :=
  if negb (nz (gintsts s .& intr))
  then dwc2_update_irq (glb_put s GINTSTS (gintsts s .| intr))
  else s.

Definition dwc2_lower_global_irq (s : DWC2State) (intr : Z) : DWC2State :=
  if nz (gintsts s .& intr)
  then dwc2_update_irq (glb_put s GINTSTS (gintsts s .& .~ intr))
  else s.

Definition dwc2_raise_host_irq (s : DWC2State) (host_intr : Z) : DWC2State :=
  if negb (nz (haint s .& host_intr))
  then
    let s := h0_put s HAINT (haint s .| host_intr) in
    let s := h0_put s HAINT (haint s .& 0xffff) in
    if nz (haint s .& haintmsk s)
    then dwc2_raise_global_irq s GINTSTS_HCHINT
    else s
  else s.

Definition dwc2_lower_host_irq (s : DWC2State) (host_intr : Z) : DWC2State :=
  if nz (haint s .& host_intr)
  then
    let s := h0_put s HAINT (haint s .& .~ host_intr) in
    if negb (nz (haint s .& haintmsk s))
    then dwc2_lower_global_irq s GINTSTS_HCHINT
    else s
  else s.

Definition dwc2_raise_device_irq (s : DWC2State) (ep : Z) (out : bool)
  : DWC2State :=
  let device_intr := u32 ((1 << ep) << (if out then 16 else 0)) in
  if negb (nz (daint s .& device_intr))
  then
    let s := d_put s DAINT (daint s .| device_intr) in
    if nz (daint s .& daintmsk s)
    then
      let s := if nz (daint s .& 0xffff)
               then dwc2_raise_global_irq s GINTSTS_IEPINT else s in
      if nz ((daint s >> 16) .& 0xffff)
      then dwc2_raise_global_irq s GINTSTS_OEPINT else s
    else s
  else s.

Definition dwc2_lower_device_irq (s : DWC2State) (ep : Z) (out : bool)
  : DWC2State :=
  let device_intr := u32 ((1 << ep) << (if out then 16 else 0)) in
  if nz (daint s .& device_intr)
  then
    let s := d_put s DAINT (daint s .& .~ device_intr) in
    if negb (nz (daint s .& daintmsk s))
    then
      let s := if negb (nz (daint s .& 0xffff))
               then dwc2_lower_global_irq s GINTSTS_IEPINT else s in
      if negb (nz ((daint s >> 16) .& 0xffff))
      then dwc2_lower_global_irq s GINTSTS_OEPINT else s
    else s
  else s.

Definition dwc2_update_hc_irq (s : DWC2State) (index : Z) : DWC2State :=
  let host_intr := u32 (1 << (index >> 3)) in
  if nz (hreg1 s (index + 2) .& hreg1 s (index + 3))
  then dwc2_raise_host_irq s host_intr
  else dwc2_lower_host_irq s host_intr.

Definition dwc2_update_ep_irq (s : DWC2State) (ep : Z) : DWC2State :=
  let s := if nz (diepint s ep .& diepmsk s)
           then dwc2_raise_device_irq s ep false
           else dwc2_lower_device_irq s ep false in
  if nz (doepint s ep .& doepmsk s)
  then dwc2_raise_device_irq s ep true
  else dwc2_lower_device_irq s ep true.

(** *** Frame clock

    [now] is [qemu_clock_get_ns(QEMU_CLOCK_VIRTUAL)] at the call; C's integer
    division truncates ([Z.quot]). *)

(** set a timer for EOF *)
Definition dwc2_eof_timer (s : DWC2State) : DWC2State :=
  set_eof_timer s (Some (sof_time s + usb_frame_time s)).

(** Set a timer for EOF and generate SOF event *)
Definition dwc2_sof (s : DWC2State) : DWC2State :=
  let s := set_sof_time s (sof_time s + usb_frame_time s) in
  let s := dwc2_eof_timer s in
  dwc2_raise_global_irq s GINTSTS_SOF.

(** Do frame processing on frame boundary *)
Definition dwc2_frame_boundary (s : DWC2State) (now : Z) : DWC2State :=
  let frcnt := u16 (Z.quot (now - sof_time s) (fi s)) in
  let s := set_frame_number s ((frame_number s + frcnt) .& 0xffff) in
  let s := h0_put s HFNUM (frame_number s .& HFNUM_MAX_FRNUM) in
  dwc2_sof s.

(** Start sending SOF tokens on the USB bus *)
Definition dwc2_bus_start (s : DWC2State) (now : Z) : DWC2State :=
  dwc2_eof_timer (set_sof_time s now).

(** Stop sending SOF tokens on the USB bus *)
Definition dwc2_bus_stop (s : DWC2State) : DWC2State :=
  set_eof_timer s None.

Definition dwc2_get_frame_remaining (s : DWC2State) (now : Z) : Z :=
  let tks := now - sof_time s in
  let tks := if tks <? 0 then 0 else tks in
  (* avoid muldiv if possible *)
  if tks >=? usb_frame_time s then 0
  else if tks <? usb_bit_time s then fi s
  else
    (* tks = number of ns since SOF, divided by 83 (fs) or 10 (hs) *)
    let tks := Z.quot tks (usb_bit_time s) in
    if tks >=? fi s then 0
    else
      (* remaining = frame interval minus tks *)
      u32 (fi s - tks).

(** *** Root port callbacks ([dwc2_port_ops]) *)

Definition speed_times (s : DWC2State) (hispd : bool) : DWC2State :=
  if hispd
  then
    let s := set_usb_frame_time s (Z.quot NANOSECONDS_PER_SECOND 8000) in
    if NANOSECONDS_PER_SECOND >=? USB_HZ_HS
    then set_usb_bit_time s (Z.quot NANOSECONDS_PER_SECOND USB_HZ_HS)
    else set_usb_bit_time s 1
  else
    let s := set_usb_frame_time s (Z.quot NANOSECONDS_PER_SECOND 1000) in
    if NANOSECONDS_PER_SECOND >=? USB_HZ_FS
    then set_usb_bit_time s (Z.quot NANOSECONDS_PER_SECOND USB_HZ_FS)
    else set_usb_bit_time s 1.

(** Attach a device on the root hub.  The first [assert] is "not in
    device mode", the last one bounds the speed. *)
Definition dwc2_attach (s : DWC2State) (now : Z) : option DWC2State :=
  if dev_attached (device s) then None
  else
    match uport_dev s with
    | None => Some s
    | Some d =>
      if negb (dev_attached d) then Some s
      else if negb (dev_speed d <=? USB_SPEED_HIGH) then None
      else
        let s := h0_put s HPRT0 (hprt0 s .& .~ HPRT0_SPD_MASK) in
        let '(s, hispd) :=
          if dev_speed d =? USB_SPEED_LOW
          then (h0_put s HPRT0
                  (hprt0 s .| (HPRT0_SPD_LOW_SPEED << HPRT0_SPD_SHIFT)), false)
          else if dev_speed d =? USB_SPEED_FULL
          then (h0_put s HPRT0
                  (hprt0 s .| (HPRT0_SPD_FULL_SPEED << HPRT0_SPD_SHIFT)), false)
          else if dev_speed d =? USB_SPEED_HIGH
          then (h0_put s HPRT0
                  (hprt0 s .| (HPRT0_SPD_HIGH_SPEED << HPRT0_SPD_SHIFT)), true)
          else (s, false) in
        let s := speed_times s hispd in
        let s := set_fi s (USB_FRMINTVL - 1) in
        let s := h0_put s HPRT0 (hprt0 s .| (HPRT0_CONNDET .| HPRT0_CONNSTS)) in
        let s := glb_put s GOTGCTL (gotgctl s .| GOTGCTL_ASESVLD) in
        let s := dwc2_bus_start s now in
        Some (dwc2_raise_global_irq s (GINTSTS_PRTINT .| GINTSTS_CURMODE_HOST))
    end.

Definition dwc2_detach (s : DWC2State) : DWC2State :=
  let s := dwc2_bus_stop s in
  let s := h0_put s HPRT0
             (hprt0 s .& .~ (HPRT0_SPD_MASK .| HPRT0_SUSP .| HPRT0_ENA
                             .| HPRT0_CONNSTS)) in
  let s := h0_put s HPRT0 (hprt0 s .| (HPRT0_CONNDET .| HPRT0_ENACHG)) in
  let s := glb_put s GOTGCTL (gotgctl s .& .~ GOTGCTL_ASESVLD) in
  dwc2_raise_global_irq s (GINTSTS_PRTINT .| GINTSTS_DISCONNINT).

Definition dwc2_wakeup (s : DWC2State) : DWC2State :=
  let s := if nz (hprt0 s .& HPRT0_SUSP)
           then dwc2_raise_global_irq
                  (h0_put s HPRT0 (hprt0 s .| HPRT0_RES)) GINTSTS_PRTINT
           else s in
  qemu_bh_schedule_async s.

(** The USB core's [usb_detach(port)] and [usb_attach(port)] call the
    port's [detach] and [attach] operations, which for the root port are
    the two callbacks above; [usb_port_reset] is the one after the other
    followed by a reset of the attached device, which does not touch the
    controller. *)
Definition usb_detach (s : DWC2State) : DWC2State := dwc2_detach s.
Definition usb_attach (s : DWC2State) (now : Z) : option DWC2State :=
  dwc2_attach s now.
Definition usb_port_reset (s : DWC2State) (now : Z) : option DWC2State :=
  usb_attach (usb_detach s) now.

Definition uport_attached (s : DWC2State) : bool :=
  match uport_dev s with
  | Some d => dev_attached d
  | None => false
  end.

Definition set_needs_service (p : DWC2Packet) (v : bool) : DWC2Packet :=
  mkDWC2Packet (p_packet p) (p_devadr p) (p_epnum p) (p_epdir p) (p_mps p)
    (p_pid p) (p_index p) (p_pcnt p) (p_len p) (p_async p) (p_small p) v.

(** *** Reset phases *)

Definition glbreg_reset_values : list (Z * Z) :=
  [ (GOTGCTL, 0); (GOTGINT, 0); (GAHBCFG, 0);
    (GUSBCFG, 5 << GUSBCFG_USBTRDTIM_SHIFT);
    (GRSTCTL, GRSTCTL_AHBIDLE);
    (GINTSTS, GINTSTS_PTXFEMP .| GINTSTS_NPTXFEMP);
    (GINTMSK, 0); (GRXSTSR, 0); (GRXSTSP, 0); (GRXFSIZ, 1024);
    (GNPTXFSIZ, 1024 << FIFOSIZE_DEPTH_SHIFT);
    (GNPTXSTS, (4 << FIFOSIZE_DEPTH_SHIFT) .| 1024);
    (GI2CCTL, GI2CCTL_I2CDATSE0 .| GI2CCTL_ACK);
    (GPVNDCTL, 0); (GGPIO, 0); (GUID, 0); (GSNPSID, 0x4f54300a);
    (GHWCFG1, 0);
    (GHWCFG2,
      (8 << GHWCFG2_DEV_TOKEN_Q_DEPTH_SHIFT)
      .| (4 << GHWCFG2_HOST_PERIO_TX_Q_DEPTH_SHIFT)
      .| (4 << GHWCFG2_NONPERIO_TX_Q_DEPTH_SHIFT)
      .| GHWCFG2_DYNAMIC_FIFO
      .| GHWCFG2_PERIO_EP_SUPPORTED
      .| ((DWC2_NB_CHAN - 1) << GHWCFG2_NUM_HOST_CHAN_SHIFT)
      .| (GHWCFG2_INT_DMA_ARCH << GHWCFG2_ARCHITECTURE_SHIFT)
      .| (GHWCFG2_OP_MODE_NO_SRP_CAPABLE_HOST << GHWCFG2_OP_MODE_SHIFT));
    (GHWCFG3,
      (4096 << GHWCFG3_DFIFO_DEPTH_SHIFT)
      .| (4 << GHWCFG3_PACKET_SIZE_CNTR_WIDTH_SHIFT)
      .| (4 << GHWCFG3_XFER_SIZE_CNTR_WIDTH_SHIFT));
    (GHWCFG4, 0); (GLPMCFG, 0); (GPWRDN, GPWRDN_PWRDNRSTN);
    (GDFIFOCFG, 0); (GADPCTL, 0); (GREFCLK, 0); (GINTMSK2, 0);
    (GINTSTS2, 0) ].

(** The assignments of [dwc2_reset_enter] to the registers and to the
    frame and channel bookkeeping. *)
Definition dwc2_reset_registers (s : DWC2State) : DWC2State :=
  let s := fold_left (fun s av => glb_put s (fst av) (snd av))
             glbreg_reset_values s in
  let s := set_fszreg s (bank_set (fszreg s) 0 (500 << FIFOSIZE_DEPTH_SHIFT)) in
  let s := h0_put s HCFG (2 << HCFG_RESVALID_SHIFT) in
  let s := h0_put s HFIR 60000 in
  let s := h0_put s HFNUM 0x3fff in
  let s := h0_put s HPTXSTS ((16 << TXSTS_QSPCAVAIL_SHIFT) .| 32768) in
  let s := h0_put s HAINT 0 in
  let s := h0_put s HAINTMSK 0 in
  let s := h0_put s HPRT0 0 in
  let s := d_put s DCTL (dctl s .& DCTL_SFTDISCON) in
  let s := d_put s DCFG 0 in
  let s := d_put s DSTS 0 in
  let s := d_put s DAINT 0 in
  let s := d_put s DAINTMSK 0 in
  let s := d_put s DIEPMSK 0 in
  let s := d_put s DOEPMSK 0 in
  let s := set_hreg1 s zero_bank in
  let s := set_diepreg s zero_bank in
  let s := set_doepreg s zero_bank in
  let s := set_pcgreg s zero_bank in
  let s := diep_put s (DIEPCTL 0) (diepctl s 0 .| DXEPCTL_USBACTEP) in
  let s := doep_put s (DOEPCTL 0) (doepctl s 0 .| DXEPCTL_USBACTEP) in
  let s := set_dptxfsiz s
             (fun i => if (0 <=? i) && (i <? DWC2_NB_EP)
                       then (0x100 << FIFOSIZE_DEPTH_SHIFT) .| 0x100
                       else dptxfsiz s i) in
  let s := set_sof_time s 0 in
  let s := set_frame_number s 0 in
  let s := set_fi s (USB_FRMINTVL - 1) in
  let s := set_next_chan s 0 in
  let s := set_working s false in
  set_packet s
    (fun i => if (0 <=? i) && (i <? DWC2_NB_CHAN)
              then set_needs_service (packet s i) false
              else packet s i).

Definition dwc2_reset_enter (s : DWC2State) : DWC2State :=
  let s := set_frame_timer s None in
  let s := set_async_bh s false in
  let s := if uport_attached s then usb_detach s else s in
  let s := dwc2_bus_stop s in
  dwc2_reset_registers s.

Definition dwc2_reset_hold (s : DWC2State) : DWC2State :=
  dwc2_update_irq s.

Definition dwc2_reset_exit (s : DWC2State) (now : Z) : option DWC2State :=
  let s := h0_put s HPRT0 HPRT0_PWR in
  match (if uport_attached s then usb_attach s now else Some s) with
  | None => None
  | Some s =>
    Some (set_device s (mkUSBDevice (dev_attached (device s))
                          (dev_speed (device s)) 0))
  end.

(** [qdev_reset_all_fn] takes the device through the three phases that
    [dwc2_class_init] registers. *)
Definition qdev_reset_all_fn (s : DWC2State) (now : Z) : option DWC2State :=
  dwc2_reset_exit (dwc2_reset_hold (dwc2_reset_enter s)) now.

(** *** Host channels *)

(** The [get_field], [set_field] and [get_bit] macros; a field is named by
    its [_MASK] and [_SHIFT] constants. *)
Definition get_field (data mask shift : Z) : Z := (data .& mask) >> shift.

Definition set_field (data newval mask shift : Z) : Z :=
  (data .& .~ mask) .| ((newval << shift) .& mask).

Definition get_bit (data bitmask : Z) : Z :=
  if nz (data .& bitmask) then 1 else 0.

(** A field of width [w]: its mask is [w] ones at its shift. *)
Definition field_ok (mask shift w : Z) : Prop :=
  0 <= shift /\ 0 <= w /\ mask = Z.ones w << shift.

(** [pintr], indexed by [-status]. *)
Definition pintr (stsidx : Z) : Z :=
  nth (Z.to_nat stsidx)
    [ HCINTMSK_XFERCOMPL; HCINTMSK_XACTERR; HCINTMSK_NAK; HCINTMSK_STALL;
      HCINTMSK_BBLERR; HCINTMSK_XACTERR; HCINTMSK_XACTERR; HCINTMSK_XACTERR;
      HCINTMSK_XACTERR ] 0.

(** What [usb_handle_packet(dev, &p->packet)] leaves behind: the packet's
    status and actual length, and the contents of the channel buffer the
    packet points to.  The attached device is a collaborator, so its answer
    is an argument of the handler. *)
Record usb_reply : Type := mkReply {
  reply_status : Z;
  reply_actual : Z;
  reply_buf : list Z
}.

(** Overwrite the front of a buffer. *)
Definition buf_store (buf bytes : list Z) : list Z :=
  (bytes ++ skipn (List.length bytes) buf)%list.

Definition set_usb_buf_at (s : DWC2State) (chan : Z) (b : list Z) : DWC2State :=
  set_usb_buf s (fun c => if c =? chan then b else usb_buf s c).

Definition set_packet_at (s : DWC2State) (chan : Z) (p : DWC2Packet)
  : DWC2State :=
  set_packet s (fun c => if c =? chan then p else packet s c).

Definition set_p_packet (p : DWC2Packet) (k : USBPacket) : DWC2Packet :=
  mkDWC2Packet k (p_devadr p) (p_epnum p) (p_epdir p) (p_mps p) (p_pid p)
    (p_index p) (p_pcnt p) (p_len p) (p_async p) (p_small p)
    (p_needs_service p).

Definition set_p_async (p : DWC2Packet) (a : DWC2Async) : DWC2Packet :=
  mkDWC2Packet (p_packet p) (p_devadr p) (p_epnum p) (p_epdir p) (p_mps p)
    (p_pid p) (p_index p) (p_pcnt p) (p_len p) a (p_small p)
    (p_needs_service p).

Definition set_p_small (p : DWC2Packet) (b : bool) : DWC2Packet :=
  mkDWC2Packet (p_packet p) (p_devadr p) (p_epnum p) (p_epdir p) (p_mps p)
    (p_pid p) (p_index p) (p_pcnt p) (p_len p) (p_async p) b
    (p_needs_service p).

(** The values of one call that the code after the [babble:] label uses. *)
Record hp_locals : Type := mkLocals {
  l_devadr : Z; l_index : Z; l_chan : Z;
  l_hcchar : Z; l_hctsiz : Z; l_hcdma : Z;
  l_epnum : Z; l_epdir : Z; l_eptype : Z; l_mps : Z; l_pid : Z;
  l_pcnt : Z; l_len : Z; l_tlen : Z;
  l_stsidx : Z; l_actual : Z
}.

(** The SUCCESS branch of [dwc2_handle_packet], once the packet is known
    not to be longer than was asked for: the DMA write of an IN packet and
    the update of HCTSIZ and HCDMA.  The result is the state, [pcnt], [len]
    and [done]. *)
Definition hp_success (l : hp_locals) (s : DWC2State)
  : DWC2State * Z * Z * bool :=
  let chan := l_chan l in
  let index := l_index l in
  let actual := l_actual l in
  let mps := l_mps l in
  let s :=
    if l_pid l =? USB_TOKEN_IN then
      let '(ok, mem) :=
        dma_memory_write (dma_as s) (l_hcdma l)
          (firstn (Z.to_nat actual) (usb_buf s chan)) in
      let s := set_dma_as s mem in
      if ok then s
      else qemu_log_mask s
             (LOG_GUEST_ERROR "dwc2_handle_packet" "dma_memory_write failed")
    else s in
  let tpcnt := actual / mps in
  let '(tpcnt, done) :=
    if nz (actual mod mps)
    then (tpcnt + 1, l_pid l =? USB_TOKEN_IN)
    else (tpcnt, false) in
  let pcnt := l_pcnt l - (if tpcnt <? l_pcnt l then tpcnt else l_pcnt l) in
  let hctsiz := set_field (l_hctsiz l) pcnt TSIZ_PKTCNT_MASK
                  TSIZ_PKTCNT_SHIFT in
  let len := l_len l - (if actual <? l_len l then actual else l_len l) in
  let hctsiz := set_field hctsiz len TSIZ_XFERSIZE_MASK
                  TSIZ_XFERSIZE_SHIFT in
  let s := h1_put s (index + 4) hctsiz in
  let hcdma := u32 (l_hcdma l + actual) in
  let s := h1_put s (index + 5) hcdma in
  let done := done || (pcnt =? 0) || (len =? 0) || (actual =? 0) in
  (s, pcnt, len, done).

(** The branch for every other status.  The result is the state, [intr],
    [done] and [do_intr]. *)
Definition hp_error (l : hp_locals) (s : DWC2State) (status : Z)
  : DWC2State * Z * bool * bool :=
  let index := l_index l in
  let intr := pintr (l_stsidx l) in
  if (status =? USB_RET_NAK)
     && ((l_eptype l =? USB_ENDPOINT_XFER_CONTROL)
         || (l_eptype l =? USB_ENDPOINT_XFER_BULK))
  then
    (* for ctrl/bulk, automatically retry on NAK,
       but send the interrupt anyway *)
    let intr := intr .& .~ HCINTMSK_RESERVED14_31 in
    let s := h1_put s (index + 2) (hreg1 s (index + 2) .| intr) in
    (s, intr, false, true)
  else
    (s, intr .| HCINTMSK_CHHLTD, true, false).

(** The end of [dwc2_handle_packet]: the channel halts when [done], else
    the packet context is saved for the next round. *)
Definition hp_finish (l : hp_locals) (s : DWC2State) (intr pcnt len : Z)
    (done do_intr : bool) : DWC2State :=
  let chan := l_chan l in
  let index := l_index l in
  if done then
    let hcchar := l_hcchar l .& .~ HCCHAR_CHENA in
    let s := h1_put s index hcchar in
    let intr := if negb (nz (intr .& HCINTMSK_CHHLTD))
                then intr .| (HCINTMSK_CHHLTD .| HCINTMSK_XFERCOMPL)
                else intr in
    let intr := intr .& .~ HCINTMSK_RESERVED14_31 in
    let s := h1_put s (index + 2) (hreg1 s (index + 2) .| intr) in
    let s := set_packet_at s chan
               (set_needs_service (packet s chan) false) in
    dwc2_update_hc_irq s index
  else
    let p := packet s chan in
    let s := set_packet_at s chan
               (mkDWC2Packet (p_packet p) (l_devadr l) (l_epnum l)
                  (l_epdir l) (l_mps l) (l_pid l) index pcnt len
                  (p_async p) (p_small p) true) in
    if do_intr then dwc2_update_hc_irq s index else s.

(** [dwc2_handle_packet] from the [babble:] label on.  [again] is the jump
    back to the label, taken after a SUCCESS packet that is longer than was
    asked for has been given the status BABBLE; [stsidx] is not computed
    again on the way. *)
Definition handle_packet_from_babble
    (again : DWC2State -> option DWC2State)
    (l : hp_locals) (s : DWC2State) : option DWC2State :=
  let chan := l_chan l in
  let index := l_index l in
  let p := packet s chan in
  let status := pk_status (p_packet p) in
  if status =? USB_RET_ASYNC then
    if match p_async p with DWC2_ASYNC_INFLIGHT => true | _ => false end
    then None
    else
      Some (set_packet_at s chan
              (mkDWC2Packet (p_packet p) (l_devadr l) (l_epnum l) (l_epdir l)
                 (l_mps l) (l_pid l) index (l_pcnt l) (l_tlen l)
                 DWC2_ASYNC_INFLIGHT (p_small p) false))
  else if (status =? USB_RET_SUCCESS) && (l_actual l >? l_tlen l) then
    again (set_packet_at s chan
             (set_p_packet p (set_pk_status (p_packet p) USB_RET_BABBLE)))
  else if status =? USB_RET_SUCCESS then
    let '(s, pcnt, len, done) := hp_success l s in
    Some (hp_finish l s 0 pcnt len done false)
  else
    let '(s, intr, done, do_intr) := hp_error l s status in
    Some (hp_finish l s intr (l_pcnt l) (l_len l) done do_intr).

(** The token of a channel: SETUP for a control endpoint whose PID field
    says so, else IN or OUT by the direction bit. *)
Definition channel_token (hcchar hctsiz : Z) : Z :=
  let epdir := get_bit hcchar HCCHAR_EPDIR in
  let eptype := get_field hcchar HCCHAR_EPTYPE_MASK HCCHAR_EPTYPE_SHIFT in
  let pid := get_field hctsiz TSIZ_SC_MC_PID_MASK TSIZ_SC_MC_PID_SHIFT in
  if (eptype =? USB_ENDPOINT_XFER_CONTROL) && (pid =? TSIZ_SC_MC_PID_SETUP)
  then USB_TOKEN_SETUP
  else if nz epdir then USB_TOKEN_IN else USB_TOKEN_OUT.

(** The length asked of the device when the packet is sent: the transfer
    size, or one packet of it for a channel marked [small]. *)
Definition send_length (s : DWC2State) (index : Z) : Z :=
  let hcchar := hreg1 s index in
  let hctsiz := hreg1 s (index + 4) in
  let mps := get_field hcchar HCCHAR_MPS_MASK HCCHAR_MPS_SHIFT in
  let len := get_field hctsiz TSIZ_XFERSIZE_MASK TSIZ_XFERSIZE_SHIFT in
  if p_small (packet s (index >> 3)) && (len >? mps) then mps else len.

(** The [if (send)] part of [dwc2_handle_packet]: the DMA read of an OUT or
    SETUP packet into the channel buffer, then [usb_packet_init],
    [usb_packet_setup], [usb_packet_addbuf], [p->async = DWC2_ASYNC_NONE] and
    [usb_handle_packet], whose effect is [reply]. *)
Definition hp_send (s : DWC2State) (index pid epnum hcdma : Z)
    (reply : usb_reply) : DWC2State :=
  let chan := index >> 3 in
  let tlen := send_length s index in
  let s :=
    if negb (pid =? USB_TOKEN_IN) then
      let '(ok, bytes) := dma_memory_read (dma_as s) hcdma tlen in
      let s := set_usb_buf_at s chan (buf_store (usb_buf s chan) bytes) in
      if ok then s
      else qemu_log_mask s
             (LOG_GUEST_ERROR "dwc2_handle_packet" "dma_memory_read failed")
    else s in
  let s := set_usb_buf_at s chan (reply_buf reply) in
  let k := mkUSBPacket pid epnum
             (firstn (Z.to_nat tlen) (reply_buf reply))
             (reply_actual reply) (reply_status reply)
             (if reply_status reply =? USB_RET_ASYNC
              then USB_PACKET_ASYNC else USB_PACKET_COMPLETE) in
  set_packet_at s chan
    (set_p_async (set_p_packet (packet s chan) k) DWC2_ASYNC_NONE).

Definition dwc2_handle_packet (s : DWC2State) (devadr : Z)
    (reply : usb_reply) (index : Z) (send : bool) : option DWC2State :=
  let hcchar := hreg1 s index in
  let hctsiz := hreg1 s (index + 4) in
  let hcdma := hreg1 s (index + 5) in
  let epnum := get_field hcchar HCCHAR_EPNUM_MASK HCCHAR_EPNUM_SHIFT in
  let epdir := get_bit hcchar HCCHAR_EPDIR in
  let eptype := get_field hcchar HCCHAR_EPTYPE_MASK HCCHAR_EPTYPE_SHIFT in
  let mps := get_field hcchar HCCHAR_MPS_MASK HCCHAR_MPS_SHIFT in
  let pcnt := get_field hctsiz TSIZ_PKTCNT_MASK TSIZ_PKTCNT_SHIFT in
  let len := get_field hctsiz TSIZ_XFERSIZE_MASK TSIZ_XFERSIZE_SHIFT in
  if len >? DWC2_MAX_XFER_SIZE then
    Some (qemu_log_mask s
            (LOG_GUEST_ERROR "dwc2_handle_packet" "HCTSIZ transfer size too large"))
  else
    let chan := index >> 3 in
    if mps =? 0 then
      Some (qemu_log_mask s
              (LOG_GUEST_ERROR "dwc2_handle_packet" "Bad HCCHAR_MPS set to zero"))
    else
      let pid := channel_token hcchar hctsiz in
      let tlen := if send then send_length s index
                  else p_len (packet s chan) in
      let s := if send then hp_send s index pid epnum hcdma reply else s in
      let p := packet s chan in
      let stsidx := - pk_status (p_packet p) in
      if negb ((0 <=? stsidx) && (stsidx <? 9)) then None
      else
        let actual := u32 (pk_actual_length (p_packet p)) in
        let l := mkLocals devadr index chan hcchar hctsiz hcdma epnum epdir
                   eptype mps pid pcnt len tlen stsidx actual in
        handle_packet_from_babble
          (handle_packet_from_babble (fun _ => None) l) l s.

(** The status and the length with which the packet of a channel comes
    back to [dwc2_handle_packet]: the device's reply when the packet is
    sent now, the stored packet when an asynchronous one completes. *)
Definition completion_status (s : DWC2State) (reply : usb_reply)
    (index : Z) (send : bool) : Z :=
  if send then reply_status reply
  else pk_status (p_packet (packet s (index >> 3))).

Definition completion_actual (s : DWC2State) (reply : usb_reply)
    (index : Z) (send : bool) : Z :=
  u32 (if send then reply_actual reply
       else pk_actual_length (p_packet (packet s (index >> 3)))).

Definition requested_length (s : DWC2State) (index : Z) (send : bool) : Z :=
  if send then send_length s index else p_len (packet s (index >> 3)).

(** [usb_find_device] belongs to the USB core: [lookup addr] tells whether
    it finds a device with that address below the root port. *)
Definition dwc2_find_device (s : DWC2State) (lookup : Z -> bool) (addr : Z)
  : bool :=
  if negb (nz (hprt0 s .& HPRT0_ENA)) then false else lookup addr.

(** The completion callback of the root port.  [reply] is the state in
    which the device hands the packet of channel [chan] back. *)
Definition dwc2_async_packet_complete (s : DWC2State) (chan : Z)
    (reply : usb_reply) : option DWC2State :=
  let p := packet s chan in
  let k := mkUSBPacket (pk_pid (p_packet p)) (pk_ep (p_packet p))
             (pk_iov (p_packet p)) (reply_actual reply) (reply_status reply)
             (pk_state (p_packet p)) in
  let s := set_usb_buf_at s chan (reply_buf reply) in
  let s := set_packet_at s chan (set_p_packet p k) in
  let p := packet s chan in
  match p_async p with
  | DWC2_ASYNC_INFLIGHT =>
    if pk_status (p_packet p) =? USB_RET_REMOVE_FROM_QUEUE then Some s
    else
      match dwc2_handle_packet s (p_devadr p) reply (p_index p) false with
      | None => None
      | Some s =>
        let s := set_packet_at s chan
                   (set_p_async (packet s chan) DWC2_ASYNC_FINISHED) in
        Some (qemu_bh_schedule_async s)
      end
  | _ => None
  end.

Definition dwc2_enable_chan (s : DWC2State) (index : Z)
    (lookup : Z -> bool) (reply : usb_reply) : option DWC2State :=
  if negb ((index >> 3) <? DWC2_NB_CHAN) then None
  else
    let chan := index >> 3 in
    let hcchar := hreg1 s index in
    let hctsiz := hreg1 s (index + 4) in
    let devadr := get_field hcchar HCCHAR_DEVADDR_MASK HCCHAR_DEVADDR_SHIFT in
    let len := get_field hctsiz TSIZ_XFERSIZE_MASK TSIZ_XFERSIZE_SHIFT in
    if negb (dwc2_find_device s lookup devadr) then Some s
    else
      (* Hack: Networking doesn't like us delivering large transfers, it
         kind of works but the latency is horrible. So if the transfer is
         <= the mtu size, we take that as a hint that this might be a
         network transfer, and do the transfer packet-by-packet. *)
      let s := set_packet_at s chan
                 (set_p_small (packet s chan) (negb (len >? 1536))) in
      match dwc2_handle_packet s devadr reply index true with
      | None => None
      | Some s => Some (qemu_bh_schedule_async s)
      end.

(** *** Register banks *)

Definition bad_offset (s : DWC2State) (fn : string) : DWC2State :=
  qemu_log_mask s (LOG_GUEST_ERROR fn "Bad offset").

Definition log_unimp_if (c : bool) (msg : string) (s : DWC2State)
  : DWC2State :=
  if c then qemu_log_mask s (LOG_UNIMP "dwc2_glbreg_write" msg) else s.

Definition GRSTCTL_self_clearing : Z :=
  GRSTCTL_TXFFLSH .| GRSTCTL_RXFFLSH .| GRSTCTL_IN_TKNQ_FLSH
  .| GRSTCTL_FRMCNTRRST .| GRSTCTL_HSFTRST .| GRSTCTL_CSFTRST.

Definition GOTGCTL_read_only : Z :=
  GOTGCTL_MULT_VALID_BC_MASK .| GOTGCTL_BSESVLD .| GOTGCTL_ASESVLD
  .| GOTGCTL_DBNC_SHORT .| GOTGCTL_CONID_B .| GOTGCTL_HSTNEGSCS
  .| GOTGCTL_SESREQSCS.

Definition GINTSTS_read_only : Z :=
  GINTSTS_PTXFEMP .| GINTSTS_HCHINT .| GINTSTS_PRTINT .| GINTSTS_OEPINT
  .| GINTSTS_IEPINT .| GINTSTS_GOUTNAKEFF .| GINTSTS_GINNAKEFF
  .| GINTSTS_NPTXFEMP .| GINTSTS_RXFLVL .| GINTSTS_OTGINT
  .| GINTSTS_CURMODE_HOST.

Definition dwc2_glbreg_read (s : DWC2State) (addr index : Z)
  : DWC2State * Z :=
  if addr >? GINTSTS2 then (bad_offset s "dwc2_glbreg_read", 0)
  else
    let val := glbreg s index in
    if addr =? GRSTCTL then
      (* clear any self-clearing bits that were set *)
      let val := val .& .~ GRSTCTL_self_clearing in
      (set_glbreg s (bank_set (glbreg s) index val), val)
    else (s, val).

(** [rising old val bit]: [!(old & bit) && (val & bit)]. *)
Definition rising (old val bit : Z) : bool :=
  negb (nz (old .& bit)) && nz (val .& bit).

Definition dwc2_glbreg_write (s : DWC2State) (addr index val now : Z)
  : option DWC2State :=
  if addr >? GINTSTS2 then Some (bad_offset s "dwc2_glbreg_write")
  else
    let old := glbreg s index in
    let res : option (DWC2State * Z * bool) :=
      if addr =? GOTGCTL then
        (* don't allow setting of read-only bits *)
        let val := val .& .~ GOTGCTL_read_only in
        (* don't allow clearing of read-only bits *)
        let val := val .| (old .& GOTGCTL_read_only) in
        Some (s, val, false)
      else if addr =? GAHBCFG then
        Some (s, val, rising old val GAHBCFG_GLBL_INTR_EN)
      else if addr =? GRSTCTL then
        let val := val .| GRSTCTL_AHBIDLE in
        let val := val .& .~ GRSTCTL_DMAREQ in
        let s := log_unimp_if (rising old val GRSTCTL_TXFFLSH)
                   "Tx FIFO flush not implemented" s in
        let s := log_unimp_if (rising old val GRSTCTL_RXFFLSH)
                   "Rx FIFO flush not implemented" s in
        let s := log_unimp_if (rising old val GRSTCTL_IN_TKNQ_FLSH)
                   "Token queue flush not implemented" s in
        let s := log_unimp_if (rising old val GRSTCTL_FRMCNTRRST)
                   "Frame counter reset not implemented" s in
        let s := log_unimp_if (rising old val GRSTCTL_HSFTRST)
                   "Host soft reset not implemented" s in
        match (if rising old val GRSTCTL_CSFTRST
               then qdev_reset_all_fn s now else Some s) with
        | None => None
        | Some s =>
          (* don't allow clearing of self-clearing bits *)
          Some (s, val .| (old .& GRSTCTL_self_clearing), false)
        end
      else if addr =? GINTSTS then
        (* clear the write-1-to-clear bits *)
        let val := val .| .~ old in
        let val := .~ val in
        (* don't allow clearing of read-only bits *)
        let val := val .| (old .& GINTSTS_read_only) in
        Some (s, val, true)
      else if addr =? GINTMSK then Some (s, val, true)
      else Some (s, val, false) in
    match res with
    | None => None
    | Some (s, val, iflg) =>
      let s := set_glbreg s (bank_set (glbreg s) index (u32 val)) in
      Some (if iflg then dwc2_update_irq s else s)
    end.

Definition dwc2_fszreg_read (s : DWC2State) (addr index : Z)
  : DWC2State * Z :=
  if negb (addr =? HPTXFSIZ) then (bad_offset s "dwc2_fszreg_read", 0)
  else (s, fszreg s index).

Definition dwc2_fszreg_write (s : DWC2State) (addr index val : Z)
  : DWC2State :=
  if negb (addr =? HPTXFSIZ) then bad_offset s "dwc2_fszreg_write"
  else set_fszreg s (bank_set (fszreg s) index (u32 val)).

Definition dwc2_dfszreg_read (s : DWC2State) (addr index : Z)
  : DWC2State * Z :=
  if negb (addr =? DPTXFSIZN index) || (index >=? DWC2_NB_EP)
  then (bad_offset s "dwc2_dfszreg_read", 0)
  else (s, dfszreg s index).

Definition dwc2_dfszreg_write (s : DWC2State) (addr index val : Z)
  : DWC2State :=
  if negb (addr =? DPTXFSIZN index) || (index >=? DWC2_NB_EP)
  then bad_offset s "dwc2_dfszreg_write"
  else set_dfszreg s (bank_set (dfszreg s) index (u32 val)).

Definition dwc2_hreg0_read (s : DWC2State) (addr index now : Z)
  : DWC2State * Z :=
  if (addr <? HCFG) || (addr >? HPRT0)
  then (bad_offset s "dwc2_hreg0_read", 0)
  else
    let val := hreg0 s index in
    if addr =? HFNUM then
      (s, u32 ((dwc2_get_frame_remaining s now << HFNUM_FRREM_SHIFT)
               .| (hfnum s << HFNUM_FRNUM_SHIFT)))
    else (s, val).

Definition HPRT0_w1c : Z :=
  HPRT0_OVRCURRCHG .| HPRT0_ENACHG .| HPRT0_ENA .| HPRT0_CONNDET.

Definition dwc2_hreg0_write (s : DWC2State) (addr index val now : Z)
  : option DWC2State :=
  if (addr <? HCFG) || (addr >? HPRT0)
  then Some (bad_offset s "dwc2_hreg0_write")
  else
    let old := hreg0 s index in
    if (addr =? HFNUM) || (addr =? HPTXSTS) || (addr =? HAINT) then
      Some (qemu_log_mask s
              (LOG_GUEST_ERROR "dwc2_hreg0_write" "write to read-only register"))
    else
      let '(val, prst, iflg) :=
        if addr =? HFIR then (val, false, 0)
        else if addr =? HAINTMSK then (val .& 0xffff, false, 0)
        else if addr =? HPRT0 then
          (* don't allow clearing of read-only bits *)
          let val := val .| (old .& (HPRT0_SPD_MASK .| HPRT0_LNSTS_MASK
                                     .| HPRT0_OVRCURRACT .| HPRT0_CONNSTS)) in
          (* don't allow clearing of self-clearing bits *)
          let val := val .| (old .& (HPRT0_SUSP .| HPRT0_RES)) in
          (* don't allow setting of self-setting bits *)
          let val := if rising old val HPRT0_ENA
                     then val .& .~ HPRT0_ENA else val in
          (* clear the write-1-to-clear bits *)
          let tval := val .& HPRT0_w1c in
          let told := old .& HPRT0_w1c in
          let tval := tval .| .~ told in
          let tval := .~ tval in
          let tval := tval .& HPRT0_w1c in
          let val := val .& .~ HPRT0_w1c in
          let val := val .| tval in
          let '(val, prst) :=
            if negb (nz (val .& HPRT0_RST)) && nz (old .& HPRT0_RST)
               && uport_attached s
            then (val .| (HPRT0_ENA .| HPRT0_ENACHG), true)
            else (val, false) in
          if nz (val .& (HPRT0_OVRCURRCHG .| HPRT0_ENACHG .| HPRT0_CONNDET))
          then (val, prst, 1) else (val, prst, -1)
        else (val, false, 0) in
      match (if prst then usb_port_reset s now else Some s) with
      | None => None
      | Some s =>
        let val := if prst then val .& .~ HPRT0_CONNDET else val in
        let s := set_hreg0 s (bank_set (hreg0 s) index (u32 val)) in
        Some (if iflg >? 0 then dwc2_raise_global_irq s GINTSTS_PRTINT
              else if iflg <? 0 then dwc2_lower_global_irq s GINTSTS_PRTINT
              else s)
      end.

Definition dwc2_hreg1_read (s : DWC2State) (addr index : Z)
  : DWC2State * Z :=
  if (addr <? HCCHAR 0) || (addr >? HCDMAB (DWC2_NB_CHAN - 1))
  then (bad_offset s "dwc2_hreg1_read", 0)
  else (s, hreg1 s index).

Definition dwc2_hreg1_write (s : DWC2State) (addr index val : Z)
    (lookup : Z -> bool) (reply : usb_reply) : option DWC2State :=
  if (addr <? HCCHAR 0) || (addr >? HCDMAB (DWC2_NB_CHAN - 1))
  then Some (bad_offset s "dwc2_hreg1_write")
  else
    let old := hreg1 s index in
    let reg := HSOTG_REG 0x500 + (addr .& 0x1c) in
    if reg =? HCDMAB 0 then
      Some (qemu_log_mask s
              (LOG_GUEST_ERROR "dwc2_hreg1_write" "write to read-only register"))
    else
      let '(val, iflg, enflg, disflg) :=
        if reg =? HCCHAR 0 then
          if nz (val .& HCCHAR_CHDIS) && negb (nz (old .& HCCHAR_CHDIS))
          then (val .& .~ (HCCHAR_CHENA .| HCCHAR_CHDIS), false, false, true)
          else
            let val := val .| (old .& HCCHAR_CHDIS) in
            if nz (val .& HCCHAR_CHENA) && negb (nz (old .& HCCHAR_CHENA))
            then (val .& .~ HCCHAR_CHDIS, false, true, false)
            else (val .| (old .& HCCHAR_CHENA), false, false, false)
        else if reg =? HCINT 0 then
          (* clear the write-1-to-clear bits *)
          let val := val .| .~ old in
          let val := .~ val in
          (val .& .~ HCINTMSK_RESERVED14_31, true, false, false)
        else if reg =? HCINTMSK 0 then
          (val .& .~ HCINTMSK_RESERVED14_31, true, false, false)
        else (val, false, false, false) in
      let s := h1_put s index (u32 val) in
      let '(s, iflg) :=
        if disflg then
          (* set ChHltd in HCINT *)
          let i := (index .& .~ 7) + 2 in
          (h1_put s i (hreg1 s i .| HCINTMSK_CHHLTD), true)
        else (s, iflg) in
      match (if enflg then dwc2_enable_chan s (index .& .~ 7) lookup reply
             else Some s) with
      | None => None
      | Some s =>
        Some (if iflg then dwc2_update_hc_irq s (index .& .~ 7) else s)
      end.

Definition dwc2_pcgreg_read (s : DWC2State) (addr index : Z)
  : DWC2State * Z :=
  if (addr <? PCGCTL) || (addr >? PCGCCTL1)
  then (bad_offset s "dwc2_pcgreg_read", 0)
  else (s, pcgreg s index).

Definition dwc2_pcgreg_write (s : DWC2State) (addr index val : Z)
  : DWC2State :=
  if (addr <? PCGCTL) || (addr >? PCGCCTL1)
  then bad_offset s "dwc2_pcgreg_write"
  else set_pcgreg s (bank_set (pcgreg s) index (u32 val)).

(** *** Device endpoints *)

Definition dwc2_update_in_ep (s : DWC2State) (ep : Z) : DWC2State :=
  let s :=
    if nz (diepctl s ep .& DXEPCTL_SNAK) then
      let s := diep_put s (DIEPCTL ep) (diepctl s ep .| DXEPCTL_NAKSTS) in
      let s := diep_put s (DIEPCTL ep) (diepctl s ep .& .~ DXEPCTL_SNAK) in
      diep_put s (DIEPINT ep) (diepint s ep .| DXEPINT_INEPNAKEFF)
    else s in
  let s :=
    if nz (diepctl s ep .& DXEPCTL_CNAK) then
      let s := diep_put s (DIEPCTL ep) (diepctl s ep .& .~ DXEPCTL_NAKSTS) in
      let s := diep_put s (DIEPCTL ep) (diepctl s ep .& .~ DXEPCTL_CNAK) in
      diep_put s (DIEPINT ep) (diepint s ep .& .~ DXEPINT_INEPNAKEFF)
    else s in
  let s :=
    if nz (diepctl s ep .& DXEPCTL_EPDIS) then
      let s := diep_put s (DIEPCTL ep)
                 (diepctl s ep .& .~ (DXEPCTL_EPDIS .| DXEPCTL_EPENA)) in
      diep_put s (DIEPINT ep) (diepint s ep .| DXEPINT_EPDISBLD)
    else s in
  qemu_bh_schedule_device s.

Definition dwc2_update_out_ep (s : DWC2State) (ep : Z) : DWC2State :=
  let s :=
    if nz (doepctl s ep .& DXEPCTL_SNAK) then
      let s := doep_put s (DOEPCTL ep) (doepctl s ep .| DXEPCTL_NAKSTS) in
      let s := doep_put s (DOEPCTL ep) (doepctl s ep .& .~ DXEPCTL_SNAK) in
      doep_put s (DOEPINT ep) (doepint s ep .| DXEPINT_INEPNAKEFF)
    else s in
  let s :=
    if nz (doepctl s ep .& DXEPCTL_CNAK) then
      let s := doep_put s (DOEPCTL ep) (doepctl s ep .& .~ DXEPCTL_NAKSTS) in
      let s := doep_put s (DOEPCTL ep) (doepctl s ep .& .~ DXEPCTL_CNAK) in
      doep_put s (DOEPINT ep) (doepint s ep .& .~ DXEPINT_INEPNAKEFF)
    else s in
  let s :=
    if nz (doepctl s ep .& DXEPCTL_EPDIS) then
      let s := doep_put s (DOEPCTL ep)
                 (doepctl s ep .& .~ (DXEPCTL_EPDIS .| DXEPCTL_EPENA)) in
      doep_put s (DOEPINT ep) (doepint s ep .| DXEPINT_EPDISBLD)
    else s in
  qemu_bh_schedule_device s.

(** Little-endian 32-bit words of a [struct dwc2_dma_desc]
    ([status] then [buf]), as the DMA copy lays them out. *)
Definition le32 (bytes : list Z) : Z :=
  nth 0 bytes 0 + (nth 1 bytes 0 << 8) + (nth 2 bytes 0 << 16)
  + (nth 3 bytes 0 << 24).

Definition le32_bytes (w : Z) : list Z :=
  [ w .& 0xff; (w >> 8) .& 0xff; (w >> 16) .& 0xff; (w >> 24) .& 0xff ].

Definition sizeof_desc : Z := 8.

Definition u64 (x : Z) : Z := x mod 2 ^ 64.

(** [usb_packet_copy] of the USB core: [bytes] bytes move between the
    packet's buffer, from offset [actual_length] on, and [buffer], out of
    the packet for SETUP and OUT and into it for IN; the core asserts that
    they fit.  The result is the packet and the buffer. *)
Definition usb_packet_copy (p : USBPacket) (buffer : list Z) (bytes : Z)
  : option (USBPacket * list Z) :=
  let al := pk_actual_length p in
  if negb ((0 <=? al) && (al + bytes <=? Z.of_nat (List.length (pk_iov p))))
  then None
  else if (pk_pid p =? USB_TOKEN_SETUP) || (pk_pid p =? USB_TOKEN_OUT) then
    Some (set_pk_data p (pk_iov p) (al + bytes),
          buf_store buffer
            (firstn (Z.to_nat bytes) (skipn (Z.to_nat al) (pk_iov p))))
  else if pk_pid p =? USB_TOKEN_IN then
    Some (set_pk_data p
            (firstn (Z.to_nat al) (pk_iov p)
             ++ buf_store (skipn (Z.to_nat al) (pk_iov p))
                  (firstn (Z.to_nat bytes) buffer))%list
            (al + bytes),
          buffer)
  else None.

(** The maximum packet size of endpoint 0, from the [D0EPCTL_MPS] field. *)
Definition ep0_mps (ctl : Z) : option Z :=
  let f := ctl .& D0EPCTL_MPS_MASK in
  if f =? D0EPCTL_MPS_64 then Some 64
  else if f =? D0EPCTL_MPS_32 then Some 32
  else if f =? D0EPCTL_MPS_16 then Some 16
  else if f =? D0EPCTL_MPS_8 then Some 8
  else None.

(** The descriptor loop of an IN transfer.  It ends when a descriptor
    cannot be read, is not ready for the controller, or has its L bit set
    after processing. *)
Fixpoint in_desc_loop (fuel : nat) (s : DWC2State) (ep pktsize : Z)
    (sglist : QEMUSGList) : run (DWC2State * QEMUSGList) :=
  match fuel with
  | O => NoFuel
  | S fuel =>
    let '(ok, raw) := dma_memory_read (dma_as s) (diepdma s ep) sizeof_desc in
    if negb ok then Done (s, sglist)
    else
      let status := le32 (firstn 4 raw) in
      let buf := le32 (skipn 4 raw) in
      if nz (DEV_DMA_BUFF_STS_GET status) then Done (s, sglist)
      else
        let nbytes := status .& DEV_DMA_NBYTES_MASK in
        let '(amtDone, nbytes, status) :=
          if sg_size sglist + nbytes >=? u64 pktsize
          then (u32 (pktsize - sg_size sglist),
                u64 (nbytes - (pktsize - sg_size sglist)),
                status .| DEV_DMA_L)
          else (u32 nbytes, 0, status) in
        let status := status .& .~ DEV_DMA_NBYTES_MASK in
        let status := status .| (nbytes .& DEV_DMA_NBYTES_MASK) in
        let sglist := qemu_sglist_add sglist buf amtDone in
        let status := status .& .~ DEV_DMA_BUFF_STS_MASK in
        let status := u32 (status .| (DEV_DMA_BUFF_STS_DMADONE
                                      << DEV_DMA_BUFF_STS_SHIFT)) in
        let s := set_dma_as s
                   (snd (dma_memory_write (dma_as s) (diepdma s ep)
                           (le32_bytes status ++ le32_bytes buf))) in
        let s := diep_put s (DIEPDMA ep) (u32 (diepdma s ep + sizeof_desc)) in
        if nz (status .& DEV_DMA_L) then Done (s, sglist)
        else in_desc_loop fuel s ep pktsize sglist
  end.

(** The descriptor loop of an OUT or SETUP transfer. *)
Fixpoint out_desc_loop (fuel : nat) (s : DWC2State) (ep pktsize mps pid : Z)
    (sglist : QEMUSGList) : run (DWC2State * QEMUSGList) :=
  match fuel with
  | O => NoFuel
  | S fuel =>
    let '(ok, raw) := dma_memory_read (dma_as s) (doepdma s ep) sizeof_desc in
    if negb ok then Done (s, sglist)
    else
      let status := le32 (firstn 4 raw) in
      let buf := le32 (skipn 4 raw) in
      if nz (DEV_DMA_BUFF_STS_GET status) then Done (s, sglist)
      else
        let nbytes := status .& DEV_DMA_NBYTES_MASK in
        let last := sg_size sglist + nbytes >=? u64 pktsize in
        let amtDone := if last then u32 (pktsize - sg_size sglist)
                       else u32 nbytes in
        if last && (mps =? 0) then Abort
        else
          let '(nbytes, status) :=
            if last then
              let status :=
                if nz (Z.rem (sg_size sglist + amtDone) mps)
                   || (sg_size sglist + amtDone =? 0)
                then status .| DEV_DMA_SHORT else status in
              let status := if pid =? USB_TOKEN_SETUP
                            then status .| DEV_DMA_SR else status in
              (u64 (nbytes - (pktsize - sg_size sglist)),
               status .| DEV_DMA_L)
            else (0, status) in
          let sglist := qemu_sglist_add sglist buf amtDone in
          let status := status .& .~ DEV_DMA_NBYTES_MASK in
          let status := status .| (nbytes .& DEV_DMA_NBYTES_MASK) in
          let status := status .& .~ DEV_DMA_BUFF_STS_MASK in
          let status := u32 (status .| (DEV_DMA_BUFF_STS_DMADONE
                                        << DEV_DMA_BUFF_STS_SHIFT)) in
          let s := set_dma_as s
                     (snd (dma_memory_write (dma_as s) (doepdma s ep)
                             (le32_bytes status ++ le32_bytes buf))) in
          let s := doep_put s (DOEPDMA ep) (u32 (doepdma s ep + sizeof_desc)) in
          if nz (status .& DEV_DMA_L) then Done (s, sglist)
          else out_desc_loop fuel s ep pktsize mps pid sglist
  end.

(** [sz], [pktcnt] and [mps] of an endpoint, from its transfer-size word
    [tsiz] and control word [ctl]; endpoint 0 has its own field layout, and
    an MPS code outside the four known ones is [g_assert_not_reached]. *)
Definition in_sizes (s : DWC2State) (ep : Z) : option (Z * Z * Z) :=
  if ep =? 0 then
    match ep0_mps (diepctl s 0) with
    | Some mps =>
      Some (DIEPTSIZ0_XFERSIZE_GET (dieptsiz s ep),
            DIEPTSIZ0_PKTCNT_GET (dieptsiz s ep), mps)
    | None => None
    end
  else
    Some (DXEPTSIZ_XFERSIZE_GET (dieptsiz s ep),
          DXEPTSIZ_PKTCNT_GET (dieptsiz s ep),
          DXEPCTL_MPS_GET (diepctl s ep)).

Definition out_sizes (s : DWC2State) (ep : Z) : option (Z * Z * Z) :=
  if ep =? 0 then
    match ep0_mps (doepctl s 0) with
    | Some mps =>
      Some (DOEPTSIZ0_XFERSIZE_GET (doeptsiz s ep),
            DOEPTSIZ0_PKTCNT_GET (doeptsiz s ep), mps)
    | None => None
    end
  else
    Some (DXEPTSIZ_XFERSIZE_GET (doeptsiz s ep),
          DXEPTSIZ_PKTCNT_GET (doeptsiz s ep),
          DXEPCTL_MPS_GET (doepctl s ep)).

(** [amtDone < pktsize && amtDone % mps == 0 && amtDone > 0] chooses
    between ASYNC and SUCCESS; the remainder is taken only when the first
    test holds. *)
Definition transfer_status (amtDone pktsize mps : Z) : run Z :=
  if amtDone <? pktsize then
    if mps =? 0 then Abort
    else if (Z.rem amtDone mps =? 0) && (amtDone >? 0)
    then Done USB_RET_ASYNC else Done USB_RET_SUCCESS
  else Done USB_RET_SUCCESS.

Definition zeros (n : Z) : list Z := repeat 0 (Z.to_nat n).

(** The data movement of [case USB_TOKEN_IN] for an enabled endpoint,
    up to the choice of the packet status.  The flat-buffer path leaves
    early, with status ASYNC, when the host asks for data and none is set
    up ([inl]); otherwise the result is the state, the packet and
    [amtDone] ([inr]). *)
Definition in_transfer (fuel : nat) (s : DWC2State) (p : USBPacket)
    (ep pktsize sz pktcnt mps : Z)
  : run ((DWC2State * USBPacket) + (DWC2State * USBPacket * Z)) :=
  if nz (dcfg s .& DCFG_DESCDMA_EN) then
    match in_desc_loop fuel s ep pktsize [] with
    | NoFuel => NoFuel
    | Abort => Abort
    | Done (s, sglist) =>
      let '(buffer, residual) :=
        dma_buf_write (dma_as s) (sg_size sglist) sglist in
      let amtDone := sg_size sglist - residual in
      match usb_packet_copy p buffer amtDone with
      | None => Abort
      | Some (p, _) =>
        let s := diep_put s (DIEPCTL ep) (diepctl s ep .& .~ DXEPCTL_EPENA) in
        let s := diep_put s (DIEPINT ep) (diepint s ep .| DXEPINT_XFERCOMPL) in
        Done (inr (s, p, amtDone))
      end
    end
  else
    let amtDone := if sz >? pktsize then pktsize else sz in
    if negb (pktsize =? 0) && (amtDone =? 0) then
      Done (inl (diep_put s (DIEPINT ep)
                   (diepint s ep .| DXEPINT_INTKNTXFEMP),
                 set_pk_status p USB_RET_ASYNC))
    else
      let moved : run (DWC2State * USBPacket * Z) :=
        if amtDone >? 0 then
          let '(s, buffer) :=
            if nz (diepdma s ep) then
              let buffer := snd (dma_memory_read (dma_as s) (diepdma s ep)
                                   amtDone) in
              (diep_put s (DIEPDMA ep) (u32 (diepdma s ep + amtDone)), buffer)
            else (s, zeros amtDone) in
          match usb_packet_copy p buffer amtDone with
          | None => Abort
          | Some (p, _) =>
            if mps =? 0 then Abort
            else Done (s, p, pktcnt - Z.quot (amtDone - 1 + mps) mps)
          end
        else if pktsize =? 0 then Done (s, p, pktcnt - 1)
        else Done (s, p, pktcnt) in
      match moved with
      | NoFuel => NoFuel
      | Abort => Abort
      | Done (s, p, pktcnt) =>
        let s :=
          if ep =? 0 then
            let s := diep_put s (DIEPTSIZ ep)
                       (u32 ((dieptsiz s ep .& .~ DIEPTSIZ0_PKTCNT_MASK)
                             .| DIEPTSIZ0_PKTCNT pktcnt)) in
            diep_put s (DIEPTSIZ ep)
              (u32 ((dieptsiz s ep .& .~ DIEPTSIZ0_XFERSIZE_MASK)
                    .| DIEPTSIZ0_XFERSIZE (sz - amtDone)))
          else
            let s := diep_put s (DIEPTSIZ ep)
                       (u32 ((dieptsiz s ep .& .~ DXEPTSIZ_PKTCNT_MASK)
                             .| DXEPTSIZ_PKTCNT pktcnt)) in
            diep_put s (DIEPTSIZ ep)
              (u32 ((dieptsiz s ep .& .~ DXEPTSIZ_XFERSIZE_MASK)
                    .| DXEPTSIZ_XFERSIZE (sz - amtDone))) in
        let s :=
          if sz =? amtDone then
            let s := diep_put s (DIEPCTL ep)
                       (diepctl s ep .& .~ DXEPCTL_EPENA) in
            diep_put s (DIEPINT ep) (diepint s ep .| DXEPINT_XFERCOMPL)
          else s in
        Done (inr (s, p, amtDone))
      end.

(** [case USB_TOKEN_IN] of [dwc2_device_process_packet]. *)
Definition device_token_in (fuel : nat) (s : DWC2State) (p : USBPacket)
    (ep pktsize : Z) : run (DWC2State * USBPacket) :=
  if nz (diepctl s ep .& DXEPCTL_STALL) then
    Done (s, set_pk_status p USB_RET_STALL)
  else if negb (nz (diepctl s ep .& DXEPCTL_USBACTEP))
          || nz (diepctl s ep .& DXEPCTL_NAKSTS)
          || nz (gintsts s .& GINTSTS_GINNAKEFF) then
    Done (s, set_pk_status p USB_RET_NAK)
  else if nz (diepctl s ep .& DXEPCTL_EPENA) then
    (* IN transfer *)
    match in_sizes s ep with
    | None => Abort
    | Some (sz, pktcnt, mps) =>
      match in_transfer fuel s p ep pktsize sz pktcnt mps with
      | NoFuel => NoFuel
      | Abort => Abort
      | Done (inl sp) => Done sp
      | Done (inr (s, p, amtDone)) =>
        match transfer_status amtDone pktsize mps with
        | Done st => Done (s, set_pk_status p st)
        | Abort => Abort
        | NoFuel => NoFuel
        end
      end
    end
  else Done (s, set_pk_status p USB_RET_ASYNC).

(** The standard-request check on the first bytes of a SETUP buffer:
    [bmRequestType] is byte 0 and [bRequest] byte 1 of
    [struct usb_control_packet]. *)
Definition is_set_address (buffer : list Z) (ep : Z) : bool :=
  (nth 0 buffer 0 =? 0) && (nth 1 buffer 0 =? USB_REQ_SET_ADDRESS)
  && (ep =? 0).

(** The data movement of [case USB_TOKEN_OUT] for an enabled endpoint:
    through the descriptor chain when [DCFG_DESCDMA_EN] is set, else through
    the flat buffer at [doepdma].  The result is the state, the packet, the
    local [buffer] and [amtDone]. *)
Definition out_transfer (fuel : nat) (s : DWC2State) (p : USBPacket)
    (ep pktsize sz pktcnt mps : Z)
  : run (DWC2State * USBPacket * list Z * Z) :=
  if nz (dcfg s .& DCFG_DESCDMA_EN) then
    match out_desc_loop fuel s ep pktsize mps (pk_pid p) [] with
    | NoFuel => NoFuel
    | Abort => Abort
    | Done (s, sglist) =>
      match usb_packet_copy p (zeros (sg_size sglist)) (sg_size sglist) with
      | None => Abort
      | Some (p, buffer) =>
        let '(mem, residual) := dma_buf_read (dma_as s) buffer sglist in
        Done (set_dma_as s mem, p, buffer, u32 (sg_size sglist - residual))
      end
    end
  else
    let amtDone := u32 sz in
    let amtDone := if amtDone >? u32 pktsize then u32 pktsize else amtDone in
    let copied : run (DWC2State * USBPacket * list Z * Z) :=
      if amtDone >? 0 then
        (* TODO: is this copy correct? *)
        match usb_packet_copy p (zeros amtDone) amtDone with
        | None => Abort
        | Some (p, buffer) =>
          let s :=
            if nz (doepdma s ep) then
              let s := set_dma_as s
                         (snd (dma_memory_write (dma_as s) (doepdma s ep)
                                 buffer)) in
              doep_put s (DOEPDMA ep) (u32 (doepdma s ep + amtDone))
            else s in
          if u32 mps =? 0 then Abort
          else Done (s, p, buffer,
                     pktcnt - Z.quot (u32 (amtDone - 1 + mps)) (u32 mps))
        end
      else if pktsize =? 0 then Done (s, p, [], pktcnt - 1)
      else Done (s, p, [], pktcnt) in
    match copied with
    | NoFuel => NoFuel
    | Abort => Abort
    | Done (s, p, buffer, pktcnt) =>
      let s :=
        if ep =? 0 then
          let s :=
            if negb (pk_pid p =? USB_TOKEN_SETUP) then
              doep_put s (DOEPTSIZ ep)
                (u32 ((doeptsiz s ep .& .~ DOEPTSIZ0_PKTCNT_MASK)
                      .| DOEPTSIZ0_PKTCNT pktcnt))
            else s in
          doep_put s (DOEPTSIZ ep)
            (u32 ((doeptsiz s ep .& .~ DOEPTSIZ0_XFERSIZE_MASK)
                  .| DOEPTSIZ0_XFERSIZE (u32 (sz - amtDone))))
        else
          let s := doep_put s (DOEPTSIZ ep)
                     (u32 ((doeptsiz s ep .& .~ DXEPTSIZ_PKTCNT_MASK)
                           .| DXEPTSIZ_PKTCNT pktcnt)) in
          doep_put s (DOEPTSIZ ep)
            (u32 ((doeptsiz s ep .& .~ DXEPTSIZ_XFERSIZE_MASK)
                  .| DXEPTSIZ_XFERSIZE (u32 (sz - amtDone)))) in
      Done (s, p, buffer, amtDone)
    end.

(** The end of [case USB_TOKEN_OUT] for an enabled endpoint: the packet
    status, the standard-request check on a SETUP of eight bytes or more,
    and the completion of the transfer. *)
Definition out_complete (s : DWC2State) (p : USBPacket) (buffer : list Z)
    (ep pktsize mps amtDone : Z) : run (DWC2State * USBPacket) :=
  match transfer_status amtDone (u32 pktsize) (u32 mps) with
  | NoFuel => NoFuel
  | Abort => Abort
  | Done st =>
    let p := set_pk_status p st in
    let s :=
      if (pk_pid p =? USB_TOKEN_SETUP) && (amtDone >=? 8) then
        let s :=
          if is_set_address buffer ep then
            let s := d_put s DSTS (dsts s .& .~ DSTS_ENUMSPD_MASK) in
            let s := d_put s DSTS
                       (dsts s .| (DSTS_ENUMSPD_HS << DSTS_ENUMSPD_SHIFT)) in
            dwc2_raise_global_irq s GINTSTS_ENUMDONE
          else s in
        let s := doep_put s (DOEPINT ep) (doepint s ep .| DXEPINT_SETUP) in
        doep_put s (DOEPINT ep) (doepint s ep .| DXEPINT_SETUP_RCVD)
      else s in
    let s := doep_put s (DOEPCTL ep) (doepctl s ep .& .~ DXEPCTL_EPENA) in
    let s := doep_put s (DOEPINT ep) (doepint s ep .| DXEPINT_XFERCOMPL) in
    Done (s, p)
  end.

(** [case USB_TOKEN_OUT], which [case USB_TOKEN_SETUP] falls into. *)
Definition device_token_out (fuel : nat) (s : DWC2State) (p : USBPacket)
    (ep pktsize : Z) : run (DWC2State * USBPacket) :=
  if nz (doepctl s ep .& DXEPCTL_STALL) then
    Done (s, set_pk_status p USB_RET_STALL)
  else if (nz (doepctl s ep .& DXEPCTL_NAKSTS)
           && negb (pk_pid p =? USB_TOKEN_SETUP))
          || negb (nz (doepctl s ep .& DXEPCTL_USBACTEP))
          || nz (gintsts s .& GINTSTS_GOUTNAKEFF) then
    Done (s, set_pk_status p USB_RET_NAK)
  else if nz (doepctl s ep .& DXEPCTL_EPENA) then
    match out_sizes s ep with
    | None => Abort
    | Some (sz, pktcnt, mps) =>
      match out_transfer fuel s p ep pktsize sz pktcnt mps with
      | NoFuel => NoFuel
      | Abort => Abort
      | Done (s, p, buffer, amtDone) =>
        out_complete s p buffer ep pktsize mps amtDone
      end
    end
  else
    let s := if ep =? 0
             then doep_put s (DOEPINT ep) (doepint s ep .| DXEPINT_OUTTKNEPDIS)
             else s in
    Done (s, set_pk_status p USB_RET_ASYNC).

(** [dwc2_device_process_packet]: one packet from the upstream host.  The
    [switch] on the token goes to IN, to SETUP (which clears a STALL of
    endpoint 0 and falls into OUT) or to OUT; every [break] reaches the
    final [dwc2_update_ep_irq]. *)
Definition dwc2_device_process_packet (fuel : nat) (s : DWC2State)
    (p : USBPacket) : run (DWC2State * USBPacket) :=
  let ep := pk_ep p in
  let pktsize := Z.of_nat (List.length (pk_iov p)) - pk_actual_length p in
  let r :=
    if pk_pid p =? USB_TOKEN_IN then device_token_in fuel s p ep pktsize
    else if pk_pid p =? USB_TOKEN_SETUP then
      let s :=
        if (ep =? 0) && nz ((diepctl s ep .| doepctl s ep) .& DXEPCTL_STALL)
        then
          let s := diep_put s (DIEPCTL ep) (diepctl s ep .& .~ DXEPCTL_STALL) in
          doep_put s (DOEPCTL ep) (doepctl s ep .& .~ DXEPCTL_STALL)
        else s in
      device_token_out fuel s p ep pktsize
    else if pk_pid p =? USB_TOKEN_OUT then device_token_out fuel s p ep pktsize
    else Abort in
  match r with
  | Done (s, p) => Done (dwc2_update_ep_irq s ep, p)
  | Abort => Abort
  | NoFuel => NoFuel
  end.

Definition usb_packet_is_inflight (p : USBPacket) : bool :=
  match pk_state p with
  | USB_PACKET_QUEUED | USB_PACKET_ASYNC => true
  | _ => false
  end.

(** [dwc2_device_process_async].  [ep] is the endpoint the USB core gives
    ([None] for NULL) as the queue of its packets; the result holds the
    packet at the head of the queue when it was processed, and whether it
    was handed to [usb_packet_complete]. *)
Definition dwc2_device_process_async (fuel : nat) (s : DWC2State)
    (ep : option (list USBPacket))
  : run (DWC2State * option USBPacket * bool) :=
  match ep with
  | None => Done (s, None, false)
  | Some [] => Done (s, None, false)
  | Some (p :: _) =>
    match pk_state p with
    | USB_PACKET_ASYNC =>
      match dwc2_device_process_packet fuel s p with
      | NoFuel => NoFuel
      | Abort => Abort
      | Done (s, p) =>
        let p := if pk_status p =? USB_RET_NAK
                 then set_pk_status p USB_RET_IOERROR else p in
        Done (s, Some p, negb (pk_status p =? USB_RET_ASYNC))
      end
    | _ => Done (s, None, false)
    end
  end.

(** The [handle_packet] callback of the controller as a USB device. *)
Definition dwc2_usb_device_handle_packet (fuel : nat) (s : DWC2State)
    (p : USBPacket) : run (DWC2State * USBPacket) :=
  match dwc2_device_process_packet fuel s p with
  | NoFuel => NoFuel
  | Abort => Abort
  | Done (s, p) =>
    Done (s, if usb_packet_is_inflight p && (pk_status p =? USB_RET_NAK)
             then set_pk_status p USB_RET_IOERROR else p)
  end.

(** The other callbacks of the controller as a USB device. *)
Definition dwc2_usb_device_handle_attach (s : DWC2State) : option DWC2State :=
  match uport_dev s with
  | Some _ => None (* not in host mode *)
  | None =>
    let s := glb_put s GOTGCTL
               (gotgctl s .| (GOTGCTL_BSESVLD .| GOTGCTL_CONID_B)) in
    let s := dwc2_lower_global_irq s GINTSTS_CURMODE_HOST in
    Some (dwc2_raise_global_irq s GINTSTS_CONIDSTSCHNG)
  end.

Definition dwc2_usb_device_handle_detach (s : DWC2State) : DWC2State :=
  let s := glb_put s GOTGCTL
             (gotgctl s .& .~ (GOTGCTL_BSESVLD .| GOTGCTL_CONID_B)) in
  dwc2_raise_global_irq s (GINTSTS_CURMODE_HOST .| GINTSTS_CONIDSTSCHNG).

Definition Z_range (lo hi : Z) : list Z :=
  map (fun i => lo + Z.of_nat i) (seq 0 (Z.to_nat (hi - lo))).

Definition dwc2_usb_device_handle_reset (s : DWC2State) : DWC2State :=
  let s := d_put s DCFG (dcfg s .& .~ DCFG_DEVADDR_MASK) in
  let s :=
    fold_left
      (fun s i =>
         let s := diep_put s (DIEPCTL i) (diepctl s i .& .~ DXEPCTL_USBACTEP) in
         doep_put s (DOEPCTL i) (doepctl s i .& .~ DXEPCTL_USBACTEP))
      (Z_range 1 DWC2_NB_EP) s in
  dwc2_raise_global_irq s GINTSTS_USBRST.

(** [usb_device_attach] and [usb_device_detach] of the USB core, seen from
    the controller: the device becomes attached and its [handle_attach]
    runs; it runs [handle_detach] and is no longer attached. *)
Definition set_device_attached (s : DWC2State) (b : bool) : DWC2State :=
  set_device s (mkUSBDevice b (dev_speed (device s)) (dev_addr (device s))).

Definition usb_device_attach (s : DWC2State) : option DWC2State :=
  dwc2_usb_device_handle_attach (set_device_attached s true).

Definition usb_device_detach (s : DWC2State) : DWC2State :=
  set_device_attached (dwc2_usb_device_handle_detach s) false.

Definition dwc2_dreg_read (s : DWC2State) (addr index : Z)
  : DWC2State * Z :=
  if (addr <? DCFG) || (addr >? DTKNQR4)
  then (bad_offset s "dwc2_dreg_read", 0)
  else (s, dreg s index).

Definition dwc2_dreg_write (s : DWC2State) (addr index val : Z)
  : option DWC2State :=
  if (addr <? DCFG) || (addr >? DTKNQR4)
  then Some (bad_offset s "dwc2_dreg_write")
  else
    let old := dreg s index in
    let res : option (DWC2State * Z * bool * bool) :=
      if (addr =? DIEPMSK) || (addr =? DOEPMSK) || (addr =? DAINTMSK)
      then Some (s, val, true, false)
      else if addr =? DCFG then
        Some (set_device s
                (mkUSBDevice (dev_attached (device s)) (dev_speed (device s))
                   ((val .& DCFG_DEVADDR_MASK) >> DCFG_DEVADDR_SHIFT)),
              val, false, false)
      else if addr =? DCTL then
        (* don't allow setting of read-only bits *)
        let val := val .& .~ (DCTL_GOUTNAKSTS .| DCTL_GNPINNAKSTS) in
        (* don't allow clearing of read-only bits *)
        let val := val .| (old .& (DCTL_GOUTNAKSTS .| DCTL_GNPINNAKSTS)) in
        let '(s, val) :=
          if nz (val .& DCTL_CGNPINNAK)
          then (dwc2_lower_global_irq s GINTSTS_GINNAKEFF,
                val .& .~ DCTL_CGNPINNAK)
          else (s, val) in
        let '(s, val) :=
          if nz (val .& DCTL_CGOUTNAK)
          then (dwc2_lower_global_irq s GINTSTS_GOUTNAKEFF,
                val .& .~ DCTL_CGOUTNAK)
          else (s, val) in
        let '(s, val) :=
          if nz (val .& DCTL_SGNPINNAK)
          then (dwc2_raise_global_irq s GINTSTS_GINNAKEFF,
                val .& .~ DCTL_SGNPINNAK)
          else (s, val) in
        let '(s, val) :=
          if nz (val .& DCTL_SGOUTNAK)
          then (dwc2_raise_global_irq s GINTSTS_GOUTNAKEFF,
                val .& .~ DCTL_SGOUTNAK)
          else (s, val) in
        match (if nz (dctl s .& DCTL_SFTDISCON)
                  && negb (nz (val .& DCTL_SFTDISCON))
               then (* go on bus *) usb_device_attach s
               else Some s) with
        | None => None
        | Some s =>
          if negb (nz (dctl s .& DCTL_SFTDISCON)) && nz (val .& DCTL_SFTDISCON)
          then
            (* go off bus *)
            let s := if dev_attached (device s)
                     then usb_device_detach s else s in
            Some (s, val, true, false)
          else Some (s, val, true, true)
        end
      else if (addr =? DAINT) || (addr =? DSTS) || (addr =? DTKNQR1)
              || (addr =? DTKNQR2) || (addr =? DTKNQR3) || (addr =? DTKNQR4)
      then Some (s, old, false, false)
      else Some (s, val, false, false) in
    match res with
    | None => None
    | Some (s, val, iflg, pflg) =>
      let s := set_dreg s (bank_set (dreg s) index (u32 val)) in
      let s :=
        if iflg then
          dwc2_update_irq
            (fold_left dwc2_update_ep_irq (Z_range 0 DWC2_NB_EP) s)
        else s in
      Some (if pflg then qemu_bh_schedule_device s else s)
    end.

Definition dwc2_diepreg_read (s : DWC2State) (addr index : Z)
  : DWC2State * Z :=
  if (addr <? DIEPCTL 0) || (addr >? DTXFSTS (DWC2_NB_EP - 1))
  then (bad_offset s "dwc2_diepreg_read", 0)
  else (s, diepreg s index).

Definition dwc2_diepreg_write (s : DWC2State) (addr index val : Z)
  : DWC2State :=
  if (addr <? DIEPCTL 0) || (addr >? DTXFSTS (DWC2_NB_EP - 1))
  then bad_offset s "dwc2_diepreg_write"
  else
    let old := diepreg s index in
    let reg := DIEPCTL0 + (addr .& 0x1c) in
    let '(s, val, uflg, pflg, iflg) :=
      if reg =? DIEPCTL 0 then
        let val := val .& .~ DXEPCTL_NAKSTS in
        let val := val .| (old .& DXEPCTL_NAKSTS) in
        let val := val .| (old .& (DXEPCTL_EPENA .| DXEPCTL_EPDIS
                                   .| DXEPCTL_USBACTEP)) in
        if (index >> 3) =? 0 then
          let val := val .| (old .& DXEPCTL_STALL) in
          let val := val .| DXEPCTL_USBACTEP in
          let val := val .& .~ DXEPCTL_EPTYPE_MASK in
          let s := doep_put s (DOEPCTL 0) (doepctl s 0 .& .~ D0EPCTL_MPS_MASK) in
          let s := doep_put s (DOEPCTL 0)
                     (u32 (doepctl s 0 .| (val .& D0EPCTL_MPS_MASK))) in
          (s, val, true, true, true)
        else (s, val, true, true, true)
      else if reg =? DIEPINT 0 then (s, old .& .~ val, false, false, true)
      else (s, val, false, false, false) in
    let s := set_diepreg s (bank_set (diepreg s) index (u32 val)) in
    let s := if uflg then dwc2_update_in_ep s (index >> 3) else s in
    let s := if pflg then qemu_bh_schedule_device s else s in
    if iflg then dwc2_update_ep_irq s (index >> 3) else s.

Definition dwc2_doepreg_read (s : DWC2State) (addr index : Z)
  : DWC2State * Z :=
  if (addr <? DOEPCTL 0) || (addr >? DOEPDMA (DWC2_NB_EP - 1))
  then (bad_offset s "dwc2_doepreg_read", 0)
  else (s, doepreg s index).

Definition dwc2_doepreg_write (s : DWC2State) (addr index val : Z)
  : DWC2State :=
  if (addr <? DOEPCTL 0) || (addr >? DOEPDMA (DWC2_NB_EP - 1))
  then bad_offset s "dwc2_doepreg_write"
  else
    let old := doepreg s index in
    let reg := DOEPCTL0 + (addr .& 0x1c) in
    let '(val, uflg, pflg, iflg) :=
      if reg =? DOEPCTL 0 then
        let val := val .& .~ DXEPCTL_NAKSTS in
        let val := val .| (old .& DXEPCTL_NAKSTS) in
        let val := val .| (old .& (DXEPCTL_EPENA .| DXEPCTL_USBACTEP
                                   .| DXEPCTL_EPDIS)) in
        if (index >> 3) =? 0 then
          let val := val .| (old .& DXEPCTL_STALL) in
          let val := val .& .~ DXEPCTL_EPDIS in
          let val := val .| DXEPCTL_USBACTEP in
          let val := val .& .~ (DXEPCTL_EPDIS .| DXEPCTL_EPTYPE_MASK
                                .| D0EPCTL_MPS_MASK) in
          let val := val .| (old .& D0EPCTL_MPS_MASK) in
          (val, true, true, true)
        else (val, true, true, true)
      else if reg =? DOEPINT 0 then (old .& .~ val, false, false, true)
      else (val, false, false, false) in
    let s := set_doepreg s (bank_set (doepreg s) index (u32 val)) in
    let s := if uflg then dwc2_update_out_ep s (index >> 3) else s in
    let s := if pflg then qemu_bh_schedule_device s else s in
    if iflg then dwc2_update_ep_irq s (index >> 3) else s.

(** *** The register window

    [dwc2_hsotg_read] and [dwc2_hsotg_write] pick the bank from the offset;
    outside the 4 KiB window they reach [g_assert_not_reached]. *)
Definition in_range (addr lo hi : Z) : bool :=
  (HSOTG_REG lo <=? addr) && (addr <=? HSOTG_REG hi).

Definition dwc2_hsotg_read (s : DWC2State) (addr now : Z)
  : option (DWC2State * Z) :=
  if in_range addr 0x000 0x0fc then
    Some (dwc2_glbreg_read s addr ((addr - HSOTG_REG 0x000) >> 2))
  else if addr =? HSOTG_REG 0x100 then
    Some (dwc2_fszreg_read s addr ((addr - HSOTG_REG 0x100) >> 2))
  else if in_range addr 0x104 0x3fc then
    Some (dwc2_dfszreg_read s addr (((addr - HSOTG_REG 0x104) >> 2) + 1))
  else if in_range addr 0x400 0x4fc then
    Some (dwc2_hreg0_read s addr ((addr - HSOTG_REG 0x400) >> 2) now)
  else if in_range addr 0x500 0x7fc then
    Some (dwc2_hreg1_read s addr ((addr - HSOTG_REG 0x500) >> 2))
  else if in_range addr 0x800 0x8fc then
    Some (dwc2_dreg_read s addr ((addr - HSOTG_REG 0x800) >> 2))
  else if in_range addr 0x900 0xafc then
    Some (dwc2_diepreg_read s addr ((addr - HSOTG_REG 0x900) >> 2))
  else if in_range addr 0xb00 0xdfc then
    Some (dwc2_doepreg_read s addr ((addr - HSOTG_REG 0xb00) >> 2))
  else if in_range addr 0xe00 0xffc then
    Some (dwc2_pcgreg_read s addr ((addr - HSOTG_REG 0xe00) >> 2))
  else None.

Definition dwc2_hsotg_write (s : DWC2State) (addr val now : Z)
    (lookup : Z -> bool) (reply : usb_reply) : option DWC2State :=
  if in_range addr 0x000 0x0fc then
    dwc2_glbreg_write s addr ((addr - HSOTG_REG 0x000) >> 2) val now
  else if addr =? HSOTG_REG 0x100 then
    Some (dwc2_fszreg_write s addr ((addr - HSOTG_REG 0x100) >> 2) val)
  else if in_range addr 0x104 0x3fc then
    Some (dwc2_dfszreg_write s addr (((addr - HSOTG_REG 0x104) >> 2) + 1) val)
  else if in_range addr 0x400 0x4fc then
    dwc2_hreg0_write s addr ((addr - HSOTG_REG 0x400) >> 2) val now
  else if in_range addr 0x500 0x7fc then
    dwc2_hreg1_write s addr ((addr - HSOTG_REG 0x500) >> 2) val lookup reply
  else if in_range addr 0x800 0x8fc then
    dwc2_dreg_write s addr ((addr - HSOTG_REG 0x800) >> 2) val
  else if in_range addr 0x900 0xafc then
    Some (dwc2_diepreg_write s addr ((addr - HSOTG_REG 0x900) >> 2) val)
  else if in_range addr 0xb00 0xdfc then
    Some (dwc2_doepreg_write s addr ((addr - HSOTG_REG 0xb00) >> 2) val)
  else if in_range addr 0xe00 0xffc then
    Some (dwc2_pcgreg_write s addr ((addr - HSOTG_REG 0xe00) >> 2) val)
  else None.

(** A SETUP for endpoint 0 first clears a STALL of the endpoint. *)
Definition clear_ep0_stall (s : DWC2State) : DWC2State :=
  let s := diep_put s (DIEPCTL 0) (diepctl s 0 .& .~ DXEPCTL_STALL) in
  doep_put s (DOEPCTL 0) (doepctl s 0 .& .~ DXEPCTL_STALL).

(** *** The host bottom half and its timer

    [dwc2_work_bh] looks for a channel whose packet asks for service,
    starting at [next_chan] and going round the channels, and sends that
    packet.  [reply chan] is what [usb_handle_packet] does with the packet
    of channel [chan]; for a device that [dwc2_find_device] does not find
    the USB core answers USB_RET_NODEV.  [fuel] bounds the [do ... while]
    loop. *)
Definition next_channel (chan : Z) : Z :=
  if chan + 1 =? DWC2_NB_CHAN then 0 else chan + 1.

Fixpoint work_bh_loop (fuel : nat) (s : DWC2State) (chan : Z) (found : bool)
    (reply : Z -> usb_reply) : run (DWC2State * bool) :=
  match fuel with
  | O => NoFuel
  | S fuel =>
    let p := packet s chan in
    let serviced : option (DWC2State * bool) :=
      if p_needs_service p then
        match dwc2_handle_packet s (p_devadr p) (reply chan) (p_index p)
                true with
        | Some s => Some (s, true)
        | None => None
        end
      else Some (s, found) in
    match serviced with
    | None => Abort
    | Some (s, found) =>
      let chan := next_channel chan in
      let s := if found then set_next_chan s chan else s in
      if negb (chan =? next_chan s)
      then work_bh_loop fuel s chan found reply
      else Done (s, found)
    end
  end.

Definition dwc2_work_bh (fuel : nat) (s : DWC2State) (now : Z)
    (reply : Z -> usb_reply) : run DWC2State :=
  if working s then Done s
  else
    let s := set_working s true in
    match work_bh_loop fuel s (next_chan s) false reply with
    | NoFuel => NoFuel
    | Abort => Abort
    | Done (s, found) =>
      let s := if found
               then set_frame_timer s
                      (Some (now + Z.quot NANOSECONDS_PER_SECOND 4000))
               else s in
      Done (set_working s false)
    end.

(** [dwc2_work_timer] and the bus operation [dwc2_wakeup_endpoint] schedule
    the bottom half. *)
Definition dwc2_work_timer (s : DWC2State) : DWC2State :=
  qemu_bh_schedule_async s.

Definition dwc2_wakeup_endpoint (s : DWC2State) : DWC2State :=
  qemu_bh_schedule_async s.

(** The first channel that asks for service among [n] channels taken in
    turn from [chan] on. *)
Fixpoint first_needing_service (n : nat) (s : DWC2State) (chan : Z)
  : option Z :=
  match n with
  | O => None
  | S n =>
    if p_needs_service (packet s chan) then Some chan
    else first_needing_service n s (next_channel chan)
  end.

(** The state that [dwc2_reset_enter] and [dwc2_reset_hold] leave, and
    that [dwc2_reset_exit] keeps: the line is low, nothing is unmasked or
    enabled, the channel words are zero and no channel asks for service. *)
Record quiescent (s : DWC2State) : Prop := mk_quiescent {
  q_irq : irq s = 0;
  q_oldlevel : oldlevel s = 0;
  q_gintmsk : gintmsk s = 0;
  q_gahbcfg : gahbcfg s = 0;
  q_hreg1 : forall i, hreg1 s i = 0;
  q_next_chan : next_chan s = 0;
  q_working : working s = false;
  q_service : forall c, 0 <= c < DWC2_NB_CHAN ->
                        p_needs_service (packet s c) = false
}.

(** The speed field that [dwc2_attach] writes into HPRT0 for a device of
    speed [sp], and whether it takes the high-speed frame time. *)
Definition port_speed_bits (sp : Z) : Z :=
  if sp =? USB_SPEED_LOW then HPRT0_SPD_LOW_SPEED << HPRT0_SPD_SHIFT
  else if sp =? USB_SPEED_FULL then HPRT0_SPD_FULL_SPEED << HPRT0_SPD_SHIFT
  else if sp =? USB_SPEED_HIGH then HPRT0_SPD_HIGH_SPEED << HPRT0_SPD_SHIFT
  else 0.

Definition port_high_speed (sp : Z) : bool :=
  negb (sp =? USB_SPEED_LOW) && negb (sp =? USB_SPEED_FULL)
  && (sp =? USB_SPEED_HIGH).

(** GINTSTS after [dwc2_raise_global_irq s intr]: the causes are set only
    when none of them is pending. *)
Definition raised (gintsts intr : Z) : Z :=
  if nz (gintsts .& intr) then gintsts else gintsts .| intr.

(** The bits of HPRT0 that a port reset relies on are laid out apart: the
    reset bit is none of the bits that a write keeps or folds, clearing
    connect-detected leaves enable and enable-changed alone, and these two
    are bits of the 32-bit word. *)
Definition hprt0_layout : Prop :=
  HPRT0_RST .& (HPRT0_SPD_MASK .| HPRT0_LNSTS_MASK .| HPRT0_OVRCURRACT
                .| HPRT0_CONNSTS) = 0
  /\ HPRT0_RST .& (HPRT0_SUSP .| HPRT0_RES) = 0
  /\ HPRT0_RST .& (HPRT0_OVRCURRCHG .| HPRT0_ENACHG .| HPRT0_ENA
                   .| HPRT0_CONNDET) = 0
  /\ (HPRT0_ENA .| HPRT0_ENACHG) .& HPRT0_CONNDET = 0
  /\ 0 < HPRT0_ENA < 2 ^ 32
  /\ 0 < HPRT0_ENACHG < 2 ^ 32.

(** The state in which the device hands the packet of channel [chan] back
    to the completion callback: the data in the channel buffer, the status
    and the length in the packet. *)
Definition handed_back (s : DWC2State) (chan : Z) (reply : usb_reply)
  : DWC2State :=
  let p := packet s chan in
  let k := mkUSBPacket (pk_pid (p_packet p)) (pk_ep (p_packet p))
             (pk_iov (p_packet p)) (reply_actual reply) (reply_status reply)
             (pk_state (p_packet p)) in
  set_packet_at (set_usb_buf_at s chan (reply_buf reply)) chan
    (set_p_packet p k).

(** A state seen as its registers, memory and clock, with the packet
    contexts and the channel buffers put on top. *)
Definition wrap (X : DWC2State) (pk : Z -> DWC2Packet) (ub : Z -> list Z)
  : DWC2State :=
  set_usb_buf (set_packet X pk) ub.

(** What the end of the handler leaves in the packet context of the
    channel. *)
Definition finished_context (l : hp_locals) (p : DWC2Packet) (pcnt len : Z)
    (done : bool) : DWC2Packet :=
  if done then set_needs_service p false
  else mkDWC2Packet (p_packet p) (l_devadr l) (l_epnum l) (l_epdir l)
         (l_mps l) (l_pid l) (l_index l) pcnt len (p_async p) (p_small p)
         true.
(** The values that one call of [dwc2_handle_packet] on channel word
    [index] reads from the channel registers, with the requested length,
    the status and the actual length of the packet. *)
Definition channel_locals (s : DWC2State) (devadr index tlen status actual : Z)
  : hp_locals :=
  let hcchar := hreg1 s index in
  let hctsiz := hreg1 s (index + 4) in
  mkLocals devadr index (index >> 3) hcchar hctsiz (hreg1 s (index + 5))
    (get_field hcchar HCCHAR_EPNUM_MASK HCCHAR_EPNUM_SHIFT)
    (get_bit hcchar HCCHAR_EPDIR)
    (get_field hcchar HCCHAR_EPTYPE_MASK HCCHAR_EPTYPE_SHIFT)
    (get_field hcchar HCCHAR_MPS_MASK HCCHAR_MPS_SHIFT)
    (channel_token hcchar hctsiz)
    (get_field hctsiz TSIZ_PKTCNT_MASK TSIZ_PKTCNT_SHIFT)
    (get_field hctsiz TSIZ_XFERSIZE_MASK TSIZ_XFERSIZE_SHIFT)
    tlen (- status) actual.

(** The offsets of the 4 KiB register window that no [case] of
    [dwc2_hsotg_read] and [dwc2_hsotg_write] covers: the three offsets
    after the last word of each range of the [switch] (and before the one
    word of the second).  An access of one byte, or of two bytes at an
    even offset, can have such an offset. *)
Definition window_gaps : list Z :=
  [ 0x0fd; 0x0fe; 0x0ff; 0x101; 0x102; 0x103; 0x3fd; 0x3fe; 0x3ff;
    0x4fd; 0x4fe; 0x4ff; 0x7fd; 0x7fe; 0x7ff; 0x8fd; 0x8fe; 0x8ff;
    0xafd; 0xafe; 0xaff; 0xdfd; 0xdfe; 0xdff; 0xffd; 0xffe; 0xfff ].

(** *** Words used to state the properties *)

(** Offsets of the register window that name no register of their bank:
    the ones each bank handler logs as a bad offset. *)
Definition bad_register_offset (addr : Z) : bool :=
  (in_range addr 0x000 0x0fc && (addr >? GINTSTS2))
  || (in_range addr 0x104 0x3fc
      && (negb (addr =? DPTXFSIZN (((addr - HSOTG_REG 0x104) >> 2) + 1))
          || ((((addr - HSOTG_REG 0x104) >> 2) + 1) >=? DWC2_NB_EP)))
  || (in_range addr 0x400 0x4fc && (addr >? HPRT0))
  || (in_range addr 0x500 0x7fc && (addr >? HCDMAB (DWC2_NB_CHAN - 1)))
  || (in_range addr 0x800 0x8fc && (addr >? DTKNQR4))
  || (in_range addr 0x900 0xafc && (addr >? DTXFSTS (DWC2_NB_EP - 1)))
  || (in_range addr 0xb00 0xdfc && (addr >? DOEPDMA (DWC2_NB_EP - 1)))
  || (in_range addr 0xe00 0xffc && (addr >? PCGCCTL1)).

(** [s'] is [s] with one more record in the log and nothing else changed. *)
Definition only_logged (s s' : DWC2State) : Prop :=
  exists e, s' = qemu_log_mask s e.

(** The write-1-to-clear interrupt registers, the handler call that writes
    each of them, the stored word, and the bits of each that a write cannot
    change: the read-only causes of GINTSTS and the reserved bits 14..31 of
    HCINT (which hold zero); all bits of DIEPINT and DOEPINT are writable. *)
Inductive w1c_reg : Type :=
| W1C_GINTSTS
| W1C_HCINT (ch : Z)
| W1C_DIEPINT (ep : Z)
| W1C_DOEPINT (ep : Z).

Definition w1c_valid (r : w1c_reg) : Prop :=
  match r with
  | W1C_GINTSTS => True
  | W1C_HCINT ch => 0 <= ch < DWC2_NB_CHAN
  | W1C_DIEPINT ep => 0 <= ep < DWC2_NB_EP
  | W1C_DOEPINT ep => 0 <= ep < DWC2_NB_EP
  end.

Definition w1c_value (s : DWC2State) (r : w1c_reg) : Z :=
  match r with
  | W1C_GINTSTS => gintsts s
  | W1C_HCINT ch => hreg1 s ((HCINT ch - HSOTG_REG 0x500) >> 2)
  | W1C_DIEPINT ep => diepint s ep
  | W1C_DOEPINT ep => doepint s ep
  end.

Definition w1c_write (s : DWC2State) (r : w1c_reg) (w now : Z)
    (lookup : Z -> bool) (reply : usb_reply) : option DWC2State :=
  match r with
  | W1C_GINTSTS =>
    dwc2_glbreg_write s GINTSTS ((GINTSTS - HSOTG_REG 0x000) >> 2) w now
  | W1C_HCINT ch =>
    dwc2_hreg1_write s (HCINT ch) ((HCINT ch - HSOTG_REG 0x500) >> 2) w
      lookup reply
  | W1C_DIEPINT ep =>
    Some (dwc2_diepreg_write s (DIEPINT ep)
            ((DIEPINT ep - HSOTG_REG 0x900) >> 2) w)
  | W1C_DOEPINT ep =>
    Some (dwc2_doepreg_write s (DOEPINT ep)
            ((DOEPINT ep - HSOTG_REG 0xb00) >> 2) w)
  end.

Definition w1c_read_only (r : w1c_reg) : Z :=
  match r with
  | W1C_GINTSTS => GINTSTS_read_only
  | _ => 0
  end.

Definition w1c_reserved (r : w1c_reg) : Z :=
  match r with
  | W1C_HCINT _ => HCINTMSK_RESERVED14_31
  | _ => 0
  end.

(** What the interrupt functions leave alone: everything but GINTSTS,
    HAINT, DAINT and the line. *)
Record irq_frame (s s' : DWC2State) : Prop := mk_irq_frame {
  fr_glbreg : forall i, i <> (GINTSTS - HSOTG_REG 0x000) >> 2 ->
                        glbreg s' i = glbreg s i;
  fr_hreg0 : forall i, i <> (HAINT - HSOTG_REG 0x400) >> 2 ->
                       hreg0 s' i = hreg0 s i;
  fr_dreg : forall i, i <> (DAINT - HSOTG_REG 0x800) >> 2 ->
                      dreg s' i = dreg s i;
  fr_fszreg : fszreg s' = fszreg s;
  fr_dfszreg : dfszreg s' = dfszreg s;
  fr_dptxfsiz : dptxfsiz s' = dptxfsiz s;
  fr_hreg1 : hreg1 s' = hreg1 s;
  fr_diepreg : diepreg s' = diepreg s;
  fr_doepreg : doepreg s' = doepreg s;
  fr_pcgreg : pcgreg s' = pcgreg s;
  fr_packet : packet s' = packet s;
  fr_usb_buf : usb_buf s' = usb_buf s;
  fr_sof_time : sof_time s' = sof_time s;
  fr_usb_frame_time : usb_frame_time s' = usb_frame_time s;
  fr_usb_bit_time : usb_bit_time s' = usb_bit_time s;
  fr_frame_number : frame_number s' = frame_number s;
  fr_fi : fi s' = fi s;
  fr_next_chan : next_chan s' = next_chan s;
  fr_working : working s' = working s;
  fr_eof_timer : eof_timer s' = eof_timer s;
  fr_frame_timer : frame_timer s' = frame_timer s;
  fr_async_bh : async_bh s' = async_bh s;
  fr_device_async_bh : device_async_bh s' = device_async_bh s;
  fr_uport_dev : uport_dev s' = uport_dev s;
  fr_device : device s' = device s;
  fr_dma_as : dma_as s' = dma_as s;
  fr_qemu_log : qemu_log s' = qemu_log s
}.

(** The interrupt line is in step with the registers: the level last
    driven on the line is the level the registers give, and it is the
    level [dwc2_update_irq] remembers. *)
Definition irq_synced (s : DWC2State) : Prop :=
  irq s = irq_level s /\ oldlevel s = irq s.

(** A register access or a call of one of the raise and lower functions. *)
Inductive irq_op : Type :=
| OpRead (addr now : Z)
| OpWrite (addr val now : Z) (lookup : Z -> bool) (reply : usb_reply)
| OpRaiseGlobal (intr : Z)
| OpLowerGlobal (intr : Z)
| OpRaiseHost (host_intr : Z)
| OpLowerHost (host_intr : Z)
| OpRaiseDevice (ep : Z) (out : bool)
| OpLowerDevice (ep : Z) (out : bool).

Definition run_op (s : DWC2State) (op : irq_op) : option DWC2State :=
  match op with
  | OpRead addr now =>
    match dwc2_hsotg_read s addr now with
    | Some (s, _) => Some s
    | None => None
    end
  | OpWrite addr val now lookup reply =>
    dwc2_hsotg_write s addr val now lookup reply
  | OpRaiseGlobal intr => Some (dwc2_raise_global_irq s intr)
  | OpLowerGlobal intr => Some (dwc2_lower_global_irq s intr)
  | OpRaiseHost h => Some (dwc2_raise_host_irq s h)
  | OpLowerHost h => Some (dwc2_lower_host_irq s h)
  | OpRaiseDevice ep out => Some (dwc2_raise_device_irq s ep out)
  | OpLowerDevice ep out => Some (dwc2_lower_device_irq s ep out)
  end.

Fixpoint run_ops (s : DWC2State) (ops : list irq_op) : option DWC2State :=
  match ops with
  | [] => Some s
  | op :: ops =>
    match run_op s op with
    | Some s => run_ops s ops
    | None => None
    end
  end.

(** A write is at a word offset, and a write to GAHBCFG made while the
    line is asserted leaves the global interrupt enable set. *)
Definition write_in_step (s : DWC2State) (op : irq_op) : Prop :=
  match op with
  | OpWrite addr val _ _ _ =>
    addr mod 4 = 0
    /\ (addr = GAHBCFG -> irq_level s = 1 ->
        val .& GAHBCFG_GLBL_INTR_EN <> 0)
  | _ => True
  end.

Fixpoint ops_in_step (s : DWC2State) (ops : list irq_op) : Prop :=
  match ops with
  | [] => True
  | op :: ops =>
    write_in_step s op
    /\ match run_op s op with
       | Some s => ops_in_step s ops
       | None => True
       end
  end.

(** [s'] is in step when [s] is; and [dwc2_update_irq] and the line agree
    on the level in [s'] when they do in [s]. *)
Record line_kept (s s' : DWC2State) : Prop := mk_line_kept {
  lk_old : oldlevel s = irq s -> oldlevel s' = irq s';
  lk_sync : irq_synced s -> irq_synced s'
}.

(** The state carried by a result of the model: the state itself, the
    first component of a tuple, the content of an option. *)
Class Carrier (T : Type) := carried : T -> option DWC2State.

#[export] Instance carrier_state : Carrier DWC2State := fun s => Some s.
#[export] Instance carrier_pair (A B : Type) {CA : Carrier A} : Carrier (A * B) :=
  fun p => carried (fst p).
#[export] Instance carrier_option (A : Type) {CA : Carrier A} : Carrier (option A) :=
  fun o => match o with Some a => carried a | None => None end.

Definition kept {T : Type} {CT : Carrier T} (s : DWC2State) (x : T) : Prop :=
  forall s', carried x = Some s' -> line_kept s s'.

End Model.

(** ** A concrete layout and a concrete memory

    The theorems below hold for every [Dwc2Regs] and [GuestMemory] that meet
    their hypotheses.  To run the model on concrete inputs, [hsotg_regs]
    gives the constants the values of the DesignWare hs-otg register map
    (bit positions as the Linux dwc2 driver's hw.h lists them, from which
    QEMU's dwc2-regs.h is taken; the [_GET] forms follow the masks), and
    [flat_ram] is a memory of bytes in which every access succeeds. *)
Definition BIT (n : Z) : Z := 1 << n.

Definition hsotg_regs : Dwc2Regs := {|
  DWC2_NB_CHAN := 8;
  DWC2_NB_EP := 16;
  DWC2_MAX_XFER_SIZE := 65536;
  GOTGCTL_MULT_VALID_BC_MASK := 0x1f << 22;
  GOTGCTL_BSESVLD := BIT 19;
  GOTGCTL_ASESVLD := BIT 18;
  GOTGCTL_DBNC_SHORT := BIT 17;
  GOTGCTL_CONID_B := BIT 16;
  GOTGCTL_HSTNEGSCS := BIT 8;
  GOTGCTL_SESREQSCS := BIT 0;
  GAHBCFG_GLBL_INTR_EN := BIT 0;
  GUSBCFG_USBTRDTIM_SHIFT := 10;
  GRSTCTL_AHBIDLE := BIT 31;
  GRSTCTL_DMAREQ := BIT 30;
  GRSTCTL_TXFFLSH := BIT 5;
  GRSTCTL_RXFFLSH := BIT 4;
  GRSTCTL_IN_TKNQ_FLSH := BIT 3;
  GRSTCTL_FRMCNTRRST := BIT 2;
  GRSTCTL_HSFTRST := BIT 1;
  GRSTCTL_CSFTRST := BIT 0;
  GINTSTS_DISCONNINT := BIT 29;
  GINTSTS_CONIDSTSCHNG := BIT 28;
  GINTSTS_PTXFEMP := BIT 26;
  GINTSTS_HCHINT := BIT 25;
  GINTSTS_PRTINT := BIT 24;
  GINTSTS_OEPINT := BIT 19;
  GINTSTS_IEPINT := BIT 18;
  GINTSTS_ENUMDONE := BIT 13;
  GINTSTS_USBRST := BIT 12;
  GINTSTS_GOUTNAKEFF := BIT 7;
  GINTSTS_GINNAKEFF := BIT 6;
  GINTSTS_NPTXFEMP := BIT 5;
  GINTSTS_RXFLVL := BIT 4;
  GINTSTS_SOF := BIT 3;
  GINTSTS_OTGINT := BIT 2;
  GINTSTS_CURMODE_HOST := BIT 0;
  FIFOSIZE_DEPTH_SHIFT := 16;
  GI2CCTL_I2CDATSE0 := BIT 28;
  GI2CCTL_ACK := BIT 24;
  GHWCFG2_DEV_TOKEN_Q_DEPTH_SHIFT := 26;
  GHWCFG2_HOST_PERIO_TX_Q_DEPTH_SHIFT := 24;
  GHWCFG2_NONPERIO_TX_Q_DEPTH_SHIFT := 22;
  GHWCFG2_DYNAMIC_FIFO := BIT 19;
  GHWCFG2_PERIO_EP_SUPPORTED := BIT 18;
  GHWCFG2_NUM_HOST_CHAN_SHIFT := 14;
  GHWCFG2_INT_DMA_ARCH := 2;
  GHWCFG2_ARCHITECTURE_SHIFT := 3;
  GHWCFG2_OP_MODE_NO_SRP_CAPABLE_HOST := 6;
  GHWCFG2_OP_MODE_SHIFT := 0;
  GHWCFG3_DFIFO_DEPTH_SHIFT := 16;
  GHWCFG3_PACKET_SIZE_CNTR_WIDTH_SHIFT := 4;
  GHWCFG3_XFER_SIZE_CNTR_WIDTH_SHIFT := 0;
  GPWRDN_PWRDNRSTN := BIT 4;
  HCFG_RESVALID_SHIFT := 8;
  TXSTS_QSPCAVAIL_SHIFT := 16;
  HFNUM_FRREM_SHIFT := 16;
  HFNUM_FRNUM_SHIFT := 0;
  HFNUM_MAX_FRNUM := 0x3fff;
  HPRT0_SPD_MASK := 0x3 << 17;
  HPRT0_SPD_SHIFT := 17;
  HPRT0_SPD_HIGH_SPEED := 0;
  HPRT0_SPD_FULL_SPEED := 1;
  HPRT0_SPD_LOW_SPEED := 2;
  HPRT0_PWR := BIT 12;
  HPRT0_LNSTS_MASK := 0x3 << 10;
  HPRT0_RST := BIT 8;
  HPRT0_SUSP := BIT 7;
  HPRT0_RES := BIT 6;
  HPRT0_OVRCURRCHG := BIT 5;
  HPRT0_OVRCURRACT := BIT 4;
  HPRT0_ENACHG := BIT 3;
  HPRT0_ENA := BIT 2;
  HPRT0_CONNDET := BIT 1;
  HPRT0_CONNSTS := BIT 0;
  HCCHAR_CHENA := BIT 31;
  HCCHAR_CHDIS := BIT 30;
  HCCHAR_DEVADDR_MASK := 0x7f << 22;
  HCCHAR_DEVADDR_SHIFT := 22;
  HCCHAR_EPTYPE_MASK := 0x3 << 18;
  HCCHAR_EPTYPE_SHIFT := 18;
  HCCHAR_EPDIR := BIT 15;
  HCCHAR_EPNUM_MASK := 0xf << 11;
  HCCHAR_EPNUM_SHIFT := 11;
  HCCHAR_MPS_MASK := 0x7ff << 0;
  HCCHAR_MPS_SHIFT := 0;
  HCINTMSK_RESERVED14_31 := 0x3ffff << 14;
  HCINTMSK_BBLERR := BIT 8;
  HCINTMSK_XACTERR := BIT 7;
  HCINTMSK_NAK := BIT 4;
  HCINTMSK_STALL := BIT 3;
  HCINTMSK_CHHLTD := BIT 1;
  HCINTMSK_XFERCOMPL := BIT 0;
  TSIZ_SC_MC_PID_MASK := 0x3 << 29;
  TSIZ_SC_MC_PID_SHIFT := 29;
  TSIZ_SC_MC_PID_SETUP := 3;
  TSIZ_PKTCNT_MASK := 0x3ff << 19;
  TSIZ_PKTCNT_SHIFT := 19;
  TSIZ_XFERSIZE_MASK := 0x7ffff << 0;
  TSIZ_XFERSIZE_SHIFT := 0;
  DCFG_DESCDMA_EN := BIT 23;
  DCFG_DEVADDR_MASK := 0x7f << 4;
  DCFG_DEVADDR_SHIFT := 4;
  DCTL_CGOUTNAK := BIT 10;
  DCTL_SGOUTNAK := BIT 9;
  DCTL_CGNPINNAK := BIT 8;
  DCTL_SGNPINNAK := BIT 7;
  DCTL_GOUTNAKSTS := BIT 3;
  DCTL_GNPINNAKSTS := BIT 2;
  DCTL_SFTDISCON := BIT 1;
  DSTS_ENUMSPD_MASK := 0x3 << 1;
  DSTS_ENUMSPD_SHIFT := 1;
  DSTS_ENUMSPD_HS := 0;
  D0EPCTL_MPS_MASK := 0x3 << 0;
  D0EPCTL_MPS_64 := 0;
  D0EPCTL_MPS_32 := 1;
  D0EPCTL_MPS_16 := 2;
  D0EPCTL_MPS_8 := 3;
  DXEPCTL_EPENA := BIT 31;
  DXEPCTL_EPDIS := BIT 30;
  DXEPCTL_SNAK := BIT 27;
  DXEPCTL_CNAK := BIT 26;
  DXEPCTL_STALL := BIT 21;
  DXEPCTL_EPTYPE_MASK := 0x3 << 18;
  DXEPCTL_EPTYPE_SHIFT := 18;
  DXEPCTL_NAKSTS := BIT 17;
  DXEPCTL_USBACTEP := BIT 15;
  DXEPCTL_TXFNUM_GET := fun v => (v >> 22) .& 0xf;
  DXEPCTL_MPS_GET := fun v => (v >> 0) .& 0x7ff;
  DXEPINT_SETUP_RCVD := BIT 15;
  DXEPINT_INEPNAKEFF := BIT 6;
  DXEPINT_INTKNTXFEMP := BIT 4;
  DXEPINT_OUTTKNEPDIS := BIT 4;
  DXEPINT_SETUP := BIT 3;
  DXEPINT_EPDISBLD := BIT 1;
  DXEPINT_XFERCOMPL := BIT 0;
  DIEPTSIZ0_PKTCNT_MASK := 0x3 << 19;
  DIEPTSIZ0_PKTCNT := fun x => x << 19;
  DIEPTSIZ0_PKTCNT_GET := fun v => (v >> 19) .& 0x3;
  DIEPTSIZ0_XFERSIZE_MASK := 0x7f << 0;
  DIEPTSIZ0_XFERSIZE := fun x => x << 0;
  DIEPTSIZ0_XFERSIZE_GET := fun v => (v >> 0) .& 0x7f;
  DOEPTSIZ0_SUPCNT := fun x => x << 29;
  DOEPTSIZ0_PKTCNT_MASK := 0x1 << 19;
  DOEPTSIZ0_PKTCNT := fun x => x << 19;
  DOEPTSIZ0_PKTCNT_GET := fun v => (v >> 19) .& 0x1;
  DOEPTSIZ0_XFERSIZE_MASK := 0x7f << 0;
  DOEPTSIZ0_XFERSIZE := fun x => x << 0;
  DOEPTSIZ0_XFERSIZE_GET := fun v => (v >> 0) .& 0x7f;
  DXEPTSIZ_PKTCNT_MASK := 0x3ff << 19;
  DXEPTSIZ_PKTCNT := fun x => x << 19;
  DXEPTSIZ_PKTCNT_GET := fun v => (v >> 19) .& 0x3ff;
  DXEPTSIZ_XFERSIZE_MASK := 0x7ffff << 0;
  DXEPTSIZ_XFERSIZE := fun x => x << 0;
  DXEPTSIZ_XFERSIZE_GET := fun v => (v >> 0) .& 0x7ffff;
  DEV_DMA_BUFF_STS_MASK := 0x3 << 30;
  DEV_DMA_BUFF_STS_SHIFT := 30;
  DEV_DMA_BUFF_STS_GET := fun v => (v .& (0x3 << 30)) >> 30;
  DEV_DMA_BUFF_STS_DMADONE := 2;
  DEV_DMA_L := BIT 27;
  DEV_DMA_SHORT := BIT 26;
  DEV_DMA_IOC := BIT 25;
  DEV_DMA_SR := BIT 24;
  DEV_DMA_NBYTES_MASK := 0xffff << 0;
  USB_TOKEN_SETUP := 0x2d;
  USB_TOKEN_IN := 0x69;
  USB_TOKEN_OUT := 0xe1;
  USB_REQ_SET_ADDRESS := 0x05;
  USB_SPEED_LOW := 0;
  USB_SPEED_FULL := 1;
  USB_SPEED_HIGH := 2
|}.

(** Bytes [n] of a memory from address [a] on. *)
Definition ram_read (m : Z -> Z) (a n : Z) : list Z :=
  map (fun i => m (a + Z.of_nat i)) (seq 0 (Z.to_nat n)).

Fixpoint ram_write (m : Z -> Z) (a : Z) (bytes : list Z) : Z -> Z :=
  match bytes with
  | [] => m
  | b :: bytes => ram_write (fun x => if x =? a then b else m x) (a + 1) bytes
  end.

(** Copy a buffer out to the entries of a scatter/gather list, and fill a
    buffer from them, entry after entry. *)
Fixpoint ram_scatter (m : Z -> Z) (buffer : list Z) (sg : QEMUSGList)
  : Z -> Z :=
  match sg with
  | [] => m
  | (base, len) :: sg =>
    ram_scatter (ram_write m base (firstn (Z.to_nat len) buffer))
      (skipn (Z.to_nat len) buffer) sg
  end.

Fixpoint ram_gather (m : Z -> Z) (sg : QEMUSGList) : list Z :=
  match sg with
  | [] => []
  | (base, len) :: sg => ram_read m base len ++ ram_gather m sg
  end.

Definition flat_ram : GuestMemory := {|
  Mem := Z -> Z;
  dma_memory_read := fun m a n => (true, ram_read m a n);
  dma_memory_write := fun m a bytes => (true, ram_write m a bytes);
  dma_buf_read := fun m buffer sg => (ram_scatter m buffer sg, 0);
  dma_buf_write := fun m n sg => (firstn (Z.to_nat n) (ram_gather m sg), 0)
|}.

(** The state after power-on with nothing attached: all banks zero, the
    frame clock as [dwc2_realize] sets it. *)
Definition idle_packet : DWC2Packet :=
  mkDWC2Packet (mkUSBPacket 0 0 [] 0 0 USB_PACKET_UNDEFINED) 0 0 0 0 0 0 0 0
    DWC2_ASYNC_NONE false false.

Definition blank_state : @DWC2State flat_ram :=
  @mkDWC2State flat_ram zero_bank zero_bank zero_bank zero_bank zero_bank zero_bank
    zero_bank zero_bank zero_bank zero_bank (fun _ => idle_packet)
    (fun _ => []) 0 (Z.quot NANOSECONDS_PER_SECOND 1000)
    (Z.quot NANOSECONDS_PER_SECOND USB_HZ_FS) 2 0 (USB_FRMINTVL - 1) 0 false
    None None false false None (mkUSBDevice false 2 0)
    ((fun _ => 0) : Z -> Z) 0 0 [].

(** ** Inputs of the examples *)

(** An IN packet for endpoint 1, which is not active after power-on, is
    answered with NAK by the processing and leaves the asynchronous path
    as IO-error. *)
Definition nak_packet : USBPacket :=
  mkUSBPacket (@USB_TOKEN_IN hsotg_regs) 1 [0; 0; 0; 0] 0 USB_RET_SUCCESS
    USB_PACKET_ASYNC.

(** Channel 0 programmed for a bulk IN transfer of 256 bytes in four
    packets of 64 from endpoint 1 of device 5, enabled. *)
Definition bulk_in_channel : @DWC2State flat_ram :=
  set_hreg1 blank_state
    (bank_set
       (bank_set zero_bank 0
          (BIT 31 .| (5 << 22) .| (USB_ENDPOINT_XFER_BULK << 18) .| BIT 15
           .| (1 << 11) .| 64))
       4 ((4 << 19) .| 256)).

(** The same channel as an interrupt channel. *)
Definition intr_in_channel : @DWC2State flat_ram :=
  set_hreg1 blank_state
    (bank_set
       (bank_set zero_bank 0
          (BIT 31 .| (5 << 22) .| (USB_ENDPOINT_XFER_INT << 18) .| BIT 15
           .| (1 << 11) .| 64))
       4 ((4 << 19) .| 256)).

(** Channel 0 programmed for one IN packet of 64 bytes. *)
Definition single_in_channel : @DWC2State flat_ram :=
  set_hreg1 blank_state
    (bank_set
       (bank_set zero_bank 0
          (BIT 31 .| (5 << 22) .| (USB_ENDPOINT_XFER_BULK << 18) .| BIT 15
           .| (1 << 11) .| 64))
       4 ((1 << 19) .| 64)).

Definition short_reply : usb_reply :=
  mkReply USB_RET_SUCCESS 10 [1; 2; 3; 4; 5; 6; 7; 8; 9; 10].

Definition nak_reply : usb_reply := mkReply USB_RET_NAK 0 [].

Definition long_reply : usb_reply :=
  mkReply USB_RET_SUCCESS 65 (repeat 0 65).

(** Channel 0 halted with the transfer-complete cause pending. *)
Definition halted_channel : @DWC2State flat_ram :=
  set_hreg1 blank_state (bank_set zero_bank 2 (BIT 1 .| BIT 0)).

(** The guest unmasks the start-of-frame cause and enables interrupts,
    and a start of frame is raised. *)
Definition sof_raised_ops : list irq_op :=
  [ OpWrite GINTMSK (BIT 3) 0 (fun _ => false) nak_reply;
    OpWrite GAHBCFG (BIT 0) 0 (fun _ => false) nak_reply;
    OpRaiseGlobal (BIT 3) ].

(** The controller after a reset: OUT endpoint 0 is active and not
    enabled. *)
Definition reset_device : @DWC2State flat_ram :=
  @dwc2_reset_registers hsotg_regs flat_ram blank_state.

(** The same with OUT endpoint 0 enabled for a transfer of eight bytes. *)
Definition armed_device : @DWC2State flat_ram :=
  @doep_put flat_ram
    (@doep_put flat_ram reset_device (DOEPCTL 0) (BIT 31 .| BIT 15))
    (DOEPTSIZ 0) 8.

(** SET_ADDRESS(1) in a SETUP packet for endpoint 0. *)
Definition set_address_packet : USBPacket :=
  mkUSBPacket (@USB_TOKEN_SETUP hsotg_regs) 0 [0; 5; 1; 0; 0; 0; 0; 0] 0
    USB_RET_SUCCESS USB_PACKET_SETUP.

Definition stall_reply : usb_reply := mkReply USB_RET_STALL 0 [].

Definition async_reply : usb_reply := mkReply USB_RET_ASYNC 0 [].

(** The bulk IN channel 0 with its packet waiting for service, and the
    scan of the bottom half due to start at channel 5. *)
Definition waiting_channel : @DWC2State flat_ram :=
  set_next_chan
    (@set_packet_at flat_ram bulk_in_channel 0
       (mkDWC2Packet (mkUSBPacket 0 0 [] 0 0 USB_PACKET_UNDEFINED) 5 1 1 64
          (@USB_TOKEN_IN hsotg_regs) 0 4 256 DWC2_ASYNC_NONE false true))
    5.

(** Channel 0 halted with the channel-halted cause unmasked in HCINTMSK
    and channel 0 unmasked in HAINTMSK. *)
Definition unmasked_channel : @DWC2State flat_ram :=
  @h0_put flat_ram
    (set_hreg1 blank_state
       (bank_set (bank_set zero_bank 2 (BIT 1 .| BIT 0)) 3 (BIT 1)))
    HAINTMSK 1.

(** IN endpoint 3 with the transfer-complete cause pending and unmasked. *)
Definition pending_endpoint : @DWC2State flat_ram :=
  @d_put flat_ram (@diep_put flat_ram blank_state (DIEPINT 3) 1) DIEPMSK 1.

(** The waiting channel with a high-speed device on the root port. *)
Definition port_device : @DWC2State flat_ram :=
  set_uport_dev waiting_channel
    (Some (mkUSBDevice true (@USB_SPEED_HIGH hsotg_regs) 0)).

(** The root port held in reset with the device connected. *)
Definition port_in_reset : @DWC2State flat_ram :=
  @h0_put flat_ram port_device HPRT0
    (@HPRT0_RST hsotg_regs .| @HPRT0_PWR hsotg_regs
     .| @HPRT0_CONNSTS hsotg_regs).

(** The controller off the bus as a device: soft disconnect set in DCTL,
    nothing on the root port. *)
Definition off_bus_device : @DWC2State flat_ram :=
  @d_put flat_ram blank_state DCTL (@DCTL_SFTDISCON hsotg_regs).

(** IN endpoint 1 active and enabled with eight bytes programmed at guest
    address 0x1000 and a maximum packet size of 64, and an IN token of the
    host for that endpoint with room for four bytes. *)
Definition in_endpoint : @DWC2State flat_ram :=
  @diep_put flat_ram
    (@diep_put flat_ram
       (@diep_put flat_ram blank_state (DIEPCTL 1) (BIT 31 .| BIT 15 .| 64))
       (DIEPTSIZ 1) ((1 << 19) .| 8))
    (DIEPDMA 1) 0x1000.

Definition in_token : USBPacket :=
  mkUSBPacket (@USB_TOKEN_IN hsotg_regs) 1 [0; 0; 0; 0] 0 USB_RET_SUCCESS
    USB_PACKET_SETUP.

(** The controller on the bus as a device. *)
Definition on_bus_device : @DWC2State flat_ram :=
  set_device blank_state (mkUSBDevice true 2 0).

(** The bulk IN channel 0 with the root port enabled. *)
Definition port_enabled_channel : @DWC2State flat_ram :=
  @h0_put flat_ram bulk_in_channel HPRT0 (BIT 2).

(** The armed device in descriptor-DMA mode.  DOEPDMA points to one
    descriptor at 0x1000 in guest memory: ready for the controller, with
    room for eight bytes in the buffer at 0x2000. *)
Definition desc_device : @DWC2State flat_ram :=
  @set_dma_as flat_ram
    (@doep_put flat_ram (@d_put flat_ram armed_device DCFG (BIT 23))
       (DOEPDMA 0) 0x1000)
    (ram_write (fun _ => 0) 0x1000 [8; 0; 0; 0; 0; 0x20; 0; 0]).

(** The armed device with room for four bytes only. *)
Definition short_device : @DWC2State flat_ram :=
  @doep_put flat_ram armed_device (DOEPTSIZ 0) 4.

(** * Properties *)

(** ** Words and bits *)

Lemma nz_true (x : Z) : nz x = true <-> x <> 0.
Proof. unfold nz. rewrite negb_true_iff, Z.eqb_neq. tauto. Qed.

Lemma nz_false (x : Z) : nz x = false <-> x = 0.
Proof. unfold nz. rewrite negb_false_iff, Z.eqb_eq. tauto. Qed.

Lemma u32_range (x : Z) : 0 <= u32 x < 2 ^ 32.
Proof. unfold u32. apply Z.mod_pos_bound. lia. Qed.

Lemma u32_small (x : Z) : 0 <= x < 2 ^ 32 -> u32 x = x.
Proof. intros. unfold u32. apply Z.mod_small. assumption. Qed.

Lemma u32_testbit (x i : Z) :
  0 <= i < 32 -> Z.testbit (u32 x) i = Z.testbit x i.
Proof. intros. unfold u32. apply Z.mod_pow2_bits_low. lia. Qed.

Lemma u32_land_small (x m : Z) : 0 <= m < 2 ^ 32 -> u32 x .& m = x .& m.
Proof.
  intros Hm. unfold u32. rewrite <- Z.land_ones by lia.
  rewrite <- Z.land_assoc. f_equal.
  rewrite Z.land_comm, Z.land_ones by lia. apply Z.mod_small. assumption.
Qed.

Lemma land_disjoint_bit (a b i : Z) :
  a .& b = 0 -> Z.testbit a i && Z.testbit b i = false.
Proof. intros H. rewrite <- Z.land_spec, H. apply Z.bits_0. Qed.

Lemma land_lnot_disjoint (a b : Z) : a .& b = 0 -> a .& .~ b = a.
Proof.
  intros H. apply Z.bits_inj'. intros i Hi.
  rewrite Z.land_spec, Z.lnot_spec by assumption.
  pose proof (land_disjoint_bit a b i H).
  destruct (Z.testbit a i), (Z.testbit b i); simpl in *; congruence.
Qed.

Lemma lor_land_keep (x a b : Z) : a .& b = 0 -> (x .| a) .& b = x .& b.
Proof.
  intros H. apply Z.bits_inj'. intros i Hi.
  rewrite !Z.land_spec, Z.lor_spec.
  pose proof (land_disjoint_bit a b i H).
  destruct (Z.testbit a i), (Z.testbit b i), (Z.testbit x i);
    simpl in *; congruence.
Qed.

Lemma lor_land_same (x a : Z) : (x .| a) .& a = a.
Proof.
  apply Z.bits_inj'. intros i Hi. rewrite Z.land_spec, Z.lor_spec.
  destruct (Z.testbit a i), (Z.testbit x i); reflexivity.
Qed.

Lemma land_lnot_same (x a : Z) : (x .& .~ a) .& a = 0.
Proof.
  apply Z.bits_inj'. intros i Hi.
  rewrite !Z.land_spec, Z.lnot_spec, Z.bits_0 by assumption.
  destruct (Z.testbit a i), (Z.testbit x i); reflexivity.
Qed.

Lemma land_lnot_keep (x a b : Z) : a .& b = 0 -> (x .& .~ a) .& b = x .& b.
Proof.
  intros H. apply Z.bits_inj'. intros i Hi.
  rewrite !Z.land_spec, Z.lnot_spec by assumption.
  pose proof (land_disjoint_bit a b i H).
  destruct (Z.testbit a i), (Z.testbit b i), (Z.testbit x i);
    simpl in *; congruence.
Qed.

Lemma bank_set_same (b : bank) (i v : Z) : bank_set b i v i = v.
Proof. unfold bank_set. rewrite Z.eqb_refl. reflexivity. Qed.

Lemma bank_set_other (b : bank) (i j v : Z) :
  j <> i -> bank_set b i v j = b j.
Proof.
  intros H. unfold bank_set. destruct (j =? i) eqn:E; [|reflexivity].
  apply Z.eqb_eq in E. contradiction.
Qed.

(** ** The frame clock *)

Section FrameClock.

Context {R : Dwc2Regs} {M : GuestMemory}.

Lemma tks_nonneg (s : DWC2State) (now : Z) :
  0 <= (if now - sof_time s <? 0 then 0 else now - sof_time s).
Proof. destruct (now - sof_time s <? 0) eqn:E; lia. Qed.

Lemma frame_remaining_le_fi (s : DWC2State) (now : Z) :
  0 < usb_bit_time s ->
  0 <= fi s < 2 ^ 16 ->
  0 <= dwc2_get_frame_remaining s now <= fi s.
Proof.
  intros Hb Hfi. unfold dwc2_get_frame_remaining.
  pose proof (tks_nonneg s now) as Ht.
  set (tks := if now - sof_time s <? 0 then 0 else now - sof_time s) in *.
  destruct (tks >=? usb_frame_time s); [lia|].
  destruct (tks <? usb_bit_time s); [lia|].
  destruct (Z.quot tks (usb_bit_time s) >=? fi s) eqn:E; [lia|].
  assert (0 <= Z.quot tks (usb_bit_time s)) by (apply Z.quot_pos; lia).
  rewrite u32_small by lia. lia.
Qed.

Lemma frame_remaining_mono (s : DWC2State) (t1 t2 : Z) :
  0 < usb_bit_time s ->
  0 <= fi s < 2 ^ 16 ->
  t1 <= t2 ->
  dwc2_get_frame_remaining s t2 <= dwc2_get_frame_remaining s t1.
Proof.
  intros Hb Hfi Ht.
  pose proof (frame_remaining_le_fi s t1 Hb Hfi) as B1.
  pose proof (frame_remaining_le_fi s t2 Hb Hfi) as B2.
  unfold dwc2_get_frame_remaining in *.
  pose proof (tks_nonneg s t1) as N1. pose proof (tks_nonneg s t2) as N2.
  assert (Hle : (if t1 - sof_time s <? 0 then 0 else t1 - sof_time s)
                <= (if t2 - sof_time s <? 0 then 0 else t2 - sof_time s)).
  { destruct (t1 - sof_time s <? 0) eqn:E1, (t2 - sof_time s <? 0) eqn:E2; lia. }
  set (k1 := if t1 - sof_time s <? 0 then 0 else t1 - sof_time s) in *.
  set (k2 := if t2 - sof_time s <? 0 then 0 else t2 - sof_time s) in *.
  destruct (k2 >=? usb_frame_time s) eqn:F2; [lia|].
  destruct (k1 >=? usb_frame_time s) eqn:F1; [lia|].
  destruct (k2 <? usb_bit_time s) eqn:G2.
  - destruct (k1 <? usb_bit_time s) eqn:G1; lia.
  - assert (Q2 : 1 <= Z.quot k2 (usb_bit_time s)).
    { rewrite Z.quot_div_nonneg by lia.
      apply Z.div_le_lower_bound; lia. }
    destruct (Z.quot k2 (usb_bit_time s) >=? fi s) eqn:H2; [lia|].
    rewrite u32_small by lia.
    destruct (k1 <? usb_bit_time s) eqn:G1; [lia|].
    assert (Q12 : Z.quot k1 (usb_bit_time s) <= Z.quot k2 (usb_bit_time s)).
    { rewrite !Z.quot_div_nonneg by lia. apply Z.div_le_mono; lia. }
    assert (0 <= Z.quot k1 (usb_bit_time s)) by (apply Z.quot_pos; lia).
    destruct (Z.quot k1 (usb_bit_time s) >=? fi s) eqn:H1; [lia|].
    rewrite u32_small by lia. lia.
Qed.

Lemma frame_remaining_strict (s : DWC2State) (t1 t2 : Z) :
  0 < usb_bit_time s ->
  0 <= fi s < 2 ^ 16 ->
  sof_time s <= t1 ->
  t1 + usb_bit_time s <= t2 ->
  0 < dwc2_get_frame_remaining s t1 ->
  dwc2_get_frame_remaining s t2 < dwc2_get_frame_remaining s t1.
Proof.
  intros Hb Hfi Hs Ht.
  unfold dwc2_get_frame_remaining.
  assert (E1 : (t1 - sof_time s <? 0) = false) by lia.
  assert (E2 : (t2 - sof_time s <? 0) = false) by lia.
  rewrite E1, E2.
  set (k1 := t1 - sof_time s). set (k2 := t2 - sof_time s).
  assert (Hk : k1 + usb_bit_time s <= k2) by (subst k1 k2; lia).
  assert (0 <= k1) by (subst k1; lia).
  destruct (k1 >=? usb_frame_time s) eqn:F1; [lia|].
  intros Hpos.
  destruct (k2 >=? usb_frame_time s) eqn:F2; [lia|].
  destruct (k2 <? usb_bit_time s) eqn:G2; [lia|].
  assert (Q : Z.quot k1 (usb_bit_time s) + 1 <= Z.quot k2 (usb_bit_time s)).
  { rewrite !Z.quot_div_nonneg by lia.
    replace (k1 / usb_bit_time s + 1)
      with ((k1 + 1 * usb_bit_time s) / usb_bit_time s)
      by (rewrite Z.div_add by lia; reflexivity).
    apply Z.div_le_mono; lia. }
  assert (0 <= Z.quot k1 (usb_bit_time s)) by (apply Z.quot_pos; lia).
  destruct (Z.quot k2 (usb_bit_time s) >=? fi s) eqn:H2.
  - destruct (k1 <? usb_bit_time s); lia.
  - rewrite u32_small by lia.
    destruct (k1 <? usb_bit_time s) eqn:G1; [lia|].
    destruct (Z.quot k1 (usb_bit_time s) >=? fi s) eqn:H1; [lia|].
    rewrite u32_small in * by lia. lia.
Qed.

End FrameClock.

(** ** What the interrupt functions leave alone

    The raise, lower and update functions write the GINTSTS word of the
    global bank, the HAINT word of the host bank, the DAINT word of the
    device bank, the line and [oldlevel], and nothing else. *)
Section IrqFrame.

Context {R : Dwc2Regs} {M : GuestMemory}.

Lemma irq_frame_refl (s : DWC2State) : irq_frame s s.
Proof. constructor; reflexivity. Qed.

Lemma irq_frame_trans (s1 s2 s3 : DWC2State) :
  irq_frame s1 s2 -> irq_frame s2 s3 -> irq_frame s1 s3.
Proof.
  intros H1 H2. constructor; intros;
    (etransitivity; [eapply H2; eassumption|eapply H1; eassumption]).
Qed.

Lemma irq_frame_gintsts (s : DWC2State) (v : Z) :
  irq_frame s (glb_put s GINTSTS v).
Proof.
  constructor; try reflexivity. intros i Hi. simpl.
  apply bank_set_other. assumption.
Qed.

Lemma irq_frame_haint (s : DWC2State) (v : Z) :
  irq_frame s (h0_put s HAINT v).
Proof.
  constructor; try reflexivity. intros i Hi. simpl.
  apply bank_set_other. assumption.
Qed.

Lemma irq_frame_daint (s : DWC2State) (v : Z) :
  irq_frame s (d_put s DAINT v).
Proof.
  constructor; try reflexivity. intros i Hi. simpl.
  apply bank_set_other. assumption.
Qed.

Lemma irq_frame_update_irq (s : DWC2State) :
  irq_frame s (dwc2_update_irq s).
Proof.
  unfold dwc2_update_irq.
  destruct (negb (irq_level s =? oldlevel s)).
  - constructor; reflexivity.
  - apply irq_frame_refl.
Qed.

Lemma irq_frame_raise_global (s : DWC2State) (intr : Z) :
  irq_frame s (dwc2_raise_global_irq s intr).
Proof.
  unfold dwc2_raise_global_irq.
  destruct (negb (nz (gintsts s .& intr))); [|apply irq_frame_refl].
  eapply irq_frame_trans; [apply irq_frame_gintsts|apply irq_frame_update_irq].
Qed.

Lemma irq_frame_lower_global (s : DWC2State) (intr : Z) :
  irq_frame s (dwc2_lower_global_irq s intr).
Proof.
  unfold dwc2_lower_global_irq.
  destruct (nz (gintsts s .& intr)); [|apply irq_frame_refl].
  eapply irq_frame_trans; [apply irq_frame_gintsts|apply irq_frame_update_irq].
Qed.

Create HintDb irq_frame.

#[local] Hint Resolve irq_frame_refl irq_frame_gintsts irq_frame_haint
  irq_frame_daint irq_frame_update_irq irq_frame_raise_global
  irq_frame_lower_global : irq_frame.

(** Split a goal on the tests of the function at its head, and chain the
    frames of the calls it makes. *)
Ltac frame_steps :=
  repeat match goal with
  | |- irq_frame _ (if ?b then _ else _) => destruct b
  | |- irq_frame ?s ?s => apply irq_frame_refl
  | |- irq_frame _ _ =>
    solve [eauto with irq_frame]
  | |- irq_frame _ (?f ?t _) =>
    apply irq_frame_trans with (s2 := t)
  | |- irq_frame _ (?f ?t _ _) =>
    apply irq_frame_trans with (s2 := t)
  end.

Lemma irq_frame_raise_host (s : DWC2State) (h : Z) :
  irq_frame s (dwc2_raise_host_irq s h).
Proof. unfold dwc2_raise_host_irq. cbv zeta. frame_steps. Qed.

Lemma irq_frame_lower_host (s : DWC2State) (h : Z) :
  irq_frame s (dwc2_lower_host_irq s h).
Proof. unfold dwc2_lower_host_irq. cbv zeta. frame_steps. Qed.

Lemma irq_frame_raise_device (s : DWC2State) (ep : Z) (out : bool) :
  irq_frame s (dwc2_raise_device_irq s ep out).
Proof. unfold dwc2_raise_device_irq. cbv zeta. frame_steps. Qed.

Lemma irq_frame_lower_device (s : DWC2State) (ep : Z) (out : bool) :
  irq_frame s (dwc2_lower_device_irq s ep out).
Proof. unfold dwc2_lower_device_irq. cbv zeta. frame_steps. Qed.

#[local] Hint Resolve irq_frame_raise_host irq_frame_lower_host
  irq_frame_raise_device irq_frame_lower_device : irq_frame.

Lemma irq_frame_update_hc (s : DWC2State) (index : Z) :
  irq_frame s (dwc2_update_hc_irq s index).
Proof. unfold dwc2_update_hc_irq. cbv zeta. frame_steps. Qed.

Lemma irq_frame_update_ep (s : DWC2State) (ep : Z) :
  irq_frame s (dwc2_update_ep_irq s ep).
Proof. unfold dwc2_update_ep_irq. cbv zeta. frame_steps. Qed.

#[local] Hint Resolve irq_frame_update_hc irq_frame_update_ep : irq_frame.

End IrqFrame.

(** Case analysis on the tests and matches of a hypothesis, innermost
    scrutinee first. *)
Ltac break_match_hyp :=
  match goal with
  | H : context [match ?x with _ => _ end] |- _ =>
    lazymatch x with
    | context [match _ with _ => _ end] => fail
    | _ => destruct x eqn:?
    end
  end.

(** ** Device mode: NAK on the asynchronous path *)

Section DeviceNak.

Context {R : Dwc2Regs} {M : GuestMemory}.

Lemma usb_packet_copy_state (p p' : USBPacket) (buffer b' : list Z) (n : Z) :
  usb_packet_copy p buffer n = Some (p', b') ->
  pk_state p' = pk_state p /\ pk_pid p' = pk_pid p /\ pk_ep p' = pk_ep p.
Proof.
  unfold usb_packet_copy. intros H.
  repeat match type of H with
         | (if ?b then _ else _) = _ => destruct b
         end; inversion H; subst; simpl; auto.
Qed.

Ltac run_leaves :=
  repeat match goal with
         | H : Done _ = Done _ |- _ => inversion H; subst; clear H
         | H : Abort = Done _ |- _ => discriminate H
         | H : NoFuel = Done _ |- _ => discriminate H
         | H : usb_packet_copy _ _ _ = Some _ |- _ =>
           apply usb_packet_copy_state in H; destruct H as (? & ? & ?)
         | H : (_, _) = (_, _) |- _ => inversion H; subst; clear H
         end.

Lemma in_transfer_packet (fuel : nat) (s : DWC2State) (p : USBPacket)
    (ep pktsize sz pktcnt mps : Z) r :
  in_transfer fuel s p ep pktsize sz pktcnt mps = Done r ->
  let p' := match r with inl sp => snd sp | inr spa => snd (fst spa) end in
  pk_state p' = pk_state p /\ pk_pid p' = pk_pid p /\ pk_ep p' = pk_ep p.
Proof.
  unfold in_transfer. intros H.
  repeat (break_match_hyp; try discriminate); run_leaves; simpl;
    repeat split; congruence.
Qed.

Lemma device_token_in_packet (fuel : nat) (s s' : DWC2State)
    (p p' : USBPacket) (ep pktsize : Z) :
  device_token_in fuel s p ep pktsize = Done (s', p') ->
  pk_state p' = pk_state p /\ pk_pid p' = pk_pid p /\ pk_ep p' = pk_ep p.
Proof.
  unfold device_token_in. intros H.
  repeat (break_match_hyp; try discriminate); run_leaves;
    try (simpl; repeat split; congruence);
    match goal with
    | H : in_transfer _ _ _ _ _ _ _ _ = Done _ |- _ =>
      apply in_transfer_packet in H; simpl in H; simpl; exact H
    end.
Qed.

Lemma out_transfer_packet (fuel : nat) (s s' : DWC2State) (p p' : USBPacket)
    (ep pktsize sz pktcnt mps a : Z) (b : list Z) :
  out_transfer fuel s p ep pktsize sz pktcnt mps = Done (s', p', b, a) ->
  pk_state p' = pk_state p /\ pk_pid p' = pk_pid p /\ pk_ep p' = pk_ep p.
Proof.
  unfold out_transfer. intros H.
  repeat (break_match_hyp; try discriminate); run_leaves; simpl;
    repeat split; congruence.
Qed.

Lemma out_complete_packet (s s' : DWC2State) (p p' : USBPacket)
    (buffer : list Z) (ep pktsize mps a : Z) :
  out_complete s p buffer ep pktsize mps a = Done (s', p') ->
  pk_state p' = pk_state p /\ pk_pid p' = pk_pid p /\ pk_ep p' = pk_ep p.
Proof.
  unfold out_complete. intros H.
  destruct (transfer_status a (u32 pktsize) (u32 mps)); try discriminate.
  inversion H; subst. simpl. auto.
Qed.

Lemma device_token_out_packet (fuel : nat) (s s' : DWC2State)
    (p p' : USBPacket) (ep pktsize : Z) :
  device_token_out fuel s p ep pktsize = Done (s', p') ->
  pk_state p' = pk_state p /\ pk_pid p' = pk_pid p /\ pk_ep p' = pk_ep p.
Proof.
  unfold device_token_out. intros H.
  repeat (break_match_hyp; try discriminate); run_leaves;
    try (simpl; repeat split; congruence).
  match goal with
  | H1 : out_transfer _ _ _ _ _ _ _ _ = Done _,
    H2 : out_complete _ _ _ _ _ _ _ = Done _ |- _ =>
    apply out_transfer_packet in H1; apply out_complete_packet in H2;
      destruct H1 as (? & ? & ?), H2 as (? & ? & ?); repeat split; congruence
  end.
Qed.

Lemma process_packet_packet (fuel : nat) (s s' : DWC2State)
    (p p' : USBPacket) :
  dwc2_device_process_packet fuel s p = Done (s', p') ->
  pk_state p' = pk_state p /\ pk_pid p' = pk_pid p /\ pk_ep p' = pk_ep p.
Proof.
  unfold dwc2_device_process_packet. intros H.
  repeat (break_match_hyp; try discriminate); run_leaves;
    match goal with
    | H : device_token_in _ _ _ _ _ = Done _ |- _ =>
      apply device_token_in_packet in H; exact H
    | H : device_token_out _ _ _ _ _ = Done _ |- _ =>
      apply device_token_out_packet in H; exact H
    end.
Qed.

(** C10.  A device-mode packet whose processing ends in NAK leaves the
    asynchronous path with the status IO-error: [dwc2_device_process_async]
    completes it with that status, and [dwc2_usb_device_handle_packet]
    rewrites it when the packet is in flight.  Neither of the two ever
    leaves NAK on such a packet; a packet that is not in flight (the
    synchronous path) keeps the status the processing gave it, NAK
    included. *)
Theorem device_async_nak_becomes_ioerror
    (fuel : nat) (s s1 : DWC2State) (p p1 : USBPacket)
    (rest : list USBPacket) :
  dwc2_device_process_packet fuel s p = Done (s1, p1) ->
  (pk_state p = USB_PACKET_ASYNC ->
   exists p2,
     dwc2_device_process_async fuel s (Some (p :: rest))
     = Done (s1, Some p2, negb (pk_status p2 =? USB_RET_ASYNC))
     /\ pk_status p2 <> USB_RET_NAK
     /\ (pk_status p1 = USB_RET_NAK ->
         p2 = set_pk_status p1 USB_RET_IOERROR
         /\ negb (pk_status p2 =? USB_RET_ASYNC) = true)
     /\ (pk_status p1 <> USB_RET_NAK -> p2 = p1))
  /\ (exists p3,
        dwc2_usb_device_handle_packet fuel s p = Done (s1, p3)
        /\ (usb_packet_is_inflight p = true ->
            pk_status p3 <> USB_RET_NAK
            /\ (pk_status p1 = USB_RET_NAK ->
                p3 = set_pk_status p1 USB_RET_IOERROR))
        /\ (usb_packet_is_inflight p = false -> p3 = p1)).
Proof.
  intros Hrun.
  destruct (process_packet_packet _ _ _ _ _ Hrun) as (Hst & _ & _).
  split.
  - intros Hasync. unfold dwc2_device_process_async.
    rewrite Hasync, Hrun.
    destruct (pk_status p1 =? USB_RET_NAK) eqn:E.
    + apply Z.eqb_eq in E. eexists. split; [reflexivity|].
      simpl. repeat split; try discriminate. intros Hne. contradiction.
    + apply Z.eqb_neq in E. exists p1. split; [reflexivity|].
      repeat split; try assumption; intros; try contradiction; reflexivity.
  - unfold dwc2_usb_device_handle_packet, usb_packet_is_inflight.
    rewrite Hrun, Hst.
    destruct (pk_status p1 =? USB_RET_NAK) eqn:E.
    + apply Z.eqb_eq in E.
      destruct (pk_state p); simpl; eexists; (split; [reflexivity|]);
        split; intros; try discriminate; try reflexivity;
        (split; [simpl; discriminate|reflexivity]).
    + apply Z.eqb_neq in E. exists p1. rewrite andb_false_r.
      split; [reflexivity|]. split; intros; [|reflexivity].
      split; [assumption|]. intros; contradiction.
Qed.

End DeviceNak.

Lemma device_async_nak_becomes_ioerror_witness :
  exists p2,
    @dwc2_device_process_async hsotg_regs flat_ram 0 blank_state
      (Some [nak_packet])
    = Done (@dwc2_update_ep_irq hsotg_regs flat_ram blank_state 1,
            Some p2, true)
    /\ pk_status p2 = USB_RET_IOERROR.
Proof.
  destruct (@device_async_nak_becomes_ioerror hsotg_regs flat_ram 0
              blank_state
              (@dwc2_update_ep_irq hsotg_regs flat_ram blank_state 1)
              nak_packet (set_pk_status nak_packet USB_RET_NAK) [])
    as [Hasync _].
  - reflexivity.
  - destruct (Hasync eq_refl) as (p2 & Hrun & _ & Hnak & _).
    destruct (Hnak eq_refl) as [-> _].
    exists (set_pk_status (set_pk_status nak_packet USB_RET_NAK)
              USB_RET_IOERROR).
    split; [exact Hrun|reflexivity].
Defined.

(** ** Guest programming errors *)

Section GuestErrors.

Context {R : Dwc2Regs} {M : GuestMemory}.

Lemma in_range_true (addr lo hi : Z) :
  lo <= addr <= hi -> in_range addr lo hi = true.
Proof.
  intros. unfold in_range, HSOTG_REG.
  apply andb_true_iff. split; apply Z.leb_le; lia.
Qed.

Lemma in_range_false (addr lo hi : Z) :
  addr < lo \/ hi < addr -> in_range addr lo hi = false.
Proof.
  intros. unfold in_range, HSOTG_REG.
  apply andb_false_iff. rewrite !Z.leb_gt. lia.
Qed.

Lemma in_range_spec (addr lo hi : Z) :
  in_range addr lo hi = true <-> lo <= addr <= hi.
Proof.
  unfold in_range, HSOTG_REG. rewrite andb_true_iff, !Z.leb_le. tauto.
Qed.

Lemma bad_offset_only_logged (s : DWC2State) (fn : string) :
  only_logged s (bad_offset s fn).
Proof. eexists. reflexivity. Qed.

(** What [only_logged] leaves in place: every bank, every channel and
    packet context, the clock and the line. *)
Lemma only_logged_same (s s' : DWC2State) :
  only_logged s s' ->
  glbreg s' = glbreg s /\ fszreg s' = fszreg s /\ dfszreg s' = dfszreg s
  /\ hreg0 s' = hreg0 s /\ hreg1 s' = hreg1 s /\ dreg s' = dreg s
  /\ diepreg s' = diepreg s /\ doepreg s' = doepreg s
  /\ pcgreg s' = pcgreg s /\ packet s' = packet s
  /\ usb_buf s' = usb_buf s /\ dma_as s' = dma_as s
  /\ sof_time s' = sof_time s /\ frame_number s' = frame_number s
  /\ eof_timer s' = eof_timer s /\ frame_timer s' = frame_timer s
  /\ async_bh s' = async_bh s /\ device_async_bh s' = device_async_bh s
  /\ uport_dev s' = uport_dev s /\ device s' = device s
  /\ irq s' = irq s /\ oldlevel s' = oldlevel s.
Proof. intros [e ->]. repeat split. Qed.

Ltac decide_ranges :=
  repeat match goal with
         | |- context [in_range ?a ?lo ?hi] =>
           first [ rewrite (in_range_true a lo hi) by lia
                 | rewrite (in_range_false a lo hi) by lia ]
         end.

(** A guest programming error that a handler detects is logged and
    changes nothing else: a read at an offset that lies in the range of a
    bank and that the handler of the bank rejects returns 0, a write there
    stores nothing, and [dwc2_handle_packet] on a channel whose maximum
    packet size is zero or whose transfer size exceeds
    [DWC2_MAX_XFER_SIZE] returns at once.  None of them aborts.  (The
    offsets between the ranges of the banks are another matter: see
    [window_gaps].) *)
Theorem guest_errors_have_no_effect (s : DWC2State) :
  (forall addr now,
      bad_register_offset addr = true ->
      exists s', dwc2_hsotg_read s addr now = Some (s', 0)
                 /\ only_logged s s')
  /\ (forall addr val now lookup reply,
         bad_register_offset addr = true ->
         exists s', dwc2_hsotg_write s addr val now lookup reply = Some s'
                    /\ only_logged s s')
  /\ (forall devadr reply index send,
         get_field (hreg1 s index) HCCHAR_MPS_MASK HCCHAR_MPS_SHIFT = 0
         \/ get_field (hreg1 s (index + 4)) TSIZ_XFERSIZE_MASK
              TSIZ_XFERSIZE_SHIFT > DWC2_MAX_XFER_SIZE ->
         exists s', dwc2_handle_packet s devadr reply index send = Some s'
                    /\ only_logged s s').
Proof.
  split; [|split].
  - intros addr now H. unfold bad_register_offset in H.
    rewrite !orb_true_iff, !andb_true_iff, !in_range_spec in H.
    unfold dwc2_hsotg_read.
    destruct H as [[[[[[[[Hr H]|[Hr H]]|[Hr H]]|[Hr H]]|[Hr H]]|[Hr H]]|[Hr H]]|[Hr H]];
      decide_ranges;
      try (replace (addr =? HSOTG_REG 256) with false
            by (symmetry; apply Z.eqb_neq; unfold HSOTG_REG; lia)).
    + unfold dwc2_glbreg_read. rewrite H. eauto using bad_offset_only_logged.
    + unfold dwc2_dfszreg_read. rewrite H. eauto using bad_offset_only_logged.
    + unfold dwc2_hreg0_read. rewrite H, orb_true_r.
      eauto using bad_offset_only_logged.
    + unfold dwc2_hreg1_read. rewrite H, orb_true_r.
      eauto using bad_offset_only_logged.
    + unfold dwc2_dreg_read. rewrite H, orb_true_r.
      eauto using bad_offset_only_logged.
    + unfold dwc2_diepreg_read. rewrite H, orb_true_r.
      eauto using bad_offset_only_logged.
    + unfold dwc2_doepreg_read. rewrite H, orb_true_r.
      eauto using bad_offset_only_logged.
    + unfold dwc2_pcgreg_read. rewrite H, orb_true_r.
      eauto using bad_offset_only_logged.
  - intros addr val now lookup reply H. unfold bad_register_offset in H.
    rewrite !orb_true_iff, !andb_true_iff, !in_range_spec in H.
    unfold dwc2_hsotg_write.
    destruct H as [[[[[[[[Hr H]|[Hr H]]|[Hr H]]|[Hr H]]|[Hr H]]|[Hr H]]|[Hr H]]|[Hr H]];
      decide_ranges;
      try (replace (addr =? HSOTG_REG 256) with false
            by (symmetry; apply Z.eqb_neq; unfold HSOTG_REG; lia)).
    + unfold dwc2_glbreg_write. rewrite H. eauto using bad_offset_only_logged.
    + unfold dwc2_dfszreg_write. rewrite H. eauto using bad_offset_only_logged.
    + unfold dwc2_hreg0_write. rewrite H, orb_true_r.
      eauto using bad_offset_only_logged.
    + unfold dwc2_hreg1_write. rewrite H, orb_true_r.
      eauto using bad_offset_only_logged.
    + unfold dwc2_dreg_write. rewrite H, orb_true_r.
      eauto using bad_offset_only_logged.
    + unfold dwc2_diepreg_write. rewrite H, orb_true_r.
      eauto using bad_offset_only_logged.
    + unfold dwc2_doepreg_write. rewrite H, orb_true_r.
      eauto using bad_offset_only_logged.
    + unfold dwc2_pcgreg_write. rewrite H, orb_true_r.
      eauto using bad_offset_only_logged.
  - intros devadr reply index send H. unfold dwc2_handle_packet.
    destruct (get_field (hreg1 s (index + 4)) TSIZ_XFERSIZE_MASK
                TSIZ_XFERSIZE_SHIFT >? DWC2_MAX_XFER_SIZE) eqn:E.
    + eexists. split; [reflexivity|]. eexists. reflexivity.
    + destruct H as [H|H]; [|lia].
      rewrite H. simpl. eexists. split; [reflexivity|]. eexists. reflexivity.
Qed.

End GuestErrors.

(** ** Register write rules *)

Section WriteRules.

Context {R : Dwc2Regs} {M : GuestMemory}.

Lemma land_0x1c (base k : Z) :
  0 <= base < 32 -> (base + 32 * k) .& 0x1c = base .& 0x1c.
Proof.
  intros Hb. apply Z.bits_inj'. intros i Hi.
  rewrite !Z.land_spec.
  destruct (Z.ltb_spec i 5) as [Hlt|Hge].
  - f_equal.
    rewrite <- (Z.mod_pow2_bits_low (base + 32 * k) 5 i) by lia.
    rewrite <- (Z.mod_pow2_bits_low base 5 i) by lia.
    f_equal. change (2 ^ 5) with 32.
    replace (base + 32 * k) with (base + k * 32) by lia.
    apply Z.mod_add. lia.
  - replace (Z.testbit 28 i) with false; [rewrite !andb_false_r; reflexivity|].
    symmetry. apply (Z.bits_above_log2 28 i); [lia|]. simpl. lia.
Qed.

Lemma shiftr_2 (x : Z) : x >> 2 = x / 4.
Proof. rewrite Z.shiftr_div_pow2 by lia. reflexivity. Qed.

Lemma w1c_bit (old w i : Z) :
  0 <= i ->
  Z.testbit (.~ (w .| .~ old)) i = Z.testbit old i && negb (Z.testbit w i).
Proof.
  intros Hi. rewrite Z.lnot_spec, Z.lor_spec, Z.lnot_spec by assumption.
  destruct (Z.testbit old i), (Z.testbit w i); reflexivity.
Qed.

Lemma w1c_masked_bit (old w res b : Z) :
  0 <= b < 32 ->
  old .& res = 0 ->
  let new := u32 (.~ (w .| .~ old) .& .~ res) in
  (Z.testbit res b = true -> Z.testbit new b = Z.testbit old b)
  /\ (Z.testbit res b = false ->
      Z.testbit new b = Z.testbit (.~ (w .| .~ old)) b
      /\ Z.testbit new b = Z.testbit old b && negb (Z.testbit w b)).
Proof.
  intros Hb Hres new. subst new.
  rewrite u32_testbit, Z.land_spec, !w1c_bit, Z.lnot_spec by lia.
  pose proof (land_disjoint_bit _ _ b Hres) as Hz.
  destruct (Z.testbit old b), (Z.testbit w b), (Z.testbit res b);
    simpl in *; repeat split; congruence.
Qed.

(** C9.  A write to GRSTCTL cannot clear a reset sub-flag that is latched
    (a written 0 leaves it set), it latches the sub-flags written as 1, and
    a read of GRSTCTL returns all of them as 0 and stores them as 0,
    whatever was stored.  The write returns whenever it does not start a
    core soft reset. *)
Theorem grstctl_self_clearing (s : DWC2State) (w now : Z) :
  let idx := (GRSTCTL - HSOTG_REG 0x000) >> 2 in
  (rising (grstctl s) ((w .| GRSTCTL_AHBIDLE) .& .~ GRSTCTL_DMAREQ)
     GRSTCTL_CSFTRST = false ->
   exists s', dwc2_glbreg_write s GRSTCTL idx w now = Some s')
  /\ (forall s',
         dwc2_glbreg_write s GRSTCTL idx w now = Some s' ->
         (forall b, 0 <= b < 32 ->
                    Z.testbit GRSTCTL_self_clearing b = true ->
                    Z.testbit (grstctl s) b = true ->
                    Z.testbit (grstctl s') b = true)
         /\ (forall b, 0 <= b < 32 ->
                       Z.testbit GRSTCTL_self_clearing b = true ->
                       Z.testbit GRSTCTL_DMAREQ b = false ->
                       Z.testbit w b = true ->
                       Z.testbit (grstctl s') b = true)
         /\ snd (dwc2_glbreg_read s' GRSTCTL idx) .& GRSTCTL_self_clearing = 0
         /\ grstctl (fst (dwc2_glbreg_read s' GRSTCTL idx))
            .& GRSTCTL_self_clearing = 0).
Proof.
  intros idx.
  assert (Hw : forall s',
             dwc2_glbreg_write s GRSTCTL idx w now = Some s' ->
             grstctl s'
             = u32 (((w .| GRSTCTL_AHBIDLE) .& .~ GRSTCTL_DMAREQ)
                    .| (grstctl s .& GRSTCTL_self_clearing))).
  { intros s'. unfold dwc2_glbreg_write.
    replace (GRSTCTL >? GINTSTS2) with false by reflexivity.
    replace (GRSTCTL =? GOTGCTL) with false by reflexivity.
    replace (GRSTCTL =? GAHBCFG) with false by reflexivity.
    replace (GRSTCTL =? GRSTCTL) with true by reflexivity.
    cbv zeta.
    match goal with
    | |- match match ?r with _ => _ end with _ => _ end = _ -> _ =>
      destruct r as [s1|]; [|discriminate]
    end.
    intros H. inversion H; subst; clear H.
    unfold grstctl, glb_get. simpl. rewrite bank_set_same. reflexivity. }
  split.
  - intros Hno. unfold dwc2_glbreg_write.
    replace (GRSTCTL >? GINTSTS2) with false by reflexivity.
    replace (GRSTCTL =? GOTGCTL) with false by reflexivity.
    replace (GRSTCTL =? GAHBCFG) with false by reflexivity.
    replace (GRSTCTL =? GRSTCTL) with true by reflexivity.
    cbv zeta. unfold grstctl, glb_get in Hno. fold idx in Hno.
    rewrite Hno. eexists. reflexivity.
  - intros s' Hs'. rewrite (Hw s' Hs').
    split; [|split; [|split]].
    + intros b Hb Hsc Hold. rewrite u32_testbit by assumption.
      rewrite Z.lor_spec, (Z.land_spec (grstctl s)), Hold, Hsc.
      apply orb_true_r.
    + intros b Hb Hsc Hdma Hwb. rewrite u32_testbit by assumption.
      rewrite Z.lor_spec, Z.land_spec, Z.lor_spec, Z.lnot_spec by lia.
      rewrite Hwb, Hdma. reflexivity.
    + unfold dwc2_glbreg_read.
      replace (GRSTCTL >? GINTSTS2) with false by reflexivity.
      replace (GRSTCTL =? GRSTCTL) with true by reflexivity.
      simpl. apply land_lnot_same.
    + unfold dwc2_glbreg_read.
      replace (GRSTCTL >? GINTSTS2) with false by reflexivity.
      replace (GRSTCTL =? GRSTCTL) with true by reflexivity.
      unfold grstctl, glb_get. simpl. fold idx. rewrite bank_set_same.
      apply land_lnot_same.
Qed.

Lemma update_irq_glbreg (s : DWC2State) :
  glbreg (dwc2_update_irq s) = glbreg s.
Proof.
  unfold dwc2_update_irq.
  destruct (negb (irq_level s =? oldlevel s)); reflexivity.
Qed.

(** C3.  A write to a write-1-to-clear register (GINTSTS, HCINT of a
    channel, DIEPINT or DOEPINT of an endpoint) returns, and stores
    [~(w | ~old)] on the writable bits: a writable bit is set afterwards
    exactly when it was set and was not written as 1.  The bits a write
    cannot change, the read-only causes of GINTSTS and the reserved bits of
    HCINT, keep their value. *)
Theorem w1c_write_clears_written_ones (r : w1c_reg) (s : DWC2State)
    (w now : Z) (lookup : Z -> bool) (reply : usb_reply) :
  w1c_valid r ->
  w1c_value s r .& w1c_reserved r = 0 ->
  exists s',
    w1c_write s r w now lookup reply = Some s'
    /\ forall b, 0 <= b < 32 ->
         let old := w1c_value s r in
         let new := w1c_value s' r in
         (Z.testbit (w1c_read_only r .| w1c_reserved r) b = true ->
          Z.testbit new b = Z.testbit old b)
         /\ (Z.testbit (w1c_read_only r .| w1c_reserved r) b = false ->
             Z.testbit new b = Z.testbit (.~ (w .| .~ old)) b
             /\ Z.testbit new b = Z.testbit old b && negb (Z.testbit w b)).
Proof.
  intros Hvalid Hres. destruct r as [|ch|ep|ep]; simpl in *.
  - (* GINTSTS *)
    unfold dwc2_glbreg_write.
    replace (GINTSTS >? GINTSTS2) with false by reflexivity.
    replace (GINTSTS =? GOTGCTL) with false by reflexivity.
    replace (GINTSTS =? GAHBCFG) with false by reflexivity.
    replace (GINTSTS =? GRSTCTL) with false by reflexivity.
    replace (GINTSTS =? GINTSTS) with true by reflexivity.
    cbv zeta. eexists. split; [reflexivity|].
    intros b Hb. unfold gintsts, glb_get.
    rewrite update_irq_glbreg. simpl. rewrite bank_set_same.
    rewrite Z.lor_0_r, !u32_testbit by lia.
    rewrite Z.lor_spec, Z.land_spec, !w1c_bit by lia.
    set (o := Z.testbit (glbreg s (GINTSTS >> 2)) b).
    split; intros ->; [|split];
      destruct o, (Z.testbit w b); reflexivity.
  - (* HCINT *)
    unfold dwc2_hreg1_write.
    assert (Hguard : (HCINT ch <? HCCHAR 0)
                    || (HCINT ch >? HCDMAB (DWC2_NB_CHAN - 1)) = false).
    { apply orb_false_iff. unfold HCINT, HCCHAR, HCDMAB, HSOTG_REG.
      split; [apply Z.ltb_ge|rewrite Z.gtb_ltb; apply Z.ltb_ge]; lia. }
    assert (Hreg : HSOTG_REG 0x500 + (HCINT ch .& 0x1c) = HCINT 0).
    { unfold HCINT, HSOTG_REG.
      replace (0x508 + 0x20 * ch) with (8 + 32 * (40 + ch)) by lia.
      rewrite land_0x1c by lia. reflexivity. }
    rewrite Hguard, Hreg.
    replace (HCINT 0 =? HCDMAB 0) with false by reflexivity.
    replace (HCINT 0 =? HCCHAR 0) with false by reflexivity.
    replace (HCINT 0 =? HCINT 0) with true by reflexivity.
    cbv zeta iota beta. eexists. split; [reflexivity|].
    intros b Hb.
    rewrite (fr_hreg1 _ _ (irq_frame_update_hc _ _)).
    unfold h1_put. cbn [hreg1 set_hreg1]. rewrite bank_set_same.
    rewrite Z.lor_0_l. apply w1c_masked_bit; assumption.
  - (* DIEPINT *)
    unfold dwc2_diepreg_write.
    assert (Hguard : (DIEPINT ep <? DIEPCTL 0)
                    || (DIEPINT ep >? DTXFSTS (DWC2_NB_EP - 1)) = false).
    { apply orb_false_iff. unfold DIEPINT, DIEPCTL, DTXFSTS, HSOTG_REG.
      split; [apply Z.ltb_ge|rewrite Z.gtb_ltb; apply Z.ltb_ge]; lia. }
    assert (Hreg : DIEPCTL0 + (DIEPINT ep .& 0x1c) = DIEPINT 0).
    { unfold DIEPINT, DIEPCTL0, HSOTG_REG.
      replace (0x908 + 0x20 * ep) with (8 + 32 * (72 + ep)) by lia.
      rewrite land_0x1c by lia. reflexivity. }
    rewrite Hguard, Hreg.
    replace (DIEPINT 0 =? DIEPCTL 0) with false by reflexivity.
    replace (DIEPINT 0 =? DIEPINT 0) with true by reflexivity.
    cbv zeta iota beta. eexists. split; [reflexivity|].
    intros b Hb. unfold diepint, diep_get.
    rewrite (fr_diepreg _ _ (irq_frame_update_ep _ _)).
    simpl. rewrite bank_set_same.
    rewrite Z.lor_0_l, Z.bits_0, !u32_testbit by lia.
    rewrite Z.land_spec, Z.lnot_spec, !w1c_bit by lia.
    split; intros Hf; [discriminate|]. split; reflexivity.
  - (* DOEPINT *)
    unfold dwc2_doepreg_write.
    assert (Hguard : (DOEPINT ep <? DOEPCTL 0)
                    || (DOEPINT ep >? DOEPDMA (DWC2_NB_EP - 1)) = false).
    { apply orb_false_iff. unfold DOEPINT, DOEPCTL, DOEPDMA, HSOTG_REG.
      split; [apply Z.ltb_ge|rewrite Z.gtb_ltb; apply Z.ltb_ge]; lia. }
    assert (Hreg : DOEPCTL0 + (DOEPINT ep .& 0x1c) = DOEPINT 0).
    { unfold DOEPINT, DOEPCTL0, HSOTG_REG.
      replace (0xb08 + 0x20 * ep) with (8 + 32 * (88 + ep)) by lia.
      rewrite land_0x1c by lia. reflexivity. }
    rewrite Hguard, Hreg.
    replace (DOEPINT 0 =? DOEPCTL 0) with false by reflexivity.
    replace (DOEPINT 0 =? DOEPINT 0) with true by reflexivity.
    cbv zeta iota beta. eexists. split; [reflexivity|].
    intros b Hb. unfold doepint, doep_get.
    rewrite (fr_doepreg _ _ (irq_frame_update_ep _ _)).
    simpl. rewrite bank_set_same.
    rewrite Z.lor_0_l, Z.bits_0, !u32_testbit by lia.
    rewrite Z.land_spec, Z.lnot_spec, !w1c_bit by lia.
    split; intros Hf; [discriminate|]. split; reflexivity.
Qed.

End WriteRules.

(** ** Host channels *)

Section HostChannel.

Context {R : Dwc2Regs} {M : GuestMemory}.

Lemma field_mask_bit (mask shift w i : Z) :
  field_ok mask shift w -> 0 <= i ->
  Z.testbit mask (i + shift) = (i <? w).
Proof.
  intros (Hs & Hw & ->) Hi.
  rewrite Z.shiftl_spec by lia.
  replace (i + shift - shift) with i by lia.
  apply Z.testbit_ones_nonneg; assumption.
Qed.

Lemma get_field_bit (h mask shift w i : Z) :
  field_ok mask shift w -> 0 <= i ->
  Z.testbit (get_field h mask shift) i
  = Z.testbit h (i + shift) && (i <? w).
Proof.
  intros Hf Hi. unfold get_field.
  destruct Hf as (Hs & Hw & Hm).
  rewrite Z.shiftr_spec, Z.land_spec by assumption.
  rewrite (field_mask_bit mask shift w i) by (repeat split; assumption).
  reflexivity.
Qed.

Lemma get_field_mod (h mask shift w : Z) :
  field_ok mask shift w ->
  get_field h mask shift = (h >> shift) mod 2 ^ w.
Proof.
  intros Hf. pose proof Hf as (Hs & Hw & Hm).
  apply Z.bits_inj'. intros i Hi.
  rewrite (get_field_bit h mask shift w i Hf Hi).
  rewrite Z.testbit_mod_pow2, Z.shiftr_spec by assumption.
  apply andb_comm.
Qed.

Lemma get_field_range (h mask shift w : Z) :
  field_ok mask shift w -> 0 <= get_field h mask shift < 2 ^ w.
Proof.
  intros Hf. rewrite (get_field_mod h mask shift w Hf).
  destruct Hf as (Hs & Hw & Hm). apply Z.mod_pos_bound. lia.
Qed.

Lemma small_high_bit (v w i : Z) :
  0 <= v < 2 ^ w -> 0 <= w -> w <= i -> Z.testbit v i = false.
Proof.
  intros Hv Hw Hi.
  rewrite <- (Z.mod_small v (2 ^ w)) by assumption.
  apply Z.mod_pow2_bits_high. lia.
Qed.

Lemma get_set_field_same (h v mask shift w : Z) :
  field_ok mask shift w -> 0 <= v < 2 ^ w ->
  get_field (set_field h v mask shift) mask shift = v.
Proof.
  intros Hf Hv. pose proof Hf as (Hs & Hw & Hm).
  apply Z.bits_inj'. intros i Hi.
  rewrite (get_field_bit _ mask shift w i Hf Hi).
  unfold set_field.
  rewrite Z.lor_spec, !Z.land_spec, Z.lnot_spec by lia.
  rewrite (field_mask_bit mask shift w i Hf Hi).
  rewrite Z.shiftl_spec by lia.
  replace (i + shift - shift) with i by lia.
  destruct (Z.ltb_spec i w) as [Hlt|Hge].
  - simpl. rewrite andb_false_r, !andb_true_r. reflexivity.
  - rewrite (small_high_bit v w i Hv Hw Hge), !andb_false_r. reflexivity.
Qed.

Lemma get_set_field_other (h v m1 s1 w1 m2 s2 : Z) :
  field_ok m1 s1 w1 -> m1 .& m2 = 0 ->
  get_field (set_field h v m2 s2) m1 s1 = get_field h m1 s1.
Proof.
  intros Hf Hd. apply Z.bits_inj'. intros i Hi.
  rewrite !(get_field_bit _ m1 s1 w1 i Hf Hi).
  unfold set_field.
  rewrite Z.lor_spec, !Z.land_spec, Z.lnot_spec by (destruct Hf; lia).
  pose proof (land_disjoint_bit m1 m2 (i + s1) Hd) as Hb.
  rewrite (field_mask_bit m1 s1 w1 i Hf Hi) in Hb.
  destruct (i <? w1); [|rewrite !andb_false_r; reflexivity].
  simpl in Hb. rewrite Hb. simpl.
  rewrite andb_false_r, orb_false_r, !andb_true_r. reflexivity.
Qed.

Lemma ceil_div (a m : Z) :
  0 <= a -> 0 < m ->
  (if nz (a mod m) then a / m + 1 else a / m) = (a + m - 1) / m.
Proof.
  intros Ha Hm.
  pose proof (Z.div_mod a m ltac:(lia)) as Hdm.
  pose proof (Z.mod_pos_bound a m Hm) as Hr.
  destruct (nz (a mod m)) eqn:E.
  - apply nz_true in E.
    apply Z.div_unique with (r := a mod m - 1); lia.
  - apply nz_false in E.
    apply Z.div_unique with (r := m - 1); lia.
Qed.

End HostChannel.

(** ** The host channel transaction *)

Section HostPacket.

Context {R : Dwc2Regs} {M : GuestMemory}.

Lemma set_packet_at_same (s : DWC2State) (chan : Z) (p : DWC2Packet) :
  packet (set_packet_at s chan p) chan = p.
Proof. simpl. rewrite Z.eqb_refl. reflexivity. Qed.

Lemma hp_send_hreg1 (s : DWC2State) (index pid epnum hcdma : Z)
    (reply : usb_reply) :
  hreg1 (hp_send s index pid epnum hcdma reply) = hreg1 s.
Proof.
  unfold hp_send. cbv zeta.
  destruct (negb (pid =? USB_TOKEN_IN)); [|reflexivity].
  destruct (dma_memory_read _ _ _) as [ok bytes].
  destruct ok; reflexivity.
Qed.

Lemma hp_send_packet (s : DWC2State) (index pid epnum hcdma : Z)
    (reply : usb_reply) :
  let p := packet (hp_send s index pid epnum hcdma reply) (index >> 3) in
  pk_status (p_packet p) = reply_status reply
  /\ pk_actual_length (p_packet p) = reply_actual reply
  /\ p_async p = DWC2_ASYNC_NONE.
Proof.
  unfold hp_send. cbv zeta. rewrite set_packet_at_same. simpl. auto.
Qed.

(** The two register words and the packet context that the end of the
    handler writes. *)
Lemma hp_finish_done (l : hp_locals) (s : DWC2State) (intr pcnt len : Z)
    (do_intr : bool) :
  let s' := hp_finish l s intr pcnt len true do_intr in
  let i := l_index l in
  hreg1 s' i = l_hcchar l .& .~ HCCHAR_CHENA
  /\ hreg1 s' (i + 2)
     = hreg1 s (i + 2)
       .| ((if negb (nz (intr .& HCINTMSK_CHHLTD))
            then intr .| (HCINTMSK_CHHLTD .| HCINTMSK_XFERCOMPL)
            else intr) .& .~ HCINTMSK_RESERVED14_31)
  /\ (forall j, j <> i -> j <> i + 2 -> hreg1 s' j = hreg1 s j)
  /\ p_needs_service (packet s' (l_chan l)) = false.
Proof.
  unfold hp_finish. cbv zeta.
  rewrite !(fr_hreg1 _ _ (irq_frame_update_hc _ _)).
  rewrite !(fr_packet _ _ (irq_frame_update_hc _ _)).
  rewrite set_packet_at_same.
  unfold h1_put. cbn [hreg1 set_hreg1 set_packet_at set_packet].
  repeat split.
  - rewrite bank_set_other by lia. apply bank_set_same.
  - rewrite bank_set_same. rewrite bank_set_other by lia. reflexivity.
  - intros j H1 H2. rewrite !bank_set_other by lia. reflexivity.
Qed.

Lemma hp_finish_not_done (l : hp_locals) (s : DWC2State) (intr pcnt len : Z)
    (do_intr : bool) :
  let s' := hp_finish l s intr pcnt len false do_intr in
  hreg1 s' = hreg1 s
  /\ p_needs_service (packet s' (l_chan l)) = true
  /\ p_pcnt (packet s' (l_chan l)) = pcnt
  /\ p_len (packet s' (l_chan l)) = len.
Proof.
  unfold hp_finish. cbv zeta.
  destruct do_intr.
  - rewrite !(fr_hreg1 _ _ (irq_frame_update_hc _ _)).
    rewrite !(fr_packet _ _ (irq_frame_update_hc _ _)).
    rewrite set_packet_at_same. simpl. auto.
  - rewrite set_packet_at_same. simpl. auto.
Qed.

Lemma hp_success_spec (l : hp_locals) (s : DWC2State) :
  0 <= l_actual l -> 0 < l_mps l ->
  let tpcnt := (l_actual l + l_mps l - 1) / l_mps l in
  let pcnt := l_pcnt l - Z.min tpcnt (l_pcnt l) in
  let len := l_len l - Z.min (l_actual l) (l_len l) in
  let i := l_index l in
  exists s',
    hp_success l s
    = (s', pcnt, len,
       ((l_pid l =? USB_TOKEN_IN) && nz (l_actual l mod l_mps l))
       || (pcnt =? 0) || (len =? 0) || (l_actual l =? 0))
    /\ hreg1 s' (i + 4)
       = set_field
           (set_field (l_hctsiz l) pcnt TSIZ_PKTCNT_MASK TSIZ_PKTCNT_SHIFT)
           len TSIZ_XFERSIZE_MASK TSIZ_XFERSIZE_SHIFT
    /\ hreg1 s' (i + 5) = u32 (l_hcdma l + l_actual l)
    /\ (forall j, j <> i + 4 -> j <> i + 5 -> hreg1 s' j = hreg1 s j)
    /\ packet s' = packet s.
Proof.
  intros Ha Hm. cbv zeta.
  pose proof (ceil_div (l_actual l) (l_mps l) Ha Hm) as Hceil.
  unfold hp_success. cbv zeta.
  assert (Hmin : forall a b, (a - (if b <? a then b else a)) = a - Z.min b a).
  { intros a b. destruct (Z.ltb_spec b a); lia. }
  destruct (nz (l_actual l mod l_mps l)) eqn:Enz;
    rewrite <- Hceil; rewrite !Hmin;
    eexists; (split; [f_equal; f_equal;
                      rewrite ?andb_true_r, ?andb_false_r; reflexivity|]);
    unfold h1_put; cbn [hreg1 set_hreg1];
    (repeat split;
     [ rewrite bank_set_other by lia; rewrite bank_set_same; reflexivity
     | rewrite bank_set_same; reflexivity
     | intros j H1 H2; rewrite !bank_set_other by lia;
       destruct (l_pid l =? USB_TOKEN_IN); [|reflexivity];
       destruct (dma_memory_write _ _ _) as [ok mem]; destruct ok; reflexivity
     | destruct (l_pid l =? USB_TOKEN_IN); [|reflexivity];
       destruct (dma_memory_write _ _ _) as [ok mem]; destruct ok; reflexivity ]).
Qed.


Lemma sent_packet (s : DWC2State) (reply : usb_reply) (index pid epnum hcdma : Z)
    (send : bool) :
  let s1 := if send then hp_send s index pid epnum hcdma reply else s in
  pk_status (p_packet (packet s1 (index >> 3)))
  = completion_status s reply index send
  /\ u32 (pk_actual_length (p_packet (packet s1 (index >> 3))))
     = completion_actual s reply index send
  /\ hreg1 s1 = hreg1 s.
Proof.
  unfold completion_status, completion_actual. destruct send; cbv zeta.
  - destruct (hp_send_packet s index pid epnum hcdma reply) as (H1 & H2 & _).
    rewrite H1, H2, hp_send_hreg1. auto.
  - auto.
Qed.

Lemma handle_packet_steps (s : DWC2State) (devadr : Z) (reply : usb_reply)
    (index : Z) (send : bool) :
  let hcchar := hreg1 s index in
  let hctsiz := hreg1 s (index + 4) in
  let hcdma := hreg1 s (index + 5) in
  let epnum := get_field hcchar HCCHAR_EPNUM_MASK HCCHAR_EPNUM_SHIFT in
  let mps := get_field hcchar HCCHAR_MPS_MASK HCCHAR_MPS_SHIFT in
  let len := get_field hctsiz TSIZ_XFERSIZE_MASK TSIZ_XFERSIZE_SHIFT in
  let st := completion_status s reply index send in
  mps <> 0 -> len <= DWC2_MAX_XFER_SIZE -> -8 <= st <= 0 ->
  exists s1,
    hreg1 s1 = hreg1 s
    /\ pk_status (p_packet (packet s1 (index >> 3))) = st
    /\ (send = true -> p_async (packet s1 (index >> 3)) = DWC2_ASYNC_NONE)
    /\ let l := mkLocals devadr index (index >> 3) hcchar hctsiz hcdma epnum
                  (get_bit hcchar HCCHAR_EPDIR)
                  (get_field hcchar HCCHAR_EPTYPE_MASK HCCHAR_EPTYPE_SHIFT)
                  mps (channel_token hcchar hctsiz)
                  (get_field hctsiz TSIZ_PKTCNT_MASK TSIZ_PKTCNT_SHIFT) len
                  (requested_length s index send) (- st)
                  (completion_actual s reply index send) in
       dwc2_handle_packet s devadr reply index send
       = handle_packet_from_babble
           (handle_packet_from_babble (fun _ => None) l) l s1.
Proof.
  intros hcchar hctsiz hcdma epnum mps len st Hmps Hlen Hst.
  unfold dwc2_handle_packet. cbv zeta.
  fold hcchar hctsiz hcdma. fold mps len epnum.
  replace (len >? DWC2_MAX_XFER_SIZE) with false by (symmetry; lia).
  replace (mps =? 0) with false by (symmetry; lia).
  destruct (sent_packet s reply index (channel_token hcchar hctsiz) epnum
              hcdma send) as (H1 & H2 & H3).
  set (s1 := if send then hp_send s index (channel_token hcchar hctsiz) epnum
                            hcdma reply else s) in *.
  exists s1. split; [exact H3|]. split; [exact H1|].
  split.
  { intros ->. subst s1.
    apply (hp_send_packet s index (channel_token hcchar hctsiz) epnum hcdma
             reply). }
  cbv zeta. rewrite H1, H2. fold st.
  replace ((0 <=? - st) && (- st <? 9)) with true by (symmetry; lia).
  unfold requested_length. reflexivity.
Qed.


(** C1 (amended).  A packet that completes with SUCCESS and is not longer
    than was asked for lowers HCTSIZ.PKTCNT by the packets it took,
    [ceil(actual / mps)], and HCTSIZ.XFERSIZE by its length, neither below
    zero, and moves HCDMA forward by its length (modulo 2^32).  The channel
    halts (enable bit cleared, channel-halted and transfer-complete causes
    set) when the new packet count is zero, the new transfer size is zero,
    the length is zero, or the packet is a short IN packet (its length is
    no multiple of the maximum packet size); otherwise HCCHAR and HCINT
    are unchanged and the channel is marked for another round. *)
Theorem host_success_consumes_packet (s : DWC2State) (devadr : Z)
    (reply : usb_reply) (index : Z) (send : bool) (wm wp wx : Z) :
  let hcchar := hreg1 s index in
  let hctsiz := hreg1 s (index + 4) in
  let hcdma := hreg1 s (index + 5) in
  let hcint := hreg1 s (index + 2) in
  let mps := get_field hcchar HCCHAR_MPS_MASK HCCHAR_MPS_SHIFT in
  let pcnt := get_field hctsiz TSIZ_PKTCNT_MASK TSIZ_PKTCNT_SHIFT in
  let len := get_field hctsiz TSIZ_XFERSIZE_MASK TSIZ_XFERSIZE_SHIFT in
  let actual := completion_actual s reply index send in
  let pid := channel_token hcchar hctsiz in
  field_ok HCCHAR_MPS_MASK HCCHAR_MPS_SHIFT wm ->
  field_ok TSIZ_PKTCNT_MASK TSIZ_PKTCNT_SHIFT wp ->
  field_ok TSIZ_XFERSIZE_MASK TSIZ_XFERSIZE_SHIFT wx ->
  TSIZ_PKTCNT_MASK .& TSIZ_XFERSIZE_MASK = 0 ->
  (HCINTMSK_CHHLTD .| HCINTMSK_XFERCOMPL) .& HCINTMSK_RESERVED14_31 = 0 ->
  mps <> 0 ->
  len <= DWC2_MAX_XFER_SIZE ->
  completion_status s reply index send = USB_RET_SUCCESS ->
  actual <= requested_length s index send ->
  let pcnt' := pcnt - Z.min ((actual + mps - 1) / mps) pcnt in
  let len' := len - Z.min actual len in
  let halts := pcnt' = 0 \/ len' = 0 \/ actual = 0
               \/ (pid = USB_TOKEN_IN /\ actual mod mps <> 0) in
  exists s',
    dwc2_handle_packet s devadr reply index send = Some s'
    /\ get_field (hreg1 s' (index + 4)) TSIZ_PKTCNT_MASK TSIZ_PKTCNT_SHIFT
       = pcnt'
    /\ get_field (hreg1 s' (index + 4)) TSIZ_XFERSIZE_MASK
         TSIZ_XFERSIZE_SHIFT = len'
    /\ hreg1 s' (index + 5) = u32 (hcdma + actual)
    /\ (halts ->
        hreg1 s' index = hcchar .& .~ HCCHAR_CHENA
        /\ hreg1 s' (index + 2)
           = hcint .| (HCINTMSK_CHHLTD .| HCINTMSK_XFERCOMPL)
        /\ p_needs_service (packet s' (index >> 3)) = false)
    /\ (~ halts ->
        hreg1 s' index = hcchar
        /\ hreg1 s' (index + 2) = hcint
        /\ p_needs_service (packet s' (index >> 3)) = true)
    /\ (hcchar .& HCCHAR_CHENA <> 0 ->
        (hreg1 s' index .& HCCHAR_CHENA = 0 <-> halts)).
Proof.
  intros hcchar hctsiz hcdma hcint mps pcnt len actual pid
         Hfm Hfp Hfx Hdisj Hres Hmps Hlen Hst Hact pcnt' len' halts.
  destruct (handle_packet_steps s devadr reply index send)
    as (s1 & Hh1 & Hst1 & _ & Heq);
    [exact Hmps|exact Hlen|rewrite Hst; unfold USB_RET_SUCCESS; lia|].
  cbv zeta in Heq. rewrite Heq. clear Heq.
  fold hcchar hctsiz hcdma mps pcnt len actual pid.
  rewrite Hst.
  match goal with
  | |- context [handle_packet_from_babble _ ?l0 s1] => set (l := l0)
  end.
  pose proof (get_field_range hcchar _ _ _ Hfm) as Rm. fold mps in Rm.
  pose proof (get_field_range hctsiz _ _ _ Hfp) as Rp. fold pcnt in Rp.
  pose proof (get_field_range hctsiz _ _ _ Hfx) as Rx. fold len in Rx.
  assert (Ha : 0 <= actual) by (apply u32_range).
  assert (Hm : 0 < mps) by lia.
  unfold handle_packet_from_babble. cbv zeta.
  cbn [l l_chan l_index l_actual l_tlen].
  rewrite Hst1, Hst.
  replace (USB_RET_SUCCESS =? USB_RET_ASYNC) with false by reflexivity.
  replace (USB_RET_SUCCESS =? USB_RET_SUCCESS) with true by reflexivity.
  replace (actual >? requested_length s index send) with false
    by (symmetry; lia).
  cbn [andb].
  destruct (hp_success_spec l s1 Ha Hm) as (s2 & Hs2 & H4 & H5 & Hoth & Hpk).
  cbv zeta in Hs2, H4, H5, Hoth.
  cbn [l l_chan l_index l_actual l_mps l_pcnt l_len l_pid l_hctsiz l_hcdma]
    in Hs2, H4, H5, Hoth.
  fold pcnt' len' in Hs2, H4.
  rewrite Hs2. clear Hs2.
  set (done := ((pid =? USB_TOKEN_IN) && nz (actual mod mps))
               || (pcnt' =? 0) || (len' =? 0) || (actual =? 0)).
  assert (Hdone : done = true <-> halts).
  { unfold done, halts.
    rewrite !orb_true_iff, andb_true_iff, nz_true, !Z.eqb_eq. tauto. }
  assert (Hq : 0 <= (actual + mps - 1) / mps) by (apply Z.div_pos; lia).
  assert (Hp' : 0 <= pcnt' < 2 ^ wp) by (unfold pcnt'; lia).
  assert (Hl' : 0 <= len' < 2 ^ wx) by (unfold len'; lia).
  assert (G4 : get_field (hreg1 s2 (index + 4)) TSIZ_PKTCNT_MASK
                 TSIZ_PKTCNT_SHIFT = pcnt').
  { rewrite H4.
    rewrite (get_set_field_other _ _ _ _ wp _ _ Hfp Hdisj).
    apply (get_set_field_same _ _ _ _ wp Hfp Hp'). }
  assert (G4x : get_field (hreg1 s2 (index + 4)) TSIZ_XFERSIZE_MASK
                  TSIZ_XFERSIZE_SHIFT = len').
  { rewrite H4. apply (get_set_field_same _ _ _ _ wx Hfx Hl'). }
  eexists. split; [reflexivity|].
  destruct done eqn:Ed.
  - (* the channel halts *)
    pose proof (hp_finish_done l s2 0 pcnt' len' false) as Hf.
    cbv zeta in Hf. cbn [l l_index l_chan l_hcchar] in Hf.
    destruct Hf as (F0 & F2 & Fo & Fp).
    assert (F2' : hreg1 (hp_finish l s2 0 pcnt' len' true false) (index + 2)
                  = hcint .| (HCINTMSK_CHHLTD .| HCINTMSK_XFERCOMPL)).
    { rewrite F2, Hoth, Hh1 by lia. fold hcint.
      rewrite Z.land_0_l. cbn [nz Z.eqb negb].
      rewrite Z.lor_0_l, (land_lnot_disjoint _ _ Hres). reflexivity. }
    rewrite !Fo by lia.
    split; [exact G4|]. split; [exact G4x|]. split; [exact H5|].
    split; [intros _; auto|].
    split; [intros Hn; exfalso; apply Hn, Hdone; reflexivity|].
    intros Hen. rewrite F0. split; [intros _; apply Hdone; reflexivity|].
    intros _. apply land_lnot_same.
  - (* another round *)
    pose proof (hp_finish_not_done l s2 0 pcnt' len' false) as Hf.
    cbv zeta in Hf. cbn [l l_chan] in Hf.
    destruct Hf as (F & Fp & _).
    rewrite !F.
    split; [exact G4|]. split; [exact G4x|]. split; [exact H5|].
    assert (Hnh : ~ halts) by (intros Hh; apply Hdone in Hh; discriminate).
    split; [intros Hh; contradiction|].
    rewrite !Hoth, Hh1 by lia.
    split; [intros _; auto|].
    intros Hen. fold hcchar. split; [intros H0; contradiction|].
    intros Hh; contradiction.
Qed.


Lemma lor_land_zero_l (a b c : Z) : (a .| b) .& c = 0 -> a .& c = 0.
Proof.
  intros H. apply Z.bits_inj'. intros i Hi.
  pose proof (land_disjoint_bit _ _ i H) as Hb.
  rewrite Z.lor_spec in Hb. rewrite Z.land_spec, Z.bits_0.
  destruct (Z.testbit a i), (Z.testbit b i), (Z.testbit c i);
    simpl in *; congruence.
Qed.

Lemma halted_intr (intr : Z) :
  HCINTMSK_CHHLTD <> 0 ->
  (intr .| HCINTMSK_CHHLTD) .& HCINTMSK_RESERVED14_31 = 0 ->
  (if negb (nz ((intr .| HCINTMSK_CHHLTD) .& HCINTMSK_CHHLTD))
   then (intr .| HCINTMSK_CHHLTD) .| (HCINTMSK_CHHLTD .| HCINTMSK_XFERCOMPL)
   else intr .| HCINTMSK_CHHLTD) .& .~ HCINTMSK_RESERVED14_31
  = intr .| HCINTMSK_CHHLTD.
Proof.
  intros Hne Hres. rewrite lor_land_same.
  replace (nz HCINTMSK_CHHLTD) with true by (symmetry; apply nz_true; exact Hne).
  cbn [negb]. apply land_lnot_disjoint. exact Hres.
Qed.

(** C2.  A packet of a control or bulk channel that completes with NAK
    records the NAK cause in HCINT and nothing more: HCCHAR keeps its
    enable bit, the channel-halted cause is not raised, HCTSIZ (packet
    count and transfer size) is unchanged, and the packet context is marked
    for service again.  On a channel of another type (isochronous,
    interrupt) a NAK halts the channel. *)
Theorem host_nak_retries_control_bulk (s : DWC2State) (devadr : Z)
    (reply : usb_reply) (index : Z) (send : bool) :
  let hcchar := hreg1 s index in
  let hctsiz := hreg1 s (index + 4) in
  let hcint := hreg1 s (index + 2) in
  let mps := get_field hcchar HCCHAR_MPS_MASK HCCHAR_MPS_SHIFT in
  let len := get_field hctsiz TSIZ_XFERSIZE_MASK TSIZ_XFERSIZE_SHIFT in
  let pcnt := get_field hctsiz TSIZ_PKTCNT_MASK TSIZ_PKTCNT_SHIFT in
  let eptype := get_field hcchar HCCHAR_EPTYPE_MASK HCCHAR_EPTYPE_SHIFT in
  HCINTMSK_CHHLTD <> 0 ->
  HCINTMSK_NAK .& HCINTMSK_CHHLTD = 0 ->
  (HCINTMSK_NAK .| HCINTMSK_CHHLTD) .& HCINTMSK_RESERVED14_31 = 0 ->
  mps <> 0 ->
  len <= DWC2_MAX_XFER_SIZE ->
  completion_status s reply index send = USB_RET_NAK ->
  exists s',
    dwc2_handle_packet s devadr reply index send = Some s'
    /\ hreg1 s' (index + 4) = hctsiz
    /\ (eptype = USB_ENDPOINT_XFER_CONTROL \/ eptype = USB_ENDPOINT_XFER_BULK ->
        hreg1 s' (index + 2) = hcint .| HCINTMSK_NAK
        /\ hreg1 s' (index + 2) .& HCINTMSK_CHHLTD
           = hcint .& HCINTMSK_CHHLTD
        /\ hreg1 s' index = hcchar
        /\ p_needs_service (packet s' (index >> 3)) = true
        /\ p_pcnt (packet s' (index >> 3)) = pcnt
        /\ p_len (packet s' (index >> 3)) = len)
    /\ (eptype <> USB_ENDPOINT_XFER_CONTROL /\ eptype <> USB_ENDPOINT_XFER_BULK ->
        hreg1 s' index = hcchar .& .~ HCCHAR_CHENA
        /\ hreg1 s' index .& HCCHAR_CHENA = 0
        /\ hreg1 s' (index + 2) = hcint .| (HCINTMSK_NAK .| HCINTMSK_CHHLTD)
        /\ p_needs_service (packet s' (index >> 3)) = false).
Proof.
  intros hcchar hctsiz hcint mps len pcnt eptype Hh Hnh Hres Hmps Hlen Hst.
  destruct (handle_packet_steps s devadr reply index send)
    as (s1 & Hh1 & Hst1 & _ & Heq);
    [exact Hmps|exact Hlen|rewrite Hst; unfold USB_RET_NAK; lia|].
  cbv zeta in Heq. rewrite Heq. clear Heq.
  fold hcchar hctsiz mps pcnt len eptype. rewrite Hst.
  match goal with
  | |- context [handle_packet_from_babble _ ?l0 s1] => set (l := l0)
  end.
  unfold handle_packet_from_babble. cbv zeta.
  cbn [l l_chan l_index l_actual l_tlen l_pcnt l_len].
  rewrite Hst1, Hst.
  replace (USB_RET_NAK =? USB_RET_ASYNC) with false by reflexivity.
  replace (USB_RET_NAK =? USB_RET_SUCCESS) with false by reflexivity.
  cbn [andb].
  unfold hp_error. cbv zeta. cbn [l l_index l_stsidx l_eptype].
  replace (USB_RET_NAK =? USB_RET_NAK) with true by reflexivity.
  replace (pintr (- USB_RET_NAK)) with HCINTMSK_NAK by reflexivity.
  cbn [andb].
  pose proof (lor_land_zero_l _ _ _ Hres) as HnR.
  destruct ((eptype =? USB_ENDPOINT_XFER_CONTROL)
            || (eptype =? USB_ENDPOINT_XFER_BULK)) eqn:Et.
  - (* control or bulk: retry *)
    rewrite (land_lnot_disjoint _ _ HnR).
    eexists. split; [reflexivity|].
    match goal with
    | |- context [hp_finish l ?s2 ?i ?p ?n false true] =>
      pose proof (hp_finish_not_done l s2 i p n true) as Hf
    end.
    cbv zeta in Hf. cbn [l l_chan] in Hf. destruct Hf as (F & Fp & Fc & Fl).
    rewrite !F, Fp, Fc, Fl.
    unfold h1_put. cbn [hreg1 set_hreg1].
    rewrite bank_set_same, !bank_set_other by lia. rewrite Hh1.
    fold hctsiz hcint hcchar.
    split; [reflexivity|]. split.
    + intros _. repeat split. apply lor_land_keep. exact Hnh.
    + intros [H1 H2]. apply orb_true_iff in Et.
      rewrite !Z.eqb_eq in Et. tauto.
  - (* another type: halt *)
    eexists. split; [reflexivity|].
    match goal with
    | |- context [hp_finish l ?s2 ?i ?p ?n true false] =>
      pose proof (hp_finish_done l s2 i p n false) as Hf
    end.
    cbv zeta in Hf. cbn [l l_index l_chan l_hcchar] in Hf.
    destruct Hf as (F0 & F2 & Fo & Fp).
    rewrite (halted_intr _ Hh Hres) in F2.
    rewrite F0, F2, Fp, Fo, Hh1 by lia. fold hctsiz hcint.
    split; [reflexivity|]. split.
    + intros H. apply orb_false_iff in Et. rewrite !Z.eqb_neq in Et. tauto.
    + intros _. repeat split. apply land_lnot_same.
Qed.

(** C4 (what the code does).  A packet that completes with SUCCESS but is
    longer than was asked for is given the status BABBLE and the channel
    halts; the cause recorded in HCINT is the one [pintr] holds for the
    status the packet came back with (SUCCESS: transfer complete), because
    [stsidx] is computed before the [babble:] label and not again after the
    status is changed.  The babble-error cause bit is left as it was. *)
Theorem host_babble_reports_transfer_complete (s : DWC2State) (devadr : Z)
    (reply : usb_reply) (index : Z) (send : bool) :
  let hcchar := hreg1 s index in
  let hctsiz := hreg1 s (index + 4) in
  let hcint := hreg1 s (index + 2) in
  let mps := get_field hcchar HCCHAR_MPS_MASK HCCHAR_MPS_SHIFT in
  let len := get_field hctsiz TSIZ_XFERSIZE_MASK TSIZ_XFERSIZE_SHIFT in
  HCINTMSK_CHHLTD <> 0 ->
  (HCINTMSK_XFERCOMPL .| HCINTMSK_CHHLTD) .& HCINTMSK_RESERVED14_31 = 0 ->
  (HCINTMSK_XFERCOMPL .| HCINTMSK_CHHLTD) .& HCINTMSK_BBLERR = 0 ->
  mps <> 0 ->
  len <= DWC2_MAX_XFER_SIZE ->
  completion_status s reply index send = USB_RET_SUCCESS ->
  requested_length s index send < completion_actual s reply index send ->
  exists s',
    dwc2_handle_packet s devadr reply index send = Some s'
    /\ pk_status (p_packet (packet s' (index >> 3))) = USB_RET_BABBLE
    /\ hreg1 s' index = hcchar .& .~ HCCHAR_CHENA
    /\ hreg1 s' (index + 2)
       = hcint .| (HCINTMSK_XFERCOMPL .| HCINTMSK_CHHLTD)
    /\ hreg1 s' (index + 2) .& HCINTMSK_BBLERR = hcint .& HCINTMSK_BBLERR.
Proof.
  intros hcchar hctsiz hcint mps len Hh Hres Hbb Hmps Hlen Hst Hlong.
  destruct (handle_packet_steps s devadr reply index send)
    as (s1 & Hh1 & Hst1 & _ & Heq);
    [exact Hmps|exact Hlen|rewrite Hst; unfold USB_RET_SUCCESS; lia|].
  cbv zeta in Heq. rewrite Heq. clear Heq.
  fold hcchar hctsiz mps len. rewrite Hst.
  match goal with
  | |- context [handle_packet_from_babble _ ?l0 s1] => set (l := l0)
  end.
  unfold handle_packet_from_babble at 1. cbv zeta.
  cbn [l l_chan l_index l_actual l_tlen].
  rewrite Hst1, Hst.
  replace (USB_RET_SUCCESS =? USB_RET_ASYNC) with false by reflexivity.
  replace (USB_RET_SUCCESS =? USB_RET_SUCCESS) with true by reflexivity.
  replace (completion_actual s reply index send
           >? requested_length s index send) with true by (symmetry; lia).
  cbn [andb].
  (* back at the label, with the status BABBLE *)
  unfold handle_packet_from_babble. cbv zeta.
  cbn [l l_chan l_index l_pcnt l_len].
  rewrite set_packet_at_same.
  cbn [p_packet set_p_packet pk_status set_pk_status].
  replace (USB_RET_BABBLE =? USB_RET_ASYNC) with false by reflexivity.
  replace (USB_RET_BABBLE =? USB_RET_SUCCESS) with false by reflexivity.
  cbn [andb].
  unfold hp_error. cbv zeta. cbn [l l_index l_stsidx].
  replace (USB_RET_BABBLE =? USB_RET_NAK) with false by reflexivity.
  replace (pintr (- USB_RET_SUCCESS)) with HCINTMSK_XFERCOMPL by reflexivity.
  cbn [andb].
  eexists. split; [reflexivity|].
  match goal with
  | |- context [hp_finish l ?s2 ?i ?p ?n true false] =>
    pose proof (hp_finish_done l s2 i p n false) as Hf;
      assert (Hpk : pk_status (p_packet (packet s2 (index >> 3)))
                    = USB_RET_BABBLE)
        by (rewrite set_packet_at_same; reflexivity);
      assert (Hh2 : hreg1 s2 = hreg1 s1) by reflexivity
  end.
  cbv zeta in Hf. cbn [l l_index l_chan l_hcchar] in Hf.
  destruct Hf as (F0 & F2 & Fo & Fp).
  rewrite (halted_intr _ Hh Hres) in F2.
  rewrite F0, F2, Hh2, Hh1. fold hcint.
  split.
  - unfold hp_finish. cbv zeta. cbn [l l_index l_chan].
    rewrite (fr_packet _ _ (irq_frame_update_hc _ _)).
    rewrite set_packet_at_same. unfold set_needs_service, h1_put.
    cbn [p_packet packet set_hreg1]. rewrite set_packet_at_same. reflexivity.
  - repeat split. apply lor_land_keep. exact Hbb.
Qed.

End HostPacket.

(** ** Examples of host channel transactions *)

(** Facts about closed terms, by evaluation. *)
Ltac closed_fact :=
  first [ reflexivity
        | apply Z.leb_le; reflexivity
        | apply Z.ltb_lt; reflexivity
        | vm_compute; intuition (try discriminate; try lia; try reflexivity) ].

Section HostPacketExamples.

#[local] Existing Instance hsotg_regs.
#[local] Existing Instance flat_ram.

Lemma short_in_packet_halts_channel :
  completion_status bulk_in_channel short_reply 0 true = USB_RET_SUCCESS
  /\ completion_actual bulk_in_channel short_reply 0 true = 10
  /\ requested_length bulk_in_channel 0 true = 256
  /\ exists s',
       dwc2_handle_packet bulk_in_channel 5 short_reply 0 true = Some s'
       /\ get_field (hreg1 s' 4) TSIZ_PKTCNT_MASK TSIZ_PKTCNT_SHIFT = 3
       /\ get_field (hreg1 s' 4) TSIZ_XFERSIZE_MASK TSIZ_XFERSIZE_SHIFT = 246
       /\ hreg1 s' 0 .& HCCHAR_CHENA = 0
       /\ hreg1 s' 2 = HCINTMSK_CHHLTD .| HCINTMSK_XFERCOMPL.
Proof.
  repeat split.
  eexists. split; [reflexivity|]. vm_compute. repeat split.
Qed.


Lemma host_success_consumes_packet_witness :
  exists s',
    dwc2_handle_packet bulk_in_channel 5 short_reply 0 true = Some s'
    /\ get_field (hreg1 s' 4) TSIZ_PKTCNT_MASK TSIZ_PKTCNT_SHIFT = 3
    /\ get_field (hreg1 s' 4) TSIZ_XFERSIZE_MASK TSIZ_XFERSIZE_SHIFT = 246
    /\ hreg1 s' 5 = 10
    /\ hreg1 s' 0 .& HCCHAR_CHENA = 0.
Proof.
  destruct (host_success_consumes_packet bulk_in_channel 5 short_reply 0 true
              11 10 19)
    as (s' & Hrun & Hp & Hl & Hd & Hhalt & _ & _); [closed_fact ..|].
  exists s'. split; [exact Hrun|]. split; [exact Hp|]. split; [exact Hl|].
  split; [exact Hd|].
  destruct Hhalt as (Hc & _ & _).
  - right. right. right. split; closed_fact.
  - rewrite Hc. reflexivity.
Defined.

Lemma host_nak_retries_control_bulk_witness :
  (exists s',
      dwc2_handle_packet bulk_in_channel 5 nak_reply 0 true = Some s'
      /\ hreg1 s' 2 = HCINTMSK_NAK
      /\ hreg1 s' 0 = hreg1 bulk_in_channel 0
      /\ hreg1 s' 4 = hreg1 bulk_in_channel 4
      /\ p_needs_service (packet s' 0) = true)
  /\ (exists s',
         dwc2_handle_packet intr_in_channel 5 nak_reply 0 true = Some s'
         /\ hreg1 s' 2 = HCINTMSK_NAK .| HCINTMSK_CHHLTD
         /\ hreg1 s' 0 .& HCCHAR_CHENA = 0).
Proof.
  split.
  - destruct (host_nak_retries_control_bulk bulk_in_channel 5 nak_reply 0
                true)
      as (s' & Hrun & Ht & Hretry & _); [closed_fact ..|].
    exists s'. split; [exact Hrun|].
    destruct Hretry as (Hi & _ & Hc & Hn & _).
    + right. reflexivity.
    + split; [exact Hi|].
      split; [exact Hc|]. split; [exact Ht|exact Hn].
  - destruct (host_nak_retries_control_bulk intr_in_channel 5 nak_reply 0
                true)
      as (s' & Hrun & _ & _ & Hhalt); [closed_fact ..|].
    exists s'. split; [exact Hrun|].
    destruct Hhalt as (_ & Hc & Hi & _).
    + split; discriminate.
    + split; [exact Hi|exact Hc].
Defined.

Lemma host_babble_reports_transfer_complete_witness :
  exists s',
    dwc2_handle_packet single_in_channel 5 long_reply 0 true = Some s'
    /\ pk_status (p_packet (packet s' 0)) = USB_RET_BABBLE
    /\ hreg1 s' 2 = HCINTMSK_XFERCOMPL .| HCINTMSK_CHHLTD
    /\ hreg1 s' 2 .& HCINTMSK_BBLERR = 0.
Proof.
  destruct (host_babble_reports_transfer_complete single_in_channel 5
              long_reply 0 true)
    as (s' & Hrun & Hs & _ & Hi & Hb); [closed_fact ..|].
  exists s'. split; [exact Hrun|]. split; [exact Hs|].
  split; [exact Hi|exact Hb].
Defined.

End HostPacketExamples.

(** ** Examples of register writes *)

Section RegisterExamples.

#[local] Existing Instance hsotg_regs.
#[local] Existing Instance flat_ram.

Lemma guest_errors_have_no_effect_witness :
  (exists s', dwc2_hsotg_read blank_state 0x70 0 = Some (s', 0)
              /\ only_logged blank_state s')
  /\ (exists s', dwc2_hsotg_write blank_state 0x70 0xffffffff 0
                   (fun _ => false) nak_reply = Some s'
                 /\ only_logged blank_state s')
  /\ (exists s', dwc2_handle_packet blank_state 5 nak_reply 0 true = Some s'
                 /\ only_logged blank_state s').
Proof.
  destruct (guest_errors_have_no_effect blank_state) as (Hr & Hw & Hp).
  split; [|split].
  - apply Hr. reflexivity.
  - apply Hw. reflexivity.
  - apply Hp. left. reflexivity.
Defined.

Lemma grstctl_self_clearing_witness :
  exists s',
    dwc2_glbreg_write blank_state GRSTCTL 4 (BIT 5 .| BIT 4) 0 = Some s'
    /\ Z.testbit (grstctl s') 5 = true
    /\ Z.testbit (grstctl s') 4 = true
    /\ snd (dwc2_glbreg_read s' GRSTCTL 4) .& GRSTCTL_self_clearing = 0.
Proof.
  destruct (grstctl_self_clearing blank_state (BIT 5 .| BIT 4) 0)
    as (Hret & Hlatch).
  destruct Hret as (s' & Hrun); [reflexivity|].
  exists s'. split; [exact Hrun|].
  destruct (Hlatch s' Hrun) as (_ & Hset & Hread & _).
  split; [|split].
  - apply Hset; [lia|reflexivity..].
  - apply Hset; [lia|reflexivity..].
  - exact Hread.
Defined.

Lemma w1c_write_clears_written_ones_witness :
  exists s',
    w1c_write halted_channel (W1C_HCINT 0) 1 0 (fun _ => false) nak_reply
    = Some s'
    /\ Z.testbit (w1c_value s' (W1C_HCINT 0)) 0 = false
    /\ Z.testbit (w1c_value s' (W1C_HCINT 0)) 1 = true.
Proof.
  destruct (w1c_write_clears_written_ones (W1C_HCINT 0) halted_channel 1 0
              (fun _ => false) nak_reply) as (s' & Hrun & Hbits).
  - simpl. lia.
  - reflexivity.
  - exists s'. split; [exact Hrun|]. split.
    + destruct (Hbits 0) as (_ & Hw); [lia|].
      destruct Hw as (_ & ->); reflexivity.
    + destruct (Hbits 1) as (_ & Hw); [lia|].
      destruct Hw as (_ & ->); reflexivity.
Defined.

End RegisterExamples.

(** ** The frame-remaining counter *)

Section FrameRemaining.

Context {R : Dwc2Regs} {M : GuestMemory}.

Lemma sof_clock (s : DWC2State) :
  sof_time (dwc2_sof s) = sof_time s + usb_frame_time s
  /\ usb_frame_time (dwc2_sof s) = usb_frame_time s
  /\ usb_bit_time (dwc2_sof s) = usb_bit_time s
  /\ fi (dwc2_sof s) = fi s.
Proof.
  unfold dwc2_sof. cbv zeta.
  match goal with
  | |- context [dwc2_raise_global_irq ?s0 ?i] =>
    pose proof (irq_frame_raise_global s0 i) as F
  end.
  rewrite (fr_sof_time _ _ F), (fr_usb_frame_time _ _ F),
    (fr_usb_bit_time _ _ F), (fr_fi _ _ F).
  repeat split.
Qed.

Lemma frame_boundary_clock (s : DWC2State) (ev : Z) :
  sof_time (dwc2_frame_boundary s ev) = sof_time s + usb_frame_time s
  /\ usb_frame_time (dwc2_frame_boundary s ev) = usb_frame_time s
  /\ usb_bit_time (dwc2_frame_boundary s ev) = usb_bit_time s
  /\ fi (dwc2_frame_boundary s ev) = fi s.
Proof.
  unfold dwc2_frame_boundary. cbv zeta.
  match goal with
  | |- context [dwc2_sof ?u] =>
    destruct (sof_clock u) as (E1 & E2 & E3 & E4)
  end.
  rewrite E1, E2, E3, E4. repeat split.
Qed.

(** A read less than a bit time after the start of the frame returns
    [fi]; a later one returns less. *)
Lemma frame_remaining_full (s : DWC2State) (now : Z) :
  sof_time s <= now < sof_time s + usb_bit_time s ->
  now < sof_time s + usb_frame_time s ->
  dwc2_get_frame_remaining s now = fi s.
Proof.
  intros Hnow Hin. unfold dwc2_get_frame_remaining.
  replace (now - sof_time s <? 0) with false by (symmetry; lia).
  replace (now - sof_time s >=? usb_frame_time s) with false
    by (symmetry; lia).
  replace (now - sof_time s <? usb_bit_time s) with true by (symmetry; lia).
  reflexivity.
Qed.

Lemma frame_remaining_started (s : DWC2State) (now : Z) :
  0 < usb_bit_time s ->
  0 < fi s < 2 ^ 16 ->
  sof_time s + usb_bit_time s <= now ->
  dwc2_get_frame_remaining s now < fi s.
Proof.
  intros Hb Hfi Hnow. unfold dwc2_get_frame_remaining.
  replace (now - sof_time s <? 0) with false by (symmetry; lia).
  destruct (now - sof_time s >=? usb_frame_time s); [lia|].
  replace (now - sof_time s <? usb_bit_time s) with false by (symmetry; lia).
  assert (Q : 1 <= Z.quot (now - sof_time s) (usb_bit_time s)).
  { rewrite Z.quot_div_nonneg by lia. apply Z.div_le_lower_bound; lia. }
  destruct (Z.quot (now - sof_time s) (usb_bit_time s) >=? fi s) eqn:E;
    [lia|].
  rewrite u32_small by lia. lia.
Qed.

(** C7 (as the code has it).  The frame-remaining value is computed from
    the virtual time of the read: a read of HFNUM changes nothing and
    returns [dwc2_get_frame_remaining] at that time in the FRREM field.
    Between two reads of one frame the value does not increase and never
    exceeds [fi]; it is strictly smaller at the later read when the reads
    are at least one bit time apart and the earlier value is positive.
    A start-of-frame event ([dwc2_frame_boundary], which ends in
    [dwc2_sof]) moves the start of the frame forward by one frame time,
    whatever the time [ev] at which the event runs.  A read less than one
    bit time after that start returns [fi]; a read one bit time or more
    after it returns less than [fi], so when the event runs that late no
    read of the new frame returns [fi]. *)
Theorem frame_remaining_counts_down (s : DWC2State) (t1 t2 : Z) :
  0 < usb_bit_time s ->
  0 < usb_frame_time s ->
  0 <= fi s < 2 ^ 16 ->
  sof_time s <= t1 ->
  t1 <= t2 ->
  (forall now,
      dwc2_hreg0_read s HFNUM ((HFNUM - HSOTG_REG 0x400) >> 2) now
      = (s, u32 ((dwc2_get_frame_remaining s now << HFNUM_FRREM_SHIFT)
                 .| (hfnum s << HFNUM_FRNUM_SHIFT))))
  /\ dwc2_get_frame_remaining s t2 <= dwc2_get_frame_remaining s t1
  /\ 0 <= dwc2_get_frame_remaining s t1 <= fi s
  /\ (t1 + usb_bit_time s <= t2 ->
      0 < dwc2_get_frame_remaining s t1 ->
      dwc2_get_frame_remaining s t2 < dwc2_get_frame_remaining s t1)
  /\ (forall now,
         sof_time (dwc2_sof s) <= now < sof_time (dwc2_sof s) + usb_bit_time s ->
         now < sof_time (dwc2_sof s) + usb_frame_time s ->
         dwc2_get_frame_remaining (dwc2_sof s) now = fi s)
  /\ (forall ev now,
         let s' := dwc2_frame_boundary s ev in
         let start := sof_time s + usb_frame_time s in
         sof_time s' = start
         /\ (start <= now < start + usb_bit_time s ->
             now < start + usb_frame_time s ->
             dwc2_get_frame_remaining s' now = fi s)
         /\ (start + usb_bit_time s <= now ->
             0 < fi s ->
             dwc2_get_frame_remaining s' now < fi s)).
Proof.
  intros Hb Hf Hfi Hs Ht.
  split; [|split; [|split; [|split; [|split]]]].
  - intros now. unfold dwc2_hreg0_read.
    replace ((HFNUM <? HCFG) || (HFNUM >? HPRT0)) with false by reflexivity.
    replace (HFNUM =? HFNUM) with true by reflexivity.
    reflexivity.
  - apply frame_remaining_mono; assumption.
  - apply frame_remaining_le_fi; assumption.
  - intros Hstep Hpos. apply frame_remaining_strict; assumption.
  - intros now Hnow Hin.
    destruct (sof_clock s) as (Es & Ef & Eb & Ei).
    rewrite <- Ei, <- Eb in *. rewrite <- Ef in Hin.
    apply frame_remaining_full; assumption.
  - intros ev now. cbv zeta.
    destruct (frame_boundary_clock s ev) as (Es & Ef & Eb & Ei).
    split; [exact Es|]. split.
    + intros Hnow Hin. rewrite <- Ei.
      apply frame_remaining_full; rewrite ?Es, ?Eb, ?Ef; assumption.
    + intros Hnow Hpos. rewrite <- Ei.
      apply frame_remaining_started; rewrite ?Es, ?Eb, ?Ei; try assumption.
      lia.
Qed.

End FrameRemaining.

Section FrameExamples.

#[local] Existing Instance hsotg_regs.
#[local] Existing Instance flat_ram.

Lemma frame_remaining_not_strict :
  sof_time blank_state <= 100 < 101
  /\ 101 < sof_time blank_state + usb_frame_time blank_state
  /\ dwc2_get_frame_remaining blank_state 100 = 11998
  /\ dwc2_get_frame_remaining blank_state 101 = 11998
  /\ snd (dwc2_hreg0_read blank_state HFNUM 2 100)
     = snd (dwc2_hreg0_read blank_state HFNUM 2 101).
Proof. vm_compute. intuition congruence. Qed.

Lemma frame_remaining_counts_down_witness :
  dwc2_get_frame_remaining blank_state 200
  < dwc2_get_frame_remaining blank_state 100
  /\ dwc2_get_frame_remaining (dwc2_sof blank_state) 1000010 = 11999
  /\ dwc2_get_frame_remaining (dwc2_frame_boundary blank_state 1000000)
       1000010 = 11999
  /\ dwc2_get_frame_remaining (dwc2_frame_boundary blank_state 1001000)
       1001000 < 11999.
Proof.
  destruct (frame_remaining_counts_down blank_state 100 200)
    as (_ & _ & _ & Hstrict & Hsof & Hev); [closed_fact ..|].
  split; [|split; [|split]].
  - apply Hstrict; closed_fact.
  - apply Hsof; closed_fact.
  - apply (Hev 1000000 1000010); closed_fact.
  - apply (Hev 1001000 1001000); closed_fact.
Defined.

Lemma late_frame_boundary_read :
  sof_time blank_state + usb_frame_time blank_state = 1000000
  /\ dwc2_get_frame_remaining (dwc2_frame_boundary blank_state 1001000)
       1001000 = 11987
  /\ fi (dwc2_frame_boundary blank_state 1001000) = 11999.
Proof. vm_compute. intuition congruence. Qed.

End FrameExamples.

(** ** The interrupt line *)

Section LineKept.

Context {R : Dwc2Regs} {M : GuestMemory}.

Lemma line_kept_refl (s : DWC2State) : line_kept s s.
Proof. constructor; auto. Qed.

Lemma line_kept_trans (s1 s2 s3 : DWC2State) :
  line_kept s1 s2 -> line_kept s2 s3 -> line_kept s1 s3.
Proof. intros [A B] [C D]. constructor; auto. Qed.

(** A change that touches neither the line nor GINTSTS, GINTMSK, GAHBCFG. *)
Lemma same_line_kept (s s' : DWC2State) :
  irq s' = irq s -> oldlevel s' = oldlevel s ->
  gintsts s' = gintsts s -> gintmsk s' = gintmsk s ->
  gahbcfg s' = gahbcfg s ->
  line_kept s s'.
Proof.
  intros Hi Ho Hs Hm Hc.
  assert (Hl : irq_level s' = irq_level s)
    by (unfold irq_level; rewrite Hs, Hm, Hc; reflexivity).
  constructor; unfold irq_synced; rewrite ?Hi, ?Ho, ?Hl; auto.
Qed.

Lemma update_irq_synced (s : DWC2State) :
  oldlevel s = irq s -> irq_synced (dwc2_update_irq s).
Proof.
  intros H. unfold dwc2_update_irq, irq_synced.
  destruct (irq_level s =? oldlevel s) eqn:E; cbn [negb].
  - apply Z.eqb_eq in E. split; congruence.
  - split; reflexivity.
Qed.

Lemma line_kept_update_irq (s : DWC2State) :
  line_kept s (dwc2_update_irq s).
Proof.
  constructor.
  - intros H. apply update_irq_synced in H. destruct H; assumption.
  - intros [_ H]. apply update_irq_synced. assumption.
Qed.

(** After a change of the registers only, [dwc2_update_irq] brings the
    line in step. *)
Lemma line_kept_then_update (s s1 : DWC2State) :
  irq s1 = irq s -> oldlevel s1 = oldlevel s ->
  line_kept s (dwc2_update_irq s1).
Proof.
  intros Hi Ho.
  assert (H : oldlevel s = irq s -> irq_synced (dwc2_update_irq s1))
    by (intros H; apply update_irq_synced; congruence).
  constructor.
  - intros H0. destruct (H H0); assumption.
  - intros [_ H0]. auto.
Qed.

Lemma line_kept_raise_global (s : DWC2State) (intr : Z) :
  line_kept s (dwc2_raise_global_irq s intr).
Proof.
  unfold dwc2_raise_global_irq.
  destruct (negb (nz (gintsts s .& intr))); [|apply line_kept_refl].
  apply line_kept_then_update; reflexivity.
Qed.

Lemma line_kept_lower_global (s : DWC2State) (intr : Z) :
  line_kept s (dwc2_lower_global_irq s intr).
Proof.
  unfold dwc2_lower_global_irq.
  destruct (nz (gintsts s .& intr)); [|apply line_kept_refl].
  apply line_kept_then_update; reflexivity.
Qed.

(** *** Results that carry a state *)

Lemma kept_state (s s' : DWC2State) : kept s s' <-> line_kept s s'.
Proof.
  unfold kept, carried, carrier_state. split.
  - intros H. apply H. reflexivity.
  - intros H x E. inversion E. subst. assumption.
Qed.

Lemma kept_some {T : Type} {CT : Carrier T} (s : DWC2State) (x : T) :
  kept s x -> kept s (Some x).
Proof. unfold kept. intros Hx s' E. apply Hx. exact E. Qed.

Lemma kept_none {T : Type} {CT : Carrier T} (s : DWC2State) :
  kept s (@None T).
Proof. unfold kept. intros s' E. discriminate E. Qed.

Lemma kept_pair {A B : Type} {CA : Carrier A} (s : DWC2State) (a : A) (b : B) :
  kept s a -> kept s (a, b).
Proof. unfold kept. intros Hx s' E. apply Hx. exact E. Qed.

Lemma kept_of_pair {A B : Type} {CA : Carrier A} (s : DWC2State) (a : A) (b : B) :
  kept s (a, b) -> kept s a.
Proof. unfold kept. intros Hx s' E. apply Hx. exact E. Qed.

Lemma kept_trans {T : Type} {CT : Carrier T} (s t : DWC2State) (x : T) :
  kept s t -> kept t x -> kept s x.
Proof.
  intros Ht Hx s' E. apply (proj1 (kept_state s t)) in Ht.
  apply line_kept_trans with (s2 := t); [assumption|]. apply Hx. exact E.
Qed.

Lemma kept_let {A T : Type} {CA : Carrier A} {CT : Carrier T} (s : DWC2State)
    (e : A) (f : A -> T) :
  kept s e -> (forall x, kept s x -> kept s (f x)) ->
  kept s (let x := e in f x).
Proof. intros He Hf. apply Hf. exact He. Qed.

Lemma kept_let_pure {A T : Type} {CT : Carrier T} (s : DWC2State)
    (e : A) (f : A -> T) :
  (forall x, kept s (f x)) -> kept s (let x := e in f x).
Proof. intros Hf. apply Hf. Qed.

Lemma kept_match_pair {A B T : Type} {CA : Carrier A} {CT : Carrier T}
    (s : DWC2State) (e : A * B) (f : A -> B -> T) :
  kept s e -> (forall a b, kept s a -> kept s (f a b)) ->
  kept s (let '(a, b) := e in f a b).
Proof.
  destruct e as [a b]. intros He Hf. apply Hf.
  apply kept_of_pair with (b := b). exact He.
Qed.

Lemma kept_match_pair_pure {A B T : Type} {CT : Carrier T}
    (s : DWC2State) (e : A * B) (f : A -> B -> T) :
  (forall a b, kept s (f a b)) -> kept s (let '(a, b) := e in f a b).
Proof. destruct e as [a b]. intros Hf. apply Hf. Qed.

Lemma kept_match_option {A T : Type} {CA : Carrier A} {CT : Carrier T}
    (s : DWC2State) (e : option A) (f : A -> T) (g : T) :
  kept s e -> (forall a, kept s a -> kept s (f a)) -> kept s g ->
  kept s (match e with Some a => f a | None => g end).
Proof.
  destruct e as [a|]; intros He Hf Hg; [|exact Hg].
  apply Hf. intros s' E. apply He. exact E.
Qed.

Lemma kept_refl (s : DWC2State) : kept s s.
Proof. apply kept_state, line_kept_refl. Qed.

Lemma kept_same_line (s s' : DWC2State) :
  irq s' = irq s -> oldlevel s' = oldlevel s ->
  gintsts s' = gintsts s -> gintmsk s' = gintmsk s ->
  gahbcfg s' = gahbcfg s ->
  kept s s'.
Proof. intros. apply kept_state, same_line_kept; assumption. Qed.

Lemma kept_update_irq (s : DWC2State) : kept s (dwc2_update_irq s).
Proof. apply kept_state, line_kept_update_irq. Qed.

Lemma kept_raise_global (s : DWC2State) (intr : Z) :
  kept s (dwc2_raise_global_irq s intr).
Proof. apply kept_state, line_kept_raise_global. Qed.

Lemma kept_lower_global (s : DWC2State) (intr : Z) :
  kept s (dwc2_lower_global_irq s intr).
Proof. apply kept_state, line_kept_lower_global. Qed.

End LineKept.

Create HintDb kept.

#[export] Hint Resolve kept_refl kept_update_irq kept_raise_global
  kept_lower_global : kept.

(** The calls that assign to fields other than the line and the three
    registers its level is computed from. *)
Ltac plain_update t :=
  lazymatch t with
  | set_fszreg ?s _ => idtac
  | set_dfszreg ?s _ => idtac
  | set_dptxfsiz ?s _ => idtac
  | set_hreg0 ?s _ => idtac
  | set_hreg1 ?s _ => idtac
  | set_dreg ?s _ => idtac
  | set_diepreg ?s _ => idtac
  | set_doepreg ?s _ => idtac
  | set_pcgreg ?s _ => idtac
  | set_packet ?s _ => idtac
  | set_usb_buf ?s _ => idtac
  | set_sof_time ?s _ => idtac
  | set_usb_frame_time ?s _ => idtac
  | set_usb_bit_time ?s _ => idtac
  | set_usb_version ?s _ => idtac
  | set_frame_number ?s _ => idtac
  | set_fi ?s _ => idtac
  | set_next_chan ?s _ => idtac
  | set_working ?s _ => idtac
  | set_eof_timer ?s _ => idtac
  | set_frame_timer ?s _ => idtac
  | set_async_bh ?s _ => idtac
  | set_device_async_bh ?s _ => idtac
  | set_uport_dev ?s _ => idtac
  | set_device ?s _ => idtac
  | set_dma_as ?s _ => idtac
  | set_qemu_log ?s _ => idtac
  | h0_put ?s _ _ => idtac
  | h1_put ?s _ _ => idtac
  | d_put ?s _ _ => idtac
  | diep_put ?s _ _ => idtac
  | doep_put ?s _ _ => idtac
  | glb_put ?s GOTGCTL _ => idtac
  | set_packet_at ?s _ _ => idtac
  | set_usb_buf_at ?s _ _ => idtac
  | set_device_attached ?s _ => idtac
  | qemu_log_mask ?s _ => idtac
  | bad_offset ?s _ => idtac
  | qemu_bh_schedule_async ?s => idtac
  | qemu_bh_schedule_device ?s => idtac
  | dwc2_bus_stop ?s => idtac
  | dwc2_eof_timer ?s => idtac
  | dwc2_bus_start ?s _ => idtac
  end.

(** One step of the walk over the body of a model function: tests and
    matches are split, a bound state is replaced by any state the line was
    kept for, and a call is chained after its state argument. *)
Ltac kept_step :=
  lazymatch goal with
  | |- kept _ (if ?c then _ else _) => destruct c
  | |- kept ?s (let x := ?e in @?f x) =>
    first [ apply (kept_let s e f); [|intros ? ?]
          | apply (kept_let_pure s e f); intros ? ];
    cbv beta
  | |- kept ?s (match ?e with pair a b => @?f a b end) =>
    first [ apply (kept_match_pair s e f); [|intros ? ? ?]
          | apply (kept_match_pair_pure s e f); intros ? ? ];
    cbv beta
  | |- kept ?s (match ?e with Some a => @?f a | None => ?g end) =>
    first [ apply (kept_match_option s e f g); [|intros ? ?|]
          | destruct e ];
    cbv beta
  | |- kept _ (Some _) => apply kept_some
  | |- kept _ None => apply kept_none
  | |- kept _ (pair _ _) => apply kept_pair
  | |- kept _ (match ?e with _ => _ end) => destruct e
  | |- kept _ _ =>
    first
      [ assumption
      | solve [auto 2 with kept nocore]
      | match goal with
        | |- kept ?s ?t => plain_update t; apply kept_same_line; reflexivity
        end
      | match goal with
        | |- kept ?s (_ ?t) => apply (kept_trans s t)
        | |- kept ?s (_ ?t _) => apply (kept_trans s t)
        | |- kept ?s (_ ?t _ _) => apply (kept_trans s t)
        | |- kept ?s (_ ?t _ _ _) => apply (kept_trans s t)
        | |- kept ?s (_ ?t _ _ _ _) => apply (kept_trans s t)
        | |- kept ?s (_ ?t _ _ _ _ _) => apply (kept_trans s t)
        | |- kept ?s (_ ?t _ _ _ _ _ _) => apply (kept_trans s t)
        end ]
  end.

Ltac kept_steps := repeat kept_step.

(** Unfold a model function and keep its [let]s. *)
Tactic Notation "open_body" reference(f) := cbv delta [f]; cbv beta.

Section LineCalls.

Context {R : Dwc2Regs} {M : GuestMemory}.

Lemma kept_raise_host (s : DWC2State) (h : Z) :
  kept s (dwc2_raise_host_irq s h).
Proof. open_body dwc2_raise_host_irq. kept_steps. Qed.

Lemma kept_lower_host (s : DWC2State) (h : Z) :
  kept s (dwc2_lower_host_irq s h).
Proof. open_body dwc2_lower_host_irq. kept_steps. Qed.

Lemma kept_raise_device (s : DWC2State) (ep : Z) (out : bool) :
  kept s (dwc2_raise_device_irq s ep out).
Proof. open_body dwc2_raise_device_irq. kept_steps. Qed.

Lemma kept_lower_device (s : DWC2State) (ep : Z) (out : bool) :
  kept s (dwc2_lower_device_irq s ep out).
Proof. open_body dwc2_lower_device_irq. kept_steps. Qed.

End LineCalls.

#[export] Hint Resolve kept_raise_host kept_lower_host kept_raise_device
  kept_lower_device : kept.

Section LineHost.

Context {R : Dwc2Regs} {M : GuestMemory}.

Lemma kept_update_hc_irq (s : DWC2State) (index : Z) :
  kept s (dwc2_update_hc_irq s index).
Proof. open_body dwc2_update_hc_irq. kept_steps. Qed.

Lemma kept_update_ep_irq (s : DWC2State) (ep : Z) :
  kept s (dwc2_update_ep_irq s ep).
Proof. open_body dwc2_update_ep_irq. kept_steps. Qed.

Lemma kept_speed_times (s : DWC2State) (b : bool) :
  kept s (speed_times s b).
Proof. open_body speed_times. kept_steps. Qed.

Lemma kept_attach (s : DWC2State) (now : Z) : kept s (dwc2_attach s now).
Proof.
  pose proof kept_speed_times.
  open_body dwc2_attach. open_body dwc2_bus_start. open_body dwc2_eof_timer.
  kept_steps.
Qed.

Lemma kept_detach (s : DWC2State) : kept s (dwc2_detach s).
Proof. open_body dwc2_detach. open_body dwc2_bus_stop. kept_steps. Qed.

Lemma kept_wakeup (s : DWC2State) : kept s (dwc2_wakeup s).
Proof. open_body dwc2_wakeup. kept_steps. Qed.

End LineHost.

#[export] Hint Resolve kept_update_hc_irq kept_update_ep_irq kept_speed_times
  kept_attach kept_detach kept_wakeup : kept.

Section LinePacket.

Context {R : Dwc2Regs} {M : GuestMemory}.

Lemma reset_registers_line (s : DWC2State) :
  irq (dwc2_reset_registers s) = irq s
  /\ oldlevel (dwc2_reset_registers s) = oldlevel s.
Proof. split; reflexivity. Qed.

Lemma kept_reset_exit (s : DWC2State) (now : Z) :
  kept s (dwc2_reset_exit s now).
Proof. open_body dwc2_reset_exit. open_body usb_attach. kept_steps. Qed.

(** The registers are reset without a look at the line; [dwc2_reset_hold]
    then brings it in step. *)
Lemma kept_reset (s : DWC2State) (now : Z) :
  kept s (qdev_reset_all_fn s now).
Proof.
  unfold qdev_reset_all_fn, dwc2_reset_hold.
  match goal with
  | |- kept _ (dwc2_reset_exit ?t _) => apply (kept_trans s t)
  end; [|apply kept_reset_exit].
  open_body dwc2_reset_enter.
  repeat match goal with
         | |- kept ?s (dwc2_update_irq (let x := ?e in @?f x)) =>
           apply (kept_let s e (fun x => dwc2_update_irq (f x)));
             [|intros ? ?]; cbv beta
         end.
  - kept_steps.
  - kept_steps.
  - open_body usb_detach. kept_steps.
  - kept_steps.
  - destruct (reset_registers_line x2) as [Hi Ho].
    apply (kept_trans s x2); [assumption|].
    apply kept_state, line_kept_then_update; assumption.
Qed.

Lemma kept_hp_send (s : DWC2State) (index pid epnum hcdma : Z)
    (reply : usb_reply) :
  kept s (hp_send s index pid epnum hcdma reply).
Proof. open_body hp_send. kept_steps. Qed.

Lemma kept_hp_success (l : hp_locals) (s : DWC2State) :
  kept s (hp_success l s).
Proof. open_body hp_success. kept_steps. Qed.

Lemma kept_hp_error (l : hp_locals) (s : DWC2State) (status : Z) :
  kept s (hp_error l s status).
Proof. open_body hp_error. kept_steps. Qed.

Lemma kept_hp_finish (l : hp_locals) (s : DWC2State) (intr pcnt len : Z)
    (done do_intr : bool) :
  kept s (hp_finish l s intr pcnt len done do_intr).
Proof. open_body hp_finish. kept_steps. Qed.

Lemma kept_from_babble (again : DWC2State -> option DWC2State)
    (l : hp_locals) (s : DWC2State) :
  (forall t, kept t (again t)) ->
  kept s (handle_packet_from_babble again l s).
Proof.
  intros Hagain.
  pose proof kept_hp_success. pose proof kept_hp_error.
  pose proof kept_hp_finish.
  open_body handle_packet_from_babble. kept_steps.
Qed.

Lemma kept_handle_packet (s : DWC2State) (devadr : Z) (reply : usb_reply)
    (index : Z) (send : bool) :
  kept s (dwc2_handle_packet s devadr reply index send).
Proof.
  pose proof kept_hp_send.
  assert (forall l t,
             kept t (handle_packet_from_babble
                       (handle_packet_from_babble (fun _ => None) l) l t)).
  { intros l t. apply kept_from_babble. intros t'.
    apply kept_from_babble. intros t''. apply kept_none. }
  open_body dwc2_handle_packet. kept_steps.
Qed.

End LinePacket.

#[export] Hint Resolve kept_reset kept_hp_send kept_handle_packet : kept.

Section LineRegisters.

Context {R : Dwc2Regs} {M : GuestMemory}.

Lemma kept_enable_chan (s : DWC2State) (index : Z) (lookup : Z -> bool)
    (reply : usb_reply) :
  kept s (dwc2_enable_chan s index lookup reply).
Proof. open_body dwc2_enable_chan. kept_steps. Qed.

Lemma kept_port_reset (s : DWC2State) (now : Z) :
  kept s (usb_port_reset s now).
Proof.
  open_body usb_port_reset. open_body usb_attach. open_body usb_detach.
  kept_steps.
Qed.

Lemma kept_fold_left {A : Type} (f : DWC2State -> A -> DWC2State)
    (l : list A) (s : DWC2State) :
  (forall t a, kept t (f t a)) -> kept s (fold_left f l s).
Proof.
  intros Hf. revert s. induction l as [|a l IH]; intros s; simpl.
  - apply kept_refl.
  - apply (kept_trans s (f s a)); [apply Hf|apply IH].
Qed.

Lemma kept_glbreg_read (s : DWC2State) (addr : Z) :
  kept s (dwc2_glbreg_read s addr ((addr - HSOTG_REG 0x000) >> 2)).
Proof.
  open_body dwc2_glbreg_read.
  destruct (addr >? GINTSTS2); [kept_steps|].
  destruct (addr =? GRSTCTL) eqn:E; [|kept_steps].
  apply Z.eqb_eq in E. subst addr. cbv zeta.
  apply kept_pair, kept_same_line; reflexivity.
Qed.

Lemma kept_hsotg_read (s : DWC2State) (addr now : Z) :
  kept s (dwc2_hsotg_read s addr now).
Proof.
  pose proof kept_glbreg_read.
  open_body dwc2_hsotg_read.
  open_body dwc2_fszreg_read. open_body dwc2_dfszreg_read.
  open_body dwc2_hreg0_read. open_body dwc2_hreg1_read.
  open_body dwc2_dreg_read. open_body dwc2_diepreg_read.
  open_body dwc2_doepreg_read. open_body dwc2_pcgreg_read.
  kept_steps.
Qed.

Lemma word_index (addr k : Z) :
  addr mod 4 = 0 -> addr <> 4 * k -> (addr - HSOTG_REG 0x000) >> 2 <> k.
Proof.
  intros Ha Hk. unfold HSOTG_REG. rewrite Z.sub_0_r, Z.shiftr_div_pow2 by lia.
  change (2 ^ 2) with 4.
  pose proof (Z.div_mod addr 4). lia.
Qed.

Lemma kept_log_unimp_if (c : bool) (msg : string) (s : DWC2State) :
  kept s (log_unimp_if c msg s).
Proof. open_body log_unimp_if. kept_steps. Qed.

(** A write to the global bank keeps the line in step when it is at a
    word offset and does not clear the global enable under an asserted
    line: GINTSTS and GINTMSK are followed by [dwc2_update_irq], GAHBCFG
    only when the enable bit goes from 0 to 1. *)
Lemma kept_glbreg_write (s : DWC2State) (addr val now : Z) :
  0 <= GAHBCFG_GLBL_INTR_EN < 2 ^ 32 ->
  addr mod 4 = 0 ->
  (addr = GAHBCFG -> irq_level s = 1 -> val .& GAHBCFG_GLBL_INTR_EN <> 0) ->
  kept s (dwc2_glbreg_write s addr ((addr - HSOTG_REG 0x000) >> 2) val now).
Proof.
  intros Hen Hal Hgah.
  pose proof kept_log_unimp_if.
  open_body dwc2_glbreg_write.
  destruct (addr >? GINTSTS2); [kept_steps|].
  cbv zeta.
  destruct (addr =? GOTGCTL) eqn:E0.
  { apply Z.eqb_eq in E0. subst addr.
    apply kept_some, kept_same_line; reflexivity. }
  destruct (addr =? GAHBCFG) eqn:E1.
  { apply Z.eqb_eq in E1. subst addr. specialize (Hgah eq_refl).
    destruct (rising _ _ _) eqn:Er.
    - apply kept_some, kept_state, line_kept_then_update; reflexivity.
    - apply kept_some, kept_state. constructor; [intros H0; exact H0|].
      intros [Hs Ho]. split; [|exact Ho].
      change (irq s = irq_level
                        (set_glbreg s (bank_set (glbreg s) 2 (u32 val)))).
      rewrite Hs. unfold irq_level in *.
      change (gintsts (set_glbreg s (bank_set (glbreg s) 2 (u32 val))))
        with (gintsts s).
      change (gintmsk (set_glbreg s (bank_set (glbreg s) 2 (u32 val))))
        with (gintmsk s).
      change (gahbcfg (set_glbreg s (bank_set (glbreg s) 2 (u32 val))))
        with (u32 val).
      rewrite u32_land_small by exact Hen.
      unfold rising in Er. change (glbreg s ((GAHBCFG - HSOTG_REG 0) >> 2))
        with (gahbcfg s) in Er.
      destruct (nz (gintsts s .& gintmsk s)); [|reflexivity].
      destruct (nz (gahbcfg s .& GAHBCFG_GLBL_INTR_EN)) eqn:Ea;
        destruct (nz (val .& GAHBCFG_GLBL_INTR_EN)) eqn:Eb;
        try reflexivity; try discriminate Er.
      apply nz_false in Eb. exfalso. apply Hgah; [reflexivity|exact Eb]. }
  destruct (addr =? GRSTCTL) eqn:E2.
  { apply Z.eqb_eq in E2. subst addr.
    match goal with
    | |- kept ?s (match ?e with Some a => @?f a | None => ?g end) =>
      apply (kept_match_option s e f g);
        [|intros [[st v] fl] Hst|apply kept_none]
    end.
    - kept_steps.
    - cbv beta iota.
      assert (Hst' : kept s st) by (intros s' E; apply Hst; exact E).
      apply kept_some.
      destruct fl; [apply (kept_trans s _ _ Hst'), kept_state,
                      line_kept_then_update; reflexivity|].
      apply (kept_trans s _ _ Hst'), kept_same_line; reflexivity. }
  destruct (addr =? GINTSTS) eqn:E3.
  { apply kept_some, kept_state, line_kept_then_update; reflexivity. }
  destruct (addr =? GINTMSK) eqn:E4.
  { apply kept_some, kept_state, line_kept_then_update; reflexivity. }
  apply Z.eqb_neq in E1, E3, E4.
  apply kept_some, kept_same_line; try reflexivity;
    unfold gintsts, gintmsk, gahbcfg, glb_get; cbn [glbreg set_glbreg];
    apply bank_set_other; apply not_eq_sym, word_index; assumption.
Qed.

End LineRegisters.

#[export] Hint Resolve kept_enable_chan kept_port_reset kept_log_unimp_if
  : kept.

Section LineWrites.

Context {R : Dwc2Regs} {M : GuestMemory}.

Lemma kept_hreg0_write (s : DWC2State) (addr index val now : Z) :
  kept s (dwc2_hreg0_write s addr index val now).
Proof. open_body dwc2_hreg0_write. kept_steps. Qed.

Lemma kept_hreg1_write (s : DWC2State) (addr index val : Z)
    (lookup : Z -> bool) (reply : usb_reply) :
  kept s (dwc2_hreg1_write s addr index val lookup reply).
Proof. open_body dwc2_hreg1_write. kept_steps. Qed.

Lemma kept_device_handle_attach (s : DWC2State) :
  kept s (dwc2_usb_device_handle_attach s).
Proof. open_body dwc2_usb_device_handle_attach. kept_steps. Qed.

Lemma kept_device_handle_detach (s : DWC2State) :
  kept s (dwc2_usb_device_handle_detach s).
Proof. open_body dwc2_usb_device_handle_detach. kept_steps. Qed.

Lemma kept_device_attach (s : DWC2State) : kept s (usb_device_attach s).
Proof.
  pose proof kept_device_handle_attach.
  open_body usb_device_attach. kept_steps.
Qed.

Lemma kept_device_detach (s : DWC2State) : kept s (usb_device_detach s).
Proof.
  pose proof kept_device_handle_detach.
  open_body usb_device_detach. kept_steps.
Qed.

Lemma kept_update_all_ep (s : DWC2State) (l : list Z) :
  kept s (fold_left dwc2_update_ep_irq l s).
Proof. apply kept_fold_left. intros t a. apply kept_update_ep_irq. Qed.

Lemma kept_dreg_write (s : DWC2State) (addr index val : Z) :
  kept s (dwc2_dreg_write s addr index val).
Proof.
  pose proof kept_device_attach. pose proof kept_device_detach.
  pose proof kept_update_all_ep.
  open_body dwc2_dreg_write. kept_steps.
Qed.

Lemma kept_update_in_ep (s : DWC2State) (ep : Z) :
  kept s (dwc2_update_in_ep s ep).
Proof. open_body dwc2_update_in_ep. kept_steps. Qed.

Lemma kept_update_out_ep (s : DWC2State) (ep : Z) :
  kept s (dwc2_update_out_ep s ep).
Proof. open_body dwc2_update_out_ep. kept_steps. Qed.

Lemma kept_diepreg_write (s : DWC2State) (addr index val : Z) :
  kept s (dwc2_diepreg_write s addr index val).
Proof.
  pose proof kept_update_in_ep.
  open_body dwc2_diepreg_write. kept_steps.
Qed.

Lemma kept_doepreg_write (s : DWC2State) (addr index val : Z) :
  kept s (dwc2_doepreg_write s addr index val).
Proof.
  pose proof kept_update_out_ep.
  open_body dwc2_doepreg_write. kept_steps.
Qed.

Lemma kept_hsotg_write (s : DWC2State) (addr val now : Z)
    (lookup : Z -> bool) (reply : usb_reply) :
  0 <= GAHBCFG_GLBL_INTR_EN < 2 ^ 32 ->
  addr mod 4 = 0 ->
  (addr = GAHBCFG -> irq_level s = 1 -> val .& GAHBCFG_GLBL_INTR_EN <> 0) ->
  kept s (dwc2_hsotg_write s addr val now lookup reply).
Proof.
  intros Hen Hal Hgah.
  pose proof (kept_glbreg_write s addr val now Hen Hal Hgah).
  pose proof kept_hreg0_write. pose proof kept_hreg1_write.
  pose proof kept_dreg_write. pose proof kept_diepreg_write.
  pose proof kept_doepreg_write.
  open_body dwc2_hsotg_write.
  open_body dwc2_fszreg_write. open_body dwc2_dfszreg_write.
  open_body dwc2_pcgreg_write.
  kept_steps.
Qed.

Lemma kept_run_op (s : DWC2State) (op : irq_op) :
  0 <= GAHBCFG_GLBL_INTR_EN < 2 ^ 32 ->
  write_in_step s op ->
  kept s (run_op s op).
Proof.
  intros Hen Hop. destruct op; cbn [run_op write_in_step] in *.
  - pose proof (kept_hsotg_read s addr now) as Hr.
    destruct (dwc2_hsotg_read s addr now) as [[s1 v]|]; [|apply kept_none].
    apply kept_some. intros s' E. apply Hr. exact E.
  - destruct Hop as [Hal Hgah]. apply kept_hsotg_write; assumption.
  - apply kept_some, kept_raise_global.
  - apply kept_some, kept_lower_global.
  - apply kept_some, kept_raise_host.
  - apply kept_some, kept_lower_host.
  - apply kept_some, kept_raise_device.
  - apply kept_some, kept_lower_device.
Qed.

Lemma run_ops_synced (ops : list irq_op) (s s' : DWC2State) :
  0 <= GAHBCFG_GLBL_INTR_EN < 2 ^ 32 ->
  irq_synced s ->
  ops_in_step s ops ->
  run_ops s ops = Some s' ->
  irq_synced s'.
Proof.
  intros Hen. revert s. induction ops as [|op ops IH]; intros s Hs Hops Hrun.
  - inversion Hrun. subst. exact Hs.
  - cbn [run_ops ops_in_step] in *. destruct Hops as [Hop Hrest].
    pose proof (kept_run_op s op Hen Hop) as Hk.
    destruct (run_op s op) as [s1|]; [|discriminate Hrun].
    apply (IH s1); [|exact Hrest|exact Hrun].
    apply (lk_sync s s1); [apply Hk; reflexivity|exact Hs].
Qed.

(** Start from a state in which the line is in step with the registers,
    and run any sequence of register reads,
    register writes at word offsets and calls of the raise and lower
    functions in which no write to GAHBCFG clears the global enable while
    the line is asserted.  Then the level on the line is
    [(GINTSTS & GINTMSK) && (GAHBCFG & GLBL_INTR_EN)].  In any state a raise
    of a cause that is set and a lower of a cause that is clear return the
    state as it is, registers and line. *)
Theorem irq_line_follows_registers (s s' : DWC2State) (ops : list irq_op) :
  0 <= GAHBCFG_GLBL_INTR_EN < 2 ^ 32 ->
  irq_synced s ->
  ops_in_step s ops ->
  run_ops s ops = Some s' ->
  irq s' = irq_level s'
  /\ (forall intr, gintsts s' .& intr <> 0 ->
                   dwc2_raise_global_irq s' intr = s')
  /\ (forall intr, gintsts s' .& intr = 0 ->
                   dwc2_lower_global_irq s' intr = s')
  /\ (forall h, haint s' .& h <> 0 -> dwc2_raise_host_irq s' h = s')
  /\ (forall h, haint s' .& h = 0 -> dwc2_lower_host_irq s' h = s')
  /\ (forall ep (out : bool),
         daint s' .& u32 ((1 << ep) << (if out then 16 else 0)) <> 0 ->
         dwc2_raise_device_irq s' ep out = s')
  /\ (forall ep (out : bool),
         daint s' .& u32 ((1 << ep) << (if out then 16 else 0)) = 0 ->
         dwc2_lower_device_irq s' ep out = s').
Proof.
  intros Hen Hs Hops Hrun.
  destruct (run_ops_synced ops s s' Hen Hs Hops Hrun) as [Hline _].
  split; [exact Hline|].
  repeat split.
  - intros intr H. unfold dwc2_raise_global_irq.
    apply nz_true in H. rewrite H. reflexivity.
  - intros intr H. unfold dwc2_lower_global_irq.
    apply nz_false in H. rewrite H. reflexivity.
  - intros h H. unfold dwc2_raise_host_irq.
    apply nz_true in H. rewrite H. reflexivity.
  - intros h H. unfold dwc2_lower_host_irq.
    apply nz_false in H. rewrite H. reflexivity.
  - intros ep out H. unfold dwc2_raise_device_irq. cbv zeta.
    apply nz_true in H. rewrite H. reflexivity.
  - intros ep out H. unfold dwc2_lower_device_irq. cbv zeta.
    apply nz_false in H. rewrite H. reflexivity.
Qed.

End LineWrites.

Section LineExamples.

#[local] Existing Instance hsotg_regs.
#[local] Existing Instance flat_ram.

Lemma irq_line_follows_registers_witness :
  exists s',
    run_ops blank_state sof_raised_ops = Some s'
    /\ irq s' = irq_level s'
    /\ irq s' = 1.
Proof.
  eexists. split; [reflexivity|].
  split; [|reflexivity].
  refine (proj1 (irq_line_follows_registers blank_state _ sof_raised_ops
                   _ _ _ eq_refl)).
  - closed_fact.
  - split; reflexivity.
  - cbn. repeat split; try closed_fact; intros; closed_fact.
Defined.

End LineExamples.

(** ** Device mode: SET_ADDRESS on endpoint 0 *)

Section SetAddress.

Context {R : Dwc2Regs} {M : GuestMemory}.

Lemma land_lor_nonzero (g x e : Z) : g .& e <> 0 -> (g .| x) .& e <> 0.
Proof.
  intros H H0. apply H. apply Z.bits_inj'. intros i Hi.
  pose proof (land_disjoint_bit _ _ i H0) as Hb.
  rewrite Z.lor_spec in Hb. rewrite Z.land_spec, Z.bits_0.
  destruct (Z.testbit g i), (Z.testbit x i), (Z.testbit e i);
    simpl in *; congruence.
Qed.

(** A cause that is set stays set through [dwc2_update_ep_irq], which
    raises and lowers the endpoint causes only. *)
Lemma raise_global_keeps_cause (s : DWC2State) (x e : Z) :
  gintsts s .& e <> 0 -> gintsts (dwc2_raise_global_irq s x) .& e <> 0.
Proof.
  intros H. unfold dwc2_raise_global_irq.
  destruct (negb (nz (gintsts s .& x))); [|exact H].
  unfold gintsts, glb_get in *. rewrite update_irq_glbreg.
  unfold glb_put. cbn [glbreg set_glbreg]. rewrite bank_set_same.
  apply land_lor_nonzero. exact H.
Qed.

Lemma lower_global_keeps_cause (s : DWC2State) (x e : Z) :
  e .& x = 0 ->
  gintsts s .& e <> 0 -> gintsts (dwc2_lower_global_irq s x) .& e <> 0.
Proof.
  intros Hd H. unfold dwc2_lower_global_irq.
  destruct (nz (gintsts s .& x)); [|exact H].
  unfold gintsts, glb_get in *. rewrite update_irq_glbreg.
  unfold glb_put. cbn [glbreg set_glbreg]. rewrite bank_set_same.
  rewrite <- Z.land_assoc, (Z.land_comm (.~ x) e).
  rewrite (land_lnot_disjoint e x Hd). exact H.
Qed.


Lemma raise_device_keeps_cause (s : DWC2State) (ep : Z) (out : bool) (e : Z) :
  gintsts s .& e <> 0 -> gintsts (dwc2_raise_device_irq s ep out) .& e <> 0.
Proof.
  intros H. unfold dwc2_raise_device_irq. cbv zeta.
  repeat match goal with
         | |- context [if ?c then _ else _] => destruct c
         end;
    repeat apply raise_global_keeps_cause; exact H.
Qed.

Lemma lower_device_keeps_cause (s : DWC2State) (ep : Z) (out : bool) (e : Z) :
  e .& (GINTSTS_IEPINT .| GINTSTS_OEPINT) = 0 ->
  gintsts s .& e <> 0 -> gintsts (dwc2_lower_device_irq s ep out) .& e <> 0.
Proof.
  intros Hd H.
  assert (Hi : e .& GINTSTS_IEPINT = 0).
  { rewrite Z.land_comm in Hd |- *. exact (lor_land_zero_l _ _ _ Hd). }
  assert (Ho : e .& GINTSTS_OEPINT = 0).
  { rewrite Z.land_comm, Z.lor_comm in Hd. rewrite Z.land_comm.
    exact (lor_land_zero_l _ _ _ Hd). }
  unfold dwc2_lower_device_irq. cbv zeta.
  repeat match goal with
         | |- context [if ?c then _ else _] => destruct c
         end;
    repeat (apply lower_global_keeps_cause; [assumption|]); exact H.
Qed.

Lemma update_ep_keeps_cause (s : DWC2State) (ep e : Z) :
  e .& (GINTSTS_IEPINT .| GINTSTS_OEPINT) = 0 ->
  gintsts s .& e <> 0 -> gintsts (dwc2_update_ep_irq s ep) .& e <> 0.
Proof.
  intros Hd H. unfold dwc2_update_ep_irq. cbv zeta.
  repeat match goal with
         | |- context [if ?c then _ else _] => destruct c
         end;
    repeat first [ apply raise_device_keeps_cause
                 | apply lower_device_keeps_cause; [assumption|] ];
    exact H.
Qed.

Lemma update_ep_dsts (s : DWC2State) (ep : Z) :
  dsts (dwc2_update_ep_irq s ep) = dsts s.
Proof.
  unfold dsts, d_get.
  apply (fr_dreg _ _ (irq_frame_update_ep s ep)). discriminate.
Qed.


(** The flat-buffer movement of an 8-byte SETUP payload. *)
Lemma out_transfer_setup (fuel : nat) (s : DWC2State) (p : USBPacket)
    (b0 b1 b2 b3 b4 b5 b6 b7 sz pktcnt mps : Z) :
  dcfg s .& DCFG_DESCDMA_EN = 0 ->
  pk_pid p = USB_TOKEN_SETUP ->
  pk_actual_length p = 0 ->
  pk_iov p = [b0; b1; b2; b3; b4; b5; b6; b7] ->
  8 <= u32 sz ->
  u32 mps <> 0 ->
  exists s2 p2,
    out_transfer fuel s p 0 8 sz pktcnt mps
    = Done (s2, p2, [b0; b1; b2; b3; b4; b5; b6; b7], 8)
    /\ pk_pid p2 = USB_TOKEN_SETUP
    /\ glbreg s2 = glbreg s
    /\ dreg s2 = dreg s.
Proof.
  intros Hd Hpid Hal Hiov Hsz Hmps.
  unfold out_transfer.
  replace (nz (dcfg s .& DCFG_DESCDMA_EN)) with false
    by (symmetry; apply nz_false; exact Hd).
  cbv zeta.
  replace (if u32 sz >? u32 8 then u32 8 else u32 sz) with 8.
  2:{ change (u32 8) with 8. destruct (u32 sz >? 8) eqn:E; lia. }
  replace (8 >? 0) with true by reflexivity.
  replace (usb_packet_copy p (zeros 8) 8)
    with (Some (set_pk_data p (pk_iov p) 8,
                [b0; b1; b2; b3; b4; b5; b6; b7])).
  2:{ unfold usb_packet_copy. cbv zeta. rewrite Hal, Hiov, Hpid.
      rewrite Z.eqb_refl. reflexivity. }
  replace (u32 mps =? 0) with false by (symmetry; apply Z.eqb_neq; exact Hmps).
  replace (0 =? 0) with true by reflexivity.
  eexists. eexists. split; [reflexivity|].
  split; [exact Hpid|].
  destruct (nz (doepdma s 0)); destruct (negb _); split; reflexivity.
Qed.

(** The end of the OUT case for a SETUP of eight bytes that holds a
    SET_ADDRESS request for endpoint 0. *)
Lemma out_complete_set_address (s : DWC2State) (p : USBPacket)
    (buffer : list Z) (mps : Z) :
  GINTSTS_ENUMDONE <> 0 ->
  pk_pid p = USB_TOKEN_SETUP ->
  is_set_address buffer 0 = true ->
  exists s3,
    out_complete s p buffer 0 8 mps 8
    = Done (s3, set_pk_status p USB_RET_SUCCESS)
    /\ dsts s3 = (dsts s .& .~ DSTS_ENUMSPD_MASK)
                 .| (DSTS_ENUMSPD_HS << DSTS_ENUMSPD_SHIFT)
    /\ gintsts s3 .& GINTSTS_ENUMDONE <> 0.
Proof.
  intros He Hpid Hset. unfold out_complete.
  replace (transfer_status 8 (u32 8) (u32 mps)) with (Done USB_RET_SUCCESS)
    by reflexivity.
  cbv zeta. cbn [pk_pid set_pk_status]. rewrite Hpid, Z.eqb_refl, Hset.
  replace (8 >=? 8) with true by reflexivity. cbn [andb].
  eexists. split; [reflexivity|].
  match goal with
  | |- context [dwc2_raise_global_irq ?t ?x] =>
    pose proof (irq_frame_raise_global t x) as F;
      assert (G : gintsts (dwc2_raise_global_irq t x) .& x <> 0)
  end.
  { unfold dwc2_raise_global_irq.
    destruct (nz (gintsts _ .& _)) eqn:E; cbn [negb].
    - apply nz_true in E. exact E.
    - unfold gintsts at 1, glb_get. rewrite update_irq_glbreg.
      unfold glb_put. cbn [glbreg set_glbreg]. rewrite bank_set_same.
      rewrite lor_land_same. exact He. }
  split.
  - unfold dsts, d_get, doep_put. cbn [dreg set_doepreg].
    rewrite (fr_dreg _ _ F) by discriminate.
    unfold d_put. cbn [dreg set_dreg]. rewrite bank_set_same. reflexivity.
  - exact G.
Qed.


Lemma ep0_mps_nonzero (ctl mps : Z) : ep0_mps ctl = Some mps -> u32 mps <> 0.
Proof.
  unfold ep0_mps. cbv zeta. intros H.
  repeat match type of H with
         | (if ?c then _ else _) = _ => destruct c
         end; inversion H; subst; discriminate.
Qed.

Lemma process_setup_clears_stall (fuel : nat) (s : DWC2State) (p : USBPacket) :
  USB_TOKEN_SETUP <> USB_TOKEN_IN ->
  pk_pid p = USB_TOKEN_SETUP ->
  pk_ep p = 0 ->
  (diepctl s 0 .| doepctl s 0) .& DXEPCTL_STALL <> 0 ->
  dwc2_device_process_packet fuel s p
  = dwc2_device_process_packet fuel (clear_ep0_stall s) p.
Proof.
  intros Htok Hpid Hep Hst.
  assert (Hc : (diepctl (clear_ep0_stall s) 0 .| doepctl (clear_ep0_stall s) 0)
               .& DXEPCTL_STALL = 0).
  { change (diepctl (clear_ep0_stall s) 0)
      with (diepctl s 0 .& .~ DXEPCTL_STALL).
    change (doepctl (clear_ep0_stall s) 0)
      with (doepctl s 0 .& .~ DXEPCTL_STALL).
    rewrite Z.land_lor_distr_l, !land_lnot_same. reflexivity. }
  unfold dwc2_device_process_packet. cbv zeta.
  rewrite Hep, Hpid.
  replace (USB_TOKEN_SETUP =? USB_TOKEN_IN) with false
    by (symmetry; apply Z.eqb_neq; exact Htok).
  rewrite Z.eqb_refl.
  replace (nz ((diepctl s 0 .| doepctl s 0) .& DXEPCTL_STALL)) with true
    by (symmetry; apply nz_true; exact Hst).
  replace (nz ((diepctl (clear_ep0_stall s) 0 .| doepctl (clear_ep0_stall s) 0)
               .& DXEPCTL_STALL)) with false
    by (symmetry; apply nz_false; exact Hc).
  reflexivity.
Qed.

Lemma sg_size_add (sg : QEMUSGList) (base len : Z) :
  sg_size (qemu_sglist_add sg base len) = sg_size sg + len.
Proof.
  unfold qemu_sglist_add, sg_size.
  induction sg as [|e sg IH]; cbn [app fold_right snd]; [lia|].
  rewrite IH. lia.
Qed.

(** One descriptor of the loop leaves the device registers and the
    global registers alone and adds a length that is not negative. *)
Ltac one_descriptor H t sg :=
  match type of H with
  | Done (?a, qemu_sglist_add sg ?buf ?amt) = _ =>
    assert (dreg a = dreg t /\ glbreg a = glbreg t) by (split; reflexivity);
    pose proof (sg_size_add sg buf amt);
    set (a' := a) in *; set (b' := qemu_sglist_add sg buf amt) in *;
    clearbody a' b'
  | out_desc_loop _ ?a _ _ _ _ (qemu_sglist_add sg ?buf ?amt) = _ =>
    assert (dreg a = dreg t /\ glbreg a = glbreg t) by (split; reflexivity);
    pose proof (sg_size_add sg buf amt);
    set (a' := a) in *; set (b' := qemu_sglist_add sg buf amt) in *;
    clearbody a' b'
  end.

(** The descriptor loop of an OUT transfer writes guest memory and
    DOEPDMA only, and the list it builds has a size that is not
    negative. *)
Lemma out_desc_loop_keeps (fuel : nat) :
  forall (t : DWC2State) (ep pktsize mps pid : Z) (sg : QEMUSGList)
         (s1 : DWC2State) (sg1 : QEMUSGList),
    out_desc_loop fuel t ep pktsize mps pid sg = Done (s1, sg1) ->
    0 <= sg_size sg ->
    dreg s1 = dreg t /\ glbreg s1 = glbreg t /\ 0 <= sg_size sg1.
Proof.
  induction fuel as [|fuel IH]; intros t ep pktsize mps pid sg s1 sg1 H Hsg.
  - discriminate H.
  - cbn [out_desc_loop] in H.
    destruct (dma_memory_read (dma_as t) (doepdma t ep) sizeof_desc)
      as [ok raw].
    destruct ok; cbn [negb] in H;
      [|injection H as E1 E2; rewrite <- E1, <- E2; auto].
    cbv zeta in H.
    destruct (nz (DEV_DMA_BUFF_STS_GET (le32 (firstn 4 raw))));
      [injection H as E1 E2; rewrite <- E1, <- E2; auto|].
    pose proof (u32_range (pktsize - sg_size sg)).
    pose proof (u32_range (le32 (firstn 4 raw) .& DEV_DMA_NBYTES_MASK)).
    destruct (sg_size sg + le32 (firstn 4 raw) .& DEV_DMA_NBYTES_MASK
              >=? u64 pktsize);
      cbn [andb] in H;
      [destruct (mps =? 0); [discriminate H|]|];
      match type of H with
      | (if ?c then _ else _) = _ => destruct c
      end;
      one_descriptor H t sg;
      try (injection H as E1 E2; rewrite <- E1, <- E2;
           split; [tauto|split; [tauto|lia]]);
      (apply IH in H; [|lia]);
      destruct H as (K1 & K2 & K3);
      (split; [rewrite K1; tauto|split; [rewrite K2; tauto|exact K3]]).
Qed.

(** The SETUP case for endpoint 0 when the endpoint is not stalled and is
    active and enabled, with no global OUT NAK: the data movement, the end
    of the OUT case and the update of the endpoint interrupt. *)
Lemma process_setup_enabled (fuel : nat) (t : DWC2State) (p : USBPacket)
    (mps : Z) :
  USB_TOKEN_SETUP <> USB_TOKEN_IN ->
  pk_pid p = USB_TOKEN_SETUP ->
  pk_ep p = 0 ->
  Z.of_nat (List.length (pk_iov p)) - pk_actual_length p = 8 ->
  (diepctl t 0 .| doepctl t 0) .& DXEPCTL_STALL = 0 ->
  doepctl t 0 .& DXEPCTL_USBACTEP <> 0 ->
  doepctl t 0 .& DXEPCTL_EPENA <> 0 ->
  gintsts t .& GINTSTS_GOUTNAKEFF = 0 ->
  ep0_mps (doepctl t 0) = Some mps ->
  dwc2_device_process_packet fuel t p
  = match out_transfer fuel t p 0 8
            (DOEPTSIZ0_XFERSIZE_GET (doeptsiz t 0))
            (DOEPTSIZ0_PKTCNT_GET (doeptsiz t 0)) mps with
    | NoFuel => NoFuel
    | Abort => Abort
    | Done (s2, p2, buffer, amtDone) =>
      match out_complete s2 p2 buffer 0 8 mps amtDone with
      | Done (s3, p3) => Done (dwc2_update_ep_irq s3 0, p3)
      | Abort => Abort
      | NoFuel => NoFuel
      end
    end.
Proof.
  intros Htok Hpid Hep Hsize Hstall Hact Hena Hnak Hmps.
  assert (Hso : doepctl t 0 .& DXEPCTL_STALL = 0).
  { rewrite Z.lor_comm in Hstall. exact (lor_land_zero_l _ _ _ Hstall). }
  unfold dwc2_device_process_packet. cbv zeta.
  rewrite Hep, Hpid, Hsize.
  replace (USB_TOKEN_SETUP =? USB_TOKEN_IN) with false
    by (symmetry; apply Z.eqb_neq; exact Htok).
  rewrite Z.eqb_refl.
  replace (nz ((diepctl t 0 .| doepctl t 0) .& DXEPCTL_STALL)) with false
    by (symmetry; apply nz_false; exact Hstall).
  rewrite andb_false_r.
  unfold device_token_out.
  replace (nz (doepctl t 0 .& DXEPCTL_STALL)) with false
    by (symmetry; apply nz_false; exact Hso).
  rewrite Hpid, Z.eqb_refl. cbn [negb]. rewrite andb_false_r.
  replace (nz (doepctl t 0 .& DXEPCTL_USBACTEP)) with true
    by (symmetry; apply nz_true; exact Hact).
  replace (nz (gintsts t .& GINTSTS_GOUTNAKEFF)) with false
    by (symmetry; apply nz_false; exact Hnak).
  replace (nz (doepctl t 0 .& DXEPCTL_EPENA)) with true
    by (symmetry; apply nz_true; exact Hena).
  cbn [negb orb].
  unfold out_sizes. rewrite Z.eqb_refl, Hmps.
  destruct (out_transfer fuel t p 0 8 _ _ mps) as [[[[s2 p2] b] a]| |];
    reflexivity.
Qed.

(** The data movement of an eight-byte SETUP through the descriptor
    chain: when it ends with eight bytes or more moved, it has moved the
    eight bytes of the packet, and has left the device and global
    registers alone. *)
Lemma out_transfer_desc_setup (fuel : nat) (t : DWC2State) (p : USBPacket)
    (b0 b1 b2 b3 b4 b5 b6 b7 sz pktcnt mps : Z)
    (s2 : DWC2State) (p2 : USBPacket) (buffer : list Z) (amtDone : Z) :
  (forall mem buf sg,
      0 <= sg_size sg -> 0 <= snd (dma_buf_read mem buf sg) <= sg_size sg) ->
  dcfg t .& DCFG_DESCDMA_EN <> 0 ->
  pk_pid p = USB_TOKEN_SETUP ->
  pk_actual_length p = 0 ->
  pk_iov p = [b0; b1; b2; b3; b4; b5; b6; b7] ->
  out_transfer fuel t p 0 8 sz pktcnt mps = Done (s2, p2, buffer, amtDone) ->
  8 <= amtDone ->
  amtDone = 8
  /\ buffer = [b0; b1; b2; b3; b4; b5; b6; b7]
  /\ pk_pid p2 = USB_TOKEN_SETUP
  /\ glbreg s2 = glbreg t
  /\ dreg s2 = dreg t.
Proof.
  intros Hres Hd Hpid Hal Hiov Hout Hamt.
  unfold out_transfer in Hout.
  rewrite (proj2 (nz_true _) Hd) in Hout.
  destruct (out_desc_loop fuel t 0 8 mps (pk_pid p) []) as [[s1 sg]| |] eqn:El;
    try discriminate Hout.
  destruct (out_desc_loop_keeps fuel t 0 8 mps (pk_pid p) [] s1 sg El)
    as (K1 & K2 & K3); [simpl; lia|].
  unfold usb_packet_copy in Hout. cbv zeta in Hout.
  rewrite Hal, Hiov, Hpid, Z.eqb_refl in Hout. cbn [orb] in Hout.
  change (Z.of_nat (List.length [b0; b1; b2; b3; b4; b5; b6; b7])) with 8
    in Hout.
  destruct ((0 <=? 0) && (0 + sg_size sg <=? 8)) eqn:Ec;
    cbn [negb] in Hout; [|discriminate Hout].
  apply andb_true_iff in Ec. destruct Ec as [_ Ec]. apply Z.leb_le in Ec.
  destruct (dma_buf_read (dma_as s1) _ sg) as [mem residual] eqn:Er.
  pose proof (Hres (dma_as s1)
                (buf_store (zeros (sg_size sg))
                   (firstn (Z.to_nat (sg_size sg))
                      (skipn (Z.to_nat 0) [b0; b1; b2; b3; b4; b5; b6; b7])))
                sg K3) as Hr.
  rewrite Er in Hr. cbn [snd] in Hr.
  injection Hout as E1 E2 E3 E4.
  assert (Hn : sg_size sg = 8 /\ residual = 0).
  { rewrite <- E4 in Hamt. rewrite u32_small in Hamt by lia. lia. }
  destruct Hn as [Hn Hz].
  rewrite Hn, Hz in *.
  split; [rewrite <- E4; reflexivity|].
  split; [rewrite <- E3; reflexivity|].
  split; [rewrite <- E2; exact Hpid|].
  rewrite <- E1. split; [exact K2|exact K1].
Qed.

Lemma usb_packet_copy_pid (p q : USBPacket) (buffer buf : list Z) (n : Z) :
  usb_packet_copy p buffer n = Some (q, buf) -> pk_pid q = pk_pid p.
Proof.
  unfold usb_packet_copy. cbv zeta. intros H.
  repeat match type of H with
         | (if ?c then _ else _) = _ => destruct c
         end;
    try discriminate H; injection H as <- _; reflexivity.
Qed.

(** The data movement through the flat buffer: what it leaves alone, and
    the count of bytes it moves. *)
Lemma out_transfer_flat (fuel : nat) (t : DWC2State) (p : USBPacket)
    (ep pktsize sz pktcnt mps : Z)
    (s2 : DWC2State) (p2 : USBPacket) (buffer : list Z) (amtDone : Z) :
  dcfg t .& DCFG_DESCDMA_EN = 0 ->
  out_transfer fuel t p ep pktsize sz pktcnt mps
  = Done (s2, p2, buffer, amtDone) ->
  amtDone = (if u32 sz >? u32 pktsize then u32 pktsize else u32 sz)
  /\ pk_pid p2 = pk_pid p
  /\ glbreg s2 = glbreg t
  /\ dreg s2 = dreg t.
Proof.
  intros Hd Hout. unfold out_transfer in Hout.
  rewrite (proj2 (nz_false _) Hd) in Hout. cbv zeta in Hout.
  set (n := if u32 sz >? u32 pktsize then u32 pktsize else u32 sz) in *.
  clearbody n.
  assert (Hq : forall q, (q = p \/ exists b, usb_packet_copy p (zeros n) n
                                             = Some (q, b)) ->
                         pk_pid q = pk_pid p).
  { intros q [->|[b Hb]]; [reflexivity|].
    exact (usb_packet_copy_pid _ _ _ _ _ Hb). }
  destruct (n >? 0).
  - destruct (usb_packet_copy p (zeros n) n) as [[q b]|] eqn:Ec;
      [|discriminate Hout].
    specialize (Hq q (or_intror (ex_intro _ b eq_refl))).
    destruct (u32 mps =? 0); [discriminate Hout|].
    cbv beta iota in Hout.
    destruct (nz (doepdma t ep)), (ep =? 0), (negb (pk_pid q =? USB_TOKEN_SETUP));
      match type of Hout with
      | Done (?a, _, _, _) = _ =>
        assert (Ha : glbreg a = glbreg t /\ dreg a = dreg t)
          by (split; reflexivity);
          set (a' := a) in *; clearbody a'
      end;
      injection Hout as <- <- _ <-; tauto.
  - specialize (Hq p (or_introl eq_refl)).
    destruct (pktsize =? 0); cbv beta iota in Hout;
      destruct (ep =? 0), (negb (pk_pid p =? USB_TOKEN_SETUP));
      match type of Hout with
      | Done (?a, _, _, _) = _ =>
        assert (Ha : glbreg a = glbreg t /\ dreg a = dreg t)
          by (split; reflexivity);
          set (a' := a) in *; clearbody a'
      end;
      injection Hout as <- <- _ <-; tauto.
Qed.

(** The data movement through the descriptor chain: what it leaves
    alone. *)
Lemma out_transfer_desc (fuel : nat) (t : DWC2State) (p : USBPacket)
    (ep pktsize sz pktcnt mps : Z)
    (s2 : DWC2State) (p2 : USBPacket) (buffer : list Z) (amtDone : Z) :
  dcfg t .& DCFG_DESCDMA_EN <> 0 ->
  out_transfer fuel t p ep pktsize sz pktcnt mps
  = Done (s2, p2, buffer, amtDone) ->
  pk_pid p2 = pk_pid p
  /\ glbreg s2 = glbreg t
  /\ dreg s2 = dreg t.
Proof.
  intros Hd Hout. unfold out_transfer in Hout.
  rewrite (proj2 (nz_true _) Hd) in Hout.
  destruct (out_desc_loop fuel t ep pktsize mps (pk_pid p) [])
    as [[s1 sg]| |] eqn:El; try discriminate Hout.
  destruct (out_desc_loop_keeps fuel t ep pktsize mps (pk_pid p) [] s1 sg El)
    as (K1 & K2 & _); [simpl; lia|].
  destruct (usb_packet_copy p (zeros (sg_size sg)) (sg_size sg))
    as [[q b]|] eqn:Ec; [|discriminate Hout].
  apply usb_packet_copy_pid in Ec.
  destruct (dma_buf_read (dma_as s1) b sg) as [mem residual].
  injection Hout as <- <- _ _.
  split; [exact Ec|]. split; [exact K2|exact K1].
Qed.

(** A cause outside the two endpoint causes is the same before and after
    [dwc2_update_ep_irq]. *)
Lemma raise_global_other (s : DWC2State) (x e : Z) :
  x .& e = 0 ->
  gintsts (dwc2_raise_global_irq s x) .& e = gintsts s .& e.
Proof.
  intros Hd. unfold dwc2_raise_global_irq.
  destruct (negb (nz (gintsts s .& x))); [|reflexivity].
  unfold gintsts, glb_get. rewrite update_irq_glbreg.
  unfold glb_put. cbn [glbreg set_glbreg]. rewrite bank_set_same.
  apply lor_land_keep. exact Hd.
Qed.

Lemma lower_global_other (s : DWC2State) (x e : Z) :
  x .& e = 0 ->
  gintsts (dwc2_lower_global_irq s x) .& e = gintsts s .& e.
Proof.
  intros Hd. unfold dwc2_lower_global_irq.
  destruct (nz (gintsts s .& x)); [|reflexivity].
  unfold gintsts, glb_get. rewrite update_irq_glbreg.
  unfold glb_put. cbn [glbreg set_glbreg]. rewrite bank_set_same.
  apply land_lnot_keep. exact Hd.
Qed.

Lemma endpoint_causes_apart (e : Z) :
  e .& (GINTSTS_IEPINT .| GINTSTS_OEPINT) = 0 ->
  GINTSTS_IEPINT .& e = 0 /\ GINTSTS_OEPINT .& e = 0.
Proof.
  intros Hd. rewrite Z.land_comm in Hd. split.
  - exact (lor_land_zero_l _ _ _ Hd).
  - rewrite Z.lor_comm in Hd. exact (lor_land_zero_l _ _ _ Hd).
Qed.

Lemma raise_device_other (s : DWC2State) (ep : Z) (out : bool) (e : Z) :
  e .& (GINTSTS_IEPINT .| GINTSTS_OEPINT) = 0 ->
  gintsts (dwc2_raise_device_irq s ep out) .& e = gintsts s .& e.
Proof.
  intros Hd. destruct (endpoint_causes_apart e Hd) as [Hi Ho].
  unfold dwc2_raise_device_irq. cbv zeta.
  repeat match goal with
         | |- context [if ?c then _ else _] => destruct c
         end;
    rewrite ?raise_global_other by assumption; reflexivity.
Qed.

Lemma lower_device_other (s : DWC2State) (ep : Z) (out : bool) (e : Z) :
  e .& (GINTSTS_IEPINT .| GINTSTS_OEPINT) = 0 ->
  gintsts (dwc2_lower_device_irq s ep out) .& e = gintsts s .& e.
Proof.
  intros Hd. destruct (endpoint_causes_apart e Hd) as [Hi Ho].
  unfold dwc2_lower_device_irq. cbv zeta.
  repeat match goal with
         | |- context [if ?c then _ else _] => destruct c
         end;
    rewrite ?lower_global_other by assumption; reflexivity.
Qed.

Lemma update_ep_other (s : DWC2State) (ep e : Z) :
  e .& (GINTSTS_IEPINT .| GINTSTS_OEPINT) = 0 ->
  gintsts (dwc2_update_ep_irq s ep) .& e = gintsts s .& e.
Proof.
  intros Hd. unfold dwc2_update_ep_irq. cbv zeta.
  repeat match goal with
         | |- context [if ?c then _ else _] => destruct c
         end;
    repeat first [ rewrite raise_device_other by assumption
                 | rewrite lower_device_other by assumption ];
    reflexivity.
Qed.

(** The end of the OUT case when fewer than eight bytes were moved: the
    request is not looked at. *)
Lemma out_complete_short (s : DWC2State) (p : USBPacket) (buffer : list Z)
    (mps amtDone : Z) :
  u32 mps <> 0 ->
  amtDone < 8 ->
  exists s3 st,
    out_complete s p buffer 0 8 mps amtDone = Done (s3, set_pk_status p st)
    /\ dreg s3 = dreg s
    /\ glbreg s3 = glbreg s.
Proof.
  intros Hmps Hamt. unfold out_complete, transfer_status.
  change (u32 8) with 8.
  replace (amtDone <? 8) with true by (symmetry; lia).
  replace (u32 mps =? 0) with false by (symmetry; lia).
  replace (amtDone >=? 8) with false by (symmetry; lia).
  destruct ((Z.rem amtDone (u32 mps) =? 0) && (amtDone >? 0));
    cbv zeta; rewrite andb_false_r;
    eexists; eexists; (split; [reflexivity|split; reflexivity]).
Qed.

(** What the packet handler does with a SET_ADDRESS request in a SETUP
    packet for endpoint 0, by the count of bytes that the data movement
    reports: with eight or more the request is parsed, with fewer it is
    not. *)
Lemma setup_by_bytes_moved (fuel : nat) (t : DWC2State) (p : USBPacket)
    (b2 b3 b4 b5 b6 b7 mps : Z)
    (s2 : DWC2State) (p2 : USBPacket) (buffer : list Z) (amtDone : Z) :
  USB_TOKEN_SETUP <> USB_TOKEN_IN ->
  GINTSTS_ENUMDONE <> 0 ->
  GINTSTS_ENUMDONE .& (GINTSTS_IEPINT .| GINTSTS_OEPINT) = 0 ->
  (forall mem buf sg,
      0 <= sg_size sg -> 0 <= snd (dma_buf_read mem buf sg) <= sg_size sg) ->
  pk_pid p = USB_TOKEN_SETUP ->
  pk_ep p = 0 ->
  pk_actual_length p = 0 ->
  pk_iov p = [0; USB_REQ_SET_ADDRESS; b2; b3; b4; b5; b6; b7] ->
  (diepctl t 0 .| doepctl t 0) .& DXEPCTL_STALL = 0 ->
  doepctl t 0 .& DXEPCTL_USBACTEP <> 0 ->
  doepctl t 0 .& DXEPCTL_EPENA <> 0 ->
  gintsts t .& GINTSTS_GOUTNAKEFF = 0 ->
  ep0_mps (doepctl t 0) = Some mps ->
  out_transfer fuel t p 0 8 (DOEPTSIZ0_XFERSIZE_GET (doeptsiz t 0))
    (DOEPTSIZ0_PKTCNT_GET (doeptsiz t 0)) mps
  = Done (s2, p2, buffer, amtDone) ->
  (8 <= amtDone ->
   exists s' p',
     dwc2_device_process_packet fuel t p = Done (s', p')
     /\ pk_status p' = USB_RET_SUCCESS
     /\ dsts s' = (dsts t .& .~ DSTS_ENUMSPD_MASK)
                  .| (DSTS_ENUMSPD_HS << DSTS_ENUMSPD_SHIFT)
     /\ gintsts s' .& GINTSTS_ENUMDONE <> 0)
  /\ (amtDone < 8 ->
      exists s' p',
        dwc2_device_process_packet fuel t p = Done (s', p')
        /\ dsts s' = dsts t
        /\ gintsts s' .& GINTSTS_ENUMDONE = gintsts t .& GINTSTS_ENUMDONE).
Proof.
  intros Htok He Hdis Hres Hpid Hep Hal Hiov Hstall Hact Hena Hnak Hmps Hout.
  pose proof (ep0_mps_nonzero _ _ Hmps) as Hm.
  assert (Hsize : Z.of_nat (List.length (pk_iov p)) - pk_actual_length p = 8)
    by (rewrite Hiov, Hal; reflexivity).
  rewrite (process_setup_enabled fuel t p mps Htok Hpid Hep Hsize Hstall
             Hact Hena Hnak Hmps), Hout.
  assert (Hk : pk_pid p2 = USB_TOKEN_SETUP /\ glbreg s2 = glbreg t
               /\ dreg s2 = dreg t).
  { destruct (nz (dcfg t .& DCFG_DESCDMA_EN)) eqn:Ed.
    - apply nz_true in Ed.
      destruct (out_transfer_desc _ _ _ _ _ _ _ _ _ _ _ _ Ed Hout)
        as (K1 & K2 & K3).
      rewrite Hpid in K1. auto.
    - apply nz_false in Ed.
      destruct (out_transfer_flat _ _ _ _ _ _ _ _ _ _ _ _ Ed Hout)
        as (_ & K1 & K2 & K3).
      rewrite Hpid in K1. auto. }
  destruct Hk as (Kp & Kg & Kd).
  split.
  - intros Hamt.
    assert (Hb : amtDone = 8
                 /\ buffer = [0; USB_REQ_SET_ADDRESS; b2; b3; b4; b5; b6; b7]).
    { destruct (nz (dcfg t .& DCFG_DESCDMA_EN)) eqn:Ed.
      - apply nz_true in Ed.
        destruct (out_transfer_desc_setup fuel t p 0 USB_REQ_SET_ADDRESS
                    b2 b3 b4 b5 b6 b7 _ _ mps s2 p2 buffer amtDone
                    Hres Ed Hpid Hal Hiov Hout Hamt)
          as (K1 & K2 & _).
        auto.
      - apply nz_false in Ed.
        destruct (out_transfer_flat _ _ _ _ _ _ _ _ _ _ _ _ Ed Hout)
          as (K1 & _).
        change (u32 8) with 8 in K1.
        assert (Hsz : 8 <= u32 (DOEPTSIZ0_XFERSIZE_GET (doeptsiz t 0))).
        { destruct (u32 (DOEPTSIZ0_XFERSIZE_GET (doeptsiz t 0)) >? 8) eqn:E;
            lia. }
        destruct (out_transfer_setup fuel t p 0 USB_REQ_SET_ADDRESS
                    b2 b3 b4 b5 b6 b7
                    (DOEPTSIZ0_XFERSIZE_GET (doeptsiz t 0))
                    (DOEPTSIZ0_PKTCNT_GET (doeptsiz t 0)) mps
                    Ed Hpid Hal Hiov Hsz Hm)
          as (s2' & p2' & Ht & _).
        rewrite Ht in Hout. injection Hout as _ _ <- <-. auto. }
    destruct Hb as [-> ->].
    destruct (out_complete_set_address s2 p2
                [0; USB_REQ_SET_ADDRESS; b2; b3; b4; b5; b6; b7] mps)
      as (s3 & Hc & Hd3 & Hg3); try assumption.
    { unfold is_set_address. cbn [nth]. rewrite !Z.eqb_refl. reflexivity. }
    rewrite Hc.
    eexists. eexists. split; [reflexivity|].
    split; [reflexivity|]. split.
    + rewrite update_ep_dsts, Hd3. unfold dsts, d_get. rewrite Kd.
      reflexivity.
    + apply update_ep_keeps_cause; assumption.
  - intros Hamt.
    destruct (out_complete_short s2 p2 buffer mps amtDone Hm Hamt)
      as (s3 & st & Hc & Hd3 & Hg3).
    rewrite Hc.
    eexists. eexists. split; [reflexivity|]. split.
    + rewrite update_ep_dsts. unfold dsts, d_get. rewrite Hd3, Kd.
      reflexivity.
    + rewrite update_ep_other by exact Hdis.
      unfold gintsts, glb_get. rewrite Hg3, Kg. reflexivity.
Qed.

(** The last-descriptor bit survives the rewriting of the byte count and
    of the buffer status in the status word. *)
Lemma last_bit_kept (x y d : Z) :
  0 < DEV_DMA_L < 2 ^ 32 ->
  DEV_DMA_NBYTES_MASK .& DEV_DMA_L = 0 ->
  DEV_DMA_BUFF_STS_MASK .& DEV_DMA_L = 0 ->
  nz (u32 (((((x .| DEV_DMA_L) .& .~ DEV_DMA_NBYTES_MASK) .| y)
            .& .~ DEV_DMA_BUFF_STS_MASK) .| d) .& DEV_DMA_L) = true.
Proof.
  intros Hl Hn Hb. apply nz_true.
  rewrite u32_land_small by lia.
  apply land_lor_nonzero. rewrite land_lnot_keep by exact Hb.
  apply land_lor_nonzero. rewrite land_lnot_keep by exact Hn.
  rewrite lor_land_same. lia.
Qed.

(** The descriptor chain of an eight-byte SETUP whose first descriptor
    can be read, is ready for the controller and has room for the eight
    bytes: the walk ends after that descriptor, and the eight bytes are
    moved when the copy leaves no residual. *)
Lemma out_transfer_first_descriptor (fuel : nat) (t : DWC2State)
    (p : USBPacket) (b0 b1 b2 b3 b4 b5 b6 b7 sz pktcnt mps : Z)
    (raw : list Z) :
  0 < DEV_DMA_L < 2 ^ 32 ->
  DEV_DMA_NBYTES_MASK .& DEV_DMA_L = 0 ->
  DEV_DMA_BUFF_STS_MASK .& DEV_DMA_L = 0 ->
  dcfg t .& DCFG_DESCDMA_EN <> 0 ->
  pk_pid p = USB_TOKEN_SETUP ->
  pk_actual_length p = 0 ->
  pk_iov p = [b0; b1; b2; b3; b4; b5; b6; b7] ->
  mps <> 0 ->
  dma_memory_read (dma_as t) (doepdma t 0) sizeof_desc = (true, raw) ->
  DEV_DMA_BUFF_STS_GET (le32 (firstn 4 raw)) = 0 ->
  8 <= le32 (firstn 4 raw) .& DEV_DMA_NBYTES_MASK ->
  (forall mem,
      snd (dma_buf_read mem [b0; b1; b2; b3; b4; b5; b6; b7]
             [(le32 (skipn 4 raw), 8)]) = 0) ->
  exists s2 p2 buffer,
    out_transfer (S fuel) t p 0 8 sz pktcnt mps = Done (s2, p2, buffer, 8).
Proof.
  intros Hl Hn Hb Hd Hpid Hal Hiov Hmps Hread Hsts Hnb Hres.
  unfold out_transfer. rewrite (proj2 (nz_true _) Hd).
  cbn [out_desc_loop]. rewrite Hread. cbn [negb]. cbv zeta.
  rewrite Hsts. change (nz 0) with false. cbv iota.
  change (sg_size []) with 0. change (u64 8) with 8.
  replace (0 + le32 (firstn 4 raw) .& DEV_DMA_NBYTES_MASK >=? 8) with true
    by (symmetry; lia).
  replace (mps =? 0) with false by (symmetry; lia).
  cbn [andb]. cbv iota beta.
  rewrite last_bit_kept by assumption.
  change (qemu_sglist_add [] (le32 (skipn 4 raw)) (u32 (8 - 0)))
    with [(le32 (skipn 4 raw), 8)].
  change (sg_size [(le32 (skipn 4 raw), 8)]) with 8.
  replace (usb_packet_copy p (zeros 8) 8)
    with (Some (set_pk_data p (pk_iov p) 8,
                [b0; b1; b2; b3; b4; b5; b6; b7])).
  2:{ unfold usb_packet_copy. cbv zeta. rewrite Hal, Hiov, Hpid.
      rewrite Z.eqb_refl. reflexivity. }
  match goal with
  | |- context [dma_buf_read ?m ?b ?g] =>
    pose proof (Hres m) as Hr; destruct (dma_buf_read m b g) as [mem res]
  end.
  cbn [snd] in Hr. rewrite Hr.
  eexists. eexists. eexists. reflexivity.
Qed.

Lemma clear_ep0_stall_frame (s : DWC2State) :
  gintsts (clear_ep0_stall s) = gintsts s
  /\ dreg (clear_ep0_stall s) = dreg s
  /\ doeptsiz (clear_ep0_stall s) 0 = doeptsiz s 0
  /\ doepdma (clear_ep0_stall s) 0 = doepdma s 0
  /\ dma_as (clear_ep0_stall s) = dma_as s.
Proof. repeat split. Qed.

(** The state in which the OUT case starts for a SETUP token on endpoint
    0: a STALL of the endpoint has been cleared. *)
Lemma setup_start_state (fuel : nat) (s : DWC2State) (p : USBPacket)
    (mps : Z) :
  USB_TOKEN_SETUP <> USB_TOKEN_IN ->
  DXEPCTL_STALL .& (DXEPCTL_USBACTEP .| DXEPCTL_EPENA .| D0EPCTL_MPS_MASK) = 0 ->
  pk_pid p = USB_TOKEN_SETUP ->
  pk_ep p = 0 ->
  doepctl s 0 .& DXEPCTL_USBACTEP <> 0 ->
  doepctl s 0 .& DXEPCTL_EPENA <> 0 ->
  ep0_mps (doepctl s 0) = Some mps ->
  let s0 := if nz ((diepctl s 0 .| doepctl s 0) .& DXEPCTL_STALL)
            then clear_ep0_stall s else s in
  dwc2_device_process_packet fuel s p = dwc2_device_process_packet fuel s0 p
  /\ (diepctl s0 0 .| doepctl s0 0) .& DXEPCTL_STALL = 0
  /\ doepctl s0 0 .& DXEPCTL_USBACTEP <> 0
  /\ doepctl s0 0 .& DXEPCTL_EPENA <> 0
  /\ ep0_mps (doepctl s0 0) = Some mps
  /\ gintsts s0 = gintsts s
  /\ dreg s0 = dreg s
  /\ doeptsiz s0 0 = doeptsiz s 0
  /\ doepdma s0 0 = doepdma s 0
  /\ dma_as s0 = dma_as s.
Proof.
  intros Htok Hlay Hpid Hep Hact Hena Hmps. cbv zeta.
  destruct (nz ((diepctl s 0 .| doepctl s 0) .& DXEPCTL_STALL)) eqn:Est.
  - apply nz_true in Est.
    assert (Hmask : forall x,
               DXEPCTL_STALL .& x = 0 ->
               doepctl (clear_ep0_stall s) 0 .& x = doepctl s 0 .& x).
    { intros x Hx.
      change (doepctl (clear_ep0_stall s) 0)
        with (doepctl s 0 .& .~ DXEPCTL_STALL).
      apply land_lnot_keep. exact Hx. }
    assert (Hl : DXEPCTL_STALL .& DXEPCTL_USBACTEP = 0
                 /\ DXEPCTL_STALL .& DXEPCTL_EPENA = 0
                 /\ DXEPCTL_STALL .& D0EPCTL_MPS_MASK = 0).
    { rewrite Z.land_comm in Hlay.
      pose proof (lor_land_zero_l _ _ _ Hlay) as H1.
      pose proof (lor_land_zero_l _ _ _ H1) as H2.
      rewrite Z.lor_comm in H1. pose proof (lor_land_zero_l _ _ _ H1) as H3.
      rewrite Z.lor_comm in Hlay. pose proof (lor_land_zero_l _ _ _ Hlay) as H4.
      rewrite !(Z.land_comm DXEPCTL_STALL). auto. }
    destruct Hl as (L1 & L2 & L3).
    destruct (clear_ep0_stall_frame s) as (F1 & F2 & F3 & F4 & F5).
    split; [exact (process_setup_clears_stall fuel s p Htok Hpid Hep Est)|].
    split.
    { change (diepctl (clear_ep0_stall s) 0)
        with (diepctl s 0 .& .~ DXEPCTL_STALL).
      change (doepctl (clear_ep0_stall s) 0)
        with (doepctl s 0 .& .~ DXEPCTL_STALL).
      rewrite Z.land_lor_distr_l, !land_lnot_same. reflexivity. }
    split; [rewrite Hmask by exact L1; exact Hact|].
    split; [rewrite Hmask by exact L2; exact Hena|].
    split; [unfold ep0_mps in *; rewrite Hmask by exact L3; exact Hmps|].
    auto.
  - apply nz_false in Est. repeat split; assumption.
Qed.

(** C8 (as the code has it).  A SETUP packet for endpoint 0 whose eight
    bytes are a request with bmRequestType 0 and bRequest SET_ADDRESS,
    when OUT endpoint 0 is active and enabled and no global OUT NAK is in
    effect (a STALL of the endpoint is cleared by the SETUP token first).
    The request is parsed exactly when the data movement, through the flat
    buffer or through the descriptor chain, has moved eight bytes or more:
    then DSTS.ENUMSPD is set to high speed, the enumeration-done cause is
    raised and the packet completes with SUCCESS; with fewer bytes moved
    the call returns with DSTS and the cause as they were.  With buffer
    DMA the eight bytes are moved when DOEPTSIZ0.XFERSIZE is at least 8.
    With descriptor DMA they are moved when the first descriptor can be
    read, is ready for the controller and has room for eight bytes or
    more, and the copy to guest memory leaves no residual (the
    last-descriptor bit lying outside the byte-count and buffer-status
    fields of the status word).  [dma_buf_read] is taken to report a
    residual between 0 and the size of the list. *)
Theorem setup_set_address_enumerates (fuel : nat) (s : DWC2State)
    (p : USBPacket) (b2 b3 b4 b5 b6 b7 mps : Z) :
  USB_TOKEN_SETUP <> USB_TOKEN_IN ->
  GINTSTS_ENUMDONE <> 0 ->
  GINTSTS_ENUMDONE .& (GINTSTS_IEPINT .| GINTSTS_OEPINT) = 0 ->
  DXEPCTL_STALL .& (DXEPCTL_USBACTEP .| DXEPCTL_EPENA .| D0EPCTL_MPS_MASK) = 0 ->
  (forall mem buf sg,
      0 <= sg_size sg -> 0 <= snd (dma_buf_read mem buf sg) <= sg_size sg) ->
  pk_pid p = USB_TOKEN_SETUP ->
  pk_ep p = 0 ->
  pk_actual_length p = 0 ->
  pk_iov p = [0; USB_REQ_SET_ADDRESS; b2; b3; b4; b5; b6; b7] ->
  doepctl s 0 .& DXEPCTL_USBACTEP <> 0 ->
  doepctl s 0 .& DXEPCTL_EPENA <> 0 ->
  gintsts s .& GINTSTS_GOUTNAKEFF = 0 ->
  ep0_mps (doepctl s 0) = Some mps ->
  let s0 := if nz ((diepctl s 0 .| doepctl s 0) .& DXEPCTL_STALL)
            then clear_ep0_stall s else s in
  let sz := DOEPTSIZ0_XFERSIZE_GET (doeptsiz s 0) in
  let pktcnt := DOEPTSIZ0_PKTCNT_GET (doeptsiz s 0) in
  let enumerated :=
    exists s' p',
      dwc2_device_process_packet fuel s p = Done (s', p')
      /\ pk_status p' = USB_RET_SUCCESS
      /\ dsts s' = (dsts s .& .~ DSTS_ENUMSPD_MASK)
                   .| (DSTS_ENUMSPD_HS << DSTS_ENUMSPD_SHIFT)
      /\ gintsts s' .& GINTSTS_ENUMDONE <> 0 in
  (forall s2 p2 buffer amtDone,
      out_transfer fuel s0 p 0 8 sz pktcnt mps
      = Done (s2, p2, buffer, amtDone) ->
      (8 <= amtDone -> enumerated)
      /\ (amtDone < 8 ->
          exists s' p',
            dwc2_device_process_packet fuel s p = Done (s', p')
            /\ dsts s' = dsts s
            /\ gintsts s' .& GINTSTS_ENUMDONE
               = gintsts s .& GINTSTS_ENUMDONE))
  /\ (dcfg s .& DCFG_DESCDMA_EN = 0 -> 8 <= u32 sz -> enumerated)
  /\ (forall raw,
         dcfg s .& DCFG_DESCDMA_EN <> 0 ->
         fuel <> O ->
         0 < DEV_DMA_L < 2 ^ 32 ->
         DEV_DMA_NBYTES_MASK .& DEV_DMA_L = 0 ->
         DEV_DMA_BUFF_STS_MASK .& DEV_DMA_L = 0 ->
         dma_memory_read (dma_as s) (doepdma s 0) sizeof_desc = (true, raw) ->
         DEV_DMA_BUFF_STS_GET (le32 (firstn 4 raw)) = 0 ->
         8 <= le32 (firstn 4 raw) .& DEV_DMA_NBYTES_MASK ->
         (forall mem,
             snd (dma_buf_read mem (pk_iov p) [(le32 (skipn 4 raw), 8)]) = 0) ->
         enumerated).
Proof.
  intros Htok He Hdis Hlay Hres Hpid Hep Hal Hiov Hact Hena Hnak Hmps
    s0 sz pktcnt enumerated.
  destruct (setup_start_state fuel s p mps Htok Hlay Hpid Hep Hact Hena Hmps)
    as (Hproc & Hstall0 & Hact0 & Hena0 & Hmps0 & Hg0 & Hd0 & Ht0 & Ha0 & Hm0).
  fold s0 in Hproc, Hstall0, Hact0, Hena0, Hmps0, Hg0, Hd0, Ht0, Ha0, Hm0.
  clearbody s0.
  assert (Hnak0 : gintsts s0 .& GINTSTS_GOUTNAKEFF = 0)
    by (rewrite Hg0; exact Hnak).
  assert (Hdsts : dsts s0 = dsts s) by (unfold dsts, d_get; rewrite Hd0; reflexivity).
  assert (Hdcfg : dcfg s0 = dcfg s) by (unfold dcfg, d_get; rewrite Hd0; reflexivity).
  assert (Hparse : forall s2 p2 buffer amtDone,
             out_transfer fuel s0 p 0 8 sz pktcnt mps
             = Done (s2, p2, buffer, amtDone) ->
             (8 <= amtDone -> enumerated)
             /\ (amtDone < 8 ->
                 exists s' p',
                   dwc2_device_process_packet fuel s p = Done (s', p')
                   /\ dsts s' = dsts s
                   /\ gintsts s' .& GINTSTS_ENUMDONE
                      = gintsts s .& GINTSTS_ENUMDONE)).
  { intros s2 p2 buffer amtDone Hout. subst sz pktcnt enumerated.
    rewrite <- Ht0 in Hout. rewrite Hproc, <- Hdsts, <- Hg0.
    exact (setup_by_bytes_moved fuel s0 p b2 b3 b4 b5 b6 b7 mps s2 p2 buffer
             amtDone Htok He Hdis Hres Hpid Hep Hal Hiov Hstall0 Hact0 Hena0
             Hnak0 Hmps0 Hout). }
  split; [exact Hparse|]. split.
  - intros Hflat Hsz.
    destruct (out_transfer_setup fuel s0 p 0 USB_REQ_SET_ADDRESS
                b2 b3 b4 b5 b6 b7 sz pktcnt mps)
      as (s2 & p2 & Ht & _); try assumption.
    { rewrite Hdcfg. exact Hflat. }
    { exact (ep0_mps_nonzero _ _ Hmps). }
    apply (proj1 (Hparse _ _ _ _ Ht)). lia.
  - intros raw Hdesc Hfuel Hl Hn Hb Hread Hsts Hnb Hzero.
    destruct fuel as [|f]; [congruence|].
    destruct (out_transfer_first_descriptor f s0 p 0 USB_REQ_SET_ADDRESS
                b2 b3 b4 b5 b6 b7 sz pktcnt mps raw)
      as (s2 & p2 & buffer & Ht); try assumption.
    { rewrite Hdcfg. exact Hdesc. }
    { pose proof (ep0_mps_nonzero _ _ Hmps) as Hm. intros ->. apply Hm.
      reflexivity. }
    { rewrite Hm0, Ha0. exact Hread. }
    { rewrite <- Hiov. exact Hzero. }
    apply (proj1 (Hparse _ _ _ _ Ht)). lia.
Qed.

End SetAddress.

Section SetAddressExamples.

#[local] Existing Instance hsotg_regs.
#[local] Existing Instance flat_ram.

Lemma set_address_on_idle_endpoint :
  pk_pid set_address_packet = USB_TOKEN_SETUP
  /\ pk_ep set_address_packet = 0
  /\ pk_iov set_address_packet = [0; USB_REQ_SET_ADDRESS; 1; 0; 0; 0; 0; 0]
  /\ exists s' p',
       dwc2_device_process_packet 0 reset_device set_address_packet
       = Done (s', p')
       /\ pk_status p' = USB_RET_ASYNC
       /\ gintsts s' .& GINTSTS_ENUMDONE = 0
       /\ dsts s' = dsts reset_device.
Proof.
  repeat split.
  eexists. eexists. split; [vm_compute; reflexivity|]. vm_compute.
  repeat split.
Qed.

Lemma setup_set_address_enumerates_witness :
  (exists s' p',
      dwc2_device_process_packet 0 armed_device set_address_packet
      = Done (s', p')
      /\ pk_status p' = USB_RET_SUCCESS
      /\ gintsts s' .& GINTSTS_ENUMDONE <> 0)
  /\ (exists s' p',
         dwc2_device_process_packet 1 desc_device set_address_packet
         = Done (s', p')
         /\ pk_status p' = USB_RET_SUCCESS
         /\ gintsts s' .& GINTSTS_ENUMDONE <> 0)
  /\ (exists s' p',
         dwc2_device_process_packet 0 short_device set_address_packet
         = Done (s', p')
         /\ dsts s' = dsts short_device
         /\ gintsts s' .& GINTSTS_ENUMDONE = 0).
Proof.
  split; [|split].
  - destruct (setup_set_address_enumerates 0 armed_device
                set_address_packet 1 0 0 0 0 0 64)
      as (_ & Hflat & _);
      [closed_fact | closed_fact | closed_fact | closed_fact
      | intros mem buf sg Hsg; simpl; lia | closed_fact ..|].
    destruct Hflat as (s' & p' & Hrun & Hst & _ & He); [closed_fact ..|].
    exists s', p'. split; [exact Hrun|]. split; [exact Hst|exact He].
  - destruct (setup_set_address_enumerates 1 desc_device
                set_address_packet 1 0 0 0 0 0 64)
      as (_ & _ & Hdesc);
      [closed_fact | closed_fact | closed_fact | closed_fact
      | intros mem buf sg Hsg; simpl; lia | closed_fact ..|].
    destruct (Hdesc [8; 0; 0; 0; 0; 0x20; 0; 0])
      as (s' & p' & Hrun & Hst & _ & He); [closed_fact ..|].
    exists s', p'. split; [exact Hrun|]. split; [exact Hst|exact He].
  - destruct (setup_set_address_enumerates 0 short_device
                set_address_packet 1 0 0 0 0 0 64)
      as (Hmoved & _);
      [closed_fact | closed_fact | closed_fact | closed_fact
      | intros mem buf sg Hsg; simpl; lia | closed_fact ..|].
    cbv zeta in Hmoved.
    edestruct Hmoved as (_ & Hshort); [vm_compute; reflexivity|].
    destruct Hshort as (s' & p' & Hrun & Hd & Hg); [closed_fact|].
    exists s', p'. split; [exact Hrun|]. split; [exact Hd|].
    rewrite Hg. reflexivity.
Defined.

End SetAddressExamples.

(** ** Host channels: error statuses *)

Section HostErrors.

Context {R : Dwc2Regs} {M : GuestMemory}.

(** On a channel whose HCCHAR.MPS is not zero and whose HCTSIZ.XFERSIZE
    is within DWC2_MAX_XFER_SIZE (the handler logs and returns before it
    looks at the packet otherwise), a packet that comes back with an error
    (a status from -8 to -1 other than ASYNC, and other than NAK on a
    control or bulk channel) halts the channel: the enable bit is cleared,
    HCINT gains the cause [pintr] holds for the status and the
    channel-halted cause (which is not the zero mask), HCTSIZ, HCDMA and
    every other channel word are as they were, and the packet context no
    longer asks for service.  STALL is reported as HCINTMSK_STALL, BABBLE
    as HCINTMSK_BBLERR, and no-device and IO-error as HCINTMSK_XACTERR. *)
Theorem host_error_halts_channel (s : DWC2State) (devadr : Z)
    (reply : usb_reply) (index : Z) (send : bool) :
  let hcchar := hreg1 s index in
  let hctsiz := hreg1 s (index + 4) in
  let hcint := hreg1 s (index + 2) in
  let mps := get_field hcchar HCCHAR_MPS_MASK HCCHAR_MPS_SHIFT in
  let len := get_field hctsiz TSIZ_XFERSIZE_MASK TSIZ_XFERSIZE_SHIFT in
  let eptype := get_field hcchar HCCHAR_EPTYPE_MASK HCCHAR_EPTYPE_SHIFT in
  let st := completion_status s reply index send in
  HCINTMSK_CHHLTD <> 0 ->
  mps <> 0 ->
  len <= DWC2_MAX_XFER_SIZE ->
  -8 <= st <= -1 ->
  st <> USB_RET_ASYNC ->
  (st = USB_RET_NAK ->
   eptype <> USB_ENDPOINT_XFER_CONTROL /\ eptype <> USB_ENDPOINT_XFER_BULK) ->
  exists s',
    dwc2_handle_packet s devadr reply index send = Some s'
    /\ hreg1 s' index = hcchar .& .~ HCCHAR_CHENA
    /\ hreg1 s' (index + 2)
       = hcint .| ((pintr (- st) .| HCINTMSK_CHHLTD)
                   .& .~ HCINTMSK_RESERVED14_31)
    /\ (forall j, j <> index -> j <> index + 2 -> hreg1 s' j = hreg1 s j)
    /\ p_needs_service (packet s' (index >> 3)) = false
    /\ pintr (- USB_RET_STALL) = HCINTMSK_STALL
    /\ pintr (- USB_RET_BABBLE) = HCINTMSK_BBLERR
    /\ pintr (- USB_RET_NODEV) = HCINTMSK_XACTERR
    /\ pintr (- USB_RET_IOERROR) = HCINTMSK_XACTERR.
Proof.
  intros hcchar hctsiz hcint mps len eptype st Hh Hmps Hlen Hst Hasync Hnak.
  destruct (handle_packet_steps s devadr reply index send)
    as (s1 & Hh1 & Hst1 & _ & Heq);
    [exact Hmps|exact Hlen|fold st; lia|].
  cbv zeta in Heq. rewrite Heq. clear Heq.
  fold hcchar hctsiz mps len eptype st.
  match goal with
  | |- context [handle_packet_from_babble _ ?l0 s1] => set (l := l0)
  end.
  unfold handle_packet_from_babble. cbv zeta.
  cbn [l l_chan l_index l_actual l_tlen l_pcnt l_len].
  fold st in Hst1. rewrite Hst1.
  replace (st =? USB_RET_ASYNC) with false
    by (symmetry; apply Z.eqb_neq; exact Hasync).
  replace (st =? USB_RET_SUCCESS) with false
    by (symmetry; apply Z.eqb_neq; unfold USB_RET_SUCCESS; lia).
  cbn [andb].
  unfold hp_error. cbv zeta. cbn [l l_index l_stsidx l_eptype].
  assert (Hretry : (st =? USB_RET_NAK)
                   && ((eptype =? USB_ENDPOINT_XFER_CONTROL)
                       || (eptype =? USB_ENDPOINT_XFER_BULK)) = false).
  { destruct (st =? USB_RET_NAK) eqn:E; [|reflexivity].
    apply Z.eqb_eq in E. destruct (Hnak E) as [H1 H2].
    apply Z.eqb_neq in H1, H2. rewrite H1, H2. reflexivity. }
  rewrite Hretry.
  eexists. split; [reflexivity|].
  match goal with
  | |- context [hp_finish l ?s2 ?i ?p ?n true false] =>
    pose proof (hp_finish_done l s2 i p n false) as Hf
  end.
  cbv zeta in Hf. cbn [l l_index l_chan l_hcchar] in Hf.
  destruct Hf as (F0 & F2 & Fo & Fp).
  rewrite lor_land_same in F2.
  replace (nz HCINTMSK_CHHLTD) with true in F2
    by (symmetry; apply nz_true; exact Hh).
  cbn [negb] in F2.
  rewrite F0, F2, Fp, Hh1. fold hcint.
  repeat split.
  intros j H1 H2. rewrite Fo by assumption. rewrite Hh1. reflexivity.
Qed.

End HostErrors.

Section HostErrorExamples.

#[local] Existing Instance hsotg_regs.
#[local] Existing Instance flat_ram.

Lemma host_error_halts_channel_witness :
  exists s',
    dwc2_handle_packet bulk_in_channel 5 stall_reply 0 true = Some s'
    /\ hreg1 s' 2 = HCINTMSK_STALL .| HCINTMSK_CHHLTD
    /\ hreg1 s' 0 .& HCCHAR_CHENA = 0
    /\ hreg1 s' 4 = hreg1 bulk_in_channel 4.
Proof.
  destruct (host_error_halts_channel bulk_in_channel 5 stall_reply 0 true)
    as (s' & Hrun & Hc & Hi & Ho & _); [closed_fact ..|].
  exists s'. split; [exact Hrun|]. split; [exact Hi|].
  split; [rewrite Hc; reflexivity|].
  apply Ho; discriminate.
Defined.

End HostErrorExamples.

(** ** Host channels: packets in flight *)

Section HostAsync.

Context {R : Dwc2Regs} {M : GuestMemory}.

(** A packet that the device takes asynchronously goes in flight: no
    channel register changes (the channel stays enabled and raises no
    cause), and the packet context remembers the channel, the device
    address, the packet count and the length that was asked for, with
    [async = DWC2_ASYNC_INFLIGHT] and no request for service.  A packet
    that comes back to the handler still ASYNC while it is in flight
    meets the [assert] and aborts. *)
Theorem host_async_goes_in_flight (s : DWC2State) (devadr : Z)
    (reply : usb_reply) (index : Z) :
  let hcchar := hreg1 s index in
  let hctsiz := hreg1 s (index + 4) in
  let mps := get_field hcchar HCCHAR_MPS_MASK HCCHAR_MPS_SHIFT in
  let len := get_field hctsiz TSIZ_XFERSIZE_MASK TSIZ_XFERSIZE_SHIFT in
  let chan := index >> 3 in
  mps <> 0 ->
  len <= DWC2_MAX_XFER_SIZE ->
  (reply_status reply = USB_RET_ASYNC ->
   exists s',
     dwc2_handle_packet s devadr reply index true = Some s'
     /\ hreg1 s' = hreg1 s
     /\ glbreg s' = glbreg s
     /\ hreg0 s' = hreg0 s
     /\ irq s' = irq s
     /\ p_async (packet s' chan) = DWC2_ASYNC_INFLIGHT
     /\ p_needs_service (packet s' chan) = false
     /\ p_devadr (packet s' chan) = devadr
     /\ p_index (packet s' chan) = index
     /\ p_pcnt (packet s' chan)
        = get_field hctsiz TSIZ_PKTCNT_MASK TSIZ_PKTCNT_SHIFT
     /\ p_len (packet s' chan) = send_length s index
     /\ pk_status (p_packet (packet s' chan)) = USB_RET_ASYNC)
  /\ (pk_status (p_packet (packet s chan)) = USB_RET_ASYNC ->
      p_async (packet s chan) = DWC2_ASYNC_INFLIGHT ->
      dwc2_handle_packet s devadr reply index false = None).
Proof.
  intros hcchar hctsiz mps len chan Hmps Hlen. split.
  - intros Hst.
    unfold dwc2_handle_packet. cbv zeta.
    fold hcchar hctsiz. fold mps len.
    replace (len >? DWC2_MAX_XFER_SIZE) with false by (symmetry; lia).
    replace (mps =? 0) with false by (symmetry; lia).
    match goal with
    | |- context [hp_send s index ?pid ?epnum ?hcdma reply] =>
      destruct (hp_send_packet s index pid epnum hcdma reply)
        as (H1 & H2 & H3);
        pose proof (hp_send_hreg1 s index pid epnum hcdma reply) as H4;
        assert (H5 : glbreg (hp_send s index pid epnum hcdma reply) = glbreg s
                     /\ hreg0 (hp_send s index pid epnum hcdma reply) = hreg0 s
                     /\ irq (hp_send s index pid epnum hcdma reply) = irq s);
        [|set (s1 := hp_send s index pid epnum hcdma reply) in *]
    end.
    { unfold hp_send. cbv zeta.
      destruct (negb (_ =? USB_TOKEN_IN)); [|repeat split].
      destruct (dma_memory_read _ _ _) as [ok bytes].
      destruct ok; repeat split. }
    cbv zeta in H1, H2, H3. fold chan in H1, H2, H3. fold chan.
    rewrite H1, Hst.
    replace ((0 <=? - USB_RET_ASYNC) && (- USB_RET_ASYNC <? 9)) with true
      by reflexivity.
    cbv iota beta. cbn [negb].
    unfold handle_packet_from_babble. cbv zeta.
    cbn [l_chan l_index l_devadr l_pcnt l_tlen l_epnum l_epdir l_mps l_pid].
    rewrite H1, Hst, Z.eqb_refl, H3.
    eexists. split; [reflexivity|].
    rewrite set_packet_at_same.
    cbn [p_async p_needs_service p_devadr p_index p_pcnt p_len p_packet].
    destruct H5 as (G1 & G2 & G3).
    split; [exact H4|]. split; [exact G1|]. split; [exact G2|].
    split; [exact G3|]. repeat split. rewrite H1. exact Hst.
  - intros Hst Hfl.
    unfold dwc2_handle_packet. cbv zeta.
    fold hcchar hctsiz. fold mps len.
    replace (len >? DWC2_MAX_XFER_SIZE) with false by (symmetry; lia).
    replace (mps =? 0) with false by (symmetry; lia).
    fold chan. rewrite Hst.
    replace ((0 <=? - USB_RET_ASYNC) && (- USB_RET_ASYNC <? 9)) with true
      by reflexivity.
    cbv iota beta. cbn [negb].
    unfold handle_packet_from_babble. cbv zeta.
    cbn [l_chan l_index]. rewrite Hst, Z.eqb_refl, Hfl. reflexivity.
Qed.

End HostAsync.

Section HostAsyncExamples.

#[local] Existing Instance hsotg_regs.
#[local] Existing Instance flat_ram.

Lemma host_async_goes_in_flight_witness :
  exists s',
    dwc2_handle_packet bulk_in_channel 5 async_reply 0 true = Some s'
    /\ hreg1 s' = hreg1 bulk_in_channel
    /\ p_async (packet s' 0) = DWC2_ASYNC_INFLIGHT
    /\ dwc2_handle_packet s' 5 async_reply 0 false = None.
Proof.
  destruct (host_async_goes_in_flight bulk_in_channel 5 async_reply 0)
    as (Hfly & _); [closed_fact ..|].
  destruct (Hfly eq_refl)
    as (s' & Hrun & Hh & _ & _ & _ & Ha & _ & _ & _ & _ & _ & Hst).
  exists s'. split; [exact Hrun|]. split; [exact Hh|]. split; [exact Ha|].
  destruct (host_async_goes_in_flight s' 5 async_reply 0) as (_ & Habort).
  - rewrite Hh. closed_fact.
  - rewrite Hh. closed_fact.
  - apply Habort; [exact Hst|exact Ha].
Defined.

End HostAsyncExamples.

(** ** The host bottom half *)

Section WorkBh.

Context {R : Dwc2Regs} {M : GuestMemory}.

Lemma next_channel_range (chan : Z) :
  0 <= chan < DWC2_NB_CHAN -> 0 <= next_channel chan < DWC2_NB_CHAN.
Proof.
  intros H. unfold next_channel.
  destruct (chan + 1 =? DWC2_NB_CHAN) eqn:E; lia.
Qed.

Lemma next_channel_mod (chan : Z) :
  0 <= chan < DWC2_NB_CHAN ->
  next_channel chan = (chan + 1) mod DWC2_NB_CHAN.
Proof.
  intros H. unfold next_channel.
  destruct (chan + 1 =? DWC2_NB_CHAN) eqn:E.
  - apply Z.eqb_eq in E. rewrite E, Z.mod_same by lia. reflexivity.
  - apply Z.eqb_neq in E. rewrite Z.mod_small by lia. reflexivity.
Qed.

Lemma turn_back (nc n : Z) :
  0 <= nc < DWC2_NB_CHAN -> 1 <= n < DWC2_NB_CHAN ->
  (nc - n) mod DWC2_NB_CHAN <> nc.
Proof.
  intros Hnc Hn.
  destruct (Z_lt_le_dec (nc - n) 0) as [Hneg|Hpos].
  - rewrite <- (Z.mod_unique (nc - n) DWC2_NB_CHAN (-1)
                  (nc - n + DWC2_NB_CHAN)); lia.
  - rewrite Z.mod_small by lia. lia.
Qed.

Lemma turn_step (nc n : Z) :
  0 < DWC2_NB_CHAN ->
  next_channel ((nc - (n + 1)) mod DWC2_NB_CHAN) = (nc - n) mod DWC2_NB_CHAN.
Proof.
  intros HN. rewrite next_channel_mod by (apply Z.mod_pos_bound; lia).
  rewrite Zplus_mod_idemp_l. f_equal. lia.
Qed.

(** The scan of the channels that have not been looked at yet: [n] of
    them, ending just before [next_chan]. *)
Lemma work_bh_loop_scan (reply : Z -> usb_reply) (n : nat) :
  forall (fuel : nat) (s : DWC2State),
    (1 <= n <= fuel)%nat ->
    Z.of_nat n <= DWC2_NB_CHAN ->
    0 <= next_chan s < DWC2_NB_CHAN ->
    let chan := (next_chan s - Z.of_nat n) mod DWC2_NB_CHAN in
    work_bh_loop fuel s chan false reply
    = match first_needing_service n s chan with
      | None => Done (s, false)
      | Some c =>
        match dwc2_handle_packet s (p_devadr (packet s c)) (reply c)
                (p_index (packet s c)) true with
        | Some s1 => Done (set_next_chan s1 (next_channel c), true)
        | None => Abort
        end
      end.
Proof.
  induction n as [|n IH]; intros fuel s Hn HN Hnc chan; [lia|].
  destruct fuel as [|fuel]; [lia|].
  cbn [work_bh_loop first_needing_service]. cbv zeta.
  destruct (p_needs_service (packet s chan)) eqn:Ens.
  - destruct (dwc2_handle_packet s _ _ _ true) as [s1|]; [|reflexivity].
    cbn [next_chan set_next_chan]. rewrite Z.eqb_refl. reflexivity.
  - subst chan.
    replace (Z.of_nat (S n)) with (Z.of_nat n + 1) in * by lia.
    rewrite turn_step by lia.
    destruct n as [|n'].
    + cbn [Z.of_nat first_needing_service]. rewrite Z.sub_0_r.
      rewrite Z.mod_small by lia. rewrite Z.eqb_refl. reflexivity.
    + replace (_ =? next_chan s) with false
        by (symmetry; apply Z.eqb_neq, turn_back; lia).
      cbn [negb]. apply IH; lia.
Qed.

Lemma first_needing_service_working (n : nat) (s : DWC2State) (b : bool) :
  forall chan,
    first_needing_service n (set_working s b) chan
    = first_needing_service n s chan.
Proof.
  induction n as [|n IH]; intros chan; cbn [first_needing_service];
    [reflexivity|].
  change (packet (set_working s b) chan) with (packet s chan).
  rewrite IH. reflexivity.
Qed.

Lemma first_needing_service_found (n : nat) (s : DWC2State) :
  forall chan c,
    0 <= chan < DWC2_NB_CHAN ->
    first_needing_service n s chan = Some c ->
    0 <= c < DWC2_NB_CHAN /\ p_needs_service (packet s c) = true.
Proof.
  induction n as [|n IH]; intros chan c Hch; cbn [first_needing_service];
    [discriminate|].
  destruct (p_needs_service (packet s chan)) eqn:E.
  - intros H. inversion H. subst. auto.
  - apply IH. apply next_channel_range. exact Hch.
Qed.

Lemma set_working_back (s : DWC2State) :
  working s = false -> set_working (set_working s true) false = s.
Proof. destruct s. cbn. intros ->. reflexivity. Qed.

(** One run of the host bottom half sends the packet of one channel at
    most.  With [next_chan] in range the loop ends within [DWC2_NB_CHAN]
    rounds: when no channel asks for service the state is as it was; else
    the packet of the first channel that asks, in turn from [next_chan],
    is sent, [next_chan] becomes the channel after it, and the frame timer
    is set a quarter of a millisecond ahead.  [next_chan] stays in range.
    A run that finds [working] set returns at once. *)
Theorem work_bh_services_one_channel (fuel : nat) (s : DWC2State) (now : Z)
    (reply : Z -> usb_reply) :
  0 <= next_chan s < DWC2_NB_CHAN ->
  (Z.to_nat DWC2_NB_CHAN <= fuel)%nat ->
  (working s = true -> dwc2_work_bh fuel s now reply = Done s)
  /\ (working s = false ->
      dwc2_work_bh fuel s now reply
      = match first_needing_service (Z.to_nat DWC2_NB_CHAN) s (next_chan s)
        with
        | None => Done s
        | Some c =>
          match dwc2_handle_packet (set_working s true)
                  (p_devadr (packet s c)) (reply c) (p_index (packet s c))
                  true with
          | Some s1 =>
            Done (set_working
                    (set_frame_timer (set_next_chan s1 (next_channel c))
                       (Some (now + Z.quot NANOSECONDS_PER_SECOND 4000)))
                    false)
          | None => Abort
          end
        end)
  /\ (forall s', dwc2_work_bh fuel s now reply = Done s' ->
                 0 <= next_chan s' < DWC2_NB_CHAN /\ working s' = working s).
Proof.
  intros Hnc Hfuel.
  assert (Hrun : working s = false ->
                 dwc2_work_bh fuel s now reply
                 = match first_needing_service (Z.to_nat DWC2_NB_CHAN) s
                           (next_chan s) with
                   | None => Done s
                   | Some c =>
                     match dwc2_handle_packet (set_working s true)
                             (p_devadr (packet s c)) (reply c)
                             (p_index (packet s c)) true with
                     | Some s1 =>
                       Done (set_working
                               (set_frame_timer
                                  (set_next_chan s1 (next_channel c))
                                  (Some (now
                                         + Z.quot NANOSECONDS_PER_SECOND 4000)))
                               false)
                     | None => Abort
                     end
                   end).
  { intros Hw. unfold dwc2_work_bh. rewrite Hw. cbv zeta.
    pose proof (work_bh_loop_scan reply (Z.to_nat DWC2_NB_CHAN) fuel
                  (set_working s true)) as Hscan.
    cbv zeta in Hscan.
    rewrite Z2Nat.id in Hscan by lia.
    change (next_chan (set_working s true)) with (next_chan s) in *.
    replace ((next_chan s - DWC2_NB_CHAN) mod DWC2_NB_CHAN)
      with (next_chan s) in Hscan.
    2:{ apply (Z.mod_unique (next_chan s - DWC2_NB_CHAN) DWC2_NB_CHAN (-1));
        lia. }
    rewrite Hscan by lia.
    rewrite first_needing_service_working.
    destruct (first_needing_service _ s (next_chan s)) as [c|].
    - change (packet (set_working s true) c) with (packet s c).
      destruct (dwc2_handle_packet _ _ _ _ true); reflexivity.
    - rewrite set_working_back by exact Hw. reflexivity. }
  split; [|split].
  - intros Hw. unfold dwc2_work_bh. rewrite Hw. reflexivity.
  - exact Hrun.
  - intros s' Hdone. destruct (working s) eqn:Hw.
    + unfold dwc2_work_bh in Hdone. rewrite Hw in Hdone.
      inversion Hdone. subst. auto.
    + rewrite (Hrun eq_refl) in Hdone.
      destruct (first_needing_service _ s (next_chan s)) as [c|] eqn:Ef.
      * destruct (dwc2_handle_packet _ _ _ _ true); [|discriminate Hdone].
        inversion Hdone. subst. cbn [next_chan set_working set_frame_timer
                                       set_next_chan working].
        split; [|reflexivity].
        apply next_channel_range.
        exact (proj1 (first_needing_service_found _ s _ c Hnc Ef)).
      * inversion Hdone. subst. auto.
Qed.

End WorkBh.

Section WorkBhExamples.

#[local] Existing Instance hsotg_regs.
#[local] Existing Instance flat_ram.

Lemma work_bh_services_one_channel_witness :
  exists s',
    dwc2_work_bh 8 waiting_channel 0 (fun _ => short_reply) = Done s'
    /\ next_chan s' = 1
    /\ frame_timer s' = Some 250000
    /\ p_needs_service (packet s' 0) = false.
Proof.
  destruct (work_bh_services_one_channel 8 waiting_channel 0
              (fun _ => short_reply)) as (_ & Hrun & _); [closed_fact ..|].
  rewrite (Hrun eq_refl).
  eexists. split; [vm_compute; reflexivity|].
  vm_compute. repeat split.
Defined.

End WorkBhExamples.

(** ** Aggregation of channel and endpoint causes *)

Section Aggregation.

Context {R : Dwc2Regs} {M : GuestMemory}.

Lemma one_bit (c : Z) : 0 <= c < 32 -> u32 (1 << c) = 2 ^ c.
Proof.
  intros H. rewrite Z.shiftl_1_l. apply u32_small.
  split; [apply Z.pow_nonneg; lia|apply Z.pow_lt_mono_r; lia].
Qed.

Lemma land_pow2 (x c : Z) :
  0 <= c -> x .& 2 ^ c = if Z.testbit x c then 2 ^ c else 0.
Proof.
  intros H. apply Z.bits_inj'. intros i Hi.
  rewrite Z.land_spec, Z.pow2_bits_eqb by lia.
  destruct (Z.eqb_spec c i) as [->|Hne].
  - destruct (Z.testbit x i); cbn [andb];
      [rewrite Z.pow2_bits_eqb, Z.eqb_refl by lia; reflexivity
      |rewrite Z.bits_0; reflexivity].
  - rewrite andb_false_r.
    destruct (Z.testbit x c);
      [rewrite Z.pow2_bits_eqb by lia; symmetry; apply Z.eqb_neq; exact Hne
      |rewrite Z.bits_0; reflexivity].
Qed.

Lemma nz_land_bit (x c : Z) :
  0 <= c < 32 -> nz (x .& u32 (1 << c)) = Z.testbit x c.
Proof.
  intros H. rewrite one_bit, land_pow2 by lia.
  destruct (Z.testbit x c); [|reflexivity].
  apply nz_true. apply Z.pow_nonzero; lia.
Qed.

Lemma raise_global_banks (s : DWC2State) (x : Z) :
  hreg0 (dwc2_raise_global_irq s x) = hreg0 s
  /\ hreg1 (dwc2_raise_global_irq s x) = hreg1 s
  /\ dreg (dwc2_raise_global_irq s x) = dreg s
  /\ diepreg (dwc2_raise_global_irq s x) = diepreg s
  /\ doepreg (dwc2_raise_global_irq s x) = doepreg s.
Proof.
  unfold dwc2_raise_global_irq, dwc2_update_irq.
  destruct (negb (nz (gintsts s .& x))); [|auto].
  destruct (negb (_ =? _)); auto.
Qed.

Lemma lower_global_banks (s : DWC2State) (x : Z) :
  hreg0 (dwc2_lower_global_irq s x) = hreg0 s
  /\ hreg1 (dwc2_lower_global_irq s x) = hreg1 s
  /\ dreg (dwc2_lower_global_irq s x) = dreg s
  /\ diepreg (dwc2_lower_global_irq s x) = diepreg s
  /\ doepreg (dwc2_lower_global_irq s x) = doepreg s.
Proof.
  unfold dwc2_lower_global_irq, dwc2_update_irq.
  destruct (nz (gintsts s .& x)); [|auto].
  destruct (negb (_ =? _)); auto.
Qed.

Lemma raise_global_sets (s : DWC2State) (x : Z) :
  x <> 0 -> gintsts (dwc2_raise_global_irq s x) .& x <> 0.
Proof.
  intros Hx. unfold dwc2_raise_global_irq.
  destruct (nz (gintsts s .& x)) eqn:E; cbn [negb].
  - apply nz_true in E. exact E.
  - unfold gintsts at 1, glb_get. rewrite update_irq_glbreg.
    unfold glb_put. cbn [glbreg set_glbreg]. rewrite bank_set_same.
    rewrite lor_land_same. exact Hx.
Qed.

Lemma lower_global_clears (s : DWC2State) (x : Z) :
  gintsts (dwc2_lower_global_irq s x) .& x = 0.
Proof.
  unfold dwc2_lower_global_irq.
  destruct (nz (gintsts s .& x)) eqn:E.
  - unfold gintsts at 1, glb_get. rewrite update_irq_glbreg.
    unfold glb_put. cbn [glbreg set_glbreg]. rewrite bank_set_same.
    apply land_lnot_same.
  - apply nz_false in E. exact E.
Qed.

(** After [dwc2_update_hc_irq] the bit of the channel in HAINT says
    whether a cause of the channel is pending and unmasked
    ([HCINT & HCINTMSK]); the bits of the other channels are as they were
    and no channel word changes.  When the bit goes up and HAINT meets
    HAINTMSK the host-channels cause of GINTSTS is raised; when it goes
    down and HAINT no longer meets HAINTMSK the cause is lowered. *)
Theorem haint_follows_channel_causes (s : DWC2State) (index : Z) :
  let chan := index >> 3 in
  let s' := dwc2_update_hc_irq s index in
  let pending := nz (hreg1 s (index + 2) .& hreg1 s (index + 3)) in
  0 <= chan < 16 ->
  GINTSTS_HCHINT <> 0 ->
  Z.testbit (haint s') chan = pending
  /\ (forall j, 0 <= j < 16 -> j <> chan ->
                Z.testbit (haint s') j = Z.testbit (haint s) j)
  /\ hreg1 s' = hreg1 s
  /\ (pending = true -> Z.testbit (haint s) chan = false ->
      haint s' .& haintmsk s' <> 0 ->
      gintsts s' .& GINTSTS_HCHINT <> 0)
  /\ (pending = false -> Z.testbit (haint s) chan = true ->
      haint s' .& haintmsk s' = 0 ->
      gintsts s' .& GINTSTS_HCHINT = 0).
Proof.
  intros chan s' pending Hc Hh. subst s'.
  unfold dwc2_update_hc_irq. cbv zeta. fold chan. fold pending.
  destruct pending eqn:Ep.
  - (* raise *)
    unfold dwc2_raise_host_irq. cbv zeta.
    rewrite nz_land_bit by lia.
    destruct (Z.testbit (haint s) chan) eqn:Eb; cbn [negb].
    + split; [exact Eb|]. split; [reflexivity|]. split; [reflexivity|].
      split; intros; discriminate.
    + match goal with
      | |- context [if nz (haint ?t .& haintmsk ?t) then _ else _] =>
        set (s2 := t);
          assert (Hbit : Z.testbit (haint s2) chan = true
                         /\ forall j, 0 <= j < 16 -> j <> chan ->
                              Z.testbit (haint s2) j = Z.testbit (haint s) j)
      end.
      { subst s2. unfold haint, h0_get, h0_put.
        cbn [hreg0 set_hreg0]. rewrite !bank_set_same.
        change 0xffff with (Z.ones 16).
        split.
        - rewrite Z.land_spec, Z.lor_spec, one_bit, Z.pow2_bits_eqb,
            Z.eqb_refl, orb_true_r by lia.
          rewrite Z.testbit_ones_nonneg by lia.
          cbn [andb]. apply Z.ltb_lt. lia.
        - intros j Hj Hne.
          rewrite Z.land_spec, Z.lor_spec, one_bit, Z.pow2_bits_eqb by lia.
          rewrite Z.testbit_ones_nonneg by lia.
          replace (chan =? j) with false by (symmetry; lia).
          replace (j <? 16) with true by (symmetry; lia).
          rewrite orb_false_r, andb_true_r. reflexivity. }
      destruct Hbit as [Hb1 Hb2].
      destruct (nz (haint s2 .& haintmsk s2)) eqn:Em.
      * destruct (raise_global_banks s2 GINTSTS_HCHINT) as (G0 & G1 & _).
        unfold haint, haintmsk, h0_get in *. rewrite G0, G1.
        split; [exact Hb1|]. split; [exact Hb2|]. split; [reflexivity|].
        split; [|intros; discriminate].
        intros _ _ _. apply raise_global_sets. exact Hh.
      * apply nz_false in Em.
        split; [exact Hb1|]. split; [exact Hb2|]. split; [reflexivity|].
        split; [|intros; discriminate].
        intros _ _ Hm. exfalso. apply Hm. exact Em.
  - (* lower *)
    unfold dwc2_lower_host_irq. cbv zeta.
    rewrite nz_land_bit by lia.
    destruct (Z.testbit (haint s) chan) eqn:Eb.
    + match goal with
      | |- context [if negb (nz (haint ?t .& haintmsk ?t)) then _ else _] =>
        set (s2 := t);
          assert (Hbit : Z.testbit (haint s2) chan = false
                         /\ forall j, 0 <= j < 16 -> j <> chan ->
                              Z.testbit (haint s2) j = Z.testbit (haint s) j)
      end.
      { subst s2. unfold haint, h0_get, h0_put.
        cbn [hreg0 set_hreg0]. rewrite !bank_set_same.
        split.
        - rewrite Z.land_spec, Z.lnot_spec, one_bit, Z.pow2_bits_eqb,
            Z.eqb_refl by lia.
          apply andb_false_r.
        - intros j Hj Hne.
          rewrite Z.land_spec, Z.lnot_spec, one_bit, Z.pow2_bits_eqb by lia.
          replace (chan =? j) with false by (symmetry; lia).
          apply andb_true_r. }
      destruct Hbit as [Hb1 Hb2].
      destruct (nz (haint s2 .& haintmsk s2)) eqn:Em; cbn [negb].
      * apply nz_true in Em.
        split; [exact Hb1|]. split; [exact Hb2|]. split; [reflexivity|].
        split; [intros; discriminate|].
        intros _ _ Hm. exfalso. apply Em. exact Hm.
      * destruct (lower_global_banks s2 GINTSTS_HCHINT) as (G0 & G1 & _).
        unfold haint, haintmsk, h0_get in *. rewrite G0, G1.
        split; [exact Hb1|]. split; [exact Hb2|]. split; [reflexivity|].
        split; [intros; discriminate|].
        intros _ _ _. apply lower_global_clears.
    + split; [exact Eb|]. split; [reflexivity|]. split; [reflexivity|].
      split; intros; discriminate.
Qed.

Lemma device_bit (ep : Z) (out : bool) :
  0 <= ep < 16 ->
  u32 ((1 << ep) << (if out then 16 else 0))
  = 2 ^ (ep + (if out then 16 else 0)).
Proof.
  intros H. rewrite Z.shiftl_shiftl by lia. apply one_bit.
  destruct out; lia.
Qed.

Lemma raise_device_daint (s : DWC2State) (ep : Z) (out : bool) :
  0 <= ep < 16 ->
  let b := ep + (if out then 16 else 0) in
  let s' := dwc2_raise_device_irq s ep out in
  Z.testbit (daint s') b = true
  /\ (forall j, 0 <= j -> j <> b ->
                Z.testbit (daint s') j = Z.testbit (daint s) j).
Proof.
  intros H b s'. subst s'. unfold dwc2_raise_device_irq. cbv zeta.
  rewrite device_bit by exact H. fold b.
  assert (Hb : 0 <= b) by (subst b; destruct out; lia).
  rewrite land_pow2 by exact Hb.
  destruct (Z.testbit (daint s) b) eqn:Eb.
  - replace (nz (2 ^ b)) with true
      by (symmetry; apply nz_true, Z.pow_nonzero; lia).
    cbn [negb]. auto.
  - replace (nz 0) with false by reflexivity. cbn [negb].
    match goal with
    | |- context [if nz (daint ?t .& daintmsk ?t) then _ else _] =>
      set (s2 := t);
        assert (Hd : forall u, dreg u = dreg s2 -> daint u = daint s .| 2 ^ b)
    end.
    { intros u Hu. unfold daint, d_get. rewrite Hu. subst s2.
      unfold d_put. cbn [dreg set_dreg]. rewrite bank_set_same. reflexivity. }
    assert (Hfin : forall u, dreg u = dreg s2 ->
               Z.testbit (daint u) b = true
               /\ (forall j, 0 <= j -> j <> b ->
                      Z.testbit (daint u) j = Z.testbit (daint s) j)).
    { intros u Hu. rewrite (Hd u Hu). split.
      - rewrite Z.lor_spec, Z.pow2_bits_eqb, Z.eqb_refl by lia.
        apply orb_true_r.
      - intros j Hj Hne. rewrite Z.lor_spec, Z.pow2_bits_eqb by lia.
        replace (b =? j) with false by (symmetry; lia).
        apply orb_false_r. }
    apply Hfin.
    repeat match goal with
           | |- context [if ?c then _ else _] => destruct c
           end;
      repeat match goal with
             | |- dreg (dwc2_raise_global_irq ?t ?x) = _ =>
               rewrite (proj1 (proj2 (proj2 (raise_global_banks t x))))
             end; reflexivity.
Qed.

Lemma lower_device_daint (s : DWC2State) (ep : Z) (out : bool) :
  0 <= ep < 16 ->
  let b := ep + (if out then 16 else 0) in
  let s' := dwc2_lower_device_irq s ep out in
  Z.testbit (daint s') b = false
  /\ (forall j, 0 <= j -> j <> b ->
                Z.testbit (daint s') j = Z.testbit (daint s) j).
Proof.
  intros H b s'. subst s'. unfold dwc2_lower_device_irq. cbv zeta.
  rewrite device_bit by exact H. fold b.
  assert (Hb : 0 <= b) by (subst b; destruct out; lia).
  rewrite land_pow2 by exact Hb.
  destruct (Z.testbit (daint s) b) eqn:Eb.
  - replace (nz (2 ^ b)) with true
      by (symmetry; apply nz_true, Z.pow_nonzero; lia).
    match goal with
    | |- context [if negb (nz (daint ?t .& daintmsk ?t)) then _ else _] =>
      set (s2 := t);
        assert (Hd : forall u, dreg u = dreg s2 ->
                       daint u = daint s .& .~ 2 ^ b)
    end.
    { intros u Hu. unfold daint, d_get. rewrite Hu. subst s2.
      unfold d_put. cbn [dreg set_dreg]. rewrite bank_set_same. reflexivity. }
    assert (Hfin : forall u, dreg u = dreg s2 ->
               Z.testbit (daint u) b = false
               /\ (forall j, 0 <= j -> j <> b ->
                      Z.testbit (daint u) j = Z.testbit (daint s) j)).
    { intros u Hu. rewrite (Hd u Hu). split.
      - rewrite Z.land_spec, Z.lnot_spec, Z.pow2_bits_eqb, Z.eqb_refl by lia.
        apply andb_false_r.
      - intros j Hj Hne.
        rewrite Z.land_spec, Z.lnot_spec, Z.pow2_bits_eqb by lia.
        replace (b =? j) with false by (symmetry; lia).
        apply andb_true_r. }
    apply Hfin.
    repeat match goal with
           | |- context [if ?c then _ else _] => destruct c
           end;
      repeat match goal with
             | |- dreg (dwc2_lower_global_irq ?t ?x) = _ =>
               rewrite (proj1 (proj2 (proj2 (lower_global_banks t x))))
             end; reflexivity.
  - replace (nz 0) with false by reflexivity. auto.
Qed.

(** After [dwc2_update_ep_irq] bit [ep] of DAINT says whether an unmasked
    IN cause of the endpoint is pending ([DIEPINT & DIEPMSK]) and bit
    [ep + 16] whether an unmasked OUT cause is ([DOEPINT & DOEPMSK]); the
    bits of the other endpoints, the rest of the device bank and the
    endpoint words are as they were. *)
Theorem daint_follows_endpoint_causes (s : DWC2State) (ep : Z) :
  let s' := dwc2_update_ep_irq s ep in
  0 <= ep < 16 ->
  Z.testbit (daint s') ep = nz (diepint s ep .& diepmsk s)
  /\ Z.testbit (daint s') (ep + 16) = nz (doepint s ep .& doepmsk s)
  /\ (forall j, 0 <= j -> j <> ep -> j <> ep + 16 ->
                Z.testbit (daint s') j = Z.testbit (daint s) j)
  /\ (forall i, i <> (DAINT - HSOTG_REG 0x800) >> 2 -> dreg s' i = dreg s i)
  /\ diepreg s' = diepreg s
  /\ doepreg s' = doepreg s.
Proof.
  intros s' Hep. subst s'. unfold dwc2_update_ep_irq. cbv zeta.
  set (s1 := if nz (diepint s ep .& diepmsk s)
             then dwc2_raise_device_irq s ep false
             else dwc2_lower_device_irq s ep false).
  assert (F1 : irq_frame s s1).
  { subst s1. destruct (nz (diepint s ep .& diepmsk s));
      [apply irq_frame_raise_device|apply irq_frame_lower_device]. }
  assert (B1 : Z.testbit (daint s1) ep = nz (diepint s ep .& diepmsk s)
               /\ (forall j, 0 <= j -> j <> ep ->
                      Z.testbit (daint s1) j = Z.testbit (daint s) j)).
  { subst s1. destruct (nz (diepint s ep .& diepmsk s)).
    - pose proof (raise_device_daint s ep false Hep) as H.
      cbv zeta in H. rewrite Z.add_0_r in H. exact H.
    - pose proof (lower_device_daint s ep false Hep) as H.
      cbv zeta in H. rewrite Z.add_0_r in H. exact H. }
  assert (E1 : doepint s1 ep = doepint s ep /\ doepmsk s1 = doepmsk s).
  { unfold doepint, doep_get, doepmsk, d_get.
    rewrite (fr_doepreg _ _ F1), (fr_dreg _ _ F1) by discriminate. auto. }
  destruct E1 as [E1 E2]. rewrite E1, E2.
  set (s2 := if nz (doepint s ep .& doepmsk s)
             then dwc2_raise_device_irq s1 ep true
             else dwc2_lower_device_irq s1 ep true).
  assert (F2 : irq_frame s1 s2).
  { subst s2. destruct (nz (doepint s ep .& doepmsk s));
      [apply irq_frame_raise_device|apply irq_frame_lower_device]. }
  assert (B2 : Z.testbit (daint s2) (ep + 16)
               = nz (doepint s ep .& doepmsk s)
               /\ (forall j, 0 <= j -> j <> ep + 16 ->
                      Z.testbit (daint s2) j = Z.testbit (daint s1) j)).
  { subst s2. destruct (nz (doepint s ep .& doepmsk s)).
    - exact (raise_device_daint s1 ep true Hep).
    - exact (lower_device_daint s1 ep true Hep). }
  destruct B1 as [B1 B1'], B2 as [B2 B2'].
  split; [rewrite B2' by lia; exact B1|].
  split; [exact B2|].
  split; [intros j Hj H1 H2; rewrite B2', B1' by lia; reflexivity|].
  split; [intros i Hi; rewrite (fr_dreg _ _ F2), (fr_dreg _ _ F1) by exact Hi;
          reflexivity|].
  split.
  - rewrite (fr_diepreg _ _ F2), (fr_diepreg _ _ F1). reflexivity.
  - rewrite (fr_doepreg _ _ F2), (fr_doepreg _ _ F1). reflexivity.
Qed.

End Aggregation.

Section AggregationExamples.

#[local] Existing Instance hsotg_regs.
#[local] Existing Instance flat_ram.

Lemma haint_follows_channel_causes_witness :
  Z.testbit (haint (dwc2_update_hc_irq halted_channel 0)) 0 = false
  /\ Z.testbit (haint (dwc2_update_hc_irq unmasked_channel 0)) 0 = true
  /\ gintsts (dwc2_update_hc_irq unmasked_channel 0) .& GINTSTS_HCHINT
     = GINTSTS_HCHINT.
Proof.
  destruct (haint_follows_channel_causes halted_channel 0)
    as (H1 & _); [closed_fact ..|].
  destruct (haint_follows_channel_causes unmasked_channel 0)
    as (H2 & _); [closed_fact ..|].
  split; [exact H1|]. split; [exact H2|]. reflexivity.
Defined.

Lemma daint_follows_endpoint_causes_witness :
  Z.testbit (daint (dwc2_update_ep_irq pending_endpoint 3)) 3 = true
  /\ Z.testbit (daint (dwc2_update_ep_irq pending_endpoint 3)) 19 = false.
Proof.
  destruct (daint_follows_endpoint_causes pending_endpoint 3)
    as (H1 & H2 & _); [closed_fact ..|].
  split; [exact H1|exact H2].
Defined.

End AggregationExamples.

(** ** Reset *)

Section Reset.

Context {R : Dwc2Regs} {M : GuestMemory}.

Lemma bus_stop_line (s : DWC2State) :
  oldlevel (dwc2_bus_stop s) = oldlevel s /\ irq (dwc2_bus_stop s) = irq s.
Proof. split; reflexivity. Qed.

Lemma reset_registers_old (s : DWC2State) :
  oldlevel s = irq s ->
  oldlevel (dwc2_reset_registers s) = irq (dwc2_reset_registers s).
Proof.
  intros H. destruct (reset_registers_line s) as [Hi Ho]. congruence.
Qed.

Lemma reset_enter_old (s : DWC2State) :
  oldlevel s = irq s ->
  oldlevel (dwc2_reset_enter s) = irq (dwc2_reset_enter s).
Proof.
  intros H. unfold dwc2_reset_enter.
  apply reset_registers_old.
  match goal with
  | |- oldlevel (dwc2_bus_stop ?x) = _ =>
    destruct (bus_stop_line x) as [-> ->]
  end.
  destruct (uport_attached _); [|exact H].
  unfold usb_detach.
  match goal with
  | |- oldlevel (dwc2_detach ?t) = _ =>
    apply (lk_old t (dwc2_detach t));
      [apply kept_state, kept_detach|exact H]
  end.
Qed.


Lemma reset_registers_values (s : DWC2State) :
  gintmsk (dwc2_reset_registers s) = 0
  /\ gahbcfg (dwc2_reset_registers s) = 0
  /\ (forall i, hreg1 (dwc2_reset_registers s) i = 0)
  /\ next_chan (dwc2_reset_registers s) = 0
  /\ working (dwc2_reset_registers s) = false.
Proof.
  split; [vm_compute; reflexivity|].
  split; [vm_compute; reflexivity|].
  split; [intros i; lazy; reflexivity|].
  split; [lazy; reflexivity|].
  lazy; reflexivity.
Qed.

Lemma reset_registers_service (s : DWC2State) (c : Z) :
  0 <= c < DWC2_NB_CHAN ->
  p_needs_service (packet (dwc2_reset_registers s) c) = false.
Proof.
  intros Hc. open_body dwc2_reset_registers.
  cbv zeta. unfold set_packet at 1. cbn [packet].
  replace ((0 <=? c) && (c <? DWC2_NB_CHAN)) with true by (symmetry; lia).
  reflexivity.
Qed.

Lemma irq_level_masked (s : DWC2State) : gintmsk s = 0 -> irq_level s = 0.
Proof.
  intros H. unfold irq_level. rewrite H, Z.land_0_r. reflexivity.
Qed.

Lemma update_irq_quiescent (s : DWC2State) :
  quiescent s -> dwc2_update_irq s = s.
Proof.
  intros Q. unfold dwc2_update_irq.
  rewrite (irq_level_masked s (q_gintmsk s Q)), (q_oldlevel s Q).
  reflexivity.
Qed.

Lemma reset_hold_quiescent (s : DWC2State) :
  oldlevel s = irq s -> quiescent (dwc2_reset_hold (dwc2_reset_enter s)).
Proof.
  intros H. apply reset_enter_old in H.
  unfold dwc2_reset_enter in *.
  match type of H with
  | oldlevel (dwc2_reset_registers ?x) = _ =>
    generalize (reset_registers_values x) (reset_registers_service x);
      generalize dependent (dwc2_reset_registers x)
  end.
  intros t Ht (Hm & Ha & Hh & Hn & Hw) Hs.
  unfold dwc2_reset_hold, dwc2_update_irq.
  rewrite (irq_level_masked t Hm).
  destruct (0 =? oldlevel t) eqn:E; cbn [negb].
  - apply Z.eqb_eq in E.
    constructor; try assumption; congruence.
  - constructor; try assumption; reflexivity.
Qed.

Lemma raise_global_quiescent (s : DWC2State) (x : Z) :
  quiescent s -> quiescent (dwc2_raise_global_irq s x).
Proof.
  intros Q. unfold dwc2_raise_global_irq.
  destruct (negb (nz (gintsts s .& x))); [|exact Q].
  rewrite update_irq_quiescent;
    destruct Q; constructor; assumption.
Qed.

Lemma attach_quiescent (s s' : DWC2State) (now : Z) :
  quiescent s -> dwc2_attach s now = Some s' -> quiescent s'.
Proof.
  intros Q. unfold dwc2_attach.
  destruct (dev_attached (device s)); [discriminate|].
  destruct (uport_dev s) as [d|]; [|intros [= <-]; exact Q].
  destruct (negb (dev_attached d)); [intros [= <-]; exact Q|].
  destruct (negb (dev_speed d <=? USB_SPEED_HIGH)); [discriminate|].
  destruct (dev_speed d =? USB_SPEED_LOW);
    [|destruct (dev_speed d =? USB_SPEED_FULL);
      [|destruct (dev_speed d =? USB_SPEED_HIGH)]];
    intros [= <-];
    apply raise_global_quiescent;
    unfold speed_times;
    repeat match goal with
           | |- context [if ?c then _ else _] => destruct c
           end;
    destruct Q; constructor; assumption.
Qed.

Lemma detach_port (s : DWC2State) :
  uport_dev (dwc2_detach s) = uport_dev s
  /\ device (dwc2_detach s) = device s.
Proof.
  unfold dwc2_detach, dwc2_raise_global_irq, dwc2_update_irq.
  repeat match goal with
         | |- context [if ?c then _ else _] => destruct c
         end; split; reflexivity.
Qed.

Lemma reset_enter_port (s : DWC2State) :
  uport_dev (dwc2_reset_enter s) = uport_dev s
  /\ device (dwc2_reset_enter s) = device s.
Proof.
  unfold dwc2_reset_enter.
  destruct (uport_attached _); [|split; reflexivity].
  unfold usb_detach.
  match goal with
  | |- uport_dev (dwc2_reset_registers (dwc2_bus_stop (dwc2_detach ?t))) = _
       /\ _ =>
    destruct (detach_port t) as [Hu Hv];
      change (uport_dev (dwc2_detach t) = uport_dev s) in Hu;
      change (device (dwc2_detach t) = device s) in Hv;
      generalize dependent (dwc2_detach t)
  end.
  intros t <- <-. split; reflexivity.
Qed.

Lemma attach_returns (s : DWC2State) (now : Z) :
  (forall d, uport_dev s = Some d -> dev_attached d = true ->
             dev_attached (device s) = false
             /\ dev_speed d <= USB_SPEED_HIGH) ->
  uport_attached s = true ->
  exists s', dwc2_attach s now = Some s'.
Proof.
  intros H Ha. unfold uport_attached in Ha. unfold dwc2_attach.
  destruct (uport_dev s) as [d|]; [|discriminate].
  destruct (H d eq_refl Ha) as [-> Hs]. rewrite Ha. cbn [negb].
  replace (dev_speed d <=? USB_SPEED_HIGH) with true by (symmetry; lia).
  cbn [negb].
  destruct (dev_speed d =? USB_SPEED_LOW);
    [|destruct (dev_speed d =? USB_SPEED_FULL);
      [|destruct (dev_speed d =? USB_SPEED_HIGH)]];
    eexists; reflexivity.
Qed.

Lemma attach_port (s s' : DWC2State) (now : Z) :
  dwc2_attach s now = Some s' -> uport_dev s' = uport_dev s.
Proof.
  unfold dwc2_attach.
  destruct (dev_attached (device s)); [discriminate|].
  destruct (uport_dev s) as [d|] eqn:Eu; [|intros [= <-]; exact Eu].
  destruct (negb (dev_attached d)); [intros [= <-]; exact Eu|].
  destruct (negb (dev_speed d <=? USB_SPEED_HIGH)); [discriminate|].
  destruct (dev_speed d =? USB_SPEED_LOW);
    [|destruct (dev_speed d =? USB_SPEED_FULL);
      [|destruct (dev_speed d =? USB_SPEED_HIGH)]];
    intros [= <-];
    unfold dwc2_raise_global_irq, dwc2_update_irq, speed_times;
    repeat match goal with
           | |- context [if ?c then _ else _] => destruct c
           end; exact Eu.
Qed.

Lemma reset_hold_port (s : DWC2State) :
  uport_dev (dwc2_reset_hold (dwc2_reset_enter s)) = uport_dev s
  /\ device (dwc2_reset_hold (dwc2_reset_enter s)) = device s.
Proof.
  destruct (reset_enter_port s) as [Hu Hv].
  unfold dwc2_reset_hold.
  generalize dependent (dwc2_reset_enter s). intros t Hu Hv.
  unfold dwc2_update_irq.
  destruct (negb (_ =? _)); split; assumption.
Qed.

Lemma reset_exit_quiescent (t : DWC2State) (now : Z) :
  quiescent t ->
  (forall d, uport_dev t = Some d -> dev_attached d = true ->
             dev_attached (device t) = false
             /\ dev_speed d <= USB_SPEED_HIGH) ->
  exists s',
    dwc2_reset_exit t now = Some s'
    /\ quiescent s'
    /\ dev_addr (device s') = 0
    /\ uport_dev s' = uport_dev t
    /\ (uport_attached t = false -> hprt0 s' = HPRT0_PWR).
Proof.
  intros Q Hd. unfold dwc2_reset_exit.
  assert (Q1 : quiescent (h0_put t HPRT0 HPRT0_PWR))
    by (destruct Q; constructor; assumption).
  assert (Hat : uport_attached (h0_put t HPRT0 HPRT0_PWR) = uport_attached t)
    by reflexivity.
  rewrite Hat.
  destruct (uport_attached t) eqn:Ea.
  - destruct (attach_returns (h0_put t HPRT0 HPRT0_PWR) now Hd Hat)
      as [t2 Ht2].
    unfold usb_attach. rewrite Ht2.
    pose proof (attach_quiescent _ t2 now Q1 Ht2) as Q2.
    pose proof (attach_port _ t2 now Ht2) as Hp.
    eexists. split; [reflexivity|].
    split; [destruct Q2; constructor; assumption|].
    split; [reflexivity|].
    split; [exact Hp|discriminate].
  - eexists. split; [reflexivity|].
    split; [destruct Q1; constructor; assumption|].
    split; [reflexivity|].
    split; [reflexivity|].
    intros _. unfold hprt0, h0_get, h0_put.
    cbn [hreg0 set_device set_hreg0]. apply bank_set_same.
Qed.

(** A reset of the controller ([dwc2_reset_enter], [dwc2_reset_hold],
    [dwc2_reset_exit]) returns when the attach that [dwc2_reset_exit] may
    make is allowed (the controller is not in device mode and the device on
    the port has a speed up to high speed) and leaves the controller quiet:
    the interrupt line is low and in step with [oldlevel], GINTMSK and
    GAHBCFG are zero, every host channel word is zero, no channel asks for
    service, the scan starts at channel 0 and the device-mode address is 0.
    This holds also when the exit phase re-attaches the device on the port
    and raises the port interrupt, which stays masked.  With no device on
    the port HPRT0 is left with the power bit only. *)
Theorem reset_quiesces (s : DWC2State) (now : Z) :
  oldlevel s = irq s ->
  (forall d, uport_dev s = Some d -> dev_attached d = true ->
             dev_attached (device s) = false
             /\ dev_speed d <= USB_SPEED_HIGH) ->
  exists s',
    qdev_reset_all_fn s now = Some s'
    /\ quiescent s'
    /\ dev_addr (device s') = 0
    /\ uport_dev s' = uport_dev s
    /\ (uport_attached s = false -> hprt0 s' = HPRT0_PWR).
Proof.
  intros Hl Hd. unfold qdev_reset_all_fn.
  pose proof (reset_hold_quiescent s Hl) as Q.
  destruct (reset_hold_port s) as [Hu Hv].
  destruct (reset_exit_quiescent _ now Q) as (s' & Hr & Q' & Ha & Hp & Hh).
  { rewrite Hu, Hv. exact Hd. }
  exists s'. split; [exact Hr|]. split; [exact Q'|]. split; [exact Ha|].
  split; [congruence|].
  intros Hn. apply Hh. unfold uport_attached in *. rewrite Hu. exact Hn.
Qed.

End Reset.

Section ResetExamples.

#[local] Existing Instance hsotg_regs.
#[local] Existing Instance flat_ram.

Lemma reset_quiesces_witness :
  exists s',
    qdev_reset_all_fn port_device 7 = Some s'
    /\ quiescent s'
    /\ dev_addr (device s') = 0
    /\ uport_dev s' = uport_dev port_device
    /\ (uport_attached port_device = false -> hprt0 s' = HPRT0_PWR).
Proof.
  refine (@reset_quiesces hsotg_regs flat_ram port_device 7 _ _).
  - vm_compute. reflexivity.
  - intros d H _. vm_compute in H. injection H as <-.
    split; [vm_compute; reflexivity|]. vm_compute. discriminate.
Defined.

End ResetExamples.

(** ** Host channel registers *)

(** Settle the bank tests of the register window for an address whose
    range is known. *)
Ltac pick_bank :=
  repeat match goal with
         | |- context [in_range ?a ?lo ?hi] =>
           first [ rewrite (in_range_true a lo hi) by lia
                 | rewrite (in_range_false a lo hi) by lia ]
         end.

Section ChannelRegisters.

Context {R : Dwc2Regs} {M : GuestMemory}.

Lemma eqb_refl_true (a b : Z) : a = b -> (a =? b) = true.
Proof. intros ->. apply Z.eqb_refl. Qed.

Lemma eqb_false (a b : Z) : a <> b -> (a =? b) = false.
Proof. apply Z.eqb_neq. Qed.

(** A write to one of the read-only host registers, HFNUM, HPTXSTS, HAINT
    or the HCDMAB of a channel, is logged as a guest error and changes
    nothing else, whatever the value; it never aborts. *)
Theorem read_only_host_registers (s : DWC2State) (addr val now : Z)
    (lookup : Z -> bool) (reply : usb_reply) :
  addr = HFNUM \/ addr = HPTXSTS \/ addr = HAINT
  \/ (exists c, 0 <= c < DWC2_NB_CHAN /\ c < 24 /\ addr = HCDMAB c) ->
  exists s',
    dwc2_hsotg_write s addr val now lookup reply = Some s'
    /\ only_logged s s'.
Proof.
  intros [-> | [-> | [-> | (c & Hc & Hc' & ->)]]].
  - eexists. split; [reflexivity|]. eexists. reflexivity.
  - eexists. split; [reflexivity|]. eexists. reflexivity.
  - eexists. split; [reflexivity|]. eexists. reflexivity.
  - unfold dwc2_hsotg_write, HCDMAB, HSOTG_REG.
    pick_bank.
    rewrite (eqb_false (1308 + 32 * c) 256) by lia.
    unfold dwc2_hreg1_write, HCCHAR, HCDMAB, HSOTG_REG.
    replace ((1308 + 32 * c <? 1280 + 32 * 0)
             || (1308 + 32 * c >? 1308 + 32 * (DWC2_NB_CHAN - 1)))
      with false by (symmetry; apply orb_false_iff; split; lia).
    replace (1308 + 32 * c) with (28 + 32 * (40 + c)) by lia.
    rewrite land_0x1c by lia.
    eexists. split; [reflexivity|]. eexists. reflexivity.
Qed.

Lemma hreg1_plain_write (s : DWC2State) (base c val wnow : Z)
    (lookup : Z -> bool) (reply : usb_reply) :
  0 <= c < DWC2_NB_CHAN -> c < 24 ->
  base = 4 \/ base = 16 \/ base = 20 ->
  dwc2_hsotg_write s (HSOTG_REG (0x500 + base + 0x20 * c)) val wnow lookup
    reply
  = Some (h1_put s ((base + 0x20 * c) >> 2) (u32 val)).
Proof.
  intros Hc Hc' Hb.
  unfold dwc2_hsotg_write, HSOTG_REG. pick_bank.
  rewrite (eqb_false (1280 + base + 32 * c) 256) by lia.
  unfold dwc2_hreg1_write, HCCHAR, HCDMAB, HCINT, HCINTMSK, HSOTG_REG.
  replace ((1280 + base + 32 * c <? 1280 + 32 * 0)
           || (1280 + base + 32 * c >? 1308 + 32 * (DWC2_NB_CHAN - 1)))
    with false by (symmetry; apply orb_false_iff; split; lia).
  replace (1280 + base + 32 * c) with (base + 32 * (40 + c)) by lia.
  rewrite land_0x1c by lia.
  replace (base + 32 * (40 + c) - 1280) with (base + 32 * c) by lia.
  destruct Hb as [-> | [-> | ->]]; reflexivity.
Qed.

(** The split control, transfer size and DMA address words of a host
    channel (HCSPLT, HCTSIZ, HCDMA) are plain storage: a write stores the
    low 32 bits of the value, a read afterwards returns them, and the write
    has no other effect; it starts no transfer, touches no other channel
    word and leaves the interrupt registers and the line alone. *)
Theorem channel_word_round_trip (s : DWC2State) (c addr val wnow now : Z)
    (lookup : Z -> bool) (reply : usb_reply) :
  0 <= c < DWC2_NB_CHAN -> c < 24 ->
  addr = HCSPLT c \/ addr = HCTSIZ c \/ addr = HCDMA c ->
  exists s',
    dwc2_hsotg_write s addr val wnow lookup reply = Some s'
    /\ dwc2_hsotg_read s' addr now = Some (s', u32 val)
    /\ (forall i, i <> (addr - HSOTG_REG 0x500) >> 2 ->
                  hreg1 s' i = hreg1 s i)
    /\ glbreg s' = glbreg s /\ hreg0 s' = hreg0 s
    /\ packet s' = packet s /\ usb_buf s' = usb_buf s
    /\ async_bh s' = async_bh s
    /\ irq s' = irq s /\ qemu_log s' = qemu_log s.
Proof.
  intros Hc Hc' Ha.
  assert (Hb : exists base, (base = 4 \/ base = 16 \/ base = 20)
                            /\ addr = HSOTG_REG (0x500 + base + 0x20 * c)).
  { destruct Ha as [-> | [-> | ->]];
      [exists 4|exists 16|exists 20]; (split; [tauto|]);
      unfold HCSPLT, HCTSIZ, HCDMA, HSOTG_REG; f_equal. }
  destruct Hb as (base & Hb & ->).
  rewrite (hreg1_plain_write s base c val wnow lookup reply Hc Hc' Hb).
  eexists. split; [reflexivity|].
  split.
  - unfold dwc2_hsotg_read, HSOTG_REG. pick_bank.
    rewrite (eqb_false (1280 + base + 32 * c) 256) by lia.
    unfold dwc2_hreg1_read, HCCHAR, HCDMAB, HSOTG_REG.
    replace ((1280 + base + 32 * c <? 1280 + 32 * 0)
             || (1280 + base + 32 * c >? 1308 + 32 * (DWC2_NB_CHAN - 1)))
      with false by (symmetry; apply orb_false_iff; split; lia).
    replace (1280 + base + 32 * c - 1280) with (base + 32 * c) by lia.
    unfold h1_put. cbn [hreg1 set_hreg1]. rewrite bank_set_same.
    reflexivity.
  - split; [|repeat split].
    intros i Hi. unfold h1_put. cbn [hreg1 set_hreg1].
    apply bank_set_other.
    unfold HSOTG_REG in Hi.
    replace (1280 + base + 32 * c - 1280) with (base + 32 * c) in Hi by lia.
    exact Hi.
Qed.

Lemma index_of_channel (c : Z) : (32 * c) >> 2 = 8 * c.
Proof.
  rewrite shiftr_2. replace (32 * c) with (8 * c * 4) by lia.
  apply Z.div_mul. lia.
Qed.

Lemma channel_base (c : Z) : (8 * c) .& .~ 7 = 8 * c.
Proof.
  apply Z.bits_inj'. intros i Hi.
  rewrite Z.land_spec, Z.lnot_spec by assumption.
  destruct (Z.ltb_spec i 3) as [Hlt|Hge].
  - replace (8 * c) with (c * 2 ^ 3) by lia.
    rewrite Z.mul_pow2_bits_low by lia. reflexivity.
  - replace (Z.testbit 7 i) with false; [apply andb_true_r|].
    symmetry. change 7 with (Z.ones 3). apply Z.ones_spec_high. lia.
Qed.

Lemma u32_land_lnot_clear (v a b : Z) :
  u32 (v .& .~ (a .| b)) .& a = 0 /\ u32 (v .& .~ (a .| b)) .& b = 0.
Proof.
  split; apply Z.bits_inj'; intros i Hi; rewrite Z.land_spec, Z.bits_0;
    (destruct (Z.ltb_spec i 32) as [Hlt|Hge];
     [rewrite u32_testbit by lia;
      rewrite Z.land_spec, Z.lnot_spec, Z.lor_spec by assumption;
      destruct (Z.testbit v i), (Z.testbit a i), (Z.testbit b i); reflexivity
     |unfold u32; rewrite Z.mod_pow2_bits_high by lia; reflexivity]).
Qed.

(** Writing HCCHAR of a channel with the disable bit set, while the stored
    word does not have it, halts the channel: the word is stored with both
    the enable and the disable bit clear, the channel-halted cause is set in
    HCINT of the channel, and nothing is sent: no other channel word, no
    packet context and no buffer changes and the bottom half is not
    scheduled. *)
Theorem channel_disable_halts (s : DWC2State) (c val wnow : Z)
    (lookup : Z -> bool) (reply : usb_reply) :
  0 <= c < DWC2_NB_CHAN -> c < 24 ->
  val .& HCCHAR_CHDIS <> 0 ->
  hreg1 s (8 * c) .& HCCHAR_CHDIS = 0 ->
  exists s',
    dwc2_hsotg_write s (HCCHAR c) val wnow lookup reply = Some s'
    /\ hreg1 s' (8 * c) = u32 (val .& .~ (HCCHAR_CHENA .| HCCHAR_CHDIS))
    /\ hreg1 s' (8 * c) .& HCCHAR_CHENA = 0
    /\ hreg1 s' (8 * c) .& HCCHAR_CHDIS = 0
    /\ hreg1 s' (8 * c + 2) = hreg1 s (8 * c + 2) .| HCINTMSK_CHHLTD
    /\ (forall i, i <> 8 * c -> i <> 8 * c + 2 -> hreg1 s' i = hreg1 s i)
    /\ packet s' = packet s /\ usb_buf s' = usb_buf s
    /\ async_bh s' = async_bh s /\ qemu_log s' = qemu_log s.
Proof.
  intros Hc Hc' Hv Ho.
  unfold dwc2_hsotg_write, HCCHAR, HSOTG_REG. pick_bank.
  rewrite (eqb_false (1280 + 32 * c) 256) by lia.
  unfold dwc2_hreg1_write, HCCHAR, HCDMAB, HCINT, HCINTMSK, HSOTG_REG.
  replace ((1280 + 32 * c <? 1280 + 32 * 0)
           || (1280 + 32 * c >? 1308 + 32 * (DWC2_NB_CHAN - 1)))
    with false by (symmetry; apply orb_false_iff; split; lia).
  replace (1280 + 32 * c) with (0 + 32 * (40 + c)) by lia.
  rewrite land_0x1c by lia.
  replace (0 + 32 * (40 + c) - 1280) with (32 * c) by lia.
  rewrite index_of_channel.
  change (0 .& 28) with 0.
  rewrite (eqb_false (1280 + 0) (1308 + 32 * 0)) by lia.
  rewrite (eqb_refl_true (1280 + 0) (1280 + 32 * 0)) by lia.
  rewrite (proj2 (nz_true _) Hv), (proj2 (nz_false _) Ho).
  cbn [andb negb]. cbv beta iota zeta.
  rewrite channel_base.
  eexists. split; [reflexivity|].
  match goal with
  | |- context [dwc2_update_hc_irq ?t ?i] =>
    pose proof (irq_frame_update_hc t i) as F;
      generalize dependent (dwc2_update_hc_irq t i)
  end.
  intros s' F.
  rewrite (fr_hreg1 _ _ F), (fr_packet _ _ F), (fr_usb_buf _ _ F),
    (fr_async_bh _ _ F), (fr_qemu_log _ _ F).
  unfold h1_put. cbn [hreg1 set_hreg1 packet usb_buf async_bh qemu_log].
  rewrite (bank_set_other _ (8 * c + 2) (8 * c)) by lia.
  rewrite !bank_set_same.
  rewrite (bank_set_other _ (8 * c) (8 * c + 2)) by lia.
  split; [reflexivity|].
  split; [apply u32_land_lnot_clear|].
  split; [apply u32_land_lnot_clear|].
  split; [reflexivity|].
  split; [|repeat split].
  intros i H1 H2. rewrite !bank_set_other by assumption. reflexivity.
Qed.

Lemma lor_land_nonzero (a b m : Z) : a .& m <> 0 -> (a .| b) .& m <> 0.
Proof. intros H E. apply H. exact (lor_land_zero_l a b m E). Qed.

Lemma channel_of_index (c : Z) : (8 * c) >> 3 = c.
Proof.
  rewrite Z.shiftr_div_pow2 by lia. replace (8 * c) with (c * 2 ^ 3) by lia.
  apply Z.div_mul. lia.
Qed.

(** Writing HCCHAR of a channel with the enable bit set (and the disable
    bit clear), while the stored word does not have it, enables the
    channel; when the root port is not enabled, or the USB core finds no
    device at the device address of the word that is stored, nothing is
    sent and nothing completes: HCCHAR is stored as written with the
    disable bit clear, and HCINT, every other channel word, the packet
    contexts, the global registers, the line and the bottom half are as
    they were. *)
Theorem channel_enable_without_device (s : DWC2State) (c val wnow : Z)
    (lookup : Z -> bool) (reply : usb_reply) :
  0 <= c < DWC2_NB_CHAN -> c < 24 ->
  val .& HCCHAR_CHDIS = 0 ->
  val .& HCCHAR_CHENA <> 0 ->
  hreg1 s (8 * c) .& HCCHAR_CHENA = 0 ->
  hprt0 s .& HPRT0_ENA = 0
  \/ lookup (get_field
               (u32 ((val .| (hreg1 s (8 * c) .& HCCHAR_CHDIS))
                     .& .~ HCCHAR_CHDIS))
               HCCHAR_DEVADDR_MASK HCCHAR_DEVADDR_SHIFT) = false ->
  exists s',
    dwc2_hsotg_write s (HCCHAR c) val wnow lookup reply = Some s'
    /\ hreg1 s' (8 * c)
       = u32 ((val .| (hreg1 s (8 * c) .& HCCHAR_CHDIS)) .& .~ HCCHAR_CHDIS)
    /\ (forall i, i <> 8 * c -> hreg1 s' i = hreg1 s i)
    /\ glbreg s' = glbreg s /\ hreg0 s' = hreg0 s
    /\ packet s' = packet s /\ usb_buf s' = usb_buf s
    /\ async_bh s' = async_bh s /\ irq s' = irq s
    /\ qemu_log s' = qemu_log s.
Proof.
  intros Hc Hc' Hd He Ho Hp.
  unfold dwc2_hsotg_write, HCCHAR, HSOTG_REG. pick_bank.
  rewrite (eqb_false (1280 + 32 * c) 256) by lia.
  unfold dwc2_hreg1_write, HCCHAR, HCDMAB, HCINT, HCINTMSK, HSOTG_REG.
  replace ((1280 + 32 * c <? 1280 + 32 * 0)
           || (1280 + 32 * c >? 1308 + 32 * (DWC2_NB_CHAN - 1)))
    with false by (symmetry; apply orb_false_iff; split; lia).
  replace (1280 + 32 * c) with (0 + 32 * (40 + c)) by lia.
  rewrite land_0x1c by lia.
  replace (0 + 32 * (40 + c) - 1280) with (32 * c) by lia.
  rewrite index_of_channel.
  change (0 .& 28) with 0.
  rewrite (eqb_false (1280 + 0) (1308 + 32 * 0)) by lia.
  rewrite (eqb_refl_true (1280 + 0) (1280 + 32 * 0)) by lia.
  rewrite (proj2 (nz_false _) Hd).
  cbn [andb negb]. cbv beta zeta.
  rewrite (proj2 (nz_true _)
             (lor_land_nonzero val (hreg1 s (8 * c) .& HCCHAR_CHDIS)
                HCCHAR_CHENA He)),
    (proj2 (nz_false _) Ho).
  cbn [andb negb]. cbv beta iota zeta.
  rewrite channel_base.
  unfold dwc2_enable_chan. rewrite channel_of_index.
  replace (c <? DWC2_NB_CHAN) with true by (symmetry; lia).
  cbn [negb]. cbv beta zeta.
  match goal with
  | |- context [dwc2_find_device ?t lookup ?a] =>
    assert (Hf : dwc2_find_device t lookup a = false)
  end.
  { unfold dwc2_find_device.
    destruct Hp as [Hp|Hp].
    - unfold hprt0, h0_get, h1_put in *. cbn [hreg0 set_hreg1].
      rewrite (proj2 (nz_false _) Hp). reflexivity.
    - unfold h1_put. cbn [hreg1 set_hreg1]. rewrite bank_set_same, Hp.
      destruct (negb _); reflexivity. }
  rewrite Hf. cbn [negb].
  eexists. split; [reflexivity|].
  unfold h1_put. cbn [hreg1 set_hreg1]. rewrite bank_set_same.
  split; [reflexivity|].
  split; [|repeat split].
  intros i Hi. apply bank_set_other. exact Hi.
Qed.

End ChannelRegisters.

Section ChannelRegisterExamples.

#[local] Existing Instance hsotg_regs.
#[local] Existing Instance flat_ram.

Lemma read_only_host_registers_witness :
  exists s',
    dwc2_hsotg_write bulk_in_channel (HCDMAB 3) 0xffffffff 0
      (fun _ => true) short_reply = Some s'
    /\ only_logged bulk_in_channel s'.
Proof.
  apply (read_only_host_registers bulk_in_channel (HCDMAB 3)).
  right. right. right. exists 3.
  split; [vm_compute; intuition discriminate|]. split; [lia|reflexivity].
Defined.

Lemma channel_word_round_trip_witness :
  exists s',
    dwc2_hsotg_write blank_state (HCTSIZ 2) 0x100080040 0 (fun _ => true)
      short_reply = Some s'
    /\ dwc2_hsotg_read s' (HCTSIZ 2) 9 = Some (s', 0x80040)
    /\ hreg1 s' 0 = 0.
Proof.
  destruct (channel_word_round_trip blank_state 2 (HCTSIZ 2) 0x100080040 0 9
              (fun _ => true) short_reply)
    as (s' & Hw & Hr & Ho & _);
    [closed_fact| closed_fact | right; left; reflexivity |].
  exists s'. split; [exact Hw|]. split; [exact Hr|].
  apply (Ho 0). vm_compute. discriminate.
Defined.

Lemma channel_disable_halts_witness :
  exists s',
    dwc2_hsotg_write bulk_in_channel (HCCHAR 0) (BIT 30) 0 (fun _ => true)
      short_reply = Some s'
    /\ hreg1 s' 0 = 0
    /\ hreg1 s' 2 = HCINTMSK_CHHLTD
    /\ hreg1 s' 4 = hreg1 bulk_in_channel 4.
Proof.
  destruct (channel_disable_halts bulk_in_channel 0 (BIT 30) 0
              (fun _ => true) short_reply)
    as (s' & Hw & H0 & _ & _ & H2 & Ho & _); [closed_fact ..|].
  exists s'. split; [exact Hw|].
  split; [exact H0|]. split; [exact H2|].
  apply (Ho 4); discriminate.
Defined.

Lemma channel_enable_without_device_witness :
  exists s',
    dwc2_hsotg_write port_enabled_channel (HCCHAR 1)
      (BIT 31 .| (9 << 22) .| 64) 0 (fun a => a =? 5) short_reply = Some s'
    /\ hreg1 s' 8 = BIT 31 .| (9 << 22) .| 64
    /\ hreg1 s' 10 = 0
    /\ async_bh s' = false.
Proof.
  destruct (channel_enable_without_device port_enabled_channel 1
              (BIT 31 .| (9 << 22) .| 64) 0 (fun a => a =? 5) short_reply)
    as (s' & Hw & H0 & Ho & _ & _ & _ & _ & Hb & _);
    [closed_fact | closed_fact | closed_fact | closed_fact | closed_fact
    | right; reflexivity |].
  exists s'. split; [exact Hw|].
  split; [exact H0|].
  split; [apply (Ho 10); discriminate|exact Hb].
Defined.

End ChannelRegisterExamples.

(** ** Root port *)

Section RootPort.

Context {R : Dwc2Regs} {M : GuestMemory}.

Lemma raise_global_value (s : DWC2State) (x : Z) :
  gintsts (dwc2_raise_global_irq s x) = raised (gintsts s) x.
Proof.
  unfold dwc2_raise_global_irq, raised.
  destruct (nz (gintsts s .& x)); cbn [negb]; [reflexivity|].
  unfold gintsts at 1, glb_get. rewrite update_irq_glbreg.
  unfold glb_put. cbn [glbreg set_glbreg]. apply bank_set_same.
Qed.

Lemma speed_times_frame (s : DWC2State) (hispd : bool) :
  usb_frame_time (speed_times s hispd)
  = Z.quot NANOSECONDS_PER_SECOND (if hispd then 8000 else 1000)
  /\ hreg0 (speed_times s hispd) = hreg0 s
  /\ glbreg (speed_times s hispd) = glbreg s
  /\ hreg1 (speed_times s hispd) = hreg1 s
  /\ packet (speed_times s hispd) = packet s.
Proof.
  unfold speed_times.
  destruct hispd;
    repeat match goal with
           | |- context [if ?c then _ else _] => destruct c
           end; repeat split.
Qed.

(** What [dwc2_attach] does once the speed field is in HPRT0. *)
Lemma attach_tail (t0 : DWC2State) (now : Z) (hispd : bool) :
  let t := speed_times t0 hispd in
  let t := set_fi t (USB_FRMINTVL - 1) in
  let t := h0_put t HPRT0 (hprt0 t .| (HPRT0_CONNDET .| HPRT0_CONNSTS)) in
  let t := glb_put t GOTGCTL (gotgctl t .| GOTGCTL_ASESVLD) in
  let t := dwc2_bus_start t now in
  let s' := dwc2_raise_global_irq t
              (GINTSTS_PRTINT .| GINTSTS_CURMODE_HOST) in
  hprt0 s' = hprt0 t0 .| (HPRT0_CONNDET .| HPRT0_CONNSTS)
  /\ gotgctl s' = gotgctl t0 .| GOTGCTL_ASESVLD
  /\ gintsts s'
     = raised (gintsts t0) (GINTSTS_PRTINT .| GINTSTS_CURMODE_HOST)
  /\ sof_time s' = now
  /\ eof_timer s' = Some (now + usb_frame_time s')
  /\ fi s' = USB_FRMINTVL - 1
  /\ usb_frame_time s'
     = Z.quot NANOSECONDS_PER_SECOND (if hispd then 8000 else 1000)
  /\ hreg1 s' = hreg1 t0 /\ packet s' = packet t0.
Proof.
  cbv zeta.
  destruct (speed_times_frame t0 hispd) as (Hf & Hh & Hg & Hc & Hp).
  generalize dependent (speed_times t0 hispd).
  intros t Hf Hh Hg Hc Hp.
  match goal with
  | |- context [dwc2_raise_global_irq ?u ?x] =>
    pose proof (irq_frame_raise_global u x) as F;
      pose proof (raise_global_value u x) as G;
      generalize dependent (dwc2_raise_global_irq u x)
  end.
  intros s' F G.
  unfold hprt0, h0_get, gotgctl, glb_get.
  rewrite (fr_hreg0 _ _ F) by discriminate.
  rewrite (fr_glbreg _ _ F) by discriminate.
  rewrite G, (fr_sof_time _ _ F), (fr_eof_timer _ _ F), (fr_fi _ _ F),
    (fr_usb_frame_time _ _ F), (fr_hreg1 _ _ F), (fr_packet _ _ F).
  unfold dwc2_bus_start, dwc2_eof_timer, glb_put, h0_put, gintsts, glb_get,
    hprt0, h0_get, gotgctl, glb_get.
  cbn [hreg0 glbreg sof_time eof_timer fi usb_frame_time hreg1 packet
       set_hreg0 set_glbreg set_sof_time set_eof_timer set_fi].
  rewrite !bank_set_same.
  rewrite (bank_set_other _ _ ((GINTSTS - HSOTG_REG 0) >> 2)) by discriminate.
  rewrite Hh, Hg, Hf, Hc, Hp.
  repeat split.
Qed.

Lemma speed_put (s : DWC2State) (spd : Z) :
  let t0 := h0_put s HPRT0 (hprt0 s .& .~ HPRT0_SPD_MASK) in
  let t1 := h0_put t0 HPRT0 (hprt0 t0 .| spd) in
  hprt0 t1 = (hprt0 s .& .~ HPRT0_SPD_MASK) .| spd
  /\ gotgctl t1 = gotgctl s /\ gintsts t1 = gintsts s
  /\ hreg1 t1 = hreg1 s /\ packet t1 = packet s.
Proof.
  cbv zeta. unfold hprt0, h0_get, h0_put, gotgctl, gintsts, glb_get.
  cbn [hreg0 glbreg hreg1 packet set_hreg0]. rewrite !bank_set_same.
  repeat split.
Qed.

Lemma speed_clear (s : DWC2State) :
  let t0 := h0_put s HPRT0 (hprt0 s .& .~ HPRT0_SPD_MASK) in
  hprt0 t0 = (hprt0 s .& .~ HPRT0_SPD_MASK) .| 0
  /\ gotgctl t0 = gotgctl s /\ gintsts t0 = gintsts s
  /\ hreg1 t0 = hreg1 s /\ packet t0 = packet s.
Proof.
  cbv zeta. unfold hprt0, h0_get, h0_put, gotgctl, gintsts, glb_get.
  cbn [hreg0 glbreg hreg1 packet set_hreg0]. rewrite !bank_set_same.
  rewrite Z.lor_0_r. repeat split.
Qed.

Ltac attach_case lem :=
  match goal with
  | |- context [speed_times ?t0 ?h] =>
    let H := fresh in
    pose proof lem as H; cbv zeta in H;
    destruct H as (H1 & H2 & H3 & H4 & H5);
    match goal with
    | |- context [dwc2_bus_start _ ?now] =>
      let T := fresh in
      pose proof (attach_tail t0 now h) as T; cbv zeta in T;
      destruct T as (T1 & T2 & T3 & T4 & T5 & T6 & T7 & T8 & T9);
      rewrite T1, T2, T3, T8, T9, H1, H2, H3, H4, H5;
      repeat split; assumption
    end
  end.

(** [dwc2_attach] with a device on the root port, the controller not in
    device mode: it returns and the port shows the connection.  HPRT0 gets
    the speed field of the device and the connect-detected and
    connect-status bits, GOTGCTL the A-session-valid bit, the frame clock
    is started at [now] with the frame time of the speed, and the port
    interrupt and host-mode causes are set in GINTSTS, unless one of the
    two is already pending: then GINTSTS is left as it is.  No channel word
    and no packet context changes. *)
Theorem attach_connects_port (s : DWC2State) (now : Z) (d : USBDevice) :
  uport_dev s = Some d ->
  dev_attached d = true ->
  dev_attached (device s) = false ->
  dev_speed d <= USB_SPEED_HIGH ->
  exists s',
    dwc2_attach s now = Some s'
    /\ hprt0 s' = (hprt0 s .& .~ HPRT0_SPD_MASK)
                  .| port_speed_bits (dev_speed d)
                  .| (HPRT0_CONNDET .| HPRT0_CONNSTS)
    /\ gotgctl s' = gotgctl s .| GOTGCTL_ASESVLD
    /\ gintsts s'
       = raised (gintsts s) (GINTSTS_PRTINT .| GINTSTS_CURMODE_HOST)
    /\ sof_time s' = now
    /\ eof_timer s' = Some (now + usb_frame_time s')
    /\ fi s' = USB_FRMINTVL - 1
    /\ usb_frame_time s'
       = Z.quot NANOSECONDS_PER_SECOND
           (if port_high_speed (dev_speed d) then 8000 else 1000)
    /\ hreg1 s' = hreg1 s /\ packet s' = packet s.
Proof.
  intros Hu Ha Hd Hs.
  unfold dwc2_attach. rewrite Hd, Hu, Ha. cbn [negb].
  replace (dev_speed d <=? USB_SPEED_HIGH) with true by (symmetry; lia).
  cbn [negb].
  unfold port_speed_bits, port_high_speed.
  destruct (dev_speed d =? USB_SPEED_LOW);
    [|destruct (dev_speed d =? USB_SPEED_FULL);
      [|destruct (dev_speed d =? USB_SPEED_HIGH)]];
    cbn [negb andb]; cbv zeta; (eexists; split; [reflexivity|]).
  - attach_case (speed_put s (HPRT0_SPD_LOW_SPEED << HPRT0_SPD_SHIFT)).
  - attach_case (speed_put s (HPRT0_SPD_FULL_SPEED << HPRT0_SPD_SHIFT)).
  - attach_case (speed_put s (HPRT0_SPD_HIGH_SPEED << HPRT0_SPD_SHIFT)).
  - attach_case (speed_clear s).
Qed.

Lemma clear_then_set (x m d e : Z) :
  d .& e = 0 ->
  (forall i, 0 <= i -> Z.testbit e i = true -> Z.testbit m i = true) ->
  ((x .& .~ m) .| d) .& e = 0.
Proof.
  intros Hd Hs. apply Z.bits_inj'. intros i Hi.
  rewrite Z.land_spec, Z.lor_spec, Z.land_spec, Z.lnot_spec, Z.bits_0
    by assumption.
  pose proof (land_disjoint_bit d e i Hd) as Hb.
  specialize (Hs i Hi).
  destruct (Z.testbit e i); [|apply andb_false_r].
  rewrite (Hs eq_refl). rewrite andb_true_r in Hb. rewrite Hb.
  rewrite andb_false_r. reflexivity.
Qed.

(** [dwc2_detach] disconnects the port: the frame clock is stopped, HPRT0
    loses the speed, suspend, enable and connect-status bits and gains
    connect-detected and enable-changed, GOTGCTL loses A-session-valid,
    and the port-interrupt and disconnect causes are set in GINTSTS unless
    one of the two is already pending.  With the bits of HPRT0 laid out
    apart the port is then disabled, so [dwc2_find_device] finds no device
    at any address.  Channel words and packet contexts are not touched: a
    packet in flight stays in flight. *)
Theorem detach_disconnects_port (s : DWC2State) :
  let s' := dwc2_detach s in
  (HPRT0_CONNDET .| HPRT0_ENACHG) .& HPRT0_ENA = 0 ->
  (HPRT0_CONNDET .| HPRT0_ENACHG) .& HPRT0_CONNSTS = 0 ->
  hprt0 s' = (hprt0 s .& .~ (HPRT0_SPD_MASK .| HPRT0_SUSP .| HPRT0_ENA
                             .| HPRT0_CONNSTS))
             .| (HPRT0_CONNDET .| HPRT0_ENACHG)
  /\ hprt0 s' .& HPRT0_ENA = 0
  /\ hprt0 s' .& HPRT0_CONNSTS = 0
  /\ (forall lookup a, dwc2_find_device s' lookup a = false)
  /\ gotgctl s' = gotgctl s .& .~ GOTGCTL_ASESVLD
  /\ gintsts s' = raised (gintsts s) (GINTSTS_PRTINT .| GINTSTS_DISCONNINT)
  /\ eof_timer s' = None
  /\ hreg1 s' = hreg1 s /\ packet s' = packet s.
Proof.
  intros s' He Hc. subst s'. unfold dwc2_detach. cbv zeta.
  match goal with
  | |- context [dwc2_raise_global_irq ?u ?x] =>
    pose proof (irq_frame_raise_global u x) as F;
      pose proof (raise_global_value u x) as G;
      generalize dependent (dwc2_raise_global_irq u x)
  end.
  intros s' F G.
  assert (Hv : hprt0 s'
               = (hprt0 s .& .~ (HPRT0_SPD_MASK .| HPRT0_SUSP .| HPRT0_ENA
                                 .| HPRT0_CONNSTS))
                 .| (HPRT0_CONNDET .| HPRT0_ENACHG)).
  { unfold hprt0, h0_get. rewrite (fr_hreg0 _ _ F) by discriminate.
    unfold glb_put, h0_put, dwc2_bus_stop, hprt0, h0_get.
    cbn [hreg0 set_glbreg set_hreg0 set_eof_timer].
    rewrite !bank_set_same. reflexivity. }
  assert (Hena : hprt0 s' .& HPRT0_ENA = 0).
  { rewrite Hv. apply clear_then_set; [exact He|].
    intros i Hi Hb. rewrite !Z.lor_spec, Hb.
    rewrite orb_true_r. reflexivity. }
  split; [exact Hv|]. split; [exact Hena|].
  split.
  { rewrite Hv. apply clear_then_set; [exact Hc|].
    intros i Hi Hb. rewrite !Z.lor_spec, Hb. apply orb_true_r. }
  split.
  { intros lookup a. unfold dwc2_find_device.
    rewrite (proj2 (nz_false _) Hena). reflexivity. }
  unfold gotgctl, glb_get.
  rewrite (fr_glbreg _ _ F) by discriminate.
  rewrite G, (fr_eof_timer _ _ F), (fr_hreg1 _ _ F), (fr_packet _ _ F).
  unfold glb_put, h0_put, dwc2_bus_stop, gintsts, glb_get, gotgctl, glb_get.
  cbn [hreg0 glbreg eof_timer hreg1 packet set_glbreg set_hreg0
       set_eof_timer].
  rewrite bank_set_same.
  rewrite (bank_set_other _ _ ((GINTSTS - HSOTG_REG 0) >> 2)) by discriminate.
  repeat split.
Qed.

Lemma attach_keeps_channels (s s' : DWC2State) (now : Z) :
  dwc2_attach s now = Some s' ->
  hreg1 s' = hreg1 s /\ packet s' = packet s.
Proof.
  unfold dwc2_attach.
  destruct (dev_attached (device s)); [discriminate|].
  destruct (uport_dev s) as [d|]; [|intros [= <-]; split; reflexivity].
  destruct (negb (dev_attached d)); [intros [= <-]; split; reflexivity|].
  destruct (negb (dev_speed d <=? USB_SPEED_HIGH)); [discriminate|].
  destruct (dev_speed d =? USB_SPEED_LOW);
    [|destruct (dev_speed d =? USB_SPEED_FULL);
      [|destruct (dev_speed d =? USB_SPEED_HIGH)]];
    intros [= <-];
    match goal with
    | |- context [dwc2_raise_global_irq ?u ?x] =>
      pose proof (irq_frame_raise_global u x) as F;
        rewrite (fr_hreg1 _ _ F), (fr_packet _ _ F)
    end;
    unfold dwc2_bus_start, dwc2_eof_timer, glb_put, h0_put;
    cbn [hreg1 packet set_eof_timer set_sof_time set_glbreg set_hreg0
         set_fi set_usb_bit_time set_usb_frame_time];
    split; reflexivity.
Qed.

Lemma detach_keeps_channels (s : DWC2State) :
  hreg1 (dwc2_detach s) = hreg1 s /\ packet (dwc2_detach s) = packet s.
Proof.
  unfold dwc2_detach. cbv zeta.
  match goal with
  | |- context [dwc2_raise_global_irq ?u ?x] =>
    pose proof (irq_frame_raise_global u x) as F;
      rewrite (fr_hreg1 _ _ F), (fr_packet _ _ F)
  end.
  split; reflexivity.
Qed.

Lemma u32_land_zero (x m : Z) : x .& m = 0 -> u32 x .& m = 0.
Proof.
  intros H. apply Z.bits_inj'. intros i Hi.
  rewrite Z.land_spec, Z.bits_0.
  destruct (Z.ltb_spec i 32) as [Hlt|Hge].
  - rewrite u32_testbit by lia. apply land_disjoint_bit. exact H.
  - unfold u32. rewrite Z.mod_pow2_bits_high by lia. reflexivity.
Qed.

(** The reset bit of the word that a write to HPRT0 stores is the one
    written. *)
Lemma hprt0_written_rst (old val : Z) :
  hprt0_layout ->
  let v1 := val .| (old .& (HPRT0_SPD_MASK .| HPRT0_LNSTS_MASK
                            .| HPRT0_OVRCURRACT .| HPRT0_CONNSTS)) in
  let v2 := v1 .| (old .& (HPRT0_SUSP .| HPRT0_RES)) in
  let v3 := if rising old v2 HPRT0_ENA then v2 .& .~ HPRT0_ENA else v2 in
  let tval := .~ ((v3 .& HPRT0_w1c) .| .~ (old .& HPRT0_w1c))
              .& HPRT0_w1c in
  ((v3 .& .~ HPRT0_w1c) .| tval) .& HPRT0_RST = val .& HPRT0_RST.
Proof.
  intros (L1 & L2 & L3 & _). cbv zeta.
  fold HPRT0_w1c in L3.
  assert (Le : forall i, Z.testbit HPRT0_RST i = true ->
                         Z.testbit HPRT0_ENA i = false).
  { intros i Hb. pose proof (land_disjoint_bit _ _ i L3) as H.
    unfold HPRT0_w1c in H. rewrite !Z.lor_spec, Hb in H. cbn [andb] in H.
    destruct (Z.testbit HPRT0_ENA i); [|reflexivity].
    rewrite orb_true_r in H. discriminate H. }
  apply Z.bits_inj'. intros i Hi.
  pose proof (land_disjoint_bit _ _ i L1) as B1.
  pose proof (land_disjoint_bit _ _ i L2) as B2.
  pose proof (land_disjoint_bit _ _ i L3) as B3.
  specialize (Le i).
  rewrite !Z.land_spec, !Z.lor_spec, !Z.land_spec, !Z.lnot_spec by assumption.
  destruct (Z.testbit HPRT0_RST i); [|rewrite !andb_false_r; reflexivity].
  cbn [andb] in B1, B2, B3. rewrite B3. rewrite !andb_true_r.
  cbn [negb]. rewrite !andb_false_r, orb_false_r.
  destruct (rising old _ HPRT0_ENA).
  - rewrite Z.land_spec, Z.lnot_spec, (Le eq_refl) by assumption.
    cbn [negb]. rewrite andb_true_r.
    rewrite !Z.lor_spec, !Z.land_spec, B1, B2.
    rewrite !andb_false_r, !orb_false_r. reflexivity.
  - rewrite !Z.lor_spec, !Z.land_spec, B1, B2.
    rewrite !andb_false_r, !orb_false_r. reflexivity.
Qed.

Lemma lor_land_hit (x e g o c : Z) :
  g <> 0 -> (x .| (e .| g)) .& (o .| g .| c) <> 0.
Proof.
  intros Hg E. apply Hg. apply Z.bits_inj'. intros i Hi.
  pose proof (land_disjoint_bit _ _ i E) as H.
  rewrite !Z.lor_spec in H. rewrite Z.bits_0.
  destruct (Z.testbit g i); [|reflexivity].
  rewrite !orb_true_r in H. discriminate H.
Qed.

(** A write to HPRT0 that ends a port reset (the reset bit was set and is
    written as 0) with a device on the port resets the port through
    [usb_port_reset] and enables it: the write returns, HPRT0 reads back
    with the enable and enable-changed bits set and the reset and
    connect-detected bits clear, the port-interrupt cause is pending in
    GINTSTS, and from then on [dwc2_find_device] hands the lookup to the
    USB core.  No channel word and no packet context changes. *)
Theorem port_reset_enables_port (s : DWC2State) (val now : Z)
    (d : USBDevice) (lookup : Z -> bool) (reply : usb_reply) :
  hprt0_layout ->
  GINTSTS_PRTINT <> 0 ->
  uport_dev s = Some d ->
  dev_attached d = true ->
  dev_attached (device s) = false ->
  dev_speed d <= USB_SPEED_HIGH ->
  hprt0 s .& HPRT0_RST <> 0 ->
  val .& HPRT0_RST = 0 ->
  exists s',
    dwc2_hsotg_write s HPRT0 val now lookup reply = Some s'
    /\ hprt0 s' .& HPRT0_ENA = HPRT0_ENA
    /\ hprt0 s' .& HPRT0_ENACHG = HPRT0_ENACHG
    /\ hprt0 s' .& HPRT0_CONNDET = 0
    /\ hprt0 s' .& HPRT0_RST = 0
    /\ gintsts s' .& GINTSTS_PRTINT <> 0
    /\ (forall lk a, dwc2_find_device s' lk a = lk a)
    /\ hreg1 s' = hreg1 s /\ packet s' = packet s.
Proof.
  intros L Hp Hu Ha Hd Hs Ho Hv.
  change (dwc2_hsotg_write s HPRT0 val now lookup reply)
    with (dwc2_hreg0_write s HPRT0 ((HPRT0 - HSOTG_REG 0x400) >> 2) val now).
  open_body dwc2_hreg0_write.
  change ((HPRT0 <? HCFG) || (HPRT0 >? HPRT0)) with false.
  change ((HPRT0 =? HFNUM) || (HPRT0 =? HPTXSTS) || (HPRT0 =? HAINT))
    with false.
  change (HPRT0 =? HFIR) with false.
  change (HPRT0 =? HAINTMSK) with false.
  change (HPRT0 =? HPRT0) with true.
  cbv beta iota.
  change (hreg0 s ((HPRT0 - HSOTG_REG 1024) >> 2)) with (hprt0 s).
  pose proof (hprt0_written_rst (hprt0 s) val L) as Hr.
  cbv zeta in Hr. cbv zeta.
  match type of Hr with
  | ?v .& _ = _ => set (v4 := v) in *
  end.
  rewrite Hr, Hv. change (nz 0) with false.
  rewrite (proj2 (nz_true _) Ho).
  unfold uport_attached at 1. rewrite Hu, Ha.
  cbn [negb andb]. cbv beta iota.
  destruct L as (L1 & L2 & L3 & L4 & L5 & L6).
  assert (Hg : HPRT0_ENACHG <> 0) by lia.
  rewrite (proj2 (nz_true _)
             (lor_land_hit v4 HPRT0_ENA HPRT0_ENACHG HPRT0_OVRCURRCHG
                HPRT0_CONNDET Hg)).
  cbv beta iota.
  unfold usb_port_reset, usb_attach, usb_detach.
  destruct (detach_port s) as [E1 E2].
  destruct (detach_keeps_channels s) as [C1 C2].
  destruct (attach_returns (dwc2_detach s) now) as [t Ht].
  { intros d' Hd1 Hd2. rewrite E1, Hu in Hd1. injection Hd1 as <-.
    rewrite E2. split; assumption. }
  { unfold uport_attached. rewrite E1, Hu. exact Ha. }
  rewrite Ht.
  destruct (attach_keeps_channels _ _ _ Ht) as [A1 A2].
  change (1 >? 0) with true. cbv beta iota.
  eexists. split; [reflexivity|].
  match goal with
  | |- context [dwc2_raise_global_irq ?u ?x] =>
    pose proof (irq_frame_raise_global u x) as F;
      pose proof (raise_global_sets u x Hp) as G;
      generalize dependent (dwc2_raise_global_irq u x)
  end.
  intros s' F G.
  assert (Hw : hprt0 s'
               = u32 ((v4 .| (HPRT0_ENA .| HPRT0_ENACHG)) .& .~ HPRT0_CONNDET)).
  { unfold hprt0, h0_get. rewrite (fr_hreg0 _ _ F) by discriminate.
    cbn [hreg0 set_hreg0]. apply bank_set_same. }
  assert (B : forall m, (HPRT0_ENA .| HPRT0_ENACHG) .& m = m ->
                        0 <= m < 2 ^ 32 -> hprt0 s' .& m = m).
  { intros m Hm Hb. rewrite Hw, u32_land_small by exact Hb.
    apply Z.bits_inj'. intros i Hi.
    pose proof (land_disjoint_bit _ _ i L4) as D.
    assert (Hmi : Z.testbit m i
                  = Z.testbit ((HPRT0_ENA .| HPRT0_ENACHG) .& m) i)
      by (rewrite Hm; reflexivity).
    rewrite Z.land_spec in Hmi.
    rewrite !Z.land_spec, Z.lnot_spec, Z.lor_spec by assumption.
    destruct (Z.testbit m i); [|apply andb_false_r].
    rewrite andb_true_r in Hmi. rewrite <- Hmi in *.
    cbn [andb] in D. rewrite D. rewrite orb_true_r. reflexivity. }
  assert (Hena : hprt0 s' .& HPRT0_ENA = HPRT0_ENA).
  { apply B; [|lia]. rewrite Z.lor_comm. apply lor_land_same. }
  assert (Z0 : forall m, v4 .& m = 0 -> (HPRT0_ENA .| HPRT0_ENACHG) .& m = 0 ->
                         hprt0 s' .& m = 0).
  { intros m H1 H2. rewrite Hw. apply u32_land_zero.
    apply Z.bits_inj'. intros i Hi.
    pose proof (land_disjoint_bit _ _ i H1) as D1.
    pose proof (land_disjoint_bit _ _ i H2) as D2.
    rewrite !Z.land_spec, Z.lor_spec, Z.bits_0.
    destruct (Z.testbit m i); [|apply andb_false_r].
    rewrite andb_true_r in D1, D2. rewrite D1, D2. reflexivity. }
  split; [exact Hena|].
  split; [apply B; [apply lor_land_same|lia]|].
  split; [rewrite Hw; apply u32_land_zero, land_lnot_same|].
  split.
  { apply Z0; [rewrite Hr; exact Hv|].
    apply Z.bits_inj'. intros i Hi.
    pose proof (land_disjoint_bit _ _ i L3) as D.
    rewrite Z.land_spec, Z.bits_0. rewrite !Z.lor_spec in *.
    destruct (Z.testbit HPRT0_RST i); [|apply andb_false_r].
    cbn [andb] in D.
    destruct (Z.testbit HPRT0_ENA i), (Z.testbit HPRT0_ENACHG i);
      try reflexivity; rewrite ?orb_true_r in D; discriminate D. }
  split; [exact G|].
  split.
  { intros lk a. unfold dwc2_find_device.
    assert (Hn : hprt0 s' .& HPRT0_ENA <> 0) by (rewrite Hena; lia).
    rewrite (proj2 (nz_true _) Hn). reflexivity. }
  rewrite (fr_hreg1 _ _ F), (fr_packet _ _ F).
  cbn [hreg1 packet set_hreg0].
  split; congruence.
Qed.

End RootPort.

Section RootPortExamples.

#[local] Existing Instance hsotg_regs.
#[local] Existing Instance flat_ram.

Lemma attach_connects_port_witness :
  exists s',
    dwc2_attach port_device 7 = Some s'
    /\ sof_time s' = 7
    /\ usb_frame_time s' = 125000
    /\ hprt0 s' .& HPRT0_CONNSTS = HPRT0_CONNSTS.
Proof.
  destruct (attach_connects_port port_device 7
              (mkUSBDevice true USB_SPEED_HIGH 0))
    as (s' & H & Hh & _ & _ & Hs & _ & _ & Hf & _); [closed_fact ..|].
  exists s'. split; [exact H|]. split; [exact Hs|]. split; [exact Hf|].
  rewrite Hh. vm_compute. reflexivity.
Defined.

Lemma detach_disconnects_port_witness :
  hprt0 (dwc2_detach port_in_reset) .& HPRT0_CONNSTS = 0
  /\ eof_timer (dwc2_detach port_in_reset) = None
  /\ dwc2_find_device (dwc2_detach port_in_reset) (fun _ => true) 5 = false.
Proof.
  destruct (detach_disconnects_port port_in_reset)
    as (_ & _ & Hc & Hf & _ & _ & He & _); [closed_fact ..|].
  split; [exact Hc|]. split; [exact He|]. apply Hf.
Defined.

Lemma port_reset_enables_port_witness :
  exists s',
    dwc2_hsotg_write port_in_reset HPRT0 HPRT0_PWR 7 (fun _ => true)
      short_reply = Some s'
    /\ hprt0 s' .& HPRT0_ENA = HPRT0_ENA
    /\ dwc2_find_device s' (fun a => a =? 5) 5 = true.
Proof.
  destruct (port_reset_enables_port port_in_reset HPRT0_PWR 7
              (mkUSBDevice true USB_SPEED_HIGH 0) (fun _ => true)
              short_reply)
    as (s' & H & He & _ & _ & _ & _ & Hf & _); [closed_fact ..|].
  exists s'. split; [exact H|]. split; [exact He|].
  rewrite Hf. reflexivity.
Defined.

End RootPortExamples.

(** ** Device mode registers *)

Section DeviceMode.

Context {R : Dwc2Regs} {M : GuestMemory}.

Lemma index_of_word (base ep : Z) :
  0 <= base < 32 -> (base + 32 * ep) >> 2 = base / 4 + 8 * ep.
Proof.
  intros H. rewrite shiftr_2.
  replace (base + 32 * ep) with (base + (8 * ep) * 4) by lia.
  rewrite Z.div_add by lia. reflexivity.
Qed.

Lemma diepctl_put_ctl (t : DWC2State) (ep v : Z) :
  diepctl (diep_put t (DIEPCTL ep) v) ep = v.
Proof.
  unfold diepctl, diep_get, diep_put. cbn [diepreg set_diepreg].
  apply bank_set_same.
Qed.

Lemma diepctl_put_int (t : DWC2State) (ep v : Z) :
  diepctl (diep_put t (DIEPINT ep) v) ep = diepctl t ep.
Proof.
  unfold diepctl, diep_get, diep_put. cbn [diepreg set_diepreg].
  apply bank_set_other. unfold DIEPCTL, DIEPINT, HSOTG_REG.
  replace (2304 + 32 * ep - 2304) with (0 + 32 * ep) by lia.
  replace (2312 + 32 * ep - 2304) with (8 + 32 * ep) by lia.
  rewrite !index_of_word by lia. change (0 / 4) with 0. change (8 / 4) with 2.
  lia.
Qed.

Lemma land_lnot_zero (x m a : Z) : x .& a = 0 -> (x .& .~ m) .& a = 0.
Proof.
  intros H. apply Z.bits_inj'. intros i Hi.
  pose proof (land_disjoint_bit _ _ i H) as D.
  rewrite !Z.land_spec, Z.bits_0.
  destruct (Z.testbit x i), (Z.testbit a i); try reflexivity;
    try apply andb_false_r. discriminate D.
Qed.

Lemma land_lnot_lor_l (x a b : Z) : (x .& .~ (a .| b)) .& a = 0.
Proof.
  apply Z.bits_inj'. intros i Hi.
  rewrite !Z.land_spec, Z.lnot_spec, Z.lor_spec, Z.bits_0 by assumption.
  destruct (Z.testbit x i), (Z.testbit a i), (Z.testbit b i); reflexivity.
Qed.

Lemma apart_from (e a b c : Z) :
  e .& (a .| b .| c) = 0 ->
  forall m, m = a \/ m = b \/ m = c -> m .& e = 0.
Proof.
  intros H m Hm. apply Z.bits_inj'. intros i Hi.
  pose proof (land_disjoint_bit _ _ i H) as D.
  rewrite !Z.lor_spec in D. rewrite Z.land_spec, Z.bits_0.
  destruct (Z.testbit e i); [|apply andb_false_r].
  cbn [andb] in D. apply orb_false_iff in D. destruct D as [D Dc].
  apply orb_false_iff in D. destruct D as [Da Db].
  destruct Hm as [-> | [-> | ->]]; rewrite ?Da, ?Db, ?Dc; reflexivity.
Qed.

(** [dwc2_update_in_ep] leaves none of the self-clearing bits set. *)
Lemma update_in_ep_ctl (s : DWC2State) (ep : Z) :
  diepctl (dwc2_update_in_ep s ep) ep .& DXEPCTL_SNAK = 0
  /\ diepctl (dwc2_update_in_ep s ep) ep .& DXEPCTL_CNAK = 0
  /\ diepctl (dwc2_update_in_ep s ep) ep .& DXEPCTL_EPDIS = 0
  /\ device_async_bh (dwc2_update_in_ep s ep) = true.
Proof.
  unfold dwc2_update_in_ep. cbv zeta.
  set (S1 := if nz (diepctl s ep .& DXEPCTL_SNAK) then _ else s).
  assert (H1 : diepctl S1 ep .& DXEPCTL_SNAK = 0).
  { subst S1. destruct (nz (diepctl s ep .& DXEPCTL_SNAK)) eqn:E.
    - rewrite diepctl_put_int, diepctl_put_ctl. apply land_lnot_same.
    - apply nz_false. exact E. }
  clearbody S1.
  set (S2 := if nz (diepctl S1 ep .& DXEPCTL_CNAK) then _ else S1).
  assert (H2 : diepctl S2 ep .& DXEPCTL_SNAK = 0
               /\ diepctl S2 ep .& DXEPCTL_CNAK = 0).
  { subst S2. destruct (nz (diepctl S1 ep .& DXEPCTL_CNAK)) eqn:E.
    - rewrite diepctl_put_int, !diepctl_put_ctl.
      split; [|apply land_lnot_same].
      apply land_lnot_zero, land_lnot_zero. exact H1.
    - split; [exact H1|apply nz_false; exact E]. }
  clearbody S2. clear H1 S1. destruct H2 as [H1 H2].
  set (S3 := if nz (diepctl S2 ep .& DXEPCTL_EPDIS) then _ else S2).
  assert (H3 : diepctl S3 ep .& DXEPCTL_SNAK = 0
               /\ diepctl S3 ep .& DXEPCTL_CNAK = 0
               /\ diepctl S3 ep .& DXEPCTL_EPDIS = 0).
  { subst S3. destruct (nz (diepctl S2 ep .& DXEPCTL_EPDIS)) eqn:E.
    - rewrite diepctl_put_int, !diepctl_put_ctl.
      split; [apply land_lnot_zero; exact H1|].
      split; [apply land_lnot_zero; exact H2|apply land_lnot_lor_l].
    - split; [exact H1|]. split; [exact H2|apply nz_false; exact E]. }
  clearbody S3. destruct H3 as (A & B & C).
  repeat split; assumption.
Qed.

Lemma diepint_put_int (t : DWC2State) (ep v : Z) :
  diepint (diep_put t (DIEPINT ep) v) ep = v.
Proof.
  unfold diepint, diep_get, diep_put. cbn [diepreg set_diepreg].
  apply bank_set_same.
Qed.

(** With the disable bit apart from the NAK bits, an endpoint whose
    control word has it set comes out of [dwc2_update_in_ep] with the
    enable bit clear and the endpoint-disabled cause set. *)
Lemma update_in_ep_disable (s : DWC2State) (ep : Z) :
  DXEPCTL_EPDIS .& (DXEPCTL_SNAK .| DXEPCTL_CNAK .| DXEPCTL_NAKSTS) = 0 ->
  diepctl s ep .& DXEPCTL_EPDIS <> 0 ->
  diepctl (dwc2_update_in_ep s ep) ep .& DXEPCTL_EPENA = 0
  /\ diepint (dwc2_update_in_ep s ep) ep .& DXEPINT_EPDISBLD
     = DXEPINT_EPDISBLD.
Proof.
  intros L Hd.
  assert (Ls : DXEPCTL_SNAK .& DXEPCTL_EPDIS = 0)
    by (apply (apart_from _ _ _ _ L); tauto).
  assert (Lc : DXEPCTL_CNAK .& DXEPCTL_EPDIS = 0)
    by (apply (apart_from _ _ _ _ L); tauto).
  assert (Ln : DXEPCTL_NAKSTS .& DXEPCTL_EPDIS = 0)
    by (apply (apart_from _ _ _ _ L); tauto).
  unfold dwc2_update_in_ep. cbv zeta.
  set (S1 := if nz (diepctl s ep .& DXEPCTL_SNAK) then _ else s).
  assert (H1 : diepctl S1 ep .& DXEPCTL_EPDIS
               = diepctl s ep .& DXEPCTL_EPDIS).
  { subst S1. destruct (nz (diepctl s ep .& DXEPCTL_SNAK)); [|reflexivity].
    rewrite diepctl_put_int, !diepctl_put_ctl.
    rewrite land_lnot_keep by exact Ls. apply lor_land_keep. exact Ln. }
  clearbody S1. rewrite <- H1 in Hd. clear H1.
  set (S2 := if nz (diepctl S1 ep .& DXEPCTL_CNAK) then _ else S1).
  assert (H2 : diepctl S2 ep .& DXEPCTL_EPDIS
               = diepctl S1 ep .& DXEPCTL_EPDIS).
  { subst S2. destruct (nz (diepctl S1 ep .& DXEPCTL_CNAK)); [|reflexivity].
    rewrite diepctl_put_int, !diepctl_put_ctl.
    rewrite land_lnot_keep by exact Lc. apply land_lnot_keep. exact Ln. }
  clearbody S2. rewrite <- H2 in Hd. clear H2 S1.
  rewrite (proj2 (nz_true _) Hd).
  unfold qemu_bh_schedule_device.
  change (diepctl (set_device_async_bh ?t true) ep) with (diepctl t ep).
  change (diepint (set_device_async_bh ?t true) ep) with (diepint t ep).
  rewrite diepctl_put_int, diepctl_put_ctl, diepint_put_int.
  split; [|apply lor_land_same].
  rewrite Z.lor_comm. apply land_lnot_lor_l.
Qed.

Lemma doepctl_put_ctl (t : DWC2State) (ep v : Z) :
  doepctl (doep_put t (DOEPCTL ep) v) ep = v.
Proof.
  unfold doepctl, doep_get, doep_put. cbn [doepreg set_doepreg].
  apply bank_set_same.
Qed.

Lemma doepctl_put_int (t : DWC2State) (ep v : Z) :
  doepctl (doep_put t (DOEPINT ep) v) ep = doepctl t ep.
Proof.
  unfold doepctl, doep_get, doep_put. cbn [doepreg set_doepreg].
  apply bank_set_other. unfold DOEPCTL, DOEPINT, HSOTG_REG.
  replace (2816 + 32 * ep - 2816) with (0 + 32 * ep) by lia.
  replace (2824 + 32 * ep - 2816) with (8 + 32 * ep) by lia.
  rewrite !index_of_word by lia. change (0 / 4) with 0. change (8 / 4) with 2.
  lia.
Qed.

(** [dwc2_update_out_ep] leaves none of the self-clearing bits set. *)
Lemma update_out_ep_ctl (s : DWC2State) (ep : Z) :
  doepctl (dwc2_update_out_ep s ep) ep .& DXEPCTL_SNAK = 0
  /\ doepctl (dwc2_update_out_ep s ep) ep .& DXEPCTL_CNAK = 0
  /\ doepctl (dwc2_update_out_ep s ep) ep .& DXEPCTL_EPDIS = 0
  /\ device_async_bh (dwc2_update_out_ep s ep) = true.
Proof.
  unfold dwc2_update_out_ep. cbv zeta.
  set (S1 := if nz (doepctl s ep .& DXEPCTL_SNAK) then _ else s).
  assert (H1 : doepctl S1 ep .& DXEPCTL_SNAK = 0).
  { subst S1. destruct (nz (doepctl s ep .& DXEPCTL_SNAK)) eqn:E.
    - rewrite doepctl_put_int, doepctl_put_ctl. apply land_lnot_same.
    - apply nz_false. exact E. }
  clearbody S1.
  set (S2 := if nz (doepctl S1 ep .& DXEPCTL_CNAK) then _ else S1).
  assert (H2 : doepctl S2 ep .& DXEPCTL_SNAK = 0
               /\ doepctl S2 ep .& DXEPCTL_CNAK = 0).
  { subst S2. destruct (nz (doepctl S1 ep .& DXEPCTL_CNAK)) eqn:E.
    - rewrite doepctl_put_int, !doepctl_put_ctl.
      split; [|apply land_lnot_same].
      apply land_lnot_zero, land_lnot_zero. exact H1.
    - split; [exact H1|apply nz_false; exact E]. }
  clearbody S2. clear H1 S1. destruct H2 as [H1 H2].
  set (S3 := if nz (doepctl S2 ep .& DXEPCTL_EPDIS) then _ else S2).
  assert (H3 : doepctl S3 ep .& DXEPCTL_SNAK = 0
               /\ doepctl S3 ep .& DXEPCTL_CNAK = 0
               /\ doepctl S3 ep .& DXEPCTL_EPDIS = 0).
  { subst S3. destruct (nz (doepctl S2 ep .& DXEPCTL_EPDIS)) eqn:E.
    - rewrite doepctl_put_int, !doepctl_put_ctl.
      split; [apply land_lnot_zero; exact H1|].
      split; [apply land_lnot_zero; exact H2|apply land_lnot_lor_l].
    - split; [exact H1|]. split; [exact H2|apply nz_false; exact E]. }
  clearbody S3. destruct H3 as (A & B & C).
  repeat split; assumption.
Qed.

Lemma doepint_put_int (t : DWC2State) (ep v : Z) :
  doepint (doep_put t (DOEPINT ep) v) ep = v.
Proof.
  unfold doepint, doep_get, doep_put. cbn [doepreg set_doepreg].
  apply bank_set_same.
Qed.

(** With the disable bit apart from the NAK bits, an endpoint whose
    control word has it set comes out of [dwc2_update_out_ep] with the
    enable bit clear and the endpoint-disabled cause set. *)
Lemma update_out_ep_disable (s : DWC2State) (ep : Z) :
  DXEPCTL_EPDIS .& (DXEPCTL_SNAK .| DXEPCTL_CNAK .| DXEPCTL_NAKSTS) = 0 ->
  doepctl s ep .& DXEPCTL_EPDIS <> 0 ->
  doepctl (dwc2_update_out_ep s ep) ep .& DXEPCTL_EPENA = 0
  /\ doepint (dwc2_update_out_ep s ep) ep .& DXEPINT_EPDISBLD
     = DXEPINT_EPDISBLD.
Proof.
  intros L Hd.
  assert (Ls : DXEPCTL_SNAK .& DXEPCTL_EPDIS = 0)
    by (apply (apart_from _ _ _ _ L); tauto).
  assert (Lc : DXEPCTL_CNAK .& DXEPCTL_EPDIS = 0)
    by (apply (apart_from _ _ _ _ L); tauto).
  assert (Ln : DXEPCTL_NAKSTS .& DXEPCTL_EPDIS = 0)
    by (apply (apart_from _ _ _ _ L); tauto).
  unfold dwc2_update_out_ep. cbv zeta.
  set (S1 := if nz (doepctl s ep .& DXEPCTL_SNAK) then _ else s).
  assert (H1 : doepctl S1 ep .& DXEPCTL_EPDIS
               = doepctl s ep .& DXEPCTL_EPDIS).
  { subst S1. destruct (nz (doepctl s ep .& DXEPCTL_SNAK)); [|reflexivity].
    rewrite doepctl_put_int, !doepctl_put_ctl.
    rewrite land_lnot_keep by exact Ls. apply lor_land_keep. exact Ln. }
  clearbody S1. rewrite <- H1 in Hd. clear H1.
  set (S2 := if nz (doepctl S1 ep .& DXEPCTL_CNAK) then _ else S1).
  assert (H2 : doepctl S2 ep .& DXEPCTL_EPDIS
               = doepctl S1 ep .& DXEPCTL_EPDIS).
  { subst S2. destruct (nz (doepctl S1 ep .& DXEPCTL_CNAK)); [|reflexivity].
    rewrite doepctl_put_int, !doepctl_put_ctl.
    rewrite land_lnot_keep by exact Lc. apply land_lnot_keep. exact Ln. }
  clearbody S2. rewrite <- H2 in Hd. clear H2 S1.
  rewrite (proj2 (nz_true _) Hd).
  unfold qemu_bh_schedule_device.
  change (doepctl (set_device_async_bh ?t true) ep) with (doepctl t ep).
  change (doepint (set_device_async_bh ?t true) ep) with (doepint t ep).
  rewrite doepctl_put_int, doepctl_put_ctl, doepint_put_int.
  split; [|apply lor_land_same].
  rewrite Z.lor_comm. apply land_lnot_lor_l.
Qed.

Lemma u32_land_nonzero (x m : Z) :
  0 <= m < 2 ^ 32 -> x .& m <> 0 -> u32 x .& m <> 0.
Proof. intros Hm H. rewrite u32_land_small by exact Hm. exact H. Qed.

Lemma stored_disable (val old n a c e : Z) :
  n .& e = 0 ->
  val .& e <> 0 \/ old .& e <> 0 ->
  ((val .& .~ n) .| (old .& n) .| (old .& (a .| e .| c))) .& e <> 0.
Proof.
  intros Hn H E.
  assert (B : forall i, 0 <= i ->
                Z.testbit e i = true ->
                Z.testbit val i = false /\ Z.testbit old i = false).
  { intros i Hi Hb.
    pose proof (land_disjoint_bit _ _ i E) as D.
    pose proof (land_disjoint_bit _ _ i Hn) as Dn.
    rewrite !Z.lor_spec, !Z.land_spec, Z.lnot_spec, !Z.lor_spec in D
      by assumption.
    rewrite Hb in *. rewrite andb_true_r in D, Dn. rewrite Dn in D.
    cbn [negb] in D. rewrite andb_true_r, orb_true_r, andb_true_r in D.
    destruct (Z.testbit val i), (Z.testbit old i); try discriminate D.
    split; reflexivity. }
  destruct H as [H|H]; apply H; apply Z.bits_inj'; intros i Hi;
    rewrite Z.land_spec, Z.bits_0;
    (destruct (Z.testbit e i) eqn:Eb; [|apply andb_false_r]);
    destruct (B i Hi Eb) as [Bv Bo]; rewrite ?Bv, ?Bo; reflexivity.
Qed.

Lemma diepctl_index (s : DWC2State) (ep : Z) :
  diepctl s ep = diepreg s (8 * ep).
Proof.
  unfold diepctl, diep_get, DIEPCTL, HSOTG_REG.
  replace (2304 + 32 * ep - 2304) with (32 * ep) by lia.
  rewrite index_of_channel. reflexivity.
Qed.

Lemma in_control_write (s : DWC2State) (ep val now : Z)
    (lookup : Z -> bool) (reply : usb_reply) :
  1 <= ep < DWC2_NB_EP -> ep < 16 ->
  exists s',
    dwc2_hsotg_write s (DIEPCTL ep) val now lookup reply = Some s'
    /\ diepctl s' ep .& DXEPCTL_SNAK = 0
    /\ diepctl s' ep .& DXEPCTL_CNAK = 0
    /\ diepctl s' ep .& DXEPCTL_EPDIS = 0
    /\ device_async_bh s' = true
    /\ (DXEPCTL_EPDIS .& (DXEPCTL_SNAK .| DXEPCTL_CNAK .| DXEPCTL_NAKSTS) = 0 ->
        0 <= DXEPCTL_EPDIS < 2 ^ 32 ->
        val .& DXEPCTL_EPDIS <> 0 \/ diepctl s ep .& DXEPCTL_EPDIS <> 0 ->
        diepctl s' ep .& DXEPCTL_EPENA = 0
        /\ diepint s' ep .& DXEPINT_EPDISBLD = DXEPINT_EPDISBLD).
Proof.
  intros He He'.
  unfold dwc2_hsotg_write, DIEPCTL, HSOTG_REG. pick_bank.
  rewrite (eqb_false (2304 + 32 * ep) 256) by lia.
  open_body dwc2_diepreg_write.
  unfold DIEPCTL, DTXFSTS, DIEPCTL0, HSOTG_REG.
  replace ((2304 + 32 * ep <? 2304 + 32 * 0)
           || (2304 + 32 * ep >? 2328 + 32 * (DWC2_NB_EP - 1)))
    with false by (symmetry; apply orb_false_iff; split; lia).
  replace (2304 + 32 * ep) with (0 + 32 * (72 + ep)) by lia.
  rewrite land_0x1c by lia.
  replace (0 + 32 * (72 + ep) - 2304) with (32 * ep) by lia.
  rewrite index_of_channel, channel_of_index.
  change (0 .& 28) with 0.
  rewrite (eqb_refl_true (2304 + 0) (2304 + 32 * 0)) by lia.
  rewrite (eqb_false ep 0) by lia.
  cbv beta iota zeta.
  set (s1 := set_diepreg s _).
  assert (H1 : diepctl s1 ep
               = u32 (val .& .~ DXEPCTL_NAKSTS
                      .| diepreg s (8 * ep) .& DXEPCTL_NAKSTS
                      .| diepreg s (8 * ep)
                         .& (DXEPCTL_EPENA .| DXEPCTL_EPDIS
                             .| DXEPCTL_USBACTEP))).
  { rewrite diepctl_index. subst s1. cbn [diepreg set_diepreg].
    apply bank_set_same. }
  clearbody s1.
  destruct (update_in_ep_ctl s1 ep) as (A & B & C & D).
  eexists. split; [reflexivity|].
  match goal with
  | |- context [dwc2_update_ep_irq ?t ?e] =>
    pose proof (irq_frame_update_ep t e) as F;
      generalize dependent (dwc2_update_ep_irq t e)
  end.
  intros s' F.
  unfold diepctl, diepint, diep_get in *.
  rewrite (fr_diepreg _ _ F), (fr_device_async_bh _ _ F).
  unfold qemu_bh_schedule_device. cbn [diepreg device_async_bh
                                       set_device_async_bh].
  split; [exact A|]. split; [exact B|]. split; [exact C|].
  split; [reflexivity|].
  intros L Hr Hd.
  apply (update_in_ep_disable s1 ep L).
  unfold diepctl, diep_get. rewrite H1.
  apply u32_land_nonzero; [exact Hr|].
  apply stored_disable.
  - apply (apart_from _ _ _ _ L). tauto.
  - rewrite <- diepctl_index. exact Hd.
Qed.


Lemma doepctl_index (s : DWC2State) (ep : Z) :
  doepctl s ep = doepreg s (8 * ep).
Proof.
  unfold doepctl, doep_get, DOEPCTL, HSOTG_REG.
  replace (2816 + 32 * ep - 2816) with (32 * ep) by lia.
  rewrite index_of_channel. reflexivity.
Qed.

Lemma out_control_write (s : DWC2State) (ep val now : Z)
    (lookup : Z -> bool) (reply : usb_reply) :
  1 <= ep < DWC2_NB_EP -> ep < 16 ->
  exists s',
    dwc2_hsotg_write s (DOEPCTL ep) val now lookup reply = Some s'
    /\ doepctl s' ep .& DXEPCTL_SNAK = 0
    /\ doepctl s' ep .& DXEPCTL_CNAK = 0
    /\ doepctl s' ep .& DXEPCTL_EPDIS = 0
    /\ device_async_bh s' = true
    /\ (DXEPCTL_EPDIS .& (DXEPCTL_SNAK .| DXEPCTL_CNAK .| DXEPCTL_NAKSTS) = 0 ->
        0 <= DXEPCTL_EPDIS < 2 ^ 32 ->
        val .& DXEPCTL_EPDIS <> 0 \/ doepctl s ep .& DXEPCTL_EPDIS <> 0 ->
        doepctl s' ep .& DXEPCTL_EPENA = 0
        /\ doepint s' ep .& DXEPINT_EPDISBLD = DXEPINT_EPDISBLD).
Proof.
  intros He He'.
  unfold dwc2_hsotg_write, DOEPCTL, HSOTG_REG. pick_bank.
  rewrite (eqb_false (2816 + 32 * ep) 256) by lia.
  open_body dwc2_doepreg_write.
  unfold DOEPCTL, DOEPDMA, DOEPCTL0, HSOTG_REG.
  replace ((2816 + 32 * ep <? 2816 + 32 * 0)
           || (2816 + 32 * ep >? 2836 + 32 * (DWC2_NB_EP - 1)))
    with false by (symmetry; apply orb_false_iff; split; lia).
  replace (2816 + 32 * ep) with (0 + 32 * (88 + ep)) by lia.
  rewrite land_0x1c by lia.
  replace (0 + 32 * (88 + ep) - 2816) with (32 * ep) by lia.
  rewrite index_of_channel, channel_of_index.
  change (0 .& 28) with 0.
  rewrite (eqb_refl_true (2816 + 0) (2816 + 32 * 0)) by lia.
  rewrite (eqb_false ep 0) by lia.
  cbv beta iota zeta.
  set (s1 := set_doepreg s _).
  assert (H1 : doepctl s1 ep
               = u32 (val .& .~ DXEPCTL_NAKSTS
                      .| doepreg s (8 * ep) .& DXEPCTL_NAKSTS
                      .| doepreg s (8 * ep)
                         .& (DXEPCTL_EPENA .| DXEPCTL_USBACTEP
                             .| DXEPCTL_EPDIS))).
  { rewrite doepctl_index. subst s1. cbn [doepreg set_doepreg].
    apply bank_set_same. }
  clearbody s1.
  destruct (update_out_ep_ctl s1 ep) as (A & B & C & D).
  eexists. split; [reflexivity|].
  match goal with
  | |- context [dwc2_update_ep_irq ?t ?e] =>
    pose proof (irq_frame_update_ep t e) as F;
      generalize dependent (dwc2_update_ep_irq t e)
  end.
  intros s' F.
  unfold doepctl, doepint, doep_get in *.
  rewrite (fr_doepreg _ _ F), (fr_device_async_bh _ _ F).
  unfold qemu_bh_schedule_device. cbn [doepreg device_async_bh
                                       set_device_async_bh].
  split; [exact A|]. split; [exact B|]. split; [exact C|].
  split; [reflexivity|].
  intros L Hr Hd.
  apply (update_out_ep_disable s1 ep L).
  unfold doepctl, doep_get. rewrite H1.
  apply u32_land_nonzero; [exact Hr|].
  rewrite <- (Z.lor_assoc DXEPCTL_EPENA), (Z.lor_comm DXEPCTL_USBACTEP),
    Z.lor_assoc.
  apply stored_disable.
  - apply (apart_from _ _ _ _ L). tauto.
  - rewrite <- doepctl_index. exact Hd.
Qed.



(** A write to the control word of a non-control endpoint, DIEPCTL or
    DOEPCTL, returns; afterwards the set-NAK, clear-NAK and disable bits
    read back clear, whatever was written, and the device bottom half is
    scheduled.  When the disable bit is written or was stored (the bit
    being apart from the NAK bits and within the 32-bit word), the
    endpoint comes out disabled: the enable bit is clear and the
    endpoint-disabled cause is set in DIEPINT or DOEPINT. *)
Theorem endpoint_control_write (s : DWC2State) (out : bool)
    (ep val now : Z) (lookup : Z -> bool) (reply : usb_reply) :
  let addr := if out then DOEPCTL ep else DIEPCTL ep in
  let ctl := fun t => if out then doepctl t ep else diepctl t ep in
  let int := fun t => if out then doepint t ep else diepint t ep in
  1 <= ep < DWC2_NB_EP -> ep < 16 ->
  exists s',
    dwc2_hsotg_write s addr val now lookup reply = Some s'
    /\ ctl s' .& DXEPCTL_SNAK = 0
    /\ ctl s' .& DXEPCTL_CNAK = 0
    /\ ctl s' .& DXEPCTL_EPDIS = 0
    /\ device_async_bh s' = true
    /\ (DXEPCTL_EPDIS .& (DXEPCTL_SNAK .| DXEPCTL_CNAK .| DXEPCTL_NAKSTS) = 0 ->
        0 <= DXEPCTL_EPDIS < 2 ^ 32 ->
        val .& DXEPCTL_EPDIS <> 0 \/ ctl s .& DXEPCTL_EPDIS <> 0 ->
        ctl s' .& DXEPCTL_EPENA = 0
        /\ int s' .& DXEPINT_EPDISBLD = DXEPINT_EPDISBLD).
Proof.
  intros addr ctl int He He'. subst addr ctl int.
  destruct out.
  - exact (out_control_write s ep val now lookup reply He He').
  - exact (in_control_write s ep val now lookup reply He He').
Qed.

Lemma Z_range_In (lo hi x : Z) : In x (Z_range lo hi) <-> lo <= x < hi.
Proof.
  unfold Z_range. rewrite in_map_iff. split.
  - intros (i & <- & Hi). apply in_seq in Hi. lia.
  - intros H. exists (Z.to_nat (x - lo)). split; [lia|].
    apply in_seq. lia.
Qed.

Lemma land_lnot_idem (x a : Z) : (x .& .~ a) .& .~ a = x .& .~ a.
Proof.
  apply Z.bits_inj'. intros i Hi.
  rewrite !Z.land_spec, Z.lnot_spec by assumption.
  destruct (Z.testbit x i), (Z.testbit a i); reflexivity.
Qed.

(** The loop of [dwc2_usb_device_handle_reset] over a list of endpoints. *)
Lemma deactivate_fold (l : list Z) (s : DWC2State) :
  let step := fun s i =>
    let s := diep_put s (DIEPCTL i) (diepctl s i .& .~ DXEPCTL_USBACTEP) in
    doep_put s (DOEPCTL i) (doepctl s i .& .~ DXEPCTL_USBACTEP) in
  let s' := fold_left step l s in
  (forall i, diepreg s' i
             = if existsb (fun ep => i =? 8 * ep) l
               then diepreg s i .& .~ DXEPCTL_USBACTEP else diepreg s i)
  /\ (forall i, doepreg s' i
                = if existsb (fun ep => i =? 8 * ep) l
                  then doepreg s i .& .~ DXEPCTL_USBACTEP else doepreg s i)
  /\ dreg s' = dreg s /\ glbreg s' = glbreg s
  /\ irq s' = irq s /\ oldlevel s' = oldlevel s
  /\ device s' = device s /\ hreg1 s' = hreg1 s.
Proof.
  cbv zeta. revert s. induction l as [|e l IH]; intros s.
  - cbn [fold_left existsb]. repeat split.
  - cbn [fold_left existsb].
    match goal with
    | |- context [fold_left ?f l ?t] =>
      destruct (IH t) as (Hi & Ho & Hd & Hg & Hq & Hl & Hv & Hh);
        generalize dependent (fold_left f l t)
    end.
    intros s' Hi Ho Hd Hg Hq Hl Hv Hh.
    rewrite Hd, Hg, Hq, Hl, Hv, Hh.
    split; [|split; [|repeat split]].
    + intros i. rewrite Hi. unfold doep_put, diep_put.
      cbn [diepreg set_diepreg set_doepreg].
      rewrite diepctl_index. unfold DIEPCTL, HSOTG_REG.
      replace (2304 + 32 * e - 2304) with (32 * e) by lia.
      rewrite index_of_channel. unfold bank_set.
      destruct (i =? 8 * e) eqn:E; cbn [orb].
      * apply Z.eqb_eq in E. subst i.
        destruct (existsb _ l); [apply land_lnot_idem|reflexivity].
      * reflexivity.
    + intros i. rewrite Ho. unfold doep_put, diep_put.
      cbn [doepreg set_diepreg set_doepreg].
      rewrite doepctl_index. unfold DOEPCTL, HSOTG_REG.
      replace (2816 + 32 * e - 2816) with (32 * e) by lia.
      rewrite index_of_channel. unfold bank_set.
      cbn [doepreg set_diepreg].
      destruct (i =? 8 * e) eqn:E; cbn [orb].
      * apply Z.eqb_eq in E. subst i.
        destruct (existsb _ l); [apply land_lnot_idem|reflexivity].
      * reflexivity.
Qed.

Lemma range_hits (x lo hi : Z) :
  existsb (fun ep => 8 * x =? 8 * ep) (Z_range lo hi)
  = (lo <=? x) && (x <? hi).
Proof.
  destruct ((lo <=? x) && (x <? hi)) eqn:E.
  - apply existsb_exists. exists x. split; [apply Z_range_In; lia|].
    apply Z.eqb_refl.
  - destruct (existsb _ _) eqn:X; [|reflexivity].
    apply existsb_exists in X. destruct X as (ep & Hin & He).
    apply Z_range_In in Hin. apply Z.eqb_eq in He. lia.
Qed.

(** A bus reset of the controller as a device, [dwc2_usb_device_handle_reset],
    clears the address field of DCFG and deactivates every endpoint but
    endpoint 0: the active bit is cleared in DIEPCTL and DOEPCTL of the
    endpoints 1 to [DWC2_NB_EP - 1], the control words of endpoint 0 and of
    endpoints beyond the last, the interrupt words and the device record
    stay as they are, and the reset cause is set in GINTSTS (unless it is
    pending already). *)
Theorem device_bus_reset (s : DWC2State) (ep : Z) :
  let s' := dwc2_usb_device_handle_reset s in
  dcfg s' = dcfg s .& .~ DCFG_DEVADDR_MASK
  /\ diepctl s' ep = (if (1 <=? ep) && (ep <? DWC2_NB_EP)
                      then diepctl s ep .& .~ DXEPCTL_USBACTEP
                      else diepctl s ep)
  /\ doepctl s' ep = (if (1 <=? ep) && (ep <? DWC2_NB_EP)
                      then doepctl s ep .& .~ DXEPCTL_USBACTEP
                      else doepctl s ep)
  /\ diepctl s' 0 = diepctl s 0 /\ doepctl s' 0 = doepctl s 0
  /\ gintsts s' = raised (gintsts s) GINTSTS_USBRST
  /\ device s' = device s.
Proof.
  intros s'. subst s'. unfold dwc2_usb_device_handle_reset. cbv zeta.
  match goal with
  | |- context [dwc2_raise_global_irq ?u ?x] =>
    pose proof (irq_frame_raise_global u x) as F;
      pose proof (raise_global_value u x) as G;
      generalize dependent (dwc2_raise_global_irq u x)
  end.
  match goal with
  | |- context [fold_left ?f ?l ?t] =>
    pose proof (deactivate_fold l t) as D; cbv zeta in D;
      destruct D as (Hi & Ho & Hd & Hg & _ & _ & Hv & _);
      generalize dependent (fold_left f l t)
  end.
  intros t Hi Ho Hd Hg Hv s' F G.
  rewrite !diepctl_index, !doepctl_index.
  unfold dcfg, d_get.
  rewrite (fr_dreg _ _ F) by discriminate.
  rewrite (fr_diepreg _ _ F), (fr_doepreg _ _ F), (fr_device _ _ F).
  rewrite G, Hd, !Hi, !Ho, Hv. unfold gintsts, glb_get. rewrite Hg.
  rewrite !range_hits.
  unfold d_put, dcfg, d_get. cbn [dreg glbreg diepreg doepreg device set_dreg].
  rewrite bank_set_same.
  change ((1 <=? 0) && (0 <? DWC2_NB_EP)) with false.
  repeat split.
Qed.

Lemma irq_frame_fold_ep (l : list Z) (s : DWC2State) :
  irq_frame s (fold_left dwc2_update_ep_irq l s).
Proof.
  revert s. induction l as [|e l IH]; intros s; cbn [fold_left].
  - apply irq_frame_refl.
  - eapply irq_frame_trans; [apply irq_frame_update_ep|apply IH].
Qed.

Lemma kept_bits_apart (val old ro e : Z) :
  e .& ro = 0 -> val .& e = 0 ->
  ((val .& .~ ro) .| (old .& ro)) .& e = 0.
Proof.
  intros Hr Hv. apply Z.bits_inj'. intros i Hi.
  pose proof (land_disjoint_bit _ _ i Hr) as Dr.
  pose proof (land_disjoint_bit _ _ i Hv) as Dv.
  rewrite Z.land_spec, Z.lor_spec, !Z.land_spec, Z.lnot_spec, Z.bits_0
    by assumption.
  destruct (Z.testbit e i); [|apply andb_false_r].
  cbn [andb] in Dr. rewrite andb_true_r in Dv. rewrite Dr, Dv.
  rewrite andb_false_r. reflexivity.
Qed.

Ltac frames :=
  repeat first
    [ apply irq_frame_refl
    | eapply irq_frame_trans;
      [|first [ apply irq_frame_raise_global
              | apply irq_frame_lower_global
              | apply irq_frame_update_irq
              | apply irq_frame_fold_ep ]] ].

(** Going on the bus.  A write to DCTL that clears the soft-disconnect
    bit while it is set attaches the controller as a device, provided the
    root port holds no device: the write returns, the device record is
    attached, GOTGCTL gains the B-session-valid and connector-ID bits, the
    stored DCTL has the soft-disconnect bit clear and the device bottom
    half is scheduled.  With a device on the root port the same write
    reaches the assert of [dwc2_usb_device_handle_attach] and aborts. *)
Theorem soft_connect_attaches_device (s : DWC2State) (val now : Z)
    (lookup : Z -> bool) (reply : usb_reply) :
  DCTL_SFTDISCON .& (DCTL_GOUTNAKSTS .| DCTL_GNPINNAKSTS) = 0 ->
  dctl s .& DCTL_SFTDISCON <> 0 ->
  val .& DCTL_SFTDISCON = 0 ->
  (uport_dev s = None ->
   exists s',
     dwc2_hsotg_write s DCTL val now lookup reply = Some s'
     /\ dev_attached (device s') = true
     /\ gotgctl s' = gotgctl s .| (GOTGCTL_BSESVLD .| GOTGCTL_CONID_B)
     /\ dctl s' .& DCTL_SFTDISCON = 0
     /\ device_async_bh s' = true)
  /\ (forall d, uport_dev s = Some d ->
                dwc2_hsotg_write s DCTL val now lookup reply = None).
Proof.
  intros L Ho Hv.
  change (dwc2_hsotg_write s DCTL val now lookup reply)
    with (dwc2_dreg_write s DCTL ((DCTL - HSOTG_REG 0x800) >> 2) val).
  open_body dwc2_dreg_write.
  change ((DCTL <? DCFG) || (DCTL >? DTKNQR4)) with false.
  change ((DCTL =? DIEPMSK) || (DCTL =? DOEPMSK) || (DCTL =? DAINTMSK))
    with false.
  change (DCTL =? DCFG) with false.
  change (DCTL =? DCTL) with true.
  cbv beta iota.
  pose proof (kept_bits_apart val (dreg s ((DCTL - HSOTG_REG 2048) >> 2))
                _ _ L Hv) as H1.
  cbv zeta.
  match type of H1 with
  | ?v .& _ = 0 => set (val1 := v) in *
  end.
  clearbody val1.
  destruct (nz (val1 .& DCTL_CGNPINNAK));
    match goal with
    | |- context [nz (?v .& DCTL_CGOUTNAK)] =>
      destruct (nz (v .& DCTL_CGOUTNAK))
    end;
    match goal with
    | |- context [nz (?v .& DCTL_SGNPINNAK)] =>
      destruct (nz (v .& DCTL_SGNPINNAK))
    end;
    match goal with
    | |- context [nz (?v .& DCTL_SGOUTNAK)] =>
      destruct (nz (v .& DCTL_SGOUTNAK))
    end;
    match goal with
    | |- context [usb_device_attach ?T0] =>
      remember T0 as T eqn:ET in |- *;
        assert (F : irq_frame s T) by (rewrite ET; frames);
        clear ET
    end;
    match goal with
    | |- context [negb (nz (?V .& DCTL_SFTDISCON))] =>
      assert (HV : V .& DCTL_SFTDISCON = 0)
        by (repeat apply land_lnot_zero; exact H1);
        generalize dependent V
    end;
    intros V HV.
  all: unfold dctl, d_get in Ho.
  all: (split; [intros Hu|intros d Hu]).
  all: unfold dctl at 1, d_get; rewrite (fr_dreg _ _ F) by discriminate.
  all: rewrite (proj2 (nz_true _) Ho), (proj2 (nz_false _) HV).
  all: cbn [andb negb].
  all: unfold usb_device_attach, dwc2_usb_device_handle_attach,
         set_device_attached.
  all: change (uport_dev (set_device T ?d)) with (uport_dev T).
  all: first [rewrite Hu|rewrite (fr_uport_dev _ _ F), Hu].
  all: try reflexivity.
  all: rewrite andb_false_r.
  all: eexists; (split; [reflexivity|]).
  all: match goal with
       | |- context [qemu_bh_schedule_device ?t] =>
         match t with
         | dwc2_update_irq (fold_left _ _ ?u) =>
           assert (F2 : irq_frame u t) by frames;
             generalize dependent t
         end
       end; intros s2 F2.
  all: unfold qemu_bh_schedule_device, gotgctl, glb_get, dctl, d_get.
  all: cbn [device glbreg dreg device_async_bh set_device_async_bh].
  all: rewrite (fr_device _ _ F2), (fr_glbreg _ _ F2), (fr_dreg _ _ F2)
         by discriminate.
  all: cbn [device glbreg dreg set_dreg]; rewrite bank_set_same.
  all: clear F2.
  all: match goal with
       | |- context [device (dwc2_raise_global_irq ?u ?x)] =>
         assert (F3 : irq_frame (glb_put
                        (set_device T
                           (mkUSBDevice true (dev_speed (device T))
                              (dev_addr (device T))))
                        GOTGCTL
                        (gotgctl
                           (set_device T
                              (mkUSBDevice true (dev_speed (device T))
                                 (dev_addr (device T))))
                         .| (GOTGCTL_BSESVLD .| GOTGCTL_CONID_B)))
                      (dwc2_raise_global_irq u x)) by frames;
           generalize dependent (dwc2_raise_global_irq u x)
       end; intros s3 F3.
  all: rewrite (fr_device _ _ F3), (fr_glbreg _ _ F3) by discriminate.
  all: unfold glb_put, gotgctl, glb_get.
  all: cbn [device glbreg set_glbreg set_device dev_attached].
  all: rewrite bank_set_same, (fr_glbreg _ _ F) by discriminate.
  all: split; [reflexivity|]; split; [reflexivity|].
  all: split; [apply u32_land_zero; exact HV|reflexivity].
Qed.

End DeviceMode.

Section DeviceModeExamples.

#[local] Existing Instance hsotg_regs.
#[local] Existing Instance flat_ram.

Lemma endpoint_control_write_witness :
  exists s',
    dwc2_hsotg_write blank_state (DIEPCTL 3) (BIT 30 .| BIT 27) 0
      (fun _ => true) short_reply = Some s'
    /\ diepctl s' 3 .& DXEPCTL_EPDIS = 0
    /\ diepctl s' 3 .& DXEPCTL_EPENA = 0
    /\ diepint s' 3 .& DXEPINT_EPDISBLD = DXEPINT_EPDISBLD.
Proof.
  pose proof (endpoint_control_write blank_state false 3 (BIT 30 .| BIT 27)
                0 (fun _ => true) short_reply) as H.
  cbv zeta in H.
  destruct H as (s' & Hw & _ & _ & Hc & _ & Hd); [closed_fact ..|].
  destruct Hd as [He Hi]; [closed_fact | closed_fact | left; closed_fact|].
  exists s'. split; [exact Hw|]. split; [exact Hc|]. split; assumption.
Defined.

Lemma soft_connect_attaches_device_witness :
  exists s',
    dwc2_hsotg_write off_bus_device DCTL 0 0 (fun _ => true) short_reply
    = Some s'
    /\ dev_attached (device s') = true
    /\ dctl s' .& DCTL_SFTDISCON = 0.
Proof.
  destruct (soft_connect_attaches_device off_bus_device 0 0 (fun _ => true)
              short_reply) as [H _]; [closed_fact ..|].
  destruct (H eq_refl) as (s' & Hw & Ha & _ & Hd & _).
  exists s'. split; [exact Hw|]. split; assumption.
Defined.

End DeviceModeExamples.

(** ** Device IN transfers *)

Section DeviceIn.

Context {R : Dwc2Regs} {M : GuestMemory}.

Lemma diep_word (base ep : Z) :
  0 <= base < 32 ->
  (HSOTG_REG (0x900 + base + 0x20 * ep) - HSOTG_REG 0x900) >> 2
  = base / 4 + 8 * ep.
Proof.
  intros H. unfold HSOTG_REG.
  replace (2304 + base + 32 * ep - 2304) with (base + 32 * ep) by lia.
  apply index_of_word. exact H.
Qed.

Lemma diep_words (s : DWC2State) (ep : Z) :
  diepctl s ep = diepreg s (8 * ep)
  /\ diepint s ep = diepreg s (2 + 8 * ep)
  /\ dieptsiz s ep = diepreg s (4 + 8 * ep)
  /\ diepdma s ep = diepreg s (5 + 8 * ep).
Proof.
  unfold diepctl, diepint, dieptsiz, diepdma, diep_get.
  unfold DIEPCTL, DIEPINT, DIEPTSIZ, DIEPDMA.
  change 2304 with (2304 + 0) at 1.
  rewrite (diep_word 0), (diep_word 8), (diep_word 16), (diep_word 20) by lia.
  repeat split.
Qed.

Lemma diep_put_word (s : DWC2State) (base ep v : Z) :
  0 <= base < 32 ->
  diepreg (diep_put s (HSOTG_REG (0x900 + base + 0x20 * ep)) v)
  = bank_set (diepreg s) (base / 4 + 8 * ep) v.
Proof.
  intros H. unfold diep_put. cbn [diepreg set_diepreg].
  rewrite diep_word by exact H. reflexivity.
Qed.

Lemma diepreg_put (t : DWC2State) (ep v : Z) :
  diepreg (diep_put t (DIEPCTL ep) v) = bank_set (diepreg t) (8 * ep) v
  /\ diepreg (diep_put t (DIEPINT ep) v) = bank_set (diepreg t) (2 + 8 * ep) v
  /\ diepreg (diep_put t (DIEPTSIZ ep) v) = bank_set (diepreg t) (4 + 8 * ep) v
  /\ diepreg (diep_put t (DIEPDMA ep) v) = bank_set (diepreg t) (5 + 8 * ep) v.
Proof.
  unfold DIEPCTL, DIEPINT, DIEPTSIZ, DIEPDMA.
  change 2304 with (2304 + 0) at 1.
  rewrite (diep_put_word t 0), (diep_put_word t 8), (diep_put_word t 16),
    (diep_put_word t 20) by lia.
  repeat split.
Qed.

Lemma dma_as_diep_put (t : DWC2State) (a v : Z) :
  dma_as (diep_put t a v) = dma_as t.
Proof. reflexivity. Qed.

(** An IN token for a non-control endpoint that is active, enabled and
    not NAKing, in buffer-DMA mode, with a maximum packet size
    (DIEPCTL.MPS) that is not zero (the packet count divides by it), data
    programmed ([sz > 0] at a non-zero DIEPDMA) and room in the packet
    ([actual_length] not negative and below the size of the buffer): the
    controller reads
    [n = min sz pktsize] bytes of guest memory at DIEPDMA into the packet
    behind what it holds, advances DIEPDMA by [n], and writes the packet
    count and the remaining size into DIEPTSIZ.  The packet is SUCCESS,
    or ASYNC when it is not full and [n] is a multiple of the maximum
    packet size.  When the whole programmed size went out the endpoint is
    disabled and the transfer-complete cause is set; else the control word
    is unchanged.  Guest memory is only read.  This holds for every
    [fuel]: no descriptor is walked. *)
Theorem device_in_flat_transfer (fuel : nat) (s : DWC2State)
    (p : USBPacket) :
  let ep := pk_ep p in
  let al := pk_actual_length p in
  let pktsize := Z.of_nat (List.length (pk_iov p)) - al in
  let sz := DXEPTSIZ_XFERSIZE_GET (dieptsiz s ep) in
  let pktcnt := DXEPTSIZ_PKTCNT_GET (dieptsiz s ep) in
  let mps := DXEPCTL_MPS_GET (diepctl s ep) in
  let n := if sz >? pktsize then pktsize else sz in
  let data := snd (dma_memory_read (dma_as s) (diepdma s ep) n) in
  USB_TOKEN_IN <> USB_TOKEN_SETUP ->
  USB_TOKEN_IN <> USB_TOKEN_OUT ->
  pk_pid p = USB_TOKEN_IN ->
  ep <> 0 ->
  diepctl s ep .& DXEPCTL_STALL = 0 ->
  diepctl s ep .& DXEPCTL_USBACTEP <> 0 ->
  diepctl s ep .& DXEPCTL_NAKSTS = 0 ->
  diepctl s ep .& DXEPCTL_EPENA <> 0 ->
  gintsts s .& GINTSTS_GINNAKEFF = 0 ->
  dcfg s .& DCFG_DESCDMA_EN = 0 ->
  0 <= al -> 0 < pktsize -> 0 < sz -> mps <> 0 ->
  diepdma s ep <> 0 ->
  exists s' p',
    dwc2_device_process_packet fuel s p = Done (s', p')
    /\ pk_iov p' = (firstn (Z.to_nat al) (pk_iov p)
                    ++ buf_store (skipn (Z.to_nat al) (pk_iov p))
                         (firstn (Z.to_nat n) data))%list
    /\ pk_actual_length p' = al + n
    /\ pk_status p' = (if (n <? pktsize) && (Z.rem n mps =? 0)
                       then USB_RET_ASYNC else USB_RET_SUCCESS)
    /\ diepdma s' ep = u32 (diepdma s ep + n)
    /\ dieptsiz s' ep
       = u32 ((u32 ((dieptsiz s ep .& .~ DXEPTSIZ_PKTCNT_MASK)
                    .| DXEPTSIZ_PKTCNT
                         (pktcnt - Z.quot (n - 1 + mps) mps))
               .& .~ DXEPTSIZ_XFERSIZE_MASK)
              .| DXEPTSIZ_XFERSIZE (sz - n))
    /\ dma_as s' = dma_as s
    /\ (sz <= pktsize ->
        diepctl s' ep .& DXEPCTL_EPENA = 0
        /\ diepint s' ep .& DXEPINT_XFERCOMPL = DXEPINT_XFERCOMPL)
    /\ (pktsize < sz ->
        diepctl s' ep = diepctl s ep /\ diepint s' ep = diepint s ep).
Proof.
  intros ep al pktsize sz pktcnt mps n data
    Hts Hto Hpid Hep Hst Hact Hnak Hena Hgn Hdd Hal Hps Hsz Hmps Hdma.
  assert (Hn : 0 < n /\ n <= pktsize /\ n <= sz)
    by (subst n; destruct (Z.gtb_spec sz pktsize); lia).
  open_body dwc2_device_process_packet.
  fold ep al pktsize. rewrite Hpid, Z.eqb_refl.
  unfold device_token_in.
  rewrite (proj2 (nz_false _) Hst), (proj2 (nz_true _) Hact),
    (proj2 (nz_false _) Hnak), (proj2 (nz_false _) Hgn),
    (proj2 (nz_true _) Hena).
  cbn [negb orb].
  unfold in_sizes. rewrite (eqb_false ep 0) by exact Hep.
  fold sz pktcnt mps.
  unfold in_transfer. rewrite (proj2 (nz_false _) Hdd).
  fold n.
  rewrite (eqb_false pktsize 0), (eqb_false n 0) by lia.
  cbn [negb andb].
  replace (n >? 0) with true by (symmetry; lia).
  rewrite (proj2 (nz_true _) Hdma). fold data.
  unfold usb_packet_copy. fold al.
  replace ((0 <=? al)
           && (al + n <=? Z.of_nat (Datatypes.length (pk_iov p))))
    with true by (symmetry; apply andb_true_iff; split; lia).
  rewrite Hpid.
  rewrite (eqb_false USB_TOKEN_IN USB_TOKEN_SETUP),
    (eqb_false USB_TOKEN_IN USB_TOKEN_OUT), Z.eqb_refl by assumption.
  cbn [negb orb].
  rewrite (eqb_false mps 0), (eqb_false ep 0) by assumption.
  unfold transfer_status. rewrite (eqb_false mps 0) by assumption.
  replace (n >? 0) with true by (symmetry; lia).
  rewrite andb_true_r.
  assert (Hst' : (if n <? pktsize
                  then if Z.rem n mps =? 0
                       then Done USB_RET_ASYNC else Done USB_RET_SUCCESS
                  else Done USB_RET_SUCCESS)
                 = Done (if (n <? pktsize) && (Z.rem n mps =? 0)
                         then USB_RET_ASYNC else USB_RET_SUCCESS))
    by (destruct (n <? pktsize), (Z.rem n mps =? 0); reflexivity).
  rewrite Hst'. clear Hst'.
  eexists. eexists. split; [reflexivity|].
  cbn [pk_iov pk_actual_length pk_status set_pk_status set_pk_data].
  split; [reflexivity|]. split; [reflexivity|]. split; [reflexivity|].
  match goal with
  | |- context [dwc2_update_ep_irq ?t ?e] =>
    pose proof (irq_frame_update_ep t e) as F;
      generalize dependent (dwc2_update_ep_irq t e)
  end.
  intros s' F.
  destruct (diep_words s' ep) as (W1 & W2 & W3 & W4).
  rewrite W1, W2, W3, W4, (fr_diepreg _ _ F), (fr_dma_as _ _ F).
  clear F W1 W2 W3 W4 s'.
  set (t1 := diep_put s (DIEPDMA ep) _).
  assert (R1 : diepreg t1
               = bank_set (diepreg s) (5 + 8 * ep) (u32 (diepdma s ep + n))
               /\ dma_as t1 = dma_as s)
    by (subst t1; split; [apply diepreg_put|reflexivity]).
  clearbody t1. destruct R1 as [R1 D1].
  set (t2 := diep_put t1 (DIEPTSIZ ep) _).
  assert (R2 : diepreg t2
               = bank_set (diepreg t1) (4 + 8 * ep)
                   (u32 ((dieptsiz s ep .& .~ DXEPTSIZ_PKTCNT_MASK)
                         .| DXEPTSIZ_PKTCNT
                              (pktcnt - Z.quot (n - 1 + mps) mps)))
               /\ dma_as t2 = dma_as s).
  { subst t2. split; [|exact D1].
    rewrite (proj1 (proj2 (proj2 (diepreg_put _ _ _)))).
    rewrite (proj1 (proj2 (proj2 (diep_words t1 ep)))), R1.
    rewrite bank_set_other by lia.
    rewrite <- (proj1 (proj2 (proj2 (diep_words s ep)))). reflexivity. }
  clearbody t2. destruct R2 as [R2 D2].
  set (t3 := diep_put t2 (DIEPTSIZ ep) _).
  assert (R3 : diepreg t3
               = bank_set (diepreg t2) (4 + 8 * ep)
                   (u32 ((u32 ((dieptsiz s ep .& .~ DXEPTSIZ_PKTCNT_MASK)
                               .| DXEPTSIZ_PKTCNT
                                    (pktcnt - Z.quot (n - 1 + mps) mps))
                          .& .~ DXEPTSIZ_XFERSIZE_MASK)
                         .| DXEPTSIZ_XFERSIZE (sz - n)))
               /\ dma_as t3 = dma_as s).
  { subst t3. split; [|exact D2].
    rewrite (proj1 (proj2 (proj2 (diepreg_put _ _ _)))).
    rewrite (proj1 (proj2 (proj2 (diep_words t2 ep)))), R2.
    rewrite bank_set_same. reflexivity. }
  clearbody t3. destruct R3 as [R3 D3].
  destruct (diep_words s ep) as (W1 & W2 & W3 & W4).
  assert (Q : diepreg t3 (5 + 8 * ep) = u32 (diepdma s ep + n)
              /\ diepreg t3 (4 + 8 * ep)
                 = u32 ((u32 ((dieptsiz s ep .& .~ DXEPTSIZ_PKTCNT_MASK)
                              .| DXEPTSIZ_PKTCNT
                                   (pktcnt - Z.quot (n - 1 + mps) mps))
                         .& .~ DXEPTSIZ_XFERSIZE_MASK)
                        .| DXEPTSIZ_XFERSIZE (sz - n))
              /\ diepreg t3 (8 * ep) = diepctl s ep
              /\ diepreg t3 (2 + 8 * ep) = diepint s ep).
  { rewrite R3, R2, R1, W1, W2.
    repeat first [rewrite bank_set_same|rewrite bank_set_other by lia].
    repeat split. }
  destruct Q as (Q1 & Q2 & Q3 & Q4).
  clear R1 R2 R3 t1 t2 D1 D2 W1 W2 W3 W4.
  destruct (Z.eqb_spec sz n) as [E|E].
  - rewrite !dma_as_diep_put.
    rewrite !(proj1 (proj2 (diepreg_put _ _ _))),
      !(proj1 (diepreg_put _ _ _)).
    rewrite (proj1 (proj2 (diep_words _ ep))), (proj1 (diep_words t3 ep)).
    rewrite (proj1 (diepreg_put _ _ _)).
    repeat first [rewrite bank_set_same|rewrite bank_set_other by lia].
    split; [exact Q1|]. split; [exact Q2|]. split; [exact D3|].
    split.
    + intros _. split; [apply land_lnot_same|apply lor_land_same].
    + intros Hlt. exfalso. subst n.
      destruct (Z.gtb_spec sz pktsize); lia.
  - split; [exact Q1|]. split; [exact Q2|]. split; [exact D3|].
    split.
    + intros Hle. exfalso. subst n.
      destruct (Z.gtb_spec sz pktsize); lia.
    + intros _. split; assumption.
Qed.

End DeviceIn.

Section DeviceInExamples.

#[local] Existing Instance hsotg_regs.
#[local] Existing Instance flat_ram.

Lemma device_in_flat_transfer_witness :
  exists s' p',
    dwc2_device_process_packet 0 in_endpoint in_token = Done (s', p')
    /\ pk_actual_length p' = 4
    /\ pk_status p' = USB_RET_SUCCESS
    /\ diepdma s' 1 = 0x1004
    /\ diepctl s' 1 = diepctl in_endpoint 1.
Proof.
  pose proof (device_in_flat_transfer 0 in_endpoint in_token) as H.
  cbv zeta in H.
  destruct H as (s' & p' & Hr & _ & Ha & Hs & Hd & _ & _ & _ & Hk);
    [closed_fact ..|].
  exists s', p'. split; [exact Hr|]. split; [exact Ha|].
  split; [exact Hs|]. split; [exact Hd|].
  apply Hk. vm_compute. reflexivity.
Defined.

End DeviceInExamples.

(** ** Asynchronous completion *)

Section AsyncCompletion.

Context {R : Dwc2Regs} {M : GuestMemory}.

(** The completion callback of the root port, [dwc2_async_packet_complete].
    For a packet that is not in flight it reaches the assert and aborts.  A
    packet taken off the queue (REMOVE_FROM_QUEUE) is dropped without a
    trace on the channel: no register, interrupt or bottom half changes and
    the packet context stays in flight.  Any other packet goes through
    [dwc2_handle_packet] as a completion ([send = false]): the callback
    returns exactly when the handler does, with the registers, the memory
    and the line as the handler left them, the packet context marked
    finished and the bottom half scheduled. *)
Theorem async_completion_lifecycle (s : DWC2State) (chan : Z)
    (reply : usb_reply) :
  let p := packet s chan in
  let s1 := handed_back s chan reply in
  (p_async p <> DWC2_ASYNC_INFLIGHT ->
   dwc2_async_packet_complete s chan reply = None)
  /\ (p_async p = DWC2_ASYNC_INFLIGHT ->
      reply_status reply = USB_RET_REMOVE_FROM_QUEUE ->
      dwc2_async_packet_complete s chan reply = Some s1
      /\ glbreg s1 = glbreg s /\ hreg0 s1 = hreg0 s /\ hreg1 s1 = hreg1 s
      /\ irq s1 = irq s /\ async_bh s1 = async_bh s
      /\ p_async (packet s1 chan) = DWC2_ASYNC_INFLIGHT
      /\ p_needs_service (packet s1 chan) = p_needs_service p)
  /\ (p_async p = DWC2_ASYNC_INFLIGHT ->
      reply_status reply <> USB_RET_REMOVE_FROM_QUEUE ->
      match dwc2_handle_packet s1 (p_devadr p) reply (p_index p) false with
      | None => dwc2_async_packet_complete s chan reply = None
      | Some s2 =>
        exists s',
          dwc2_async_packet_complete s chan reply = Some s'
          /\ glbreg s' = glbreg s2 /\ hreg0 s' = hreg0 s2
          /\ hreg1 s' = hreg1 s2 /\ dma_as s' = dma_as s2
          /\ irq s' = irq s2
          /\ p_async (packet s' chan) = DWC2_ASYNC_FINISHED
          /\ p_needs_service (packet s' chan)
             = p_needs_service (packet s2 chan)
          /\ (forall c, c <> chan -> packet s' c = packet s2 c)
          /\ async_bh s' = true
      end).
Proof.
  intros p s1.
  assert (Hp : packet s1 chan = set_p_packet p
                 (mkUSBPacket (pk_pid (p_packet p)) (pk_ep (p_packet p))
                    (pk_iov (p_packet p)) (reply_actual reply)
                    (reply_status reply) (pk_state (p_packet p)))).
  { subst s1. unfold handed_back. cbv zeta. fold p.
    unfold set_packet_at. cbn [packet set_packet].
    rewrite Z.eqb_refl. reflexivity. }
  assert (Hc : dwc2_async_packet_complete s chan reply
               = match p_async p with
                 | DWC2_ASYNC_INFLIGHT =>
                   if reply_status reply =? USB_RET_REMOVE_FROM_QUEUE
                   then Some s1
                   else
                     match dwc2_handle_packet s1 (p_devadr p) reply
                             (p_index p) false with
                     | None => None
                     | Some s2 =>
                       Some (qemu_bh_schedule_async
                               (set_packet_at s2 chan
                                  (set_p_async (packet s2 chan)
                                     DWC2_ASYNC_FINISHED)))
                     end
                 | _ => None
                 end).
  { unfold dwc2_async_packet_complete. cbv zeta.
    fold p. change (set_packet_at _ chan (set_p_packet p _)) with s1.
    rewrite Hp. reflexivity. }
  rewrite Hc. clear Hc.
  split; [|split].
  - intros H. destruct (p_async p); try reflexivity. congruence.
  - intros Ha Hr. rewrite Ha, Hr, Z.eqb_refl.
    split; [reflexivity|].
    rewrite Hp. cbn [p_async p_needs_service set_p_packet].
    repeat split. exact Ha.
  - intros Ha Hr. rewrite Ha, (proj2 (Z.eqb_neq _ _) Hr).
    destruct (dwc2_handle_packet s1 _ reply _ false) as [s2|];
      [|reflexivity].
    eexists. split; [reflexivity|].
    unfold qemu_bh_schedule_async, set_packet_at.
    cbn [glbreg hreg0 hreg1 dma_as irq packet async_bh set_async_bh
         set_packet].
    rewrite Z.eqb_refl. cbn [p_async p_needs_service set_p_async].
    repeat split.
    intros c Hne. rewrite (proj2 (Z.eqb_neq _ _) Hne). reflexivity.
Qed.

End AsyncCompletion.

(** ** Frame period *)

Section FramePeriod.

Context {R : Dwc2Regs} {M : GuestMemory}.

Lemma frame_boundary_step (s : DWC2State) (now : Z) :
  let s' := dwc2_frame_boundary s now in
  sof_time s' = sof_time s + usb_frame_time s
  /\ eof_timer s' = Some (sof_time s' + usb_frame_time s)
  /\ usb_frame_time s' = usb_frame_time s
  /\ fi s' = fi s
  /\ frame_number s'
     = (frame_number s + u16 (Z.quot (now - sof_time s) (fi s))) .& 0xffff
  /\ hfnum s' = frame_number s' .& HFNUM_MAX_FRNUM
  /\ gintsts s' = raised (gintsts s) GINTSTS_SOF.
Proof.
  cbv zeta. unfold dwc2_frame_boundary, dwc2_sof. cbv zeta.
  match goal with
  | |- context [dwc2_raise_global_irq ?u ?x] =>
    pose proof (irq_frame_raise_global u x) as F;
      pose proof (raise_global_value u x) as G;
      generalize dependent (dwc2_raise_global_irq u x)
  end.
  intros s' F G.
  unfold hfnum, h0_get.
  rewrite (fr_sof_time _ _ F), (fr_eof_timer _ _ F),
    (fr_usb_frame_time _ _ F), (fr_fi _ _ F), (fr_frame_number _ _ F), G.
  rewrite (fr_hreg0 _ _ F) by discriminate.
  unfold dwc2_eof_timer, h0_put, gintsts, glb_get.
  cbn [sof_time eof_timer usb_frame_time fi frame_number hreg0 glbreg
       set_eof_timer set_sof_time set_hreg0 set_frame_number].
  rewrite bank_set_same.
  repeat split.
Qed.

Lemma frame_fold_times (l : list Z) (s : DWC2State) :
  sof_time (fold_left dwc2_frame_boundary l s)
  = sof_time s + Z.of_nat (List.length l) * usb_frame_time s
  /\ usb_frame_time (fold_left dwc2_frame_boundary l s) = usb_frame_time s
  /\ fi (fold_left dwc2_frame_boundary l s) = fi s.
Proof.
  induction l as [|now l IH] using rev_ind.
  - cbn [fold_left List.length]. split; [lia|split; reflexivity].
  - rewrite fold_left_app, length_app, Nat2Z.inj_add.
    cbn [fold_left List.length].
    destruct IH as (I1 & I2 & I3).
    generalize dependent (fold_left dwc2_frame_boundary l s).
    intros t I1 I2 I3.
    pose proof (frame_boundary_step t now) as H. cbv zeta in H.
    destruct H as (H1 & _ & H3 & H4 & _).
    generalize dependent (dwc2_frame_boundary t now).
    intros u H1 H3 H4.
    rewrite H1, H3, H4, I1, I2, I3.
    split; [lia|split; reflexivity].
Qed.

(** The frame clock does not drift.  However late the EOF timer fires
    ([now] is only used for the frame number), each [dwc2_frame_boundary]
    moves the start of frame on by exactly one frame time and arms the EOF
    timer one frame time after it; so after any number of boundaries the
    start of frame is the first one plus that many frame times.  The frame
    time and the frame interval stay as they are, the frame number stays
    within 16 bits with HFNUM its masked copy, and the start-of-frame
    cause is pending.  The frame interval is taken to be non-zero: the
    code divides by it. *)
Theorem frame_clock_is_periodic (nows : list Z) (s : DWC2State) :
  let s' := fold_left dwc2_frame_boundary nows s in
  fi s <> 0 ->
  nows <> [] ->
  GINTSTS_SOF <> 0 ->
  sof_time s'
  = sof_time s + Z.of_nat (List.length nows) * usb_frame_time s
  /\ eof_timer s' = Some (sof_time s' + usb_frame_time s)
  /\ usb_frame_time s' = usb_frame_time s
  /\ fi s' = fi s
  /\ 0 <= frame_number s' < 2 ^ 16
  /\ hfnum s' = frame_number s' .& HFNUM_MAX_FRNUM
  /\ gintsts s' .& GINTSTS_SOF <> 0.
Proof.
  intros s' _ Hne Hsof. subst s'.
  destruct (exists_last Hne) as (l & now & ->).
  rewrite fold_left_app. cbn [fold_left].
  destruct (frame_fold_times l s) as (T1 & T2 & T3).
  generalize dependent (fold_left dwc2_frame_boundary l s).
  intros t T1 T2 T3.
  pose proof (frame_boundary_step t now) as H. cbv zeta in H.
  destruct H as (H1 & H2 & H3 & H4 & H5 & H6 & H7).
  generalize dependent (dwc2_frame_boundary t now).
  intros s' H1 H2 H3 H4 H5 H6 H7.
  rewrite H1, H2, H3, H4, H6, T1, T2, T3.
  split.
  { rewrite length_app, Nat2Z.inj_add. cbn [List.length]. lia. }
  split; [rewrite ?H1, ?T1, ?T2; reflexivity|].
  split; [reflexivity|]. split; [reflexivity|].
  split.
  { rewrite H5. change 65535 with (Z.ones 16). rewrite Z.land_ones by lia.
    apply Z.mod_pos_bound. lia. }
  split; [reflexivity|].
  rewrite H7. unfold raised.
  destruct (nz (gintsts t .& GINTSTS_SOF)) eqn:E.
  - apply nz_true. exact E.
  - rewrite lor_land_same. exact Hsof.
Qed.

End FramePeriod.

Section FramePeriodExamples.

#[local] Existing Instance hsotg_regs.
#[local] Existing Instance flat_ram.

Lemma frame_clock_is_periodic_witness :
  sof_time (fold_left dwc2_frame_boundary [1000700; 2003000; 3000000]
              blank_state) = 3000000
  /\ eof_timer (fold_left dwc2_frame_boundary [1000700; 2003000; 3000000]
                  blank_state) = Some 4000000.
Proof.
  pose proof (frame_clock_is_periodic [1000700; 2003000; 3000000]
                blank_state) as H.
  cbv zeta in H.
  destruct H as (H1 & H2 & _); [closed_fact ..|].
  split; [exact H1|]. rewrite H2, H1. reflexivity.
Defined.

End FramePeriodExamples.

(** ** Plain registers and soft disconnect *)

Section PlainRegisters.

Context {R : Dwc2Regs} {M : GuestMemory}.

Lemma fifo_index (i : Z) : ((260 + (i - 1) * 4 - 260) >> 2) + 1 = i.
Proof.
  rewrite shiftr_2. replace (260 + (i - 1) * 4 - 260) with ((i - 1) * 4) by lia.
  rewrite Z.div_mul by lia. lia.
Qed.

(** The FIFO size registers (HPTXFSIZ and DPTXFSIZ of the endpoints 1 to
    [DWC2_NB_EP - 1]) and the power and clock gating registers (PCGCTL,
    PCGCCTL1) are plain storage: a write through the register window
    returns and stores the low 32 bits of the value, a read of the same
    register afterwards returns them, and the global, host and device
    register banks, the packet contexts, the log and the interrupt line are
    as before. *)
Theorem fifo_and_power_round_trip (s : DWC2State) (addr val wnow now : Z)
    (lookup : Z -> bool) (reply : usb_reply) :
  addr = HPTXFSIZ
  \/ (exists i, 1 <= i < DWC2_NB_EP /\ i < 192 /\ addr = DPTXFSIZN i)
  \/ addr = PCGCTL \/ addr = PCGCCTL1 ->
  exists s',
    dwc2_hsotg_write s addr val wnow lookup reply = Some s'
    /\ dwc2_hsotg_read s' addr now = Some (s', u32 val)
    /\ glbreg s' = glbreg s /\ hreg0 s' = hreg0 s /\ hreg1 s' = hreg1 s
    /\ dreg s' = dreg s /\ diepreg s' = diepreg s /\ doepreg s' = doepreg s
    /\ packet s' = packet s /\ irq s' = irq s /\ qemu_log s' = qemu_log s.
Proof.
  intros [-> | [(i & Hi & Hi' & ->) | [-> | ->]]].
  - eexists. split; [reflexivity|].
    split; [|repeat split].
    change (dwc2_hsotg_read ?t HPTXFSIZ now)
      with (Some (dwc2_fszreg_read t HPTXFSIZ
                    ((HPTXFSIZ - HSOTG_REG 0x100) >> 2))).
    unfold dwc2_fszreg_read, dwc2_fszreg_write.
    change (negb (HPTXFSIZ =? HPTXFSIZ)) with false. cbv iota.
    cbn [fszreg set_fszreg]. rewrite bank_set_same. reflexivity.
  - unfold dwc2_hsotg_write, dwc2_hsotg_read, DPTXFSIZN, HSOTG_REG.
    pick_bank.
    rewrite (eqb_false (260 + (i - 1) * 4) 256) by lia.
    unfold dwc2_dfszreg_write, dwc2_dfszreg_read, DPTXFSIZN, HSOTG_REG.
    rewrite fifo_index, Z.eqb_refl.
    replace (i >=? DWC2_NB_EP) with false by (symmetry; lia).
    cbn [negb orb].
    eexists. split; [reflexivity|].
    split; [|repeat split].
    cbn [dfszreg set_dfszreg]. rewrite bank_set_same. reflexivity.
  - eexists. split; [reflexivity|].
    split; [|repeat split].
    change (dwc2_hsotg_read ?t PCGCTL now)
      with (Some (dwc2_pcgreg_read t PCGCTL
                    ((PCGCTL - HSOTG_REG 0xe00) >> 2))).
    unfold dwc2_pcgreg_read, dwc2_pcgreg_write.
    change ((PCGCTL <? PCGCTL) || (PCGCTL >? PCGCCTL1)) with false. cbv iota.
    cbn [pcgreg set_pcgreg]. rewrite bank_set_same. reflexivity.
  - eexists. split; [reflexivity|].
    split; [|repeat split].
    change (dwc2_hsotg_read ?t PCGCCTL1 now)
      with (Some (dwc2_pcgreg_read t PCGCCTL1
                    ((PCGCCTL1 - HSOTG_REG 0xe00) >> 2))).
    unfold dwc2_pcgreg_read, dwc2_pcgreg_write.
    change ((PCGCCTL1 <? PCGCTL) || (PCGCCTL1 >? PCGCCTL1)) with false.
    cbv iota.
    cbn [pcgreg set_pcgreg]. rewrite bank_set_same. reflexivity.
Qed.

(** A write to GOTGCTL returns and can change only the bits that are not
    read-only: each read-only status bit (session valid, connector ID,
    debounce, negotiation and request success, multi-valued ID) keeps its
    value, every other bit of the 32-bit word takes the value written.  No
    other register changes and the interrupt line is not re-evaluated. *)
Theorem gotgctl_read_only_bits (s : DWC2State) (val wnow : Z)
    (lookup : Z -> bool) (reply : usb_reply) :
  exists s',
    dwc2_hsotg_write s GOTGCTL val wnow lookup reply = Some s'
    /\ (forall b, 0 <= b < 32 ->
          Z.testbit (gotgctl s') b
          = if Z.testbit GOTGCTL_read_only b
            then Z.testbit (gotgctl s) b else Z.testbit val b)
    /\ (forall i, i <> (GOTGCTL - HSOTG_REG 0x000) >> 2 ->
                  glbreg s' i = glbreg s i)
    /\ hreg0 s' = hreg0 s /\ hreg1 s' = hreg1 s /\ dreg s' = dreg s
    /\ irq s' = irq s /\ oldlevel s' = oldlevel s
    /\ qemu_log s' = qemu_log s.
Proof.
  change (dwc2_hsotg_write s GOTGCTL val wnow lookup reply)
    with (dwc2_glbreg_write s GOTGCTL ((GOTGCTL - HSOTG_REG 0x000) >> 2) val
            wnow).
  open_body dwc2_glbreg_write.
  change (GOTGCTL >? GINTSTS2) with false.
  change (GOTGCTL =? GOTGCTL) with true.
  cbv beta iota zeta.
  eexists. split; [reflexivity|].
  split; [|split; [|repeat split]].
  - intros b Hb. unfold gotgctl, glb_get at 1.
    cbn [glbreg set_glbreg]. rewrite bank_set_same.
    rewrite u32_testbit by exact Hb.
    rewrite Z.lor_spec, !Z.land_spec, Z.lnot_spec by lia.
    change (glbreg s ((GOTGCTL - HSOTG_REG 0) >> 2)) with (glb_get s GOTGCTL).
    destruct (Z.testbit GOTGCTL_read_only b), (Z.testbit val b),
      (Z.testbit (glb_get s GOTGCTL) b); reflexivity.
  - intros i Hi. cbn [glbreg set_glbreg]. apply bank_set_other. exact Hi.
Qed.

Lemma apart_from4 (e a b c d : Z) :
  e .& (a .| b .| c .| d) = 0 ->
  a .& e = 0 /\ b .& e = 0 /\ c .& e = 0 /\ d .& e = 0.
Proof.
  intros H.
  assert (B : forall i, 0 <= i -> Z.testbit e i = true ->
                Z.testbit a i = false /\ Z.testbit b i = false
                /\ Z.testbit c i = false /\ Z.testbit d i = false).
  { intros i Hi Hb. pose proof (land_disjoint_bit _ _ i H) as D.
    rewrite !Z.lor_spec, Hb in D. cbn [andb] in D.
    destruct (Z.testbit a i), (Z.testbit b i), (Z.testbit c i),
      (Z.testbit d i); try discriminate D. repeat split. }
  repeat split; apply Z.bits_inj'; intros i Hi;
    rewrite Z.land_spec, Z.bits_0;
    (destruct (Z.testbit e i) eqn:Eb; [|apply andb_false_r]);
    destruct (B i Hi Eb) as (Ba & Bb & Bc & Bd);
    rewrite ?Ba, ?Bb, ?Bc, ?Bd; reflexivity.
Qed.

Lemma kept_bits_pass (val old ro e : Z) :
  e .& ro = 0 -> ((val .& .~ ro) .| (old .& ro)) .& e = val .& e.
Proof.
  intros Hr. apply Z.bits_inj'. intros i Hi.
  pose proof (land_disjoint_bit _ _ i Hr) as Dr.
  rewrite !Z.land_spec, Z.lor_spec, !Z.land_spec, Z.lnot_spec by assumption.
  destruct (Z.testbit e i); [|rewrite !andb_false_r; reflexivity].
  cbn [andb] in Dr. rewrite Dr. cbn [negb].
  rewrite !andb_true_r, andb_false_r, orb_false_r. reflexivity.
Qed.

Ltac frame_chain :=
  repeat first
    [ apply irq_frame_refl
    | eapply irq_frame_trans;
      [|first [ apply irq_frame_raise_global
              | apply irq_frame_lower_global
              | apply irq_frame_update_irq
              | apply irq_frame_fold_ep ]] ].

(** Going off the bus.  A write to DCTL that sets the soft-disconnect bit
    while it is clear detaches the controller as a device: the write
    returns, the device record is no longer attached, GOTGCTL loses the
    B-session-valid and connector-ID bits if the device was attached (and
    is unchanged if not), the stored DCTL has the soft-disconnect bit set
    and the device bottom half is not scheduled.  The bit is taken to lie
    within the 32-bit word, apart from the status and command bits of
    DCTL. *)
Theorem soft_disconnect_detaches_device (s : DWC2State) (val now : Z)
    (lookup : Z -> bool) (reply : usb_reply) :
  DCTL_SFTDISCON .& (DCTL_GOUTNAKSTS .| DCTL_GNPINNAKSTS) = 0 ->
  DCTL_SFTDISCON .& (DCTL_CGNPINNAK .| DCTL_CGOUTNAK .| DCTL_SGNPINNAK
                     .| DCTL_SGOUTNAK) = 0 ->
  0 <= DCTL_SFTDISCON < 2 ^ 32 ->
  dctl s .& DCTL_SFTDISCON = 0 ->
  val .& DCTL_SFTDISCON <> 0 ->
  exists s',
    dwc2_hsotg_write s DCTL val now lookup reply = Some s'
    /\ dev_attached (device s') = false
    /\ gotgctl s' = (if dev_attached (device s)
                     then gotgctl s .& .~ (GOTGCTL_BSESVLD .| GOTGCTL_CONID_B)
                     else gotgctl s)
    /\ dctl s' .& DCTL_SFTDISCON <> 0
    /\ device_async_bh s' = device_async_bh s.
Proof.
  intros L Lc Hr Ho Hv.
  destruct (apart_from4 _ _ _ _ _ Lc) as (A1 & A2 & A3 & A4).
  change (dwc2_hsotg_write s DCTL val now lookup reply)
    with (dwc2_dreg_write s DCTL ((DCTL - HSOTG_REG 0x800) >> 2) val).
  open_body dwc2_dreg_write.
  change ((DCTL <? DCFG) || (DCTL >? DTKNQR4)) with false.
  change ((DCTL =? DIEPMSK) || (DCTL =? DOEPMSK) || (DCTL =? DAINTMSK))
    with false.
  change (DCTL =? DCFG) with false.
  change (DCTL =? DCTL) with true.
  cbv beta iota.
  pose proof (kept_bits_pass val (dreg s ((DCTL - HSOTG_REG 2048) >> 2))
                _ _ L) as H1.
  cbv zeta.
  match type of H1 with
  | ?v .& _ = _ => set (val1 := v) in *
  end.
  clearbody val1.
  destruct (nz (val1 .& DCTL_CGNPINNAK));
    match goal with
    | |- context [nz (?v .& DCTL_CGOUTNAK)] =>
      destruct (nz (v .& DCTL_CGOUTNAK))
    end;
    match goal with
    | |- context [nz (?v .& DCTL_SGNPINNAK)] =>
      destruct (nz (v .& DCTL_SGNPINNAK))
    end;
    match goal with
    | |- context [nz (?v .& DCTL_SGOUTNAK)] =>
      destruct (nz (v .& DCTL_SGOUTNAK))
    end;
    match goal with
    | |- context [usb_device_attach ?T0] =>
      remember T0 as T eqn:ET in |- *;
        assert (F : irq_frame s T) by (rewrite ET; frame_chain);
        clear ET
    end;
    match goal with
    | |- context [negb (nz (?V0 .& DCTL_SFTDISCON))] =>
      remember V0 as V eqn:EV in |- *;
        assert (HV : V .& DCTL_SFTDISCON <> 0)
          by (rewrite EV, ?land_lnot_keep by assumption; rewrite H1;
              exact Hv);
        clear EV
    end.
  all: unfold dctl, d_get in Ho.
  all: unfold dctl at 1, d_get; rewrite (fr_dreg _ _ F) by discriminate.
  all: rewrite (proj2 (nz_false _) Ho). 
  all: cbn [andb].
  all: unfold dctl at 1, d_get; rewrite (fr_dreg _ _ F) by discriminate.
  all: rewrite (proj2 (nz_false _) Ho), (proj2 (nz_true _) HV).
  all: cbn [andb negb].
  all: eexists; (split; [reflexivity|]).
  all: match goal with
       | |- context [dwc2_update_irq (fold_left ?f ?l ?u)] =>
         assert (F2 : irq_frame u (dwc2_update_irq (fold_left f l u)))
           by frame_chain;
           generalize dependent (dwc2_update_irq (fold_left f l u))
       end; intros s2 F2.
  all: unfold gotgctl, glb_get, dctl, d_get.
  all: rewrite (fr_device _ _ F2), (fr_glbreg _ _ F2), (fr_dreg _ _ F2),
         (fr_device_async_bh _ _ F2) by discriminate.
  all: cbn [device glbreg dreg device_async_bh set_dreg];
         rewrite bank_set_same.
  all: clear F2 s2.
  all: rewrite ?(fr_device _ _ F).
  all: destruct (dev_attached (device s)) eqn:Ea.
  all: try (unfold usb_device_detach, set_device_attached,
              dwc2_usb_device_handle_detach;
            match goal with
            | |- context [dwc2_raise_global_irq ?u ?x] =>
              pose proof (irq_frame_raise_global u x) as F3;
                generalize dependent (dwc2_raise_global_irq u x)
            end; intros s3 F3;
            cbn [device glbreg device_async_bh set_device dev_attached];
            rewrite (fr_glbreg _ _ F3), (fr_device_async_bh _ _ F3)
              by discriminate;
            unfold glb_put, gotgctl, glb_get;
            cbn [glbreg device_async_bh set_glbreg];
            rewrite bank_set_same).
  all: rewrite ?(fr_device _ _ F), ?Ea, ?(fr_glbreg _ _ F),
         ?(fr_device_async_bh _ _ F) by discriminate.
  all: split; [reflexivity|]; split; [reflexivity|].
  all: split; [apply u32_land_nonzero; assumption|reflexivity].
Qed.

End PlainRegisters.

Section PlainRegisterExamples.

#[local] Existing Instance hsotg_regs.
#[local] Existing Instance flat_ram.

Lemma fifo_and_power_round_trip_witness :
  exists s',
    dwc2_hsotg_write blank_state (DPTXFSIZN 3) 0x2000300 0 (fun _ => true)
      short_reply = Some s'
    /\ dwc2_hsotg_read s' (DPTXFSIZN 3) 5 = Some (s', 0x2000300).
Proof.
  destruct (fifo_and_power_round_trip blank_state (DPTXFSIZN 3) 0x2000300 0 5
              (fun _ => true) short_reply) as (s' & Hw & Hr & _).
  - right. left. exists 3.
    split; [closed_fact|]. split; [lia|reflexivity].
  - exists s'. split; [exact Hw|exact Hr].
Defined.

Lemma soft_disconnect_detaches_device_witness :
  exists s',
    dwc2_hsotg_write on_bus_device DCTL DCTL_SFTDISCON 0 (fun _ => true)
      short_reply = Some s'
    /\ dev_attached (device s') = false
    /\ dctl s' .& DCTL_SFTDISCON <> 0.
Proof.
  destruct (soft_disconnect_detaches_device on_bus_device DCTL_SFTDISCON 0
              (fun _ => true) short_reply)
    as (s' & Hw & Ha & _ & Hd & _); [closed_fact ..|].
  exists s'. split; [exact Hw|]. split; assumption.
Defined.

End PlainRegisterExamples.

(** ** Asynchronous and synchronous completion *)

Section AsyncMatchesSync.

Context {R : Dwc2Regs} {M : GuestMemory}.

Lemma update_irq_wrap X pk ub :
  dwc2_update_irq (wrap X pk ub) = wrap (dwc2_update_irq X) pk ub.
Proof.
  unfold dwc2_update_irq.
  change (irq_level (wrap X pk ub)) with (irq_level X).
  change (oldlevel (wrap X pk ub)) with (oldlevel X).
  destruct (negb (irq_level X =? oldlevel X)); reflexivity.
Qed.

Lemma raise_global_wrap X pk ub i :
  dwc2_raise_global_irq (wrap X pk ub) i
  = wrap (dwc2_raise_global_irq X i) pk ub.
Proof.
  unfold dwc2_raise_global_irq.
  change (gintsts (wrap X pk ub)) with (gintsts X).
  destruct (negb (nz (gintsts X .& i))); [|reflexivity].
  change (glb_put (wrap X pk ub) GINTSTS (gintsts X .| i))
    with (wrap (glb_put X GINTSTS (gintsts X .| i)) pk ub).
  apply update_irq_wrap.
Qed.

Lemma lower_global_wrap X pk ub i :
  dwc2_lower_global_irq (wrap X pk ub) i
  = wrap (dwc2_lower_global_irq X i) pk ub.
Proof.
  unfold dwc2_lower_global_irq.
  change (gintsts (wrap X pk ub)) with (gintsts X).
  destruct (nz (gintsts X .& i)); [|reflexivity].
  change (glb_put (wrap X pk ub) GINTSTS (gintsts X .& .~ i))
    with (wrap (glb_put X GINTSTS (gintsts X .& .~ i)) pk ub).
  apply update_irq_wrap.
Qed.

Lemma raise_host_wrap X pk ub i :
  dwc2_raise_host_irq (wrap X pk ub) i
  = wrap (dwc2_raise_host_irq X i) pk ub.
Proof.
  unfold dwc2_raise_host_irq. cbv zeta.
  change (haint (wrap X pk ub)) with (haint X).
  destruct (negb (nz (haint X .& i))); [|reflexivity].
  change (h0_put (wrap X pk ub) HAINT (haint X .| i))
    with (wrap (h0_put X HAINT (haint X .| i)) pk ub).
  set (X1 := h0_put X HAINT (haint X .| i)).
  change (haint (wrap X1 pk ub)) with (haint X1).
  change (h0_put (wrap X1 pk ub) HAINT (haint X1 .& 65535))
    with (wrap (h0_put X1 HAINT (haint X1 .& 65535)) pk ub).
  set (X2 := h0_put X1 HAINT (haint X1 .& 65535)).
  change (haint (wrap X2 pk ub)) with (haint X2).
  change (haintmsk (wrap X2 pk ub)) with (haintmsk X2).
  destruct (nz (haint X2 .& haintmsk X2)); [|reflexivity].
  apply raise_global_wrap.
Qed.

Lemma lower_host_wrap X pk ub i :
  dwc2_lower_host_irq (wrap X pk ub) i
  = wrap (dwc2_lower_host_irq X i) pk ub.
Proof.
  unfold dwc2_lower_host_irq. cbv zeta.
  change (haint (wrap X pk ub)) with (haint X).
  destruct (nz (haint X .& i)); [|reflexivity].
  change (h0_put (wrap X pk ub) HAINT (haint X .& .~ i))
    with (wrap (h0_put X HAINT (haint X .& .~ i)) pk ub).
  set (X1 := h0_put X HAINT (haint X .& .~ i)).
  change (haint (wrap X1 pk ub)) with (haint X1).
  change (haintmsk (wrap X1 pk ub)) with (haintmsk X1).
  destruct (negb (nz (haint X1 .& haintmsk X1))); [|reflexivity].
  apply lower_global_wrap.
Qed.

Lemma update_hc_wrap X pk ub index :
  dwc2_update_hc_irq (wrap X pk ub) index
  = wrap (dwc2_update_hc_irq X index) pk ub.
Proof.
  unfold dwc2_update_hc_irq. cbv zeta.
  change (hreg1 (wrap X pk ub)) with (hreg1 X).
  destruct (nz (hreg1 X (index + 2) .& hreg1 X (index + 3)));
    [apply raise_host_wrap|apply lower_host_wrap].
Qed.

(** The result of the SUCCESS branch does not depend on the packet
    contexts, and on the buffers only through the one of the channel. *)
Lemma hp_success_wrap (l : hp_locals) X pk ub :
  hp_success l (wrap X pk ub)
  = let '(Y, pcnt, len, done) :=
      hp_success l (wrap X (packet X) (fun _ => ub (l_chan l))) in
    (wrap Y pk ub, pcnt, len, done).
Proof.
  unfold hp_success. cbv zeta.
  change (usb_buf (wrap X pk ub) (l_chan l)) with (ub (l_chan l)).
  change (usb_buf (wrap X (packet X) (fun _ => ub (l_chan l)))
            (l_chan l)) with (ub (l_chan l)).
  change (dma_as (wrap X pk ub)) with (dma_as X).
  change (dma_as (wrap X (packet X) (fun _ => ub (l_chan l))))
    with (dma_as X).
  destruct (l_pid l =? USB_TOKEN_IN).
  - destruct (dma_memory_write (dma_as X) (l_hcdma l) _) as [ok mem].
    destruct ok;
      destruct (nz (l_actual l mod l_mps l)); reflexivity.
  - destruct (nz (l_actual l mod l_mps l)); reflexivity.
Qed.

Lemma hp_error_wrap (l : hp_locals) X pk ub st :
  hp_error l (wrap X pk ub) st
  = let '(Y, intr, done, do_intr) := hp_error l X st in
    (wrap Y pk ub, intr, done, do_intr).
Proof.
  unfold hp_error. cbv zeta.
  destruct ((st =? USB_RET_NAK) && _); reflexivity.
Qed.

Lemma hp_finish_wrap (l : hp_locals) X pk ub intr pcnt len done do_intr :
  hp_finish l (wrap X pk ub) intr pcnt len done do_intr
  = wrap (hp_finish l X intr pcnt len done do_intr)
      (fun c => if c =? l_chan l
                then finished_context l (pk (l_chan l)) pcnt len done
                else pk c)
      ub.
Proof.
  unfold hp_finish, finished_context. cbv zeta. destruct done.
  - match goal with
    | |- dwc2_update_hc_irq ?a _ = wrap (dwc2_update_hc_irq ?b _) ?p ?u =>
      change a with (wrap b p u)
    end.
    apply update_hc_wrap.
  - destruct do_intr; [|reflexivity].
    match goal with
    | |- dwc2_update_hc_irq ?a _ = wrap (dwc2_update_hc_irq ?b _) ?p ?u =>
      change a with (wrap b p u)
    end.
    apply update_hc_wrap.
Qed.

Lemma finished_service (l : hp_locals) (p q : DWC2Packet) (pcnt len : Z)
    (done : bool) :
  p_needs_service (finished_context l p pcnt len done)
  = p_needs_service (finished_context l q pcnt len done).
Proof. unfold finished_context. destruct done; reflexivity. Qed.

(** Two runs of the handler from the [babble:] label on the same
    registers and memory, with packet contexts that carry the same status
    and the same channel buffer, end on the same registers and memory. *)
Lemma from_babble_match (again1 again2 : DWC2State -> option DWC2State)
    (l : hp_locals) X pk1 pk2 ub1 ub2 :
  pk_status (p_packet (pk1 (l_chan l)))
  = pk_status (p_packet (pk2 (l_chan l))) ->
  pk_status (p_packet (pk1 (l_chan l))) <> USB_RET_ASYNC ->
  ub1 (l_chan l) = ub2 (l_chan l) ->
  (pk_status (p_packet (pk1 (l_chan l))) = USB_RET_SUCCESS ->
   forall q1 q2,
      pk_status (p_packet (q1 (l_chan l))) = USB_RET_BABBLE ->
      pk_status (p_packet (q2 (l_chan l))) = USB_RET_BABBLE ->
      exists Y p1 p2,
        again1 (wrap X q1 ub1) = Some (wrap Y p1 ub1)
        /\ again2 (wrap X q2 ub2) = Some (wrap Y p2 ub2)
        /\ p_needs_service (p1 (l_chan l))
           = p_needs_service (p2 (l_chan l))) ->
  exists Y p1 p2,
    handle_packet_from_babble again1 l (wrap X pk1 ub1)
    = Some (wrap Y p1 ub1)
    /\ handle_packet_from_babble again2 l (wrap X pk2 ub2)
       = Some (wrap Y p2 ub2)
    /\ p_needs_service (p1 (l_chan l)) = p_needs_service (p2 (l_chan l)).
Proof.
  intros Hst Hna Hub Hag.
  unfold handle_packet_from_babble. cbv zeta.
  change (packet (wrap X pk1 ub1) (l_chan l)) with (pk1 (l_chan l)).
  change (packet (wrap X pk2 ub2) (l_chan l)) with (pk2 (l_chan l)).
  rewrite <- Hst.
  set (st := pk_status (p_packet (pk1 (l_chan l)))) in *.
  rewrite (proj2 (Z.eqb_neq _ _) Hna).
  destruct ((st =? USB_RET_SUCCESS) && (l_actual l >? l_tlen l)) eqn:Eb.
  - apply andb_true_iff in Eb. destruct Eb as [Es _].
    apply Z.eqb_eq in Es.
    refine (Hag Es
              (fun d => if d =? l_chan l
                        then set_p_packet (pk1 (l_chan l))
                               (set_pk_status (p_packet (pk1 (l_chan l)))
                                  USB_RET_BABBLE)
                        else pk1 d)
              (fun d => if d =? l_chan l
                        then set_p_packet (pk2 (l_chan l))
                               (set_pk_status (p_packet (pk2 (l_chan l)))
                                  USB_RET_BABBLE)
                        else pk2 d) _ _);
      cbv beta; rewrite Z.eqb_refl; reflexivity.
  - destruct (st =? USB_RET_SUCCESS).
    + rewrite (hp_success_wrap l X pk1 ub1), (hp_success_wrap l X pk2 ub2),
        <- Hub.
      destruct (hp_success l (wrap X (packet X) (fun _ => ub1 (l_chan l))))
        as [[[Y pcnt] len] done].
      rewrite !hp_finish_wrap.
      eexists. eexists. eexists.
      split; [reflexivity|]. split; [reflexivity|].
      cbv beta. rewrite Z.eqb_refl. apply finished_service.
    + rewrite (hp_error_wrap l X pk1 ub1), (hp_error_wrap l X pk2 ub2).
      destruct (hp_error l X st) as [[[Y intr] done] do_intr].
      rewrite !hp_finish_wrap.
      eexists. eexists. eexists.
      split; [reflexivity|]. split; [reflexivity|].
      cbv beta. rewrite Z.eqb_refl. apply finished_service.
Qed.

Lemma from_babble_twice_match (l : hp_locals) X pk1 pk2 ub1 ub2 :
  pk_status (p_packet (pk1 (l_chan l)))
  = pk_status (p_packet (pk2 (l_chan l))) ->
  pk_status (p_packet (pk1 (l_chan l))) <> USB_RET_ASYNC ->
  ub1 (l_chan l) = ub2 (l_chan l) ->
  exists Y p1 p2,
    handle_packet_from_babble
      (handle_packet_from_babble (fun _ => None) l) l (wrap X pk1 ub1)
    = Some (wrap Y p1 ub1)
    /\ handle_packet_from_babble
         (handle_packet_from_babble (fun _ => None) l) l (wrap X pk2 ub2)
       = Some (wrap Y p2 ub2)
    /\ p_needs_service (p1 (l_chan l)) = p_needs_service (p2 (l_chan l)).
Proof.
  intros Hst Hna Hub.
  apply from_babble_match; [exact Hst|exact Hna|exact Hub|].
  intros _ q1 q2 H1 H2.
  apply from_babble_match;
    [congruence|rewrite H1; discriminate|exact Hub|].
  rewrite H1. discriminate.
Qed.

Lemma wrap_wrap X a b pk ub : wrap (wrap X a b) pk ub = wrap X pk ub.
Proof. reflexivity. Qed.

(** The registers and the memory after the packet is sent do not depend
    on what the device answers. *)
Lemma hp_send_wrap (s : DWC2State) (index pid epnum hcdma : Z) :
  exists X,
    hreg1 X = hreg1 s
    /\ forall reply, exists pk ub,
         hp_send s index pid epnum hcdma reply = wrap X pk ub
         /\ ub (index >> 3) = reply_buf reply.
Proof.
  unfold hp_send. cbv zeta.
  destruct (negb (pid =? USB_TOKEN_IN)).
  - destruct (dma_memory_read _ _ _) as [ok bytes]. destruct ok.
    + exists s. split; [reflexivity|]. intros reply.
      eexists. eexists. split; [reflexivity|].
      cbn [usb_buf set_usb_buf_at set_usb_buf qemu_log_mask].
      rewrite Z.eqb_refl. reflexivity.
    + eexists (qemu_log_mask s _). split; [reflexivity|]. intros reply.
      eexists. eexists. split; [reflexivity|].
      cbn [usb_buf set_usb_buf_at set_usb_buf qemu_log_mask].
      rewrite Z.eqb_refl. reflexivity.
  - exists s. split; [reflexivity|]. intros reply.
    eexists. eexists. split; [reflexivity|].
    cbn [usb_buf set_usb_buf_at set_usb_buf]. rewrite Z.eqb_refl.
    reflexivity.
Qed.

Lemma handle_packet_run (s : DWC2State) (devadr : Z) (reply : usb_reply)
    (index : Z) (send : bool) :
  let hcchar := hreg1 s index in
  let hctsiz := hreg1 s (index + 4) in
  let mps := get_field hcchar HCCHAR_MPS_MASK HCCHAR_MPS_SHIFT in
  let len := get_field hctsiz TSIZ_XFERSIZE_MASK TSIZ_XFERSIZE_SHIFT in
  let s1 := if send
            then hp_send s index (channel_token hcchar hctsiz)
                   (get_field hcchar HCCHAR_EPNUM_MASK HCCHAR_EPNUM_SHIFT)
                   (hreg1 s (index + 5)) reply
            else s in
  let k := p_packet (packet s1 (index >> 3)) in
  mps <> 0 -> len <= DWC2_MAX_XFER_SIZE -> -8 <= pk_status k <= 0 ->
  dwc2_handle_packet s devadr reply index send
  = let l := channel_locals s devadr index (requested_length s index send)
               (pk_status k) (u32 (pk_actual_length k)) in
    handle_packet_from_babble
      (handle_packet_from_babble (fun _ => None) l) l s1.
Proof.
  intros hcchar hctsiz mps len s1 k Hmps Hlen Hst.
  unfold dwc2_handle_packet, channel_locals, requested_length. cbv zeta.
  fold hcchar hctsiz. fold mps len.
  replace (len >? DWC2_MAX_XFER_SIZE) with false by (symmetry; lia).
  replace (mps =? 0) with false by (symmetry; lia).
  fold s1. fold k.
  replace ((0 <=? - pk_status k) && (- pk_status k <? 9)) with true
    by (symmetry; lia).
  reflexivity.
Qed.

Lemma channel_locals_ext (s t : DWC2State) (devadr index tlen st actual : Z) :
  hreg1 t = hreg1 s ->
  channel_locals t devadr index tlen st actual
  = channel_locals s devadr index tlen st actual.
Proof. intros H. unfold channel_locals. rewrite H. reflexivity. Qed.

Lemma set_packet_at_wrap X pk ub c q :
  set_packet_at (wrap X pk ub) c q
  = wrap X (fun d => if d =? c then q else pk d) ub.
Proof. reflexivity. Qed.

Lemma handed_back_wrap X pk ub chan reply :
  exists pk' ub',
    handed_back (wrap X pk ub) chan reply = wrap X pk' ub'
    /\ ub' chan = reply_buf reply
    /\ pk_status (p_packet (pk' chan)) = reply_status reply
    /\ pk_actual_length (p_packet (pk' chan)) = reply_actual reply
    /\ p_len (pk' chan) = p_len (pk chan).
Proof.
  unfold handed_back. cbv zeta.
  eexists. eexists. split; [reflexivity|].
  cbn [usb_buf set_usb_buf_at set_usb_buf]. rewrite Z.eqb_refl.
  repeat split.
Qed.

(** The ASYNC branch for a packet that has just been sent. *)
Lemma from_babble_in_flight (again : DWC2State -> option DWC2State)
    (l : hp_locals) (t : DWC2State) :
  let p := packet t (l_chan l) in
  pk_status (p_packet p) = USB_RET_ASYNC ->
  p_async p = DWC2_ASYNC_NONE ->
  handle_packet_from_babble again l t
  = Some (set_packet_at t (l_chan l)
            (mkDWC2Packet (p_packet p) (l_devadr l) (l_epnum l) (l_epdir l)
               (l_mps l) (l_pid l) (l_index l) (l_pcnt l) (l_tlen l)
               DWC2_ASYNC_INFLIGHT (p_small p) false)).
Proof.
  intros p Hs Ha. unfold handle_packet_from_babble. cbv zeta. fold p.
  rewrite Hs, Z.eqb_refl, Ha. reflexivity.
Qed.

(** The completion callback for a packet in flight that was not taken off
    the queue. *)
Lemma async_complete_run (t : DWC2State) (chan : Z) (reply : usb_reply) :
  p_async (packet t chan) = DWC2_ASYNC_INFLIGHT ->
  reply_status reply <> USB_RET_REMOVE_FROM_QUEUE ->
  dwc2_async_packet_complete t chan reply
  = match dwc2_handle_packet (handed_back t chan reply)
            (p_devadr (packet t chan)) reply (p_index (packet t chan))
            false with
    | None => None
    | Some s2 =>
      Some (qemu_bh_schedule_async
              (set_packet_at s2 chan
                 (set_p_async (packet s2 chan) DWC2_ASYNC_FINISHED)))
    end.
Proof.
  intros Ha Hr.
  unfold dwc2_async_packet_complete, handed_back. cbv zeta.
  rewrite set_packet_at_same.
  cbn [p_async p_devadr p_index p_packet pk_status set_p_packet].
  rewrite Ha, (proj2 (Z.eqb_neq _ _) Hr). reflexivity.
Qed.

(** A transfer that the device first takes asynchronously and then
    completes, with no register write in between, ends like one that the
    device answers at once with the same status, length and data: the
    same channel registers, global and host registers, guest memory,
    interrupt line and log, the same data in the channel buffer and the
    same request for service.  The asynchronous way moreover marks the
    packet finished and schedules the bottom half.  This is for a channel
    whose HCCHAR.MPS is not zero and whose HCTSIZ.XFERSIZE is within
    DWC2_MAX_XFER_SIZE, and for a completion status from -8 to 0 other
    than ASYNC and REMOVE_FROM_QUEUE; both ways return. *)
Theorem async_completion_matches_sync (s : DWC2State) (devadr index : Z)
    (reply_a reply : usb_reply) :
  let hcchar := hreg1 s index in
  let hctsiz := hreg1 s (index + 4) in
  let mps := get_field hcchar HCCHAR_MPS_MASK HCCHAR_MPS_SHIFT in
  let len := get_field hctsiz TSIZ_XFERSIZE_MASK TSIZ_XFERSIZE_SHIFT in
  let chan := index >> 3 in
  mps <> 0 ->
  len <= DWC2_MAX_XFER_SIZE ->
  reply_status reply_a = USB_RET_ASYNC ->
  -8 <= reply_status reply <= 0 ->
  reply_status reply <> USB_RET_ASYNC ->
  reply_status reply <> USB_RET_REMOVE_FROM_QUEUE ->
  exists s_now s_fly s_later,
    dwc2_handle_packet s devadr reply index true = Some s_now
    /\ dwc2_handle_packet s devadr reply_a index true = Some s_fly
    /\ dwc2_async_packet_complete s_fly chan reply = Some s_later
    /\ hreg1 s_later = hreg1 s_now
    /\ glbreg s_later = glbreg s_now
    /\ hreg0 s_later = hreg0 s_now
    /\ dma_as s_later = dma_as s_now
    /\ irq s_later = irq s_now
    /\ qemu_log s_later = qemu_log s_now
    /\ usb_buf s_later chan = usb_buf s_now chan
    /\ p_needs_service (packet s_later chan)
       = p_needs_service (packet s_now chan)
    /\ p_async (packet s_later chan) = DWC2_ASYNC_FINISHED
    /\ async_bh s_later = true.
Proof.
  cbv zeta. intros Hmps Hlen Ha Hr Hna Hnq.
  pose proof (handle_packet_run s devadr reply index true) as Rs.
  pose proof (handle_packet_run s devadr reply_a index true) as Ra.
  cbv beta iota zeta in Rs, Ra.
  unfold requested_length in Rs, Ra.
  remember (channel_token (hreg1 s index) (hreg1 s (index + 4)))
    as pid eqn:Epid in *.
  remember (get_field (hreg1 s index) HCCHAR_EPNUM_MASK HCCHAR_EPNUM_SHIFT)
    as epnum eqn:Eepnum in *.
  remember (hreg1 s (index + 5)) as hcdma eqn:Ehcdma in *.
  clear Epid Eepnum Ehcdma.
  destruct (hp_send_packet s index pid epnum hcdma reply) as (P1 & P2 & _).
  destruct (hp_send_packet s index pid epnum hcdma reply_a)
    as (A1 & A2 & A3).
  rewrite P1, P2 in Rs. rewrite A1, A2 in Ra.
  specialize (Rs Hmps Hlen Hr).
  assert (Hra : -8 <= reply_status reply_a <= 0)
    by (rewrite Ha; unfold USB_RET_ASYNC; lia).
  specialize (Ra Hmps Hlen Hra). clear Hra.
  destruct (hp_send_wrap s index pid epnum hcdma) as (X & HX & Hw).
  destruct (Hw reply) as (pk1 & ub1 & E1 & B1).
  destruct (Hw reply_a) as (pka & uba & Ea & Ba). clear Hw.
  rewrite E1 in Rs, P1. rewrite Ea in Ra, A1, A3. clear E1 Ea P2 A2.
  (* the packet goes in flight *)
  rewrite Ha in A1.
  rewrite from_babble_in_flight in Ra; [|exact A1|exact A3].
  cbn [l_chan l_devadr l_index l_tlen channel_locals] in Ra.
  match type of Ra with
  | _ = Some (set_packet_at _ _ ?q0) => set (q := q0) in Ra
  end.
  rewrite set_packet_at_wrap in Ra.
  match type of Ra with
  | _ = Some (wrap _ ?f _) => set (pkf := f) in Ra
  end.
  assert (Hq : pkf (index >> 3) = q)
    by (unfold pkf; rewrite Z.eqb_refl; reflexivity).
  (* the completion *)
  pose proof (async_complete_run (wrap X pkf uba) (index >> 3) reply) as Rc.
  change (packet (wrap X pkf uba) (index >> 3)) with (pkf (index >> 3)) in Rc.
  rewrite Hq in Rc.
  specialize (Rc eq_refl Hnq).
  change (p_devadr q) with devadr in Rc.
  change (p_index q) with index in Rc.
  destruct (handed_back_wrap X pkf uba (index >> 3) reply)
    as (pk2 & ub2 & E2 & B2 & S2 & L2 & T2).
  rewrite E2 in Rc. clear E2.
  rewrite Hq in T2. change (p_len q) with (send_length s index) in T2.
  clearbody q pkf.
  pose proof (handle_packet_run (wrap X pk2 ub2) devadr reply index false)
    as Rl.
  cbv beta iota zeta in Rl. unfold requested_length in Rl.
  change (hreg1 (wrap X pk2 ub2)) with (hreg1 X) in Rl.
  change (packet (wrap X pk2 ub2) (index >> 3)) with (pk2 (index >> 3))
    in Rl.
  rewrite HX, S2, L2, T2 in Rl.
  specialize (Rl Hmps Hlen Hr).
  rewrite (channel_locals_ext s (wrap X pk2 ub2)) in Rl by exact HX.
  change (packet (wrap X pk1 ub1) (index >> 3)) with (pk1 (index >> 3))
    in P1.
  (* both runs of the handler *)
  destruct (from_babble_twice_match
              (channel_locals s devadr index (send_length s index)
                 (reply_status reply) (u32 (reply_actual reply)))
              X pk1 pk2 ub1 ub2)
    as (Y & p1 & p2 & F1 & F2 & Fs).
  { change (l_chan _) with (index >> 3). rewrite P1, S2. reflexivity. }
  { change (l_chan _) with (index >> 3). rewrite P1. exact Hna. }
  { change (l_chan _) with (index >> 3). rewrite B1, B2. reflexivity. }
  change (l_chan _) with (index >> 3) in Fs.
  rewrite F1 in Rs. rewrite F2 in Rl. rewrite Rl in Rc.
  eexists. eexists. eexists.
  split; [exact Rs|]. split; [exact Ra|]. split; [exact Rc|].
  repeat (split; [reflexivity|]).
  split; [cbn [usb_buf wrap set_usb_buf set_packet_at set_packet
                 qemu_bh_schedule_async set_async_bh];
          rewrite B1, B2; reflexivity|].
  split; [|split; [|reflexivity]].
  - cbn [packet wrap set_usb_buf set_packet_at set_packet
           qemu_bh_schedule_async set_async_bh].
    rewrite Z.eqb_refl. cbn [p_needs_service set_p_async].
    symmetry. exact Fs.
  - cbn [packet wrap set_usb_buf set_packet_at set_packet
           qemu_bh_schedule_async set_async_bh].
    rewrite Z.eqb_refl. reflexivity.
Qed.

End AsyncMatchesSync.
Section AsyncMatchesSyncExamples.

#[local] Existing Instance hsotg_regs.
#[local] Existing Instance flat_ram.

Lemma async_completion_matches_sync_witness :
  exists s_now s_fly s_later,
    dwc2_handle_packet bulk_in_channel 5 short_reply 0 true = Some s_now
    /\ dwc2_handle_packet bulk_in_channel 5 async_reply 0 true = Some s_fly
    /\ dwc2_async_packet_complete s_fly 0 short_reply = Some s_later
    /\ hreg1 s_later = hreg1 s_now
    /\ dma_as s_later = dma_as s_now
    /\ irq s_later = irq s_now
    /\ p_async (packet s_later 0) = DWC2_ASYNC_FINISHED
    /\ async_bh s_later = true.
Proof.
  destruct (async_completion_matches_sync bulk_in_channel 5 0 async_reply
              short_reply)
    as (a & b & c & H1 & H2 & H3 & H4 & _ & _ & H5 & H6 & _ & _ & _ & H7
        & H8); [closed_fact ..|].
  exists a, b, c.
  split; [exact H1|]. split; [exact H2|]. split; [exact H3|].
  split; [exact H4|]. split; [exact H5|]. split; [exact H6|].
  split; [exact H7|exact H8].
Defined.

End AsyncMatchesSyncExamples.

(** ** Accesses between the ranges of the register window *)

Section WindowGaps.

Context {R : Dwc2Regs} {M : GuestMemory}.

Lemma window_gaps_spec (addr : Z) :
  In addr window_gaps
  <-> (0 <= addr <= 0xfff
       /\ in_range addr 0x000 0x0fc = false
       /\ addr <> 0x100
       /\ in_range addr 0x104 0x3fc = false
       /\ in_range addr 0x400 0x4fc = false
       /\ in_range addr 0x500 0x7fc = false
       /\ in_range addr 0x800 0x8fc = false
       /\ in_range addr 0x900 0xafc = false
       /\ in_range addr 0xb00 0xdfc = false
       /\ in_range addr 0xe00 0xffc = false).
Proof.
  unfold in_range, HSOTG_REG. rewrite !andb_false_iff, !Z.leb_gt.
  unfold window_gaps. cbn [In]. lia.
Qed.

(** C6 (what the code does).  An access to the register window at one of
    the 27 offsets between the ranges of the [switch] of [dwc2_hsotg_read]
    and [dwc2_hsotg_write] reaches [g_assert_not_reached] and aborts,
    whatever the state and the value written: nothing is logged and no
    value is returned.  These are the only offsets of the window at which
    a read aborts. *)
Theorem window_gap_access_aborts (s : DWC2State) (addr : Z) :
  In addr window_gaps ->
  (forall now, dwc2_hsotg_read s addr now = None)
  /\ (forall val now lookup reply,
         dwc2_hsotg_write s addr val now lookup reply = None)
  /\ (forall a now, 0 <= a <= 0xfff ->
                    dwc2_hsotg_read s a now = None -> In a window_gaps).
Proof.
  intros Hin. apply window_gaps_spec in Hin.
  destruct Hin as (_ & H0 & H1 & H2 & H3 & H4 & H5 & H6 & H7 & H8).
  apply Z.eqb_neq in H1.
  split; [|split].
  - intros now. unfold dwc2_hsotg_read.
    change (HSOTG_REG 256) with 256.
    rewrite H0, H1, H2, H3, H4, H5, H6, H7, H8. reflexivity.
  - intros val now lookup reply. unfold dwc2_hsotg_write.
    change (HSOTG_REG 256) with 256.
    rewrite H0, H1, H2, H3, H4, H5, H6, H7, H8. reflexivity.
  - intros a now Ha Hr. apply window_gaps_spec.
    unfold dwc2_hsotg_read in Hr. change (HSOTG_REG 256) with 256 in Hr.
    split; [exact Ha|].
    destruct (in_range a 0 252); [discriminate Hr|]. split; [reflexivity|].
    destruct (a =? 256) eqn:E1; [discriminate Hr|].
    split; [apply Z.eqb_neq; exact E1|].
    destruct (in_range a 260 1020); [discriminate Hr|]. split; [reflexivity|].
    destruct (in_range a 1024 1276); [discriminate Hr|]. split; [reflexivity|].
    destruct (in_range a 1280 2044); [discriminate Hr|]. split; [reflexivity|].
    destruct (in_range a 2048 2300); [discriminate Hr|]. split; [reflexivity|].
    destruct (in_range a 2304 2812); [discriminate Hr|]. split; [reflexivity|].
    destruct (in_range a 2816 3580); [discriminate Hr|]. split; [reflexivity|].
    destruct (in_range a 3584 4092); [discriminate Hr|]. reflexivity.
Qed.

End WindowGaps.

Section WindowGapExamples.

#[local] Existing Instance hsotg_regs.
#[local] Existing Instance flat_ram.

Lemma window_gap_access_aborts_witness :
  dwc2_hsotg_read blank_state 0xfd 0 = None
  /\ dwc2_hsotg_write blank_state 0xfd 0 0 (fun _ => false) nak_reply = None.
Proof.
  destruct (window_gap_access_aborts blank_state 0xfd) as (Hr & Hw & _).
  - left. reflexivity.
  - split; [apply Hr|apply Hw].
Defined.

End WindowGapExamples.

(** ** The line after the global enable is cleared *)

Section LineDefect.

Context {R : Dwc2Regs} {M : GuestMemory}.

(** C5 (what the code does).  A write to GAHBCFG that clears the global
    interrupt enable while the line is asserted stores the word and leaves
    the line asserted: [dwc2_glbreg_write] calls [dwc2_update_irq] for
    GAHBCFG only when the enable bit goes from 0 to 1.  After the write
    the level that [dwc2_update_irq] computes from the registers is 0 and
    the line is 1. *)
Theorem gahbcfg_disable_leaves_line_high (s : DWC2State) (val now : Z)
    (lookup : Z -> bool) (reply : usb_reply) :
  0 <= GAHBCFG_GLBL_INTR_EN < 2 ^ 32 ->
  irq s = 1 ->
  val .& GAHBCFG_GLBL_INTR_EN = 0 ->
  exists s',
    dwc2_hsotg_write s GAHBCFG val now lookup reply = Some s'
    /\ gahbcfg s' = u32 val
    /\ gintsts s' = gintsts s
    /\ gintmsk s' = gintmsk s
    /\ irq_level s' = 0
    /\ irq s' = 1
    /\ oldlevel s' = oldlevel s.
Proof.
  intros Hen Hirq Hval.
  unfold dwc2_hsotg_write.
  replace (in_range GAHBCFG 0 252) with true by reflexivity.
  unfold dwc2_glbreg_write.
  replace (GAHBCFG >? GINTSTS2) with false by reflexivity.
  cbv zeta.
  replace (GAHBCFG =? GOTGCTL) with false by reflexivity.
  rewrite Z.eqb_refl.
  unfold rising. rewrite (proj2 (nz_false _) Hval), andb_false_r.
  eexists. split; [reflexivity|].
  change ((GAHBCFG - HSOTG_REG 0) >> 2) with 2.
  split; [reflexivity|]. split; [reflexivity|]. split; [reflexivity|].
  split; [|split; [exact Hirq|reflexivity]].
  unfold irq_level.
  change (gahbcfg (set_glbreg s (bank_set (glbreg s) 2 (u32 val))))
    with (u32 val).
  rewrite u32_land_small by exact Hen.
  rewrite (proj2 (nz_false _) Hval), andb_false_r. reflexivity.
Qed.

End LineDefect.

Section LineDefectExamples.

#[local] Existing Instance hsotg_regs.
#[local] Existing Instance flat_ram.

Lemma gahbcfg_disable_leaves_line_high_witness :
  exists s1 s',
    run_ops blank_state sof_raised_ops = Some s1
    /\ irq_synced s1
    /\ irq s1 = 1
    /\ dwc2_hsotg_write s1 GAHBCFG 0 0 (fun _ => false) nak_reply = Some s'
    /\ irq_level s' = 0
    /\ irq s' = 1.
Proof.
  eexists. 
  match goal with
  | |- exists s', run_ops ?a ?b = Some ?s1 /\ _ =>
    destruct (gahbcfg_disable_leaves_line_high s1 0 0 (fun _ => false)
                nak_reply) as (s' & Hw & _ & _ & _ & Hl & Hi & _)
  end.
  4:{ exists s'. split; [reflexivity|]. split; [split; reflexivity|].
      split; [reflexivity|]. split; [exact Hw|]. split; [exact Hl|exact Hi]. }
  all: closed_fact.
Defined.

End LineDefectExamples.
